(** * RegulationCoder: the deterministic compliance core and the audit chain

    A shallow embedding of
    - [regulationcoder/core/engine.py] (field resolution, per-rule
      evaluation, aggregation, scoring and the overall verdict),
    - [regulationcoder/audit/logger.py] and [regulationcoder/audit/chain.py]
      (the hash-chained JSONL audit log and its two verifiers),
    together with the data model of [regulationcoder/models].

    Python objects are modelled by records and inductive types, exceptions
    by an explicit result type, the interpreter's library functions
    (binary64 arithmetic, [round], [json.dumps], SHA-256, [datetime]) by
    executable definitions, and the file system by what the audit code
    can observe of it: the lines of each file, whether the last line of a
    file ends with a newline, and whether the log directory can be
    made. *)

From Stdlib Require Import ZArith List String Ascii Bool Lia.
From Stdlib Require Import Floats.SpecFloat.
From Stdlib Require DecimalString.
Import ListNotations.

Local Open Scope string_scope.
Local Open Scope list_scope.

(* ================================================================== *)
(** * Python runtime: exceptions, values, strings                       *)
(* ================================================================== *)

(** The exception classes the code distinguishes.  All of them derive
    from [Exception]; [except (ImportError, AttributeError)] in
    [_execute_evaluation] tells the first two, and the classes derived from
    them, from the rest.  [Derived name base] is an instance of a class
    [name] that derives from the class of [base] ([ModuleNotFoundError]
    from [ImportError], say); [OtherError] is an instance of a class that
    derives from none of the three named ones ([ZeroDivisionError],
    [FileNotFoundError]). *)
Inductive exn : Type :=
| ImportError (msg : string)
| AttributeError (msg : string)
| TypeError (msg : string)
| OtherError (class_name msg : string)
| Derived (class_name : string) (base : exn).

(** [str(exc)] *)
Fixpoint exn_text (e : exn) : string :=
  match e with
  | ImportError msg | AttributeError msg | TypeError msg | OtherError _ msg => msg
  | Derived _ base => exn_text base
  end.

Inductive pyresult (A : Type) : Type :=
| Ok (a : A)
| Raise (e : exn).
Arguments Ok {A} a.
Arguments Raise {A} e.

Definition bind {A B : Type} (m : pyresult A) (k : A -> pyresult B) : pyresult B :=
  match m with
  | Ok a => k a
  | Raise e => Raise e
  end.

Notation "x <- m ;; k" := (bind m (fun x => k))
  (at level 61, m at next level, right associativity).

(** JSON-shaped Python values: what [model_dump()] yields for a profile and
    what [json.loads] yields for a log line.  A [dict] is kept as its item
    list in insertion order; keys are strings. *)
#[warnings="-register-all"]
Inductive value : Type :=
| VNone
| VBool (b : bool)
| VInt (n : Z)
| VStr (s : string)
| VList (l : list value)
| VDict (d : list (string * value)).

Definition pydict : Type := list (string * value).

(** [d.get(key)]: the item stored under [key], if any. *)
Fixpoint dict_get (d : pydict) (key : string) : option value :=
  match d with
  | [] => None
  | (k, v) :: rest => if String.eqb k key then Some v else dict_get rest key
  end.

(** [d[key] = v]: overwrite in place or append. *)
Fixpoint dict_set (d : pydict) (key : string) (v : value) : pydict :=
  match d with
  | [] => [(key, v)]
  | (k, w) :: rest =>
      if String.eqb k key then (k, v) :: rest else (k, w) :: dict_set rest key v
  end.

Definition isinstance_dict (v : value) : bool :=
  match v with
  | VDict _ => true
  | _ => false
  end.

(** [type(v).__name__] *)
Definition type_name (v : value) : string :=
  match v with
  | VNone => "NoneType"
  | VBool _ => "bool"
  | VInt _ => "int"
  | VStr _ => "str"
  | VList _ => "list"
  | VDict _ => "dict"
  end.

(** [v.get(key)] on an arbitrary object: only a [dict] has the method, any
    other value raises [AttributeError]; a missing key yields [None]. *)
Definition py_get (v : value) (key : string) : pyresult value :=
  match v with
  | VDict d =>
      match dict_get d key with
      | Some w => Ok w
      | None => Ok VNone
      end
  | _ => Raise (AttributeError ("'" ++ type_name v ++ "' object has no attribute 'get'"))
  end.

Definition is_None (v : value) : bool :=
  match v with
  | VNone => true
  | _ => false
  end.

(** [s.startswith(p)] *)
Fixpoint startswith (s p : string) {struct p} : bool :=
  match p, s with
  | EmptyString, _ => true
  | String a p', String b s' => Ascii.eqb a b && startswith s' p'
  | String _ _, EmptyString => false
  end.

(** [s[n:]] *)
Fixpoint drop (n : nat) (s : string) : string :=
  match n, s with
  | O, _ => s
  | S n', String _ s' => drop n' s'
  | S _, EmptyString => EmptyString
  end.

(** [s.split(sep)] for a one-character separator: never empty. *)
Fixpoint split (sep : ascii) (s : string) : list string :=
  match s with
  | EmptyString => [EmptyString]
  | String c s' =>
      if Ascii.eqb c sep then EmptyString :: split sep s'
      else match split sep s' with
           | h :: t => String c h :: t
           | [] => [String c EmptyString]
           end
  end.

(** [xs[-1]] of a non-empty list (with a default for the empty one, which
    [split] never returns). *)
Definition last_part (xs : list string) : string := List.last xs EmptyString.

(** [s or t] on strings: the first operand unless it is empty. *)
Definition str_or (s t : string) : string :=
  match s with
  | EmptyString => t
  | _ => s
  end.

(* ================================================================== *)
(** * binary64 arithmetic and [round(x, 1)]                             *)
(* ================================================================== *)

Module Float.

Definition prec : Z := 53.
Definition emax : Z := 1024.

Definition float : Type := spec_float.

(** [float(n)] for a Python int. *)
Definition of_int (n : Z) : float := binary_normalize prec emax n 0 false.

(** [a / b] on ints ([b <> 0]): the correctly rounded quotient. *)
Definition truediv (a b : Z) : float := SFdiv prec emax (of_int a) (of_int b).

(** [x * n] with [n] an int: [n] is converted, then IEEE multiplication. *)
Definition mul_int (x : float) (n : Z) : float := SFmul prec emax x (of_int n).

(** Nearest integer to [m * 2^e] ([m >= 0]), ties to even. *)
Definition nearest_even (m e : Z) : Z :=
  match e with
  | Zneg p =>
      let d := Z.pow 2 (Zpos p) in
      let q := Z.div m d in
      let r := Z.modulo m d in
      match Z.compare (2 * r) d with
      | Lt => q
      | Gt => q + 1
      | Eq => if Z.even q then q else q + 1
      end
  | _ => m * Z.pow 2 e
  end.

(** [round(x, 1)] on a float: the exact binary value of [x] is rounded
    half-even to one decimal place and the decimal is read back as the
    nearest double (CPython's [double_round]); exact as long as the
    tenths fit in 53 bits, which covers every percentage. *)
Definition round1 (x : float) : float :=
  match x with
  | S754_finite s m e =>
      if Z.leb 0 e then x
      else
        let tenths := nearest_even (10 * Zpos m) e in
        if Z.eqb tenths 0 then S754_zero s
        else SFdiv prec emax (of_int (if s then Z.opp tenths else tenths)) (of_int 10)
  | _ => x
  end.

(** [x >= n] with [n] an int. *)
Definition ge_int (x : float) (n : Z) : bool := SFleb (of_int n) x.

(** [x < n] with [n] an int. *)
Definition lt_int (x : float) (n : Z) : bool := SFltb x (of_int n).

Definition zero : float := S754_zero false.

End Float.

(* ================================================================== *)
(** * [datetime]                                                        *)
(* ================================================================== *)

Module Datetime.

Local Open Scope Z_scope.

(** A [datetime]: calendar fields and, when the object is aware, the
    UTC offset of its [tzinfo] in minutes. *)
Record datetime : Type := mk_datetime {
  year : Z;
  month : Z;
  day : Z;
  hour : Z;
  minute : Z;
  second : Z;
  microsecond : Z;
  utcoffset : option Z
}.

Definition digit (n : Z) : ascii := ascii_of_nat (48 + Z.to_nat (n mod 10)).

(** [n] in decimal on exactly [width] digits (the low ones). *)
Fixpoint zpad (width : nat) (n : Z) : string :=
  match width with
  | O => EmptyString
  | S w => zpad w (n / 10) ++ String (digit n) EmptyString
  end.

(** The [+HH:MM] suffix of an aware datetime. *)
Definition offset_suffix (off : Z) : string :=
  let a := Z.abs off in
  (if off <? 0 then "-" else "+") ++ zpad 2 (a / 60) ++ ":" ++ zpad 2 (a mod 60).

(** [dt.isoformat()] *)
Definition isoformat (dt : datetime) : string :=
  zpad 4 (year dt) ++ "-" ++ zpad 2 (month dt) ++ "-" ++ zpad 2 (day dt) ++ "T"
  ++ zpad 2 (hour dt) ++ ":" ++ zpad 2 (minute dt) ++ ":" ++ zpad 2 (second dt)
  ++ (if microsecond dt =? 0 then "" else "." ++ zpad 6 (microsecond dt))
  ++ match utcoffset dt with
     | Some off => offset_suffix off
     | None => ""
     end.

(** [dt.strftime('%Y%m%d%H%M%S')] *)
Definition strftime_compact (dt : datetime) : string :=
  zpad 4 (year dt) ++ zpad 2 (month dt) ++ zpad 2 (day dt)
  ++ zpad 2 (hour dt) ++ zpad 2 (minute dt) ++ zpad 2 (second dt).

(** [str(dt)], which is [dt.isoformat(sep=' ')]. *)
Definition str (dt : datetime) : string :=
  zpad 4 (year dt) ++ "-" ++ zpad 2 (month dt) ++ "-" ++ zpad 2 (day dt) ++ " "
  ++ zpad 2 (hour dt) ++ ":" ++ zpad 2 (minute dt) ++ ":" ++ zpad 2 (second dt)
  ++ (if microsecond dt =? 0 then "" else "." ++ zpad 6 (microsecond dt))
  ++ match utcoffset dt with
     | Some off => offset_suffix off
     | None => ""
     end.

(** The Gregorian calendar: leap years and the length of each month. *)
Definition is_leap (y : Z) : bool :=
  (y mod 4 =? 0) && (negb (y mod 100 =? 0) || (y mod 400 =? 0)).

Definition days_in_month (y m : Z) : Z :=
  if m =? 2 then (if is_leap y then 29 else 28)
  else if (m =? 4) || (m =? 6) || (m =? 9) || (m =? 11) then 30
  else 31.

(** The datetimes Python can build: fields within their ranges, the day
    within its month, the offset strictly inside one day. *)
Definition valid (dt : datetime) : bool :=
  (1 <=? year dt) && (year dt <=? 9999)
  && (1 <=? month dt) && (month dt <=? 12)
  && (1 <=? day dt) && (day dt <=? days_in_month (year dt) (month dt))
  && (0 <=? hour dt) && (hour dt <? 24)
  && (0 <=? minute dt) && (minute dt <? 60)
  && (0 <=? second dt) && (second dt <? 60)
  && (0 <=? microsecond dt) && (microsecond dt <? 1000000)
  && match utcoffset dt with
     | Some off => (-1440 <? off) && (off <? 1440)
     | None => true
     end.

(** What [datetime.now(timezone.utc)] returns: valid and aware, offset 0. *)
Definition is_utc_now (dt : datetime) : bool :=
  valid dt && match utcoffset dt with
              | Some 0 => true
              | _ => false
              end.

End Datetime.

(* ================================================================== *)
(** * Objects beyond JSON                                               *)
(* ================================================================== *)

(** A Python object as an [Any]-typed slot can hold it ([details:
    dict[str, Any]]): the JSON-shaped values and, of the objects
    [json.dumps] has no encoding of its own for, the datetimes.  Floats,
    bytes, sets and instances of other classes lie outside this
    embedding. *)
#[warnings="-register-all"]
Inductive pyobject : Type :=
| ONone
| OBool (b : bool)
| OInt (n : Z)
| OStr (s : string)
| OList (l : list pyobject)
| ODict (d : list (string * pyobject))
| ODatetime (dt : Datetime.datetime).

(** A [dict[str, Any]], as its item list. *)
Definition pydetails : Type := list (string * pyobject).

(** A JSON-shaped value, seen as an object. *)
Fixpoint of_value (v : value) : pyobject :=
  match v with
  | VNone => ONone
  | VBool b => OBool b
  | VInt n => OInt n
  | VStr s => OStr s
  | VList l => OList (map of_value l)
  | VDict d => ODict (map (fun kv => (fst kv, of_value (snd kv))) d)
  end.

(** The object is JSON-shaped: it holds no datetime, at any depth. *)
Fixpoint json_shaped (o : pyobject) : bool :=
  match o with
  | ONone | OBool _ | OInt _ | OStr _ => true
  | OList l => forallb json_shaped l
  | ODict d => forallb (fun kv => json_shaped (snd kv)) d
  | ODatetime _ => false
  end.

(* ================================================================== *)
(** * models/citation.py, models/rule.py, models/evaluation.py          *)
(* ================================================================== *)

Record Citation : Type := {
  Citation_clause_id : string;
  Citation_article_ref : string;
  Citation_paragraph_ref : option string;
  Citation_subsection_ref : option string;
  Citation_page_number : option Z;
  Citation_exact_quote : string
}.

Inductive RuleType : Type := AUTOMATED | SEMI_AUTOMATED | MANUAL.

Definition RuleType_value (t : RuleType) : string :=
  match t with
  | AUTOMATED => "automated"
  | SEMI_AUTOMATED => "semi_automated"
  | MANUAL => "manual"
  end.

Inductive Severity : Type := CRITICAL | HIGH | MEDIUM | LOW | INFO.

Definition Severity_value (s : Severity) : string :=
  match s with
  | CRITICAL => "critical"
  | HIGH => "high"
  | MEDIUM => "medium"
  | LOW => "low"
  | INFO => "info"
  end.

Record TestCase : Type := {
  TestCase_id : string;
  TestCase_description : string;
  TestCase_input_data : pydict;
  TestCase_expected_result : string
}.

Record Rule : Type := {
  Rule_id : string;
  Rule_requirement_id : string;
  Rule_rule_type : RuleType;
  Rule_title : string;
  Rule_description : string;
  Rule_inputs_needed : list string;
  Rule_evaluation_logic : string;
  Rule_severity : Severity;
  Rule_remediation : string;
  Rule_test_cases : list TestCase;
  Rule_citations : list Citation
}.

Inductive RuleVerdict : Type := PASS | FAIL | NOT_APPLICABLE | MANUAL_REVIEW.

Definition RuleVerdict_eqb (a b : RuleVerdict) : bool :=
  match a, b with
  | PASS, PASS | FAIL, FAIL
  | NOT_APPLICABLE, NOT_APPLICABLE | MANUAL_REVIEW, MANUAL_REVIEW => true
  | _, _ => false
  end.

Record RuleResult : Type := {
  RuleResult_rule_id : string;
  RuleResult_requirement_id : string;
  RuleResult_title : string;
  RuleResult_verdict : RuleVerdict;
  RuleResult_severity : string;
  RuleResult_details : string;
  RuleResult_remediation : string;
  RuleResult_article_ref : string;
  RuleResult_citations : list Citation
}.

Record ComplianceGap : Type := {
  ComplianceGap_rule_id : string;
  ComplianceGap_requirement_id : string;
  ComplianceGap_description : string;
  ComplianceGap_severity : string;
  ComplianceGap_remediation : string;
  ComplianceGap_article_ref : string;
  ComplianceGap_citations : list Citation
}.

Record EvaluationResult : Type := {
  EvaluationResult_total_rules : nat;
  EvaluationResult_passed : nat;
  EvaluationResult_failed : nat;
  EvaluationResult_not_applicable : nat;
  EvaluationResult_manual_review : nat;
  EvaluationResult_compliance_score : Float.float
}.

Record ComplianceReport : Type := {
  ComplianceReport_id : string;
  ComplianceReport_regulation_id : string;
  ComplianceReport_system_name : string;
  ComplianceReport_provider_name : string;
  ComplianceReport_evaluation_date : Datetime.datetime;
  ComplianceReport_summary : EvaluationResult;
  ComplianceReport_rule_results : list RuleResult;
  ComplianceReport_critical_gaps : list ComplianceGap;
  ComplianceReport_high_gaps : list ComplianceGap;
  ComplianceReport_medium_gaps : list ComplianceGap;
  ComplianceReport_overall_verdict : string
}.

(** models/profile.py: the two identity fields the report copies, and the
    remaining fields as [model_dump()] lists them. *)
Record SystemProfile : Type := {
  SystemProfile_system_name : string;
  SystemProfile_provider_name : string;
  SystemProfile_fields : pydict
}.

Definition model_dump (p : SystemProfile) : value :=
  VDict (("system_name", VStr (SystemProfile_system_name p))
         :: ("provider_name", VStr (SystemProfile_provider_name p))
         :: SystemProfile_fields p).

(* ================================================================== *)
(** * core/engine.py                                                    *)
(* ================================================================== *)

(** A native evaluation predicate, [Callable[..., str]]: called on the
    dumped profile, it returns a verdict string or raises. *)
Definition predicate : Type := value -> pyresult string.

(** The engine object: the regulation name and the loaded rules. *)
Record ComplianceEngine : Type := {
  regulation : string;
  _rules : list Rule
}.

(** [ComplianceEngine._resolve_field]: the loop over the path's parts. *)
Fixpoint resolve_parts (current : value) (parts : list string) : pyresult value :=
  match parts with
  | [] => Ok current
  | part :: rest =>
      if isinstance_dict current then
        current' <- py_get current part ;;
        if is_None current' then Ok VNone else resolve_parts current' rest
      else Ok VNone
  end.

(** The first statement of [_resolve_field]: strip the conventional
    prefix when the path starts with it. *)
Definition strip_system_profile (field_path : string) : string :=
  if startswith field_path "system_profile."
  then drop (String.length "system_profile.") field_path
  else field_path.

Definition _resolve_field (data : value) (field_path : string) : pyresult value :=
  let field_path := strip_system_profile field_path in
  let parts := split "." field_path in
  resolve_parts data parts.

Section Evaluation.

(** [rules.eu_ai_act_v1.get_evaluation_function]: the registry of native
    predicates, by rule id. *)
Variable get_evaluation_function : string -> option predicate.

(** [exec(logic, {"__builtins__": {}}, local_vars)] followed by the read
    of [local_vars]: the interpreter either raises or finishes with
    [result] bound to a string ([Some]) or unbound ([None]);
    [_execute_evaluation] is annotated [-> str]. *)
Variable exec : string -> pydict -> pyresult (option string).

(** The [for field_path in rule.inputs_needed] loop. *)
Fixpoint resolve_inputs (profile_dict : value) (paths : list string)
         (inputs : pydict) : pyresult pydict :=
  match paths with
  | [] => Ok inputs
  | field_path :: rest =>
      v <- _resolve_field profile_dict field_path ;;
      let var_name := last_part (split "." field_path) in
      resolve_inputs profile_dict rest (dict_set inputs var_name v)
  end.

(** [except (ImportError, AttributeError): pass]: the clause matches
    the instances of the two classes and of their subclasses. *)
Fixpoint lookup_guard_catches (e : exn) : bool :=
  match e with
  | ImportError _ | AttributeError _ => true
  | Derived _ base => lookup_guard_catches base
  | TypeError _ | OtherError _ _ => false
  end.

(** The fallback block: interpret [evaluation_logic]; any exception
    yields ["manual_review"]. *)
Definition fallback_interpretation (rule : Rule) (inputs : pydict) : string :=
  let local_vars := dict_set inputs "result" (VStr "manual_review") in
  match exec (Rule_evaluation_logic rule) local_vars with
  | Ok (Some result) => result
  | Ok None => "manual_review"
  | Raise _ => "manual_review"
  end.

Definition _execute_evaluation (rule : Rule) (profile_dict : value) : pyresult string :=
  inputs <- resolve_inputs profile_dict (Rule_inputs_needed rule) [] ;;
  match get_evaluation_function (Rule_id rule) with
  | Some eval_fn =>
      match eval_fn profile_dict with
      | Ok verdict => Ok verdict
      | Raise e =>
          if lookup_guard_catches e
          then Ok (fallback_interpretation rule inputs)
          else Raise e
      end
  | None => Ok (fallback_interpretation rule inputs)
  end.

(** [verdict_map.get(verdict, RuleVerdict.MANUAL_REVIEW)] on a string,
    which is what [_execute_evaluation] is annotated to return.  (The
    call stands behind the [try] of [_evaluate_rule]: on an unhashable
    object, which a predicate or a program that breaks the annotation
    could hand over, it would raise [TypeError] to the caller.  Such
    verdicts lie outside this typing.) *)
Definition verdict_map_get (verdict : string) : RuleVerdict :=
  if String.eqb verdict "pass" then PASS
  else if String.eqb verdict "fail" then FAIL
  else if String.eqb verdict "not_applicable" then NOT_APPLICABLE
  else if String.eqb verdict "manual_review" then MANUAL_REVIEW
  else MANUAL_REVIEW.

Definition _evaluate_rule (rule : Rule) (profile_dict : value) : RuleResult :=
  let article_ref :=
    match Rule_citations rule with
    | c :: _ => Citation_article_ref c
    | [] => ""
    end in
  if String.eqb (RuleType_value (Rule_rule_type rule)) "manual" then
    {| RuleResult_rule_id := Rule_id rule;
       RuleResult_requirement_id := Rule_requirement_id rule;
       RuleResult_title := Rule_title rule;
       RuleResult_verdict := MANUAL_REVIEW;
       RuleResult_severity := Severity_value (Rule_severity rule);
       RuleResult_details := "Requires manual assessment";
       RuleResult_remediation := "";
       RuleResult_article_ref := article_ref;
       RuleResult_citations := Rule_citations rule |}
  else
    let verdict :=
      match _execute_evaluation rule profile_dict with
      | Ok verdict => verdict
      | Raise _ => "manual_review"
      end in
    {| RuleResult_rule_id := Rule_id rule;
       RuleResult_requirement_id := Rule_requirement_id rule;
       RuleResult_title := Rule_title rule;
       RuleResult_verdict := verdict_map_get verdict;
       RuleResult_severity := Severity_value (Rule_severity rule);
       RuleResult_details := Rule_description rule;
       RuleResult_remediation := Rule_remediation rule;
       RuleResult_article_ref := article_ref;
       RuleResult_citations := Rule_citations rule |}.

(** The four lists [evaluate] fills while it walks the rules. *)
Record accumulators : Type := {
  rule_results : list RuleResult;
  critical_gaps : list ComplianceGap;
  high_gaps : list ComplianceGap;
  medium_gaps : list ComplianceGap
}.

Definition make_gap (rule : Rule) (result : RuleResult) : ComplianceGap :=
  {| ComplianceGap_rule_id := Rule_id rule;
     ComplianceGap_requirement_id := Rule_requirement_id rule;
     ComplianceGap_description := str_or (RuleResult_details result) (Rule_title rule);
     ComplianceGap_severity := Severity_value (Rule_severity rule);
     ComplianceGap_remediation := Rule_remediation rule;
     ComplianceGap_article_ref := RuleResult_article_ref result;
     ComplianceGap_citations := Rule_citations rule |}.

(** One iteration of [for rule in self._rules]. *)
Definition evaluate_step (profile_dict : value) (acc : accumulators) (rule : Rule)
  : accumulators :=
  let result := _evaluate_rule rule profile_dict in
  let results := rule_results acc ++ [result] in
  if RuleVerdict_eqb (RuleResult_verdict result) FAIL then
    let gap := make_gap rule result in
    if String.eqb (Severity_value (Rule_severity rule)) "critical" then
      {| rule_results := results;
         critical_gaps := critical_gaps acc ++ [gap];
         high_gaps := high_gaps acc;
         medium_gaps := medium_gaps acc |}
    else if String.eqb (Severity_value (Rule_severity rule)) "high" then
      {| rule_results := results;
         critical_gaps := critical_gaps acc;
         high_gaps := high_gaps acc ++ [gap];
         medium_gaps := medium_gaps acc |}
    else
      {| rule_results := results;
         critical_gaps := critical_gaps acc;
         high_gaps := high_gaps acc;
         medium_gaps := medium_gaps acc ++ [gap] |}
  else
    {| rule_results := results;
       critical_gaps := critical_gaps acc;
       high_gaps := high_gaps acc;
       medium_gaps := medium_gaps acc |}.

(** [sum(1 for r in rule_results if r.verdict == v)] *)
Definition count_verdict (v : RuleVerdict) (results : list RuleResult) : nat :=
  List.length (filter (fun r => RuleVerdict_eqb (RuleResult_verdict r) v) results).

(** [round((passed / applicable * 100) if applicable > 0 else 0, 1)];
    the integer 0 of the second branch is stored as the float 0.0 by
    [EvaluationResult.compliance_score: float]. *)
Definition compute_score (passed applicable : nat) : Float.float :=
  if (0 <? applicable)%nat
  then Float.round1
         (Float.mul_int (Float.truediv (Z.of_nat passed) (Z.of_nat applicable)) 100)
  else Float.zero.

Definition is_empty {A : Type} (l : list A) : bool :=
  match l with
  | [] => true
  | _ :: _ => false
  end.

Definition derive_overall (score : Float.float) (critical : list ComplianceGap) : string :=
  if Float.ge_int score 90 && is_empty critical then "compliant"
  else if Float.ge_int score 60 then "partial_compliance"
  else "non_compliant".

(** [ComplianceEngine.evaluate]; [now] is what
    [datetime.now(timezone.utc)] returns during the call. *)
Definition evaluate (self : ComplianceEngine) (profile : SystemProfile)
           (now : Datetime.datetime) : ComplianceReport :=
  let profile_dict := model_dump profile in
  let acc :=
    fold_left (evaluate_step profile_dict) (_rules self)
              {| rule_results := []; critical_gaps := [];
                 high_gaps := []; medium_gaps := [] |} in
  let passed := count_verdict PASS (rule_results acc) in
  let failed := count_verdict FAIL (rule_results acc) in
  let na := count_verdict NOT_APPLICABLE (rule_results acc) in
  let manual := count_verdict MANUAL_REVIEW (rule_results acc) in
  let applicable := (passed + failed)%nat in
  let score := compute_score passed applicable in
  let overall := derive_overall score (critical_gaps acc) in
  {| ComplianceReport_id :=
       "RPT-" ++ regulation self ++ "-" ++ Datetime.strftime_compact now;
     ComplianceReport_regulation_id := regulation self;
     ComplianceReport_system_name := SystemProfile_system_name profile;
     ComplianceReport_provider_name := SystemProfile_provider_name profile;
     ComplianceReport_evaluation_date := now;
     ComplianceReport_summary :=
       {| EvaluationResult_total_rules := List.length (rule_results acc);
          EvaluationResult_passed := passed;
          EvaluationResult_failed := failed;
          EvaluationResult_not_applicable := na;
          EvaluationResult_manual_review := manual;
          EvaluationResult_compliance_score := score |};
     ComplianceReport_rule_results := rule_results acc;
     ComplianceReport_critical_gaps := critical_gaps acc;
     ComplianceReport_high_gaps := high_gaps acc;
     ComplianceReport_medium_gaps := medium_gaps acc;
     ComplianceReport_overall_verdict := overall |}.

End Evaluation.

(* ================================================================== *)
(** * [hashlib.sha256] and [str.encode("utf-8")]                        *)
(* ================================================================== *)

Module SHA256.

Local Open Scope Z_scope.

Definition mask32 : Z := 0xffffffff.
Definition add32 (a b : Z) : Z := Z.land (a + b) mask32.
Definition rotr (n x : Z) : Z :=
  Z.land (Z.lor (Z.shiftr x n) (Z.shiftl x (32 - n))) mask32.
Definition shr (n x : Z) : Z := Z.shiftr x n.
Definition not32 (x : Z) : Z := Z.lxor x mask32.
Definition xor3 (a b c : Z) : Z := Z.lxor (Z.lxor a b) c.

Definition Ch (x y z : Z) : Z := Z.lxor (Z.land x y) (Z.land (not32 x) z).
Definition Maj (x y z : Z) : Z := xor3 (Z.land x y) (Z.land x z) (Z.land y z).
Definition Sigma0 (x : Z) : Z := xor3 (rotr 2 x) (rotr 13 x) (rotr 22 x).
Definition Sigma1 (x : Z) : Z := xor3 (rotr 6 x) (rotr 11 x) (rotr 25 x).
Definition sigma0 (x : Z) : Z := xor3 (rotr 7 x) (rotr 18 x) (shr 3 x).
Definition sigma1 (x : Z) : Z := xor3 (rotr 17 x) (rotr 19 x) (shr 10 x).

(** The primes below 312, smallest first. *)
Definition is_prime (n : Z) : bool :=
  forallb (fun d => negb (n mod d =? 0) || (n <? d * d))
          (map Z.of_nat (seq 2 16)).

Definition first_primes (count : nat) : list Z :=
  firstn count (filter is_prime (map Z.of_nat (seq 2 310))).

(** Integer cube root of a number below [2^105], bit by bit. *)
Definition icbrt (n : Z) : Z :=
  fold_left (fun r bit => let c := r + 2 ^ bit in if c * c * c <=? n then c else r)
            (map Z.of_nat (rev (seq 0 35))) 0.

(** The round constants: the first 32 bits of the fractional parts of the
    cube roots of the first 64 primes. *)
Definition K : list Z :=
  Eval vm_compute in
    map (fun p => Z.land (icbrt (p * 2 ^ 96)) mask32) (first_primes 64).

(** The initial hash value: the same bits of the square roots of the
    first 8 primes. *)
Definition H0 : list Z :=
  Eval vm_compute in
    map (fun p => Z.land (Z.sqrt (p * 2 ^ 64)) mask32) (first_primes 8).

(** The [n] low bytes of [x], most significant first. *)
Fixpoint be_bytes (n : nat) (x : Z) : list Z :=
  match n with
  | O => []
  | S n' => be_bytes n' (Z.shiftr x 8) ++ [Z.land x 0xff]
  end.

(** Message padding: a 1 bit, zeros, and the bit length on 64 bits. *)
Definition pad (msg : list Z) : list Z :=
  let l := Z.of_nat (List.length msg) in
  msg ++ [0x80] ++ repeat 0 (Z.to_nat ((55 - l) mod 64)) ++ be_bytes 8 (8 * l).

Fixpoint words (n : nat) (bytes : list Z) : list Z :=
  match n, bytes with
  | S n', a :: b :: c :: d :: rest =>
      (Z.shiftl a 24 + Z.shiftl b 16 + Z.shiftl c 8 + d) :: words n' rest
  | _, _ => []
  end.

(** The message schedule: [window] holds the previous sixteen words. *)
Fixpoint schedule (n : nat) (window : list Z) : list Z :=
  match n with
  | O => []
  | S n' =>
      let w :=
        add32 (add32 (sigma1 (nth 14 window 0)) (nth 9 window 0))
              (add32 (sigma0 (nth 1 window 0)) (nth 0 window 0)) in
      w :: schedule n' (tl window ++ [w])
  end.

Record state : Type := mk_state { a : Z; b : Z; c : Z; d : Z; e : Z; f : Z; g : Z; h : Z }.

Definition round (s : state) (kw : Z * Z) : state :=
  let t1 := add32 (add32 (add32 (h s) (Sigma1 (e s))) (Ch (e s) (f s) (g s)))
                  (add32 (fst kw) (snd kw)) in
  let t2 := add32 (Sigma0 (a s)) (Maj (a s) (b s) (c s)) in
  mk_state (add32 t1 t2) (a s) (b s) (c s) (add32 (d s) t1) (e s) (f s) (g s).

Definition compress (hs : state) (block : list Z) : state :=
  let w16 := words 16 block in
  let w := w16 ++ schedule 48 w16 in
  let s := fold_left round (combine K w) hs in
  mk_state (add32 (a hs) (a s)) (add32 (b hs) (b s)) (add32 (c hs) (c s))
           (add32 (d hs) (d s)) (add32 (e hs) (e s)) (add32 (f hs) (f s))
           (add32 (g hs) (g s)) (add32 (h hs) (h s)).

Fixpoint blocks (n : nat) (hs : state) (bytes : list Z) : state :=
  match n with
  | O => hs
  | S n' => blocks n' (compress hs (firstn 64 bytes)) (skipn 64 bytes)
  end.

Definition digest_words (msg : list Z) : list Z :=
  let padded := pad msg in
  let s := blocks (List.length padded / 64)
                  (mk_state (nth 0 H0 0) (nth 1 H0 0) (nth 2 H0 0) (nth 3 H0 0)
                            (nth 4 H0 0) (nth 5 H0 0) (nth 6 H0 0) (nth 7 H0 0))
                  padded in
  [a s; b s; c s; d s; e s; f s; g s; h s].

Definition hex_digit (x : Z) : ascii :=
  ascii_of_nat (Z.to_nat (if x <? 10 then 48 + x else 87 + x)).

(** [x] on [n] lower-case hexadecimal digits. *)
Fixpoint hex (n : nat) (x : Z) : string :=
  match n with
  | O => EmptyString
  | S n' => hex n' (Z.shiftr x 4) ++ String (hex_digit (Z.land x 0xf)) EmptyString
  end.

(** [s.encode("utf-8")] for code points below 256. *)
Fixpoint utf8 (s : string) : list Z :=
  match s with
  | EmptyString => []
  | String ch rest =>
      let n := Z.of_nat (nat_of_ascii ch) in
      if n <? 128 then n :: utf8 rest
      else (0xc0 + Z.shiftr n 6) :: (0x80 + Z.land n 0x3f) :: utf8 rest
  end.

(** [hashlib.sha256(raw.encode("utf-8")).hexdigest()] *)
Definition hexdigest (raw : string) : string :=
  String.concat "" (map (hex 8) (digest_words (utf8 raw))).

End SHA256.

(* ================================================================== *)
(** * [json.dumps(obj, sort_keys=True)], [str()] and [repr()]           *)
(* ================================================================== *)

Module Json.

Definition dquote : string := String (ascii_of_nat 34) EmptyString.
Definition backslash : string := String (ascii_of_nat 92) EmptyString.

(** [str(n)] for an int. *)
Definition str_of_int (n : Z) : string :=
  DecimalString.NilEmpty.string_of_int (Z.to_int n).

(** One character of a JSON string with [ensure_ascii]: the short
    escapes, the printable ASCII range as is, [\uXXXX] otherwise. *)
Definition escape_char (ch : ascii) : string :=
  let n := nat_of_ascii ch in
  if Nat.eqb n 34 then backslash ++ dquote
  else if Nat.eqb n 92 then backslash ++ backslash
  else if Nat.eqb n 10 then backslash ++ "n"
  else if Nat.eqb n 13 then backslash ++ "r"
  else if Nat.eqb n 9 then backslash ++ "t"
  else if Nat.eqb n 8 then backslash ++ "b"
  else if Nat.eqb n 12 then backslash ++ "f"
  else if Nat.leb 32 n && Nat.leb n 126 then String ch EmptyString
  else backslash ++ "u" ++ SHA256.hex 4 (Z.of_nat n).

Fixpoint escape (s : string) : string :=
  match s with
  | EmptyString => EmptyString
  | String ch rest => escape_char ch ++ escape rest
  end.

Definition quote (s : string) : string := dquote ++ escape s ++ dquote.

(** [sorted(items)] by key, stable. *)
Fixpoint insert_item (kv : string * string) (l : list (string * string))
  : list (string * string) :=
  match l with
  | [] => [kv]
  | x :: rest =>
      if String.leb (fst kv) (fst x) then kv :: l else x :: insert_item kv rest
  end.

Definition sort_items (l : list (string * string)) : list (string * string) :=
  fold_right insert_item [] l.

Definition render_item (kv : string * string) : string :=
  quote (fst kv) ++ ": " ++ snd kv.

(** [json.dumps(v, sort_keys=True)] with the default separators. *)
Fixpoint dumps (v : value) : string :=
  match v with
  | VNone => "null"
  | VBool true => "true"
  | VBool false => "false"
  | VInt n => str_of_int n
  | VStr s => quote s
  | VList l => "[" ++ String.concat ", " (map dumps l) ++ "]"
  | VDict d =>
      "{" ++ String.concat ", "
               (map render_item
                    (sort_items (map (fun kv => (fst kv, dumps (snd kv))) d)))
          ++ "}"
  end.

(** [json.dumps(o, sort_keys=True, default=str)]: an object the encoder
    does not know is replaced by [str(o)], which is then written as a JSON
    string. *)
Fixpoint dumps_default_str (o : pyobject) : string :=
  match o with
  | ONone => "null"
  | OBool true => "true"
  | OBool false => "false"
  | OInt n => str_of_int n
  | OStr s => quote s
  | OList l => "[" ++ String.concat ", " (map dumps_default_str l) ++ "]"
  | ODict d =>
      "{" ++ String.concat ", "
               (map render_item
                    (sort_items (map (fun kv => (fst kv, dumps_default_str (snd kv))) d)))
          ++ "}"
  | ODatetime dt => quote (Datetime.str dt)
  end.

End Json.

(* ================================================================== *)
(** * models/audit_entry.py                                             *)
(* ================================================================== *)

Inductive AuditAction : Type :=
| INGEST | PARSE | EXTRACT | FORMALIZE | CODEGEN | JUDGE | EVALUATE | DIFF | EXPORT.

Definition AuditAction_value (a : AuditAction) : string :=
  match a with
  | INGEST => "ingest"
  | PARSE => "parse"
  | EXTRACT => "extract"
  | FORMALIZE => "formalize"
  | CODEGEN => "codegen"
  | JUDGE => "judge"
  | EVALUATE => "evaluate"
  | DIFF => "diff"
  | EXPORT => "export"
  end.

(** [AuditAction(s)]: the member whose value is [s], if any. *)
Definition AuditAction_of_value (s : string) : option AuditAction :=
  find (fun a => String.eqb (AuditAction_value a) s)
       [INGEST; PARSE; EXTRACT; FORMALIZE; CODEGEN; JUDGE; EVALUATE; DIFF; EXPORT].

Record AuditEntry : Type := {
  AuditEntry_id : string;
  AuditEntry_timestamp : Datetime.datetime;
  AuditEntry_action : AuditAction;
  AuditEntry_stage : string;
  AuditEntry_actor : string;
  AuditEntry_target_ids : list string;
  AuditEntry_input_hash : string;
  AuditEntry_output_hash : string;
  AuditEntry_previous_hash : string;
  AuditEntry_entry_hash : string;
  AuditEntry_details : pydetails;
  AuditEntry_model_used : string;
  AuditEntry_verdict : string
}.

(* ================================================================== *)
(** * pydantic: the JSON form of an [AuditEntry]                        *)
(* ================================================================== *)

Module Pydantic.

Import Datetime.
Local Open Scope Z_scope.

(** How a [datetime] field is written: ISO-8601, a zero offset as [Z]. *)
Definition datetime_to_json (dt : datetime) : string :=
  zpad 4 (year dt) ++ "-" ++ zpad 2 (month dt) ++ "-" ++ zpad 2 (day dt) ++ "T"
  ++ zpad 2 (hour dt) ++ ":" ++ zpad 2 (minute dt) ++ ":" ++ zpad 2 (second dt)
  ++ (if microsecond dt =? 0 then "" else "." ++ zpad 6 (microsecond dt))
  ++ match utcoffset dt with
     | Some 0 => "Z"
     | Some off => offset_suffix off
     | None => ""
     end.

Definition digit_value (ch : ascii) : option Z :=
  let n := nat_of_ascii ch in
  if Nat.leb 48 n && Nat.leb n 57 then Some (Z.of_nat (n - 48)) else None.

(** Exactly [width] decimal digits at the head of [s]. *)
Fixpoint parse_digits (width : nat) (s : string) : option (Z * string) :=
  match width with
  | O => Some (0, s)
  | S w =>
      match parse_digits w s with
      | Some (acc, String ch rest) =>
          match digit_value ch with
          | Some d => Some (10 * acc + d, rest)
          | None => None
          end
      | _ => None
      end
  end.

Definition expect (ch : ascii) (s : string) : option string :=
  match s with
  | String ch' rest => if Ascii.eqb ch ch' then Some rest else None
  | EmptyString => None
  end.

(** The digits of a fraction of a second, as many as there are: how
    many were read, the number the first six make, and the rest. *)
Fixpoint read_fraction (count : nat) (acc : Z) (s : string) : nat * Z * string :=
  match s with
  | String ch rest =>
      match digit_value ch with
      | Some d => read_fraction (S count) (if Nat.ltb count 6 then 10 * acc + d else acc) rest
      | None => (count, acc, s)
      end
  | EmptyString => (count, acc, s)
  end.

(** What follows the minutes: [:SS], then a fraction behind [.] or [,];
    both may be missing.  Digits past the sixth of a fraction are
    dropped. *)
Definition parse_seconds (s : string) : option (Z * Z * string) :=
  match s with
  | String ch rest =>
      if Ascii.eqb ch ":" then
        match parse_digits 2 rest with
        | Some (sec, String sep after) =>
            if Ascii.eqb sep "." || Ascii.eqb sep "," then
              match read_fraction 0 0 after with
              | (O, _, _) => None
              | (count, acc, s') => Some (sec, acc * 10 ^ Z.of_nat (6 - count), s')
              end
            else Some (sec, 0, String sep after)
        | Some (sec, EmptyString) => Some (sec, 0, EmptyString)
        | None => None
        end
      else Some (0, 0, s)
  | EmptyString => Some (0, 0, s)
  end.

(** [HH:MM] or [HHMM] behind the sign of an offset, up to the end of the
    text. *)
Definition parse_hhmm (sign : Z) (s : string) : option (option Z) :=
  match parse_digits 2 s with
  | Some (hh, s1) =>
      let s2 := match expect ":" s1 with
                | Some rest => rest
                | None => s1
                end in
      match parse_digits 2 s2 with
      | Some (mm, EmptyString) =>
          if mm <? 60 then Some (Some (sign * (hh * 60 + mm))) else None
      | _ => None
      end
  | None => None
  end.

Definition parse_offset (s : string) : option (option Z) :=
  match s with
  | EmptyString => Some None
  | String ch rest =>
      if Ascii.eqb ch "Z" || Ascii.eqb ch "z" then
        match rest with
        | EmptyString => Some (Some 0)
        | _ => None
        end
      else if Ascii.eqb ch "+" then parse_hhmm 1 rest
      else if Ascii.eqb ch "-" then parse_hhmm (-1) rest
      else None
  end.

(** [YYYY-MM-DD] at the head of [s]. *)
Definition parse_date (s : string) : option (Z * Z * Z * string) :=
  match parse_digits 4 s with
  | Some (y, s) =>
  match expect "-" s with
  | Some s =>
  match parse_digits 2 s with
  | Some (mo, s) =>
  match expect "-" s with
  | Some s =>
  match parse_digits 2 s with
  | Some (d, s) => Some (y, mo, d, s)
  | None => None end
  | None => None end
  | None => None end
  | None => None end
  | None => None end.

(** The character between date and time: [T], [t], a space or [_]. *)
Definition is_datetime_sep (ch : ascii) : bool :=
  Ascii.eqb ch "T" || Ascii.eqb ch "t" || Ascii.eqb ch " " || Ascii.eqb ch "_".

(** An RFC 3339 text, with the liberties the validator's parser takes. *)
Definition parse_rfc3339 (s : string) : option datetime :=
  match parse_date s with
  | Some (y, mo, d, String sep s) =>
      if is_datetime_sep sep then
        match parse_digits 2 s with
        | Some (h, s) =>
        match expect ":" s with
        | Some s =>
        match parse_digits 2 s with
        | Some (mi, s) =>
        match parse_seconds s with
        | Some (sec, us, s) =>
        match parse_offset s with
        | Some off =>
            let dt := mk_datetime y mo d h mi sec us off in
            if valid dt then Some dt else None
        | None => None end
        | None => None end
        | None => None end
        | None => None end
        | None => None end
      else None
  | _ => None
  end.

(** The date of the day [days] days after 1 January 1970. *)
Definition civil_from_days (days : Z) : Z * Z * Z :=
  let z := days + 719468 in
  let era := z / 146097 in
  let doe := z - era * 146097 in
  let yoe := (doe - doe / 1460 + doe / 36524 - doe / 146096) / 365 in
  let doy := doe - (365 * yoe + yoe / 4 - yoe / 100) in
  let mp := (5 * doy + 2) / 153 in
  let d := doy - (153 * mp + 2) / 5 + 1 in
  let m := if mp <? 10 then mp + 3 else mp - 9 in
  let y := yoe + era * 400 + (if m <=? 2 then 1 else 0) in
  (y, m, d).

(** A number read as Unix time: seconds up to 2e10 in absolute value,
    milliseconds beyond; the result is aware, in UTC. *)
Definition datetime_of_timestamp (n : Z) : option datetime :=
  let '(secs, us) :=
    if Z.abs n <=? 20000000000 then (n, 0) else (n / 1000, (n mod 1000) * 1000) in
  let '(y, mo, d) := civil_from_days (secs / 86400) in
  let rem := secs mod 86400 in
  let dt := mk_datetime y mo d (rem / 3600) ((rem mod 3600) / 60) (rem mod 60) us (Some 0) in
  if valid dt then Some dt else None.

(** A text that is a decimal integer, with an optional sign. *)
Definition parse_int (s : string) : option Z :=
  let digits (t : string) : option Z :=
    match read_fraction 0 0 t with
    | (S _, _, EmptyString) =>
        Some (fold_left (fun acc ch => match digit_value ch with
                                       | Some d => 10 * acc + d
                                       | None => acc
                                       end) (list_ascii_of_string t) 0)
    | _ => None
    end in
  match s with
  | String ch rest =>
      if Ascii.eqb ch "-" then option_map Z.opp (digits rest)
      else if Ascii.eqb ch "+" then digits rest
      else digits s
  | EmptyString => None
  end.

(** A date alone stands for its midnight. *)
Definition parse_date_only (s : string) : option datetime :=
  match parse_date s with
  | Some (y, mo, d, EmptyString) =>
      let dt := mk_datetime y mo d 0 0 0 0 None in
      if valid dt then Some dt else None
  | _ => None
  end.

(** How a [datetime] field is read from a JSON string: an RFC 3339 text;
    failing that, a text that is an integer, as Unix time; failing that, a
    date alone.  (A text that is a number with a fraction or an exponent
    is outside this embedding, as floats are.) *)
Definition datetime_of_json (s : string) : option datetime :=
  match parse_rfc3339 s with
  | Some dt => Some dt
  | None =>
      match parse_int s with
      | Some n => datetime_of_timestamp n
      | None => parse_date_only s
      end
  end.

(** How a value of an [Any]-typed slot is written, as the JSON value
    read back from the line: the serializer goes by the run-time type, so
    a datetime is written as a datetime field is. *)
Fixpoint to_json (o : pyobject) : value :=
  match o with
  | ONone => VNone
  | OBool b => VBool b
  | OInt n => VInt n
  | OStr s => VStr s
  | OList l => VList (map to_json l)
  | ODict d => VDict (map (fun kv => (fst kv, to_json (snd kv))) d)
  | ODatetime dt => VStr (datetime_to_json dt)
  end.

Definition details_to_json (details : pydetails) : pydict :=
  map (fun kv => (fst kv, to_json (snd kv))) details.

(** A [dict[str, Any]] field read from JSON keeps the values [json.loads]
    yields. *)
Definition details_of_json (items : pydict) : pydetails :=
  map (fun kv => (fst kv, of_value (snd kv))) items.

(** [entry.model_dump_json()], as the JSON value of the written line:
    every field, in declaration order. *)
Definition model_dump_json (entry : AuditEntry) : value :=
  VDict
    [ ("id", VStr (AuditEntry_id entry));
      ("timestamp", VStr (datetime_to_json (AuditEntry_timestamp entry)));
      ("action", VStr (AuditAction_value (AuditEntry_action entry)));
      ("stage", VStr (AuditEntry_stage entry));
      ("actor", VStr (AuditEntry_actor entry));
      ("target_ids", VList (map VStr (AuditEntry_target_ids entry)));
      ("input_hash", VStr (AuditEntry_input_hash entry));
      ("output_hash", VStr (AuditEntry_output_hash entry));
      ("previous_hash", VStr (AuditEntry_previous_hash entry));
      ("entry_hash", VStr (AuditEntry_entry_hash entry));
      ("details", VDict (details_to_json (AuditEntry_details entry)));
      ("model_used", VStr (AuditEntry_model_used entry));
      ("verdict", VStr (AuditEntry_verdict entry)) ].

(** A [str] field: required when [default] is [None]. *)
Definition str_field (d : pydict) (key : string) (default : option string)
  : option string :=
  match dict_get d key with
  | None => default
  | Some (VStr s) => Some s
  | Some _ => None
  end.

Fixpoint str_list (l : list value) : option (list string) :=
  match l with
  | [] => Some []
  | VStr s :: rest =>
      match str_list rest with
      | Some ss => Some (s :: ss)
      | None => None
      end
  | _ :: _ => None
  end.

(** [AuditEntry.model_validate_json(line)] on a line that is JSON: the
    entry, or [None] for a validation error.  [utcnow] is what the
    [timestamp] field's [default_factory] returns when the key is
    missing. *)
Definition model_validate_json (utcnow : datetime) (v : value) : option AuditEntry :=
  match v with
  | VDict d =>
      match str_field d "id" None,
            match dict_get d "timestamp" with
            | None => Some utcnow
            | Some (VStr s) => datetime_of_json s
            | Some (VInt n) => datetime_of_timestamp n
            | Some _ => None
            end,
            match dict_get d "action" with
            | Some (VStr s) => AuditAction_of_value s
            | _ => None
            end,
            str_field d "stage" None,
            str_field d "actor" (Some "system"),
            match dict_get d "target_ids" with
            | None => Some []
            | Some (VList l) => str_list l
            | Some _ => None
            end
      with
      | Some id, Some timestamp, Some action, Some stage, Some actor, Some target_ids =>
          match str_field d "input_hash" (Some ""),
                str_field d "output_hash" (Some ""),
                str_field d "previous_hash" (Some ""),
                str_field d "entry_hash" (Some ""),
                match dict_get d "details" with
                | None => Some []
                | Some (VDict items) => Some (details_of_json items)
                | Some _ => None
                end,
                str_field d "model_used" (Some ""),
                str_field d "verdict" (Some "")
          with
          | Some input_hash, Some output_hash, Some previous_hash, Some entry_hash,
            Some details, Some model_used, Some verdict =>
              Some {| AuditEntry_id := id;
                      AuditEntry_timestamp := timestamp;
                      AuditEntry_action := action;
                      AuditEntry_stage := stage;
                      AuditEntry_actor := actor;
                      AuditEntry_target_ids := target_ids;
                      AuditEntry_input_hash := input_hash;
                      AuditEntry_output_hash := output_hash;
                      AuditEntry_previous_hash := previous_hash;
                      AuditEntry_entry_hash := entry_hash;
                      AuditEntry_details := details;
                      AuditEntry_model_used := model_used;
                      AuditEntry_verdict := verdict |}
          | _, _, _, _, _, _, _ => None
          end
      | _, _, _, _, _, _ => None
      end
  | _ => None
  end.

End Pydantic.

(* ================================================================== *)
(** * The log file                                                      *)
(* ================================================================== *)

(** [s[:n]] *)
Fixpoint take (n : nat) (s : string) : string :=
  match n, s with
  | S n', String ch s' => String ch (take n' s')
  | _, _ => EmptyString
  end.

(** [s.endswith(suffix)] *)
Definition endswith (s suffix : string) : bool :=
  Nat.leb (String.length suffix) (String.length s)
  && String.eqb (drop (String.length s - String.length suffix) s) suffix.

(** A line of a text file as its readers see it: empty after [strip()],
    a text [json.loads] parses to a value, or a text it rejects (with the
    decoder's message). *)
Inductive line : Type :=
| BlankLine
| JsonLine (v : value)
| GarbageLine (why : string).

(** The file system as the audit code meets it.
    - [files]: the lines of each existing file, as [for line in fh]
      yields them (a last line that does not end with a newline is one of
      them);
    - [unterminated]: for a file whose last line does not end with a
      newline, how that line reads once [text + "\n"] has been written
      behind it, as a function of the line the text makes on its own
      (behind blank space the text is a line of its own, behind anything
      else it becomes part of a longer line);
    - [makedirs_error]: what [os.makedirs(path, exist_ok=True)] raises at
      a non-empty [path], if it raises: a file of that name is in the way,
      or the directory cannot be created.
    Files that exist can be read and appended to. *)
Record filesystem : Type := {
  files :> string -> option (list line);
  unterminated : string -> option (line -> line);
  makedirs_error : string -> option exn
}.

(** [os.makedirs(path, exist_ok=True)]: the empty path is refused, a
    directory that exists is left alone; the files stay as they are. *)
Definition os_makedirs (path : string) (fs : filesystem) : pyresult unit :=
  match path with
  | EmptyString =>
      Raise (OtherError "FileNotFoundError" "[Errno 2] No such file or directory: ''")
  | String _ _ =>
      match makedirs_error fs path with
      | Some e => Raise e
      | None => Ok tt
      end
  end.

(** [open(path, "a").write(text + "\n")]: the file is created if needed;
    the text starts a new line unless the last line was left without its
    newline, and the file ends with a newline afterwards. *)
Definition append_line (fs : filesystem) (path : string) (l : line) : filesystem :=
  let written :=
    match files fs path with
    | None => [l]
    | Some ls =>
        match unterminated fs path, ls with
        | Some continued, _ :: _ => removelast ls ++ [continued l]
        | _, _ => ls ++ [l]
        end
    end in
  {| files := fun p => if String.eqb p path then Some written else files fs p;
     unterminated := fun p => if String.eqb p path then None else unterminated fs p;
     makedirs_error := makedirs_error fs |}.

(** [os.path.join(a, b)] for a relative [b]. *)
Definition os_path_join (a b : string) : string :=
  match a with
  | EmptyString => b
  | _ => if endswith a "/" then a ++ b else a ++ "/" ++ b
  end.

(** [path or default] for an optional string argument: [None] and the
    empty string are falsy. *)
Definition path_or (path : option string) (default : string) : string :=
  match path with
  | Some (String ch p) => String ch p
  | _ => default
  end.

(** The last line that is not blank: the loop of [_read_last_hash]. *)
Definition last_nonblank (ls : list line) : option line :=
  fold_left (fun last l => match l with
                           | BlankLine => last
                           | _ => Some l
                           end) ls None.

(* ================================================================== *)
(** * audit/logger.py                                                   *)
(* ================================================================== *)

Module Logger.

Import Datetime.

Definition _GENESIS_HASH : string :=
  "0000000000000000000000000000000000000000000000000000000000000000".

(** The logger object.  [_previous_hash] holds whatever
    [_read_last_hash] found under ["entry_hash"], a string in every log
    this class wrote. *)
Record AuditLogger : Type := {
  log_dir : string;
  _log_file : string;
  _previous_hash : value
}.

(** The arguments of one [log] call, with the two values the call draws
    from its environment: [datetime.now(timezone.utc)] and
    [str(uuid.uuid4())]. *)
Record log_call : Type := {
  call_action : AuditAction;
  call_stage : string;
  call_target_ids : option (list string);
  call_details : option pydetails;
  call_actor : string;
  call_input_hash : string;
  call_output_hash : string;
  call_model_used : string;
  call_verdict : string;
  call_now : datetime;
  call_uuid4 : string
}.

Definition _normalize_timestamp (dt : datetime) : string :=
  let iso := isoformat dt in
  if endswith iso "+00:00"
  then take (String.length iso - 6) iso ++ "Z"
  else iso.

Definition _compute_hash (previous_hash timestamp_iso : string) (action : AuditAction)
           (target_ids : list string) (details : pydetails) : string :=
  let parts :=
    [ previous_hash;
      timestamp_iso;
      AuditAction_value action;
      Json.dumps (VList (map VStr target_ids));
      Json.dumps_default_str (ODict details) ] in
  let raw := String.concat "|" parts in
  SHA256.hexdigest raw.

Definition _append (self : AuditLogger) (entry : AuditEntry) (fs : filesystem)
  : filesystem :=
  append_line fs (_log_file self) (JsonLine (Pydantic.model_dump_json entry)).

(** [_read_last_hash]: [json.JSONDecodeError] is caught; [data.get] on a
    line that is JSON but no object raises [AttributeError], which is
    not. *)
Definition _read_last_hash (log_file : string) (fs : filesystem) : pyresult value :=
  match fs log_file with
  | None => Ok (VStr _GENESIS_HASH)
  | Some ls =>
      match last_nonblank ls with
      | Some (JsonLine data) =>
          match data with
          | VDict d =>
              match dict_get d "entry_hash" with
              | Some h => Ok h
              | None => Ok (VStr _GENESIS_HASH)
              end
          | _ => Raise (AttributeError
                          ("'" ++ type_name data ++ "' object has no attribute 'get'"))
          end
      | Some (GarbageLine _) => Ok (VStr _GENESIS_HASH)
      | Some BlankLine | None => Ok (VStr _GENESIS_HASH)
      end
  end.

(** [AuditLogger(log_dir)]: the directory is made sure of before the
    last hash is read. *)
Definition __init__ (log_dir : string) (fs : filesystem) : pyresult AuditLogger :=
  let log_file := os_path_join log_dir "audit.jsonl" in
  made <- os_makedirs log_dir fs ;;
  previous_hash <- _read_last_hash log_file fs ;;
  Ok {| log_dir := log_dir; _log_file := log_file; _previous_hash := previous_hash |}.

(** [AuditLogger.log]: the new entry, the logger and the files after the
    call.  ["|".join(parts)] raises [TypeError] when the stored previous
    hash is not a string. *)
Definition log (self : AuditLogger) (call : log_call) (fs : filesystem)
  : pyresult (AuditEntry * AuditLogger * filesystem) :=
  let target_ids :=
    match call_target_ids call with
    | Some ids => ids
    | None => []
    end in
  let details :=
    match call_details call with
    | Some d => d
    | None => []
    end in
  let now := call_now call in
  match _previous_hash self with
  | VStr previous_hash =>
      let entry_hash :=
        _compute_hash previous_hash (_normalize_timestamp now) (call_action call)
                      target_ids details in
      let entry :=
        {| AuditEntry_id := call_uuid4 call;
           AuditEntry_timestamp := now;
           AuditEntry_action := call_action call;
           AuditEntry_stage := call_stage call;
           AuditEntry_actor := call_actor call;
           AuditEntry_target_ids := target_ids;
           AuditEntry_input_hash := call_input_hash call;
           AuditEntry_output_hash := call_output_hash call;
           AuditEntry_previous_hash := previous_hash;
           AuditEntry_entry_hash := entry_hash;
           AuditEntry_details := details;
           AuditEntry_model_used := call_model_used call;
           AuditEntry_verdict := call_verdict call |} in
      let fs' := _append self entry fs in
      let self' :=
        {| log_dir := log_dir self;
           _log_file := _log_file self;
           _previous_hash := VStr entry_hash |} in
      Ok (entry, self', fs')
  | other =>
      Raise (TypeError ("sequence item 0: expected str instance, "
                        ++ type_name other ++ " found"))
  end.

(** The [for line in fh] loop of [load_from_file]. *)
Fixpoint load_lines (utcnow : datetime) (ls : list line) : list AuditEntry :=
  match ls with
  | [] => []
  | BlankLine :: rest => load_lines utcnow rest
  | GarbageLine _ :: rest => load_lines utcnow rest
  | JsonLine v :: rest =>
      match Pydantic.model_validate_json utcnow v with
      | Some entry => entry :: load_lines utcnow rest
      | None => load_lines utcnow rest
      end
  end.

(** [load_from_file(path)]; [utcnow] is the clock read by the
    [timestamp] default of a line that has no such key. *)
Definition load_from_file (self : AuditLogger) (path : option string)
           (fs : filesystem) (utcnow : datetime) : list AuditEntry :=
  let log_file := path_or path (_log_file self) in
  match fs log_file with
  | None => []
  | Some ls => load_lines utcnow ls
  end.

Definition genesis_error (first : AuditEntry) : string :=
  "First entry " ++ AuditEntry_id first ++ " does not reference genesis hash "
  ++ "(got '" ++ AuditEntry_previous_hash first ++ "')".

Definition hash_mismatch_error (entry : AuditEntry) (expected_hash : string) : string :=
  "Entry " ++ AuditEntry_id entry ++ " hash mismatch: "
  ++ "expected " ++ expected_hash ++ ", got " ++ AuditEntry_entry_hash entry.

Definition chain_broken_error (entry prior : AuditEntry) : string :=
  "Entry " ++ AuditEntry_id entry ++ " chain broken: previous_hash="
  ++ AuditEntry_previous_hash entry
  ++ " does not match prior entry hash=" ++ AuditEntry_entry_hash prior.

(** The hash [verify_chain] recomputes for an entry. *)
Definition expected_hash_of (entry : AuditEntry) : string :=
  _compute_hash (AuditEntry_previous_hash entry)
                (_normalize_timestamp (AuditEntry_timestamp entry))
                (AuditEntry_action entry)
                (AuditEntry_target_ids entry)
                (AuditEntry_details entry).

(** The [for i, entry in enumerate(entries)] loop; [prior] is
    [entries[i - 1]] once [i > 0]. *)
Fixpoint verify_entries (prior : option AuditEntry) (entries : list AuditEntry)
         (errors : list string) : list string :=
  match entries with
  | [] => errors
  | entry :: rest =>
      let expected_hash := expected_hash_of entry in
      let errors :=
        if negb (String.eqb (AuditEntry_entry_hash entry) expected_hash)
        then errors ++ [hash_mismatch_error entry expected_hash]
        else errors in
      let errors :=
        match prior with
        | Some p =>
            if negb (String.eqb (AuditEntry_previous_hash entry) (AuditEntry_entry_hash p))
            then errors ++ [chain_broken_error entry p]
            else errors
        | None => errors
        end in
      verify_entries (Some entry) rest errors
  end.

Definition verify_chain (entries : list AuditEntry) : bool * list string :=
  match entries with
  | [] => (true, [])
  | first :: _ =>
      let errors :=
        if negb (String.eqb (AuditEntry_previous_hash first) _GENESIS_HASH)
        then [genesis_error first]
        else [] in
      let errors := verify_entries None entries errors in
      (Nat.eqb (List.length errors) 0, errors)
  end.

End Logger.

(* ================================================================== *)
(** * [==], [str()], [repr()] and [x[:16]] on loaded JSON values        *)
(* ================================================================== *)

Module PyValue.

Fixpoint contains (ch : ascii) (s : string) : bool :=
  match s with
  | EmptyString => false
  | String ch' rest => Ascii.eqb ch ch' || contains ch rest
  end.

(** One character inside [repr(s)], [q] being the chosen quote. *)
Definition repr_char (q : ascii) (ch : ascii) : string :=
  let n := nat_of_ascii ch in
  if Nat.eqb n 92 then Json.backslash ++ Json.backslash
  else if Ascii.eqb ch q then Json.backslash ++ String q EmptyString
  else if Nat.eqb n 10 then Json.backslash ++ "n"
  else if Nat.eqb n 13 then Json.backslash ++ "r"
  else if Nat.eqb n 9 then Json.backslash ++ "t"
  else if Nat.ltb n 32 || Nat.eqb n 127 || (Nat.leb 128 n && Nat.leb n 160)
          || Nat.eqb n 173
  then Json.backslash ++ "x" ++ SHA256.hex 2 (Z.of_nat n)
  else String ch EmptyString.

Fixpoint repr_chars (q : ascii) (s : string) : string :=
  match s with
  | EmptyString => EmptyString
  | String ch rest => repr_char q ch ++ repr_chars q rest
  end.

(** [repr(s)]: single quotes unless [s] has one and no double quote. *)
Definition repr_str (s : string) : string :=
  let q := if contains (ascii_of_nat 39) s && negb (contains (ascii_of_nat 34) s)
           then ascii_of_nat 34 else ascii_of_nat 39 in
  String q (repr_chars q s ++ String q EmptyString).

Fixpoint repr (v : value) : string :=
  match v with
  | VNone => "None"
  | VBool true => "True"
  | VBool false => "False"
  | VInt n => Json.str_of_int n
  | VStr s => repr_str s
  | VList l => "[" ++ String.concat ", " (map repr l) ++ "]"
  | VDict d =>
      "{" ++ String.concat ", "
               (map (fun kv => (repr_str (fst kv) ++ ": " ++ repr (snd kv))%string) d)
          ++ "}"
  end.

(** [str(v)], what an f-string writes. *)
Definition str (v : value) : string :=
  match v with
  | VStr s => s
  | _ => repr v
  end.

(** [a == b]: [True == 1], lists by position, dicts by key. *)
Fixpoint eqb (a b : value) {struct a} : bool :=
  match a, b with
  | VNone, VNone => true
  | VBool x, VBool y => Bool.eqb x y
  | VBool x, VInt n => Z.eqb n (if x then 1 else 0)
  | VInt n, VBool x => Z.eqb n (if x then 1 else 0)
  | VInt m, VInt n => Z.eqb m n
  | VStr s, VStr t => String.eqb s t
  | VList l1, VList l2 =>
      (fix all2 (xs ys : list value) {struct xs} : bool :=
         match xs, ys with
         | [], [] => true
         | x :: xs', y :: ys' => eqb x y && all2 xs' ys'
         | _, _ => false
         end) l1 l2
  | VDict d1, VDict d2 =>
      Nat.eqb (List.length d1) (List.length d2)
      && (fix items (d : list (string * value)) : bool :=
            match d with
            | [] => true
            | (k, v) :: rest =>
                match dict_get d2 k with
                | Some w => eqb v w
                | None => false
                end && items rest
            end) d1
  | _, _ => false
  end.

(** [v[:16]]; slicing a dict is a [TypeError] up to CPython 3.11 and a
    [KeyError] from 3.12 on, an exception either way. *)
Definition slice16 (v : value) : pyresult value :=
  match v with
  | VStr s => Ok (VStr (take 16 s))
  | VList l => Ok (VList (firstn 16 l))
  | VDict _ => Raise (TypeError "unhashable type: 'slice'")
  | _ => Raise (TypeError ("'" ++ type_name v ++ "' object is not subscriptable"))
  end.

(** [obj.get(key, default)] *)
Definition get_default (obj : value) (key : string) (default : value) : pyresult value :=
  match obj with
  | VDict d =>
      match dict_get d key with
      | Some w => Ok w
      | None => Ok default
      end
  | _ => Raise (AttributeError ("'" ++ type_name obj ++ "' object has no attribute 'get'"))
  end.

(** ["|".join(parts)], the items after position [pos] being strings. *)
Fixpoint join_checked (pos : nat) (parts : list value) : pyresult (list string) :=
  match parts with
  | [] => Ok []
  | VStr s :: rest =>
      ss <- join_checked (S pos) rest ;;
      Ok (s :: ss)
  | other :: _ =>
      Raise (TypeError ("sequence item " ++ Json.str_of_int (Z.of_nat pos)
                        ++ ": expected str instance, " ++ type_name other ++ " found"))
  end.

End PyValue.

(* ================================================================== *)
(** * audit/chain.py                                                    *)
(* ================================================================== *)

Module Chain.

Definition _GENESIS_HASH : string :=
  "0000000000000000000000000000000000000000000000000000000000000000".

(** [AuditChainVerifier._compute_hash], on the raw values of a line.
    The source passes [default=str] to [json.dumps] here as the logger
    does; the values come from [json.loads], which yields nothing the
    encoder would call [default] for, so the text is that of
    [json.dumps(details, sort_keys=True)]. *)
Definition _compute_hash (previous_hash timestamp_iso action_value target_ids details : value)
  : pyresult string :=
  let parts :=
    [ previous_hash;
      timestamp_iso;
      action_value;
      VStr (Json.dumps target_ids);
      VStr (Json.dumps details) ] in
  strs <- PyValue.join_checked 0 parts ;;
  Ok (SHA256.hexdigest (String.concat "|" strs)).

Definition where_ (entry_id : value) (idx : nat) : string :=
  "Entry " ++ PyValue.str entry_id ++ " (index " ++ Json.str_of_int (Z.of_nat idx) ++ ")".

Definition previous_hash_error (entry_id : value) (idx : nat) (expected got : value)
  : string :=
  where_ entry_id idx ++ ": previous_hash mismatch. "
  ++ "Expected '" ++ PyValue.str expected ++ "...', "
  ++ "got '" ++ PyValue.str got ++ "...'.".

Definition entry_hash_error (entry_id : value) (idx : nat) (computed : string)
           (stored : value) : string :=
  where_ entry_id idx ++ ": entry_hash mismatch. "
  ++ "Computed '" ++ computed ++ "...', "
  ++ "stored '" ++ PyValue.str stored ++ "...'.".

Definition recompute_error (entry_id : value) (idx : nat) (exc : exn) : string :=
  where_ entry_id idx ++ ": failed to recompute hash — " ++ exn_text exc.

(** The body of the [try] block for one entry: the errors it adds. *)
Definition recompute (entry entry_id : value) (idx : nat) (stored_previous stored_hash : value)
  : pyresult (list string) :=
  action_value <- PyValue.get_default entry "action" (VStr "") ;;
  timestamp_str <- PyValue.get_default entry "timestamp" (VStr "") ;;
  target_ids <- PyValue.get_default entry "target_ids" (VList []) ;;
  details <- PyValue.get_default entry "details" (VDict []) ;;
  computed <- _compute_hash stored_previous timestamp_str action_value target_ids details ;;
  if negb (PyValue.eqb (VStr computed) stored_hash) then
    stored16 <- PyValue.slice16 stored_hash ;;
    Ok [entry_hash_error entry_id idx (take 16 computed) stored16]
  else Ok [].

(** One iteration of [for idx, entry in enumerate(entries)]: the errors
    it adds and the next [expected_previous]. *)
Definition check_entry (idx : nat) (expected_previous entry : value)
  : pyresult (list string * value) :=
  entry_id <- PyValue.get_default entry "id"
                (VStr ("<index " ++ Json.str_of_int (Z.of_nat idx) ++ ">")) ;;
  stored_previous <- PyValue.get_default entry "previous_hash" (VStr "") ;;
  stored_hash <- PyValue.get_default entry "entry_hash" (VStr "") ;;
  linkage <-
    (if negb (PyValue.eqb stored_previous expected_previous) then
       expected16 <- PyValue.slice16 expected_previous ;;
       got16 <- PyValue.slice16 stored_previous ;;
       Ok [previous_hash_error entry_id idx expected16 got16]
     else Ok []) ;;
  let recomputed :=
    match recompute entry entry_id idx stored_previous stored_hash with
    | Ok errs => errs
    | Raise exc => [recompute_error entry_id idx exc]
    end in
  Ok (linkage ++ recomputed, stored_hash).

Fixpoint check_entries (idx : nat) (expected_previous : value) (entries : list value)
         (errors : list string) : pyresult (list string) :=
  match entries with
  | [] => Ok errors
  | entry :: rest =>
      r <- check_entry idx expected_previous entry ;;
      check_entries (S idx) (snd r) rest (errors ++ fst r)
  end.

(** The reading loop: the parsed lines and the decode errors. *)
Fixpoint read_lines (line_no : nat) (ls : list line) : list value * list string :=
  match ls with
  | [] => ([], [])
  | BlankLine :: rest => read_lines (S line_no) rest
  | JsonLine v :: rest =>
      let r := read_lines (S line_no) rest in
      (v :: fst r, snd r)
  | GarbageLine why :: rest =>
      let r := read_lines (S line_no) rest in
      (fst r,
       ("Line " ++ Json.str_of_int (Z.of_nat line_no) ++ ": invalid JSON — " ++ why)%string
         :: snd r)
  end.

(** [AuditChainVerifier.verify(log_dir)] *)
Definition verify (log_dir : string) (fs : filesystem) : pyresult (bool * list string) :=
  let log_file := os_path_join log_dir "audit.jsonl" in
  match fs log_file with
  | None => Ok (false, [("Audit log file not found: " ++ log_file)%string])
  | Some ls =>
      let '(entries, errors) := read_lines 1 ls in
      match entries, errors with
      | [], [] => Ok (true, [])
      | _, _ :: _ => Ok (false, errors)
      | _, [] =>
          errors <- check_entries 0 (VStr _GENESIS_HASH) entries [] ;;
          Ok (Nat.eqb (List.length errors) 0, errors)
      end
  end.

End Chain.
(* ================================================================== *)
(** * Python runtime: truth values, [len], [str.lower], [in], [any]     *)
(* ================================================================== *)

(** The line feed of a string literal's [\n]. *)
Definition nl : string := String (ascii_of_nat 10) EmptyString.

(** [f"{n:02d}"] *)
Definition format_02d (n : Z) : string :=
  let s := Json.str_of_int n in
  if (String.length s <? 2)%nat then ("0" ++ s)%string else s.

(** [bool(v)]: [None], [False], 0 and the empty string, list and dict
    are false. *)
Definition truthy (v : value) : bool :=
  match v with
  | VNone => false
  | VBool b => b
  | VInt n => negb (n =? 0)%Z
  | VStr s => negb (String.eqb s "")
  | VList l => negb (is_empty l)
  | VDict d => negb (is_empty d)
  end.

(** The truth value of the result of an expression. *)
Definition truth_of (m : pyresult value) : pyresult bool :=
  v <- m ;; Ok (truthy v).

(** [len(v)] *)
Definition py_len (v : value) : pyresult Z :=
  match v with
  | VStr s => Ok (Z.of_nat (String.length s))
  | VList l => Ok (Z.of_nat (List.length l))
  | VDict d => Ok (Z.of_nat (List.length d))
  | _ => Raise (TypeError ("object of type '" ++ type_name v ++ "' has no len()")%string)
  end.

(** [ch.lower()] for a code point below 256: the ASCII capitals and the
    Latin-1 capitals (U+00C0 to U+00DE but the multiplication sign). *)
Definition lower_char (ch : ascii) : ascii :=
  let n := nat_of_ascii ch in
  if (Nat.leb 65 n && Nat.leb n 90)
     || (Nat.leb 192 n && Nat.leb n 222 && negb (Nat.eqb n 215))
  then ascii_of_nat (n + 32)
  else ch.

Fixpoint lower (s : string) : string :=
  match s with
  | EmptyString => EmptyString
  | String ch rest => String (lower_char ch) (lower rest)
  end.

(** [v.lower()]: a method of [str] only. *)
Definition py_lower (v : value) : pyresult string :=
  match v with
  | VStr s => Ok (lower s)
  | _ => Raise (AttributeError ("'" ++ type_name v ++ "' object has no attribute 'lower'")%string)
  end.

(** [needle in s] for two strings. *)
Fixpoint contains_sub (needle s : string) : bool :=
  startswith s needle
  || match s with
     | EmptyString => false
     | String _ rest => contains_sub needle rest
     end.

(** The items [for x in v] visits: the elements of a list, the characters
    of a string, the keys of a dict. *)
Definition py_iter (v : value) : pyresult (list value) :=
  match v with
  | VList l => Ok l
  | VStr s => Ok (map (fun ch => VStr (String ch EmptyString)) (list_ascii_of_string s))
  | VDict d => Ok (map (fun kv => VStr (fst kv)) d)
  | _ => Raise (TypeError ("'" ++ type_name v ++ "' object is not iterable")%string)
  end.

(** [any(test(x) for x in items)]: stops at the first item that tests
    true, and at the first test that raises. *)
Fixpoint py_any (test : value -> pyresult bool) (items : list value) : pyresult bool :=
  match items with
  | [] => Ok false
  | x :: rest =>
      b <- test x ;;
      if b then Ok true else py_any test rest
  end.

(* ================================================================== *)
(** * rules/eu_ai_act_v1: the native predicates, the rules, the registry *)
(* ================================================================== *)

Module eu_ai_act_v1.

(* ------------------------------------------------------------------ *)
(** ** rules/eu_ai_act_v1/art09.py                                      *)

Module art09.

Definition _REG_ID : string := "eu-ai-act-v1".
Definition _DOC_VERSION : string := "2024-1689-oj".
Definition _ART : Z := 9.

(** [f'{_REG_ID}/art{_ART:02d}/para{para}'], with [/sub-{sub}] when [sub] is
    neither [None] nor empty. *)
Definition _cid (para : Z) (sub : option string) : string :=
  let base :=
    (_REG_ID ++ "/art" ++ format_02d _ART ++ "/para" ++ Json.str_of_int para)%string in
  match sub with
  | Some (String c s) => (base ++ "/sub-" ++ String c s)%string
  | _ => base
  end.

Definition _cite (para : Z) (sub : option string) (quote : string) : Citation :=
  {| Citation_clause_id := _cid para sub;
     Citation_article_ref := ("Article " ++ Json.str_of_int _ART)%string;
     Citation_paragraph_ref := Some (Json.str_of_int para);
     Citation_subsection_ref := sub;
     Citation_page_number := None;
     Citation_exact_quote := quote |}.

Definition _eval_rms_established : predicate := fun profile =>
  c1 <- truth_of (PyValue.get_default profile "is_high_risk" (VBool false)) ;;
  if negb c1 then Ok "not_applicable" else
  c2 <- truth_of (PyValue.get_default profile "risk_management_system_established" (VBool false)) ;;
  Ok (if c2 then "pass" else "fail").

Definition _eval_rms_continuous : predicate := fun profile =>
  c1 <- truth_of (PyValue.get_default profile "is_high_risk" (VBool false)) ;;
  if negb c1 then Ok "not_applicable" else
  c2 <- truth_of (PyValue.get_default profile "risk_management_continuous" (VBool false)) ;;
  Ok (if c2 then "pass" else "fail").

Definition _eval_risk_identification : predicate := fun profile =>
  c1 <- truth_of (PyValue.get_default profile "is_high_risk" (VBool false)) ;;
  if negb c1 then Ok "not_applicable" else
  residual <- PyValue.get_default profile "residual_risks_documented" (VBool false) ;;
  measures <- PyValue.get_default profile "risk_mitigation_measures" (VList []) ;;
  c4 <- (b2 <- Ok (truthy residual) ;;
     if b2 then (n3 <- py_len measures ;; Ok (n3 >? 0)%Z) else Ok false) ;;
  Ok (if c4 then "pass" else "fail").

Definition _eval_misuse_risks : predicate := fun profile =>
  c1 <- truth_of (PyValue.get_default profile "is_high_risk" (VBool false)) ;;
  if negb c1 then Ok "not_applicable" else
  extra <- PyValue.get_default profile "extra" (VDict []) ;;
  c2 <- truth_of (PyValue.get_default extra "foreseeable_misuse_documented" (VBool false)) ;;
  Ok (if c2 then "pass" else "fail").

Definition _eval_risk_measures : predicate := fun profile =>
  c1 <- truth_of (PyValue.get_default profile "is_high_risk" (VBool false)) ;;
  if negb c1 then Ok "not_applicable" else
  measures <- PyValue.get_default profile "risk_mitigation_measures" (VList []) ;;
  c3 <- (n2 <- py_len measures ;; Ok (n2 >=? 2)%Z) ;;
  Ok (if c3 then "pass" else "fail").

Definition _eval_measures_balance : predicate := fun profile =>
  c1 <- truth_of (PyValue.get_default profile "is_high_risk" (VBool false)) ;;
  if negb c1 then Ok "not_applicable" else
  extra <- PyValue.get_default profile "extra" (VDict []) ;;
  c2 <- truth_of (PyValue.get_default extra "risk_measures_interaction_assessed" (VBool false)) ;;
  Ok (if c2 then "pass" else "fail").

Definition _eval_testing_documented : predicate := fun profile =>
  c1 <- truth_of (PyValue.get_default profile "is_high_risk" (VBool false)) ;;
  if negb c1 then Ok "not_applicable" else
  c2 <- truth_of (PyValue.get_default profile "testing_procedures_documented" (VBool false)) ;;
  Ok (if c2 then "pass" else "fail").

Definition _eval_testing_metrics : predicate := fun profile =>
  c1 <- truth_of (PyValue.get_default profile "is_high_risk" (VBool false)) ;;
  if negb c1 then Ok "not_applicable" else
  extra <- PyValue.get_default profile "extra" (VDict []) ;;
  c2 <- truth_of (PyValue.get_default extra "testing_metrics_defined" (VBool false)) ;;
  Ok (if c2 then "pass" else "fail").

Definition RULES : list Rule :=
[
  {| Rule_id := "RULE-EU-AI-ACT-009-01-001";
     Rule_requirement_id := "REQ-EU-AI-ACT-009-01-001";
     Rule_rule_type := AUTOMATED;
     Rule_title := "Risk management system must be established";
     Rule_description :=
       "Verify that a risk management system has been established, implemented, documented and maintained.";
     Rule_inputs_needed := ["is_high_risk"; "risk_management_system_established"];
     Rule_evaluation_logic :=
       ("if not is_high_risk: result='not_applicable'" ++ nl ++ "elif risk_management_system_established: result='pass'" ++ nl ++ "else: result='fail'")%string;
     Rule_severity := CRITICAL;
     Rule_remediation :=
       "Establish a formal risk management system covering the full lifecycle of the AI system.";
     Rule_test_cases :=
       [ {| TestCase_id := "TC-009-01-P";
           TestCase_description := "High-risk with RMS";
           TestCase_input_data := [("is_high_risk", VBool true); ("risk_management_system_established", VBool true)];
           TestCase_expected_result := "pass" |};
         {| TestCase_id := "TC-009-01-F";
           TestCase_description := "High-risk without RMS";
           TestCase_input_data := [("is_high_risk", VBool true); ("risk_management_system_established", VBool false)];
           TestCase_expected_result := "fail" |};
         {| TestCase_id := "TC-009-01-NA";
           TestCase_description := "Not high-risk";
           TestCase_input_data := [("is_high_risk", VBool false)];
           TestCase_expected_result := "not_applicable" |} ];
     Rule_citations :=
       [ _cite 1 None "A risk management system shall be established, implemented, documented and maintained" ] |};
  {| Rule_id := "RULE-EU-AI-ACT-009-02-001";
     Rule_requirement_id := "REQ-EU-AI-ACT-009-02-001";
     Rule_rule_type := AUTOMATED;
     Rule_title := "Risk management must be continuous and iterative";
     Rule_description :=
       "Verify that the risk management system is a continuous iterative process throughout the AI system lifecycle.";
     Rule_inputs_needed := ["is_high_risk"; "risk_management_continuous"];
     Rule_evaluation_logic :=
       ("if not is_high_risk: result='not_applicable'" ++ nl ++ "elif risk_management_continuous: result='pass'" ++ nl ++ "else: result='fail'")%string;
     Rule_severity := HIGH;
     Rule_remediation :=
       "Implement continuous risk monitoring with periodic reviews and updates throughout the system lifecycle.";
     Rule_test_cases :=
       [ {| TestCase_id := "TC-009-02-P";
           TestCase_description := "Continuous RMS";
           TestCase_input_data := [("is_high_risk", VBool true); ("risk_management_continuous", VBool true)];
           TestCase_expected_result := "pass" |};
         {| TestCase_id := "TC-009-02-F";
           TestCase_description := "Non-continuous RMS";
           TestCase_input_data := [("is_high_risk", VBool true); ("risk_management_continuous", VBool false)];
           TestCase_expected_result := "fail" |} ];
     Rule_citations :=
       [ _cite 2 None "continuous iterative process planned and run throughout the entire lifecycle" ] |};
  {| Rule_id := "RULE-EU-AI-ACT-009-02A-001";
     Rule_requirement_id := "REQ-EU-AI-ACT-009-02A-001";
     Rule_rule_type := AUTOMATED;
     Rule_title := "Known and foreseeable risks must be identified";
     Rule_description :=
       "Verify that the provider has identified and analyzed known and reasonably foreseeable risks to health, safety or fundamental rights.";
     Rule_inputs_needed := ["is_high_risk"; "residual_risks_documented"; "risk_mitigation_measures"];
     Rule_evaluation_logic :=
       ("if not is_high_risk: result='not_applicable'" ++ nl ++ "elif residual_risks_documented and len(risk_mitigation_measures)>0: result='pass'" ++ nl ++ "else: result='fail'")%string;
     Rule_severity := HIGH;
     Rule_remediation :=
       "Document all known and reasonably foreseeable risks with a formal risk identification and analysis process.";
     Rule_test_cases :=
       [ {| TestCase_id := "TC-009-2A-P";
           TestCase_description := "Risks documented";
           TestCase_input_data := [("is_high_risk", VBool true); ("residual_risks_documented", VBool true); ("risk_mitigation_measures", VList [VStr "m1"])];
           TestCase_expected_result := "pass" |};
         {| TestCase_id := "TC-009-2A-F";
           TestCase_description := "Risks not documented";
           TestCase_input_data := [("is_high_risk", VBool true); ("residual_risks_documented", VBool false); ("risk_mitigation_measures", VList [])];
           TestCase_expected_result := "fail" |} ];
     Rule_citations :=
       [ _cite 2 (Some "a") "identification and analysis of the known and reasonably foreseeable risks" ] |};
  {| Rule_id := "RULE-EU-AI-ACT-009-02B-001";
     Rule_requirement_id := "REQ-EU-AI-ACT-009-02B-001";
     Rule_rule_type := SEMI_AUTOMATED;
     Rule_title := "Foreseeable misuse risks must be evaluated";
     Rule_description :=
       "Verify that risks from foreseeable misuse have been estimated and evaluated.";
     Rule_inputs_needed := ["is_high_risk"; "extra.foreseeable_misuse_documented"];
     Rule_evaluation_logic :=
       ("if not is_high_risk: result='not_applicable'" ++ nl ++ "elif extra.get('foreseeable_misuse_documented'): result='pass'" ++ nl ++ "else: result='fail'")%string;
     Rule_severity := HIGH;
     Rule_remediation :=
       "Conduct a misuse scenario analysis and document risk estimates for each foreseeable misuse case.";
     Rule_test_cases :=
       [ {| TestCase_id := "TC-009-2B-P";
           TestCase_description := "Misuse documented";
           TestCase_input_data := [("is_high_risk", VBool true); ("extra", VDict [("foreseeable_misuse_documented", VBool true)])];
           TestCase_expected_result := "pass" |};
         {| TestCase_id := "TC-009-2B-F";
           TestCase_description := "Misuse not documented";
           TestCase_input_data := [("is_high_risk", VBool true); ("extra", VDict [])];
           TestCase_expected_result := "fail" |} ];
     Rule_citations :=
       [ _cite 2 (Some "b") "estimation and evaluation of the risks that may emerge" ] |};
  {| Rule_id := "RULE-EU-AI-ACT-009-02C-001";
     Rule_requirement_id := "REQ-EU-AI-ACT-009-02C-001";
     Rule_rule_type := AUTOMATED;
     Rule_title := "Risk management measures must be adopted";
     Rule_description :=
       "Verify that appropriate and targeted risk management measures have been adopted.";
     Rule_inputs_needed := ["is_high_risk"; "risk_mitigation_measures"];
     Rule_evaluation_logic :=
       ("if not is_high_risk: result='not_applicable'" ++ nl ++ "elif len(risk_mitigation_measures)>=2: result='pass'" ++ nl ++ "else: result='fail'")%string;
     Rule_severity := HIGH;
     Rule_remediation :=
       "Define and implement at least two risk management measures that address the identified risks.";
     Rule_test_cases :=
       [ {| TestCase_id := "TC-009-2C-P";
           TestCase_description := "Multiple measures";
           TestCase_input_data := [("is_high_risk", VBool true); ("risk_mitigation_measures", VList [VStr "m1"; VStr "m2"])];
           TestCase_expected_result := "pass" |};
         {| TestCase_id := "TC-009-2C-F";
           TestCase_description := "Insufficient measures";
           TestCase_input_data := [("is_high_risk", VBool true); ("risk_mitigation_measures", VList [VStr "m1"])];
           TestCase_expected_result := "fail" |} ];
     Rule_citations :=
       [ _cite 2 (Some "c") "adoption of appropriate and targeted risk management measures" ] |};
  {| Rule_id := "RULE-EU-AI-ACT-009-03-001";
     Rule_requirement_id := "REQ-EU-AI-ACT-009-03-001";
     Rule_rule_type := SEMI_AUTOMATED;
     Rule_title := "Risk measures interaction must be assessed";
     Rule_description :=
       "Verify that risk management measures consider interaction effects and achieve appropriate balance.";
     Rule_inputs_needed := ["is_high_risk"; "extra.risk_measures_interaction_assessed"];
     Rule_evaluation_logic :=
       ("if not is_high_risk: result='not_applicable'" ++ nl ++ "elif extra.get('risk_measures_interaction_assessed'): result='pass'" ++ nl ++ "else: result='fail'")%string;
     Rule_severity := MEDIUM;
     Rule_remediation :=
       "Document how risk management measures interact with each other and demonstrate an appropriate balance.";
     Rule_test_cases :=
       [ {| TestCase_id := "TC-009-03-P";
           TestCase_description := "Interaction assessed";
           TestCase_input_data := [("is_high_risk", VBool true); ("extra", VDict [("risk_measures_interaction_assessed", VBool true)])];
           TestCase_expected_result := "pass" |};
         {| TestCase_id := "TC-009-03-F";
           TestCase_description := "Interaction not assessed";
           TestCase_input_data := [("is_high_risk", VBool true); ("extra", VDict [])];
           TestCase_expected_result := "fail" |} ];
     Rule_citations :=
       [ _cite 3 None "give due consideration to the effects and possible interaction of the measures" ] |};
  {| Rule_id := "RULE-EU-AI-ACT-009-05-001";
     Rule_requirement_id := "REQ-EU-AI-ACT-009-05-001";
     Rule_rule_type := AUTOMATED;
     Rule_title := "System testing procedures must be documented";
     Rule_description :=
       "Verify that the system has been tested with documented procedures to identify risk management measures.";
     Rule_inputs_needed := ["is_high_risk"; "testing_procedures_documented"];
     Rule_evaluation_logic :=
       ("if not is_high_risk: result='not_applicable'" ++ nl ++ "elif testing_procedures_documented: result='pass'" ++ nl ++ "else: result='fail'")%string;
     Rule_severity := HIGH;
     Rule_remediation :=
       "Implement and document testing procedures to identify the most appropriate risk management measures.";
     Rule_test_cases :=
       [ {| TestCase_id := "TC-009-05-P";
           TestCase_description := "Testing documented";
           TestCase_input_data := [("is_high_risk", VBool true); ("testing_procedures_documented", VBool true)];
           TestCase_expected_result := "pass" |};
         {| TestCase_id := "TC-009-05-F";
           TestCase_description := "Testing not documented";
           TestCase_input_data := [("is_high_risk", VBool true); ("testing_procedures_documented", VBool false)];
           TestCase_expected_result := "fail" |} ];
     Rule_citations :=
       [ _cite 5 None "High-risk AI systems shall be tested" ] |};
  {| Rule_id := "RULE-EU-AI-ACT-009-06-001";
     Rule_requirement_id := "REQ-EU-AI-ACT-009-06-001";
     Rule_rule_type := SEMI_AUTOMATED;
     Rule_title := "Testing must use defined metrics and thresholds";
     Rule_description :=
       "Verify that testing is carried out against prior defined metrics and probabilistic thresholds.";
     Rule_inputs_needed := ["is_high_risk"; "extra.testing_metrics_defined"];
     Rule_evaluation_logic :=
       ("if not is_high_risk: result='not_applicable'" ++ nl ++ "elif extra.get('testing_metrics_defined'): result='pass'" ++ nl ++ "else: result='fail'")%string;
     Rule_severity := MEDIUM;
     Rule_remediation :=
       "Define explicit metrics and probabilistic thresholds for all testing procedures.";
     Rule_test_cases :=
       [ {| TestCase_id := "TC-009-06-P";
           TestCase_description := "Metrics defined";
           TestCase_input_data := [("is_high_risk", VBool true); ("extra", VDict [("testing_metrics_defined", VBool true)])];
           TestCase_expected_result := "pass" |};
         {| TestCase_id := "TC-009-06-F";
           TestCase_description := "Metrics not defined";
           TestCase_input_data := [("is_high_risk", VBool true); ("extra", VDict [])];
           TestCase_expected_result := "fail" |} ];
     Rule_citations :=
       [ _cite 6 None "Testing shall be carried out against prior defined metrics and probabilistic thresholds" ] |}
].

Definition EVALUATION_FUNCTIONS : list (string * predicate) :=
  [
    ("RULE-EU-AI-ACT-009-01-001", _eval_rms_established);
    ("RULE-EU-AI-ACT-009-02-001", _eval_rms_continuous);
    ("RULE-EU-AI-ACT-009-02A-001", _eval_risk_identification);
    ("RULE-EU-AI-ACT-009-02B-001", _eval_misuse_risks);
    ("RULE-EU-AI-ACT-009-02C-001", _eval_risk_measures);
    ("RULE-EU-AI-ACT-009-03-001", _eval_measures_balance);
    ("RULE-EU-AI-ACT-009-05-001", _eval_testing_documented);
    ("RULE-EU-AI-ACT-009-06-001", _eval_testing_metrics)
  ].

End art09.

(* ------------------------------------------------------------------ *)
(** ** rules/eu_ai_act_v1/art10.py                                      *)

Module art10.

Definition _REG_ID : string := "eu-ai-act-v1".
Definition _DOC_VERSION : string := "2024-1689-oj".
Definition _ART : Z := 10.

(** [f'{_REG_ID}/art{_ART:02d}/para{para}'], with [/sub-{sub}] when [sub] is
    neither [None] nor empty. *)
Definition _cid (para : Z) (sub : option string) : string :=
  let base :=
    (_REG_ID ++ "/art" ++ format_02d _ART ++ "/para" ++ Json.str_of_int para)%string in
  match sub with
  | Some (String c s) => (base ++ "/sub-" ++ String c s)%string
  | _ => base
  end.

Definition _cite (para : Z) (sub : option string) (quote : string) : Citation :=
  {| Citation_clause_id := _cid para sub;
     Citation_article_ref := ("Article " ++ Json.str_of_int _ART)%string;
     Citation_paragraph_ref := Some (Json.str_of_int para);
     Citation_subsection_ref := sub;
     Citation_page_number := None;
     Citation_exact_quote := quote |}.

Definition _eval_data_governance : predicate := fun profile =>
  c1 <- truth_of (PyValue.get_default profile "is_high_risk" (VBool false)) ;;
  if negb c1 then Ok "not_applicable" else
  c2 <- truth_of (PyValue.get_default profile "uses_training_data" (VBool false)) ;;
  if negb c2 then Ok "not_applicable" else
  c3 <- truth_of (PyValue.get_default profile "data_governance_practices_documented" (VBool false)) ;;
  Ok (if c3 then "pass" else "fail").

Definition _eval_data_collection_documented : predicate := fun profile =>
  c1 <- truth_of (PyValue.get_default profile "is_high_risk" (VBool false)) ;;
  if negb c1 then Ok "not_applicable" else
  c2 <- truth_of (PyValue.get_default profile "uses_training_data" (VBool false)) ;;
  if negb c2 then Ok "not_applicable" else
  c3 <- truth_of (PyValue.get_default profile "data_collection_process_documented" (VBool false)) ;;
  Ok (if c3 then "pass" else "fail").

Definition _eval_data_preprocessing : predicate := fun profile =>
  c1 <- truth_of (PyValue.get_default profile "is_high_risk" (VBool false)) ;;
  if negb c1 then Ok "not_applicable" else
  c2 <- truth_of (PyValue.get_default profile "uses_training_data" (VBool false)) ;;
  if negb c2 then Ok "not_applicable" else
  extra <- PyValue.get_default profile "extra" (VDict []) ;;
  c3 <- truth_of (PyValue.get_default extra "data_preprocessing_documented" (VBool false)) ;;
  Ok (if c3 then "pass" else "fail").

Definition _eval_data_relevance : predicate := fun profile =>
  c1 <- truth_of (PyValue.get_default profile "is_high_risk" (VBool false)) ;;
  if negb c1 then Ok "not_applicable" else
  c2 <- truth_of (PyValue.get_default profile "uses_training_data" (VBool false)) ;;
  if negb c2 then Ok "not_applicable" else
  c3 <- truth_of (PyValue.get_default profile "training_data_relevance_documented" (VBool false)) ;;
  Ok (if c3 then "pass" else "fail").

Definition _eval_data_representativeness : predicate := fun profile =>
  c1 <- truth_of (PyValue.get_default profile "is_high_risk" (VBool false)) ;;
  if negb c1 then Ok "not_applicable" else
  c2 <- truth_of (PyValue.get_default profile "uses_training_data" (VBool false)) ;;
  if negb c2 then Ok "not_applicable" else
  extra <- PyValue.get_default profile "extra" (VDict []) ;;
  c3 <- truth_of (PyValue.get_default extra "data_representativeness_documented" (VBool false)) ;;
  Ok (if c3 then "pass" else "fail").

Definition _eval_bias_examination : predicate := fun profile =>
  c1 <- truth_of (PyValue.get_default profile "is_high_risk" (VBool false)) ;;
  if negb c1 then Ok "not_applicable" else
  c2 <- truth_of (PyValue.get_default profile "uses_training_data" (VBool false)) ;;
  if negb c2 then Ok "not_applicable" else
  bias <- py_get profile "bias_examination_report" ;;
  if negb (truthy bias) then Ok "fail" else
  covers_all <- (if isinstance_dict bias
     then (b3 <- truth_of (PyValue.get_default bias "covers_health_safety" (VBool false)) ;;
           if b3 then (b4 <- truth_of (PyValue.get_default bias "covers_fundamental_rights" (VBool false)) ;;
             if b4 then truth_of (PyValue.get_default bias "covers_prohibited_discrimination" (VBool false)) else Ok false) else Ok false)
     else Ok false) ;;
  Ok (if covers_all then "pass" else "fail").

Definition _eval_special_data_safeguards : predicate := fun profile =>
  c1 <- truth_of (PyValue.get_default profile "is_high_risk" (VBool false)) ;;
  if negb c1 then Ok "not_applicable" else
  extra <- PyValue.get_default profile "extra" (VDict []) ;;
  c2 <- truth_of (PyValue.get_default extra "processes_special_category_data" (VBool false)) ;;
  if negb c2 then Ok "not_applicable" else
  c3 <- truth_of (PyValue.get_default extra "special_data_safeguards_in_place" (VBool false)) ;;
  Ok (if c3 then "pass" else "fail").

Definition _eval_dataset_quality : predicate := fun profile =>
  c1 <- truth_of (PyValue.get_default profile "is_high_risk" (VBool false)) ;;
  if negb c1 then Ok "not_applicable" else
  c2 <- truth_of (PyValue.get_default profile "uses_training_data" (VBool false)) ;;
  if negb c2 then Ok "not_applicable" else
  datasets <- PyValue.get_default profile "dataset_names" (VList []) ;;
  c4 <- (n3 <- py_len datasets ;; Ok (n3 >? 0)%Z) ;;
  Ok (if c4 then "pass" else "fail").

Definition RULES : list Rule :=
[
  {| Rule_id := "RULE-EU-AI-ACT-010-02-001";
     Rule_requirement_id := "REQ-EU-AI-ACT-010-02-001";
     Rule_rule_type := AUTOMATED;
     Rule_title := "Data governance practices must be documented";
     Rule_description :=
       "Verify that data governance and management practices are documented and appropriate for the intended purpose.";
     Rule_inputs_needed := ["is_high_risk"; "uses_training_data"; "data_governance_practices_documented"];
     Rule_evaluation_logic :=
       ("if not is_high_risk or not uses_training_data: result='not_applicable'" ++ nl ++ "elif data_governance_practices_documented: result='pass'" ++ nl ++ "else: result='fail'")%string;
     Rule_severity := HIGH;
     Rule_remediation :=
       "Document data governance and management practices covering the full data lifecycle.";
     Rule_test_cases :=
       [ {| TestCase_id := "TC-010-02-P";
           TestCase_description := "Governance documented";
           TestCase_input_data := [("is_high_risk", VBool true); ("uses_training_data", VBool true); ("data_governance_practices_documented", VBool true)];
           TestCase_expected_result := "pass" |};
         {| TestCase_id := "TC-010-02-F";
           TestCase_description := "Governance missing";
           TestCase_input_data := [("is_high_risk", VBool true); ("uses_training_data", VBool true); ("data_governance_practices_documented", VBool false)];
           TestCase_expected_result := "fail" |} ];
     Rule_citations :=
       [ _cite 2 None "subject to data governance and management practices" ] |};
  {| Rule_id := "RULE-EU-AI-ACT-010-02A-001";
     Rule_requirement_id := "REQ-EU-AI-ACT-010-02A-001";
     Rule_rule_type := AUTOMATED;
     Rule_title := "Data collection process must be documented";
     Rule_description :=
       "Verify that data collection processes and data origin are documented.";
     Rule_inputs_needed := ["is_high_risk"; "uses_training_data"; "data_collection_process_documented"];
     Rule_evaluation_logic :=
       ("if not is_high_risk or not uses_training_data: result='not_applicable'" ++ nl ++ "elif data_collection_process_documented: result='pass'" ++ nl ++ "else: result='fail'")%string;
     Rule_severity := MEDIUM;
     Rule_remediation :=
       "Document data collection processes including sources, methods, and original purpose.";
     Rule_test_cases :=
       [ {| TestCase_id := "TC-010-2A-P";
           TestCase_description := "Collection documented";
           TestCase_input_data := [("is_high_risk", VBool true); ("uses_training_data", VBool true); ("data_collection_process_documented", VBool true)];
           TestCase_expected_result := "pass" |};
         {| TestCase_id := "TC-010-2A-F";
           TestCase_description := "Collection not documented";
           TestCase_input_data := [("is_high_risk", VBool true); ("uses_training_data", VBool true); ("data_collection_process_documented", VBool false)];
           TestCase_expected_result := "fail" |} ];
     Rule_citations :=
       [ _cite 2 (Some "a") "data collection processes and their origin" ] |};
  {| Rule_id := "RULE-EU-AI-ACT-010-02B-001";
     Rule_requirement_id := "REQ-EU-AI-ACT-010-02B-001";
     Rule_rule_type := SEMI_AUTOMATED;
     Rule_title := "Data preprocessing operations must be documented";
     Rule_description :=
       "Verify that data-preparation processing operations are documented.";
     Rule_inputs_needed := ["is_high_risk"; "uses_training_data"; "extra.data_preprocessing_documented"];
     Rule_evaluation_logic :=
       ("if not is_high_risk or not uses_training_data: result='not_applicable'" ++ nl ++ "elif extra.get('data_preprocessing_documented'): result='pass'" ++ nl ++ "else: result='fail'")%string;
     Rule_severity := MEDIUM;
     Rule_remediation :=
       "Document all data-preparation operations including annotation, labelling, cleaning and enrichment procedures.";
     Rule_test_cases :=
       [ {| TestCase_id := "TC-010-2B-P";
           TestCase_description := "Preprocessing documented";
           TestCase_input_data := [("is_high_risk", VBool true); ("uses_training_data", VBool true); ("extra", VDict [("data_preprocessing_documented", VBool true)])];
           TestCase_expected_result := "pass" |};
         {| TestCase_id := "TC-010-2B-F";
           TestCase_description := "Preprocessing not documented";
           TestCase_input_data := [("is_high_risk", VBool true); ("uses_training_data", VBool true); ("extra", VDict [])];
           TestCase_expected_result := "fail" |} ];
     Rule_citations :=
       [ _cite 2 (Some "b") "data-preparation processing operations" ] |};
  {| Rule_id := "RULE-EU-AI-ACT-010-03-001";
     Rule_requirement_id := "REQ-EU-AI-ACT-010-03-001";
     Rule_rule_type := AUTOMATED;
     Rule_title := "Training data relevance must be documented";
     Rule_description :=
       "Verify that training data relevance for the intended purpose is documented.";
     Rule_inputs_needed := ["is_high_risk"; "uses_training_data"; "training_data_relevance_documented"];
     Rule_evaluation_logic :=
       ("if not is_high_risk or not uses_training_data: result='not_applicable'" ++ nl ++ "elif training_data_relevance_documented: result='pass'" ++ nl ++ "else: result='fail'")%string;
     Rule_severity := HIGH;
     Rule_remediation :=
       "Document how training datasets are relevant and representative for the intended purpose.";
     Rule_test_cases :=
       [ {| TestCase_id := "TC-010-03-P";
           TestCase_description := "Relevance documented";
           TestCase_input_data := [("is_high_risk", VBool true); ("uses_training_data", VBool true); ("training_data_relevance_documented", VBool true)];
           TestCase_expected_result := "pass" |};
         {| TestCase_id := "TC-010-03-F";
           TestCase_description := "Relevance not documented";
           TestCase_input_data := [("is_high_risk", VBool true); ("uses_training_data", VBool true); ("training_data_relevance_documented", VBool false)];
           TestCase_expected_result := "fail" |} ];
     Rule_citations :=
       [ _cite 3 None "relevant, sufficiently representative, and to the best extent possible, free of errors" ] |};
  {| Rule_id := "RULE-EU-AI-ACT-010-04-001";
     Rule_requirement_id := "REQ-EU-AI-ACT-010-04-001";
     Rule_rule_type := SEMI_AUTOMATED;
     Rule_title := "Data representativeness for deployment context must be documented";
     Rule_description :=
       "Verify that datasets account for the geographical, contextual and functional settings of deployment.";
     Rule_inputs_needed := ["is_high_risk"; "uses_training_data"; "extra.data_representativeness_documented"];
     Rule_evaluation_logic :=
       ("if not is_high_risk or not uses_training_data: result='not_applicable'" ++ nl ++ "elif extra.get('data_representativeness_documented'): result='pass'" ++ nl ++ "else: result='fail'")%string;
     Rule_severity := MEDIUM;
     Rule_remediation :=
       "Document how training data accounts for the specific deployment context and population characteristics.";
     Rule_test_cases :=
       [ {| TestCase_id := "TC-010-04-P";
           TestCase_description := "Representativeness documented";
           TestCase_input_data := [("is_high_risk", VBool true); ("uses_training_data", VBool true); ("extra", VDict [("data_representativeness_documented", VBool true)])];
           TestCase_expected_result := "pass" |};
         {| TestCase_id := "TC-010-04-F";
           TestCase_description := "Representativeness not documented";
           TestCase_input_data := [("is_high_risk", VBool true); ("uses_training_data", VBool true); ("extra", VDict [])];
           TestCase_expected_result := "fail" |} ];
     Rule_citations :=
       [ _cite 4 None "characteristics or elements that are particular to the specific geographical, contextual, behavioural or functional setting" ] |};
  {| Rule_id := "RULE-EU-AI-ACT-010-02F-001";
     Rule_requirement_id := "REQ-EU-AI-ACT-010-02F-001";
     Rule_rule_type := AUTOMATED;
     Rule_title := "Bias examination must cover health, safety, fundamental rights and discrimination";
     Rule_description :=
       "Verify that a bias examination has been conducted covering health/safety, fundamental rights, and prohibited discrimination.";
     Rule_inputs_needed := ["is_high_risk"; "uses_training_data"; "bias_examination_report"];
     Rule_evaluation_logic :=
       ("if not is_high_risk or not uses_training_data: result='not_applicable'" ++ nl ++ "elif bias covers all: result='pass'" ++ nl ++ "else: result='fail'")%string;
     Rule_severity := CRITICAL;
     Rule_remediation :=
       "Conduct a comprehensive bias examination covering health/safety impacts, fundamental rights implications, and prohibited discrimination grounds.";
     Rule_test_cases :=
       [ {| TestCase_id := "TC-010-2F-P";
           TestCase_description := "Full bias examination";
           TestCase_input_data := [("is_high_risk", VBool true); ("uses_training_data", VBool true); ("bias_examination_report", VDict [("covers_health_safety", VBool true); ("covers_fundamental_rights", VBool true); ("covers_prohibited_discrimination", VBool true)])];
           TestCase_expected_result := "pass" |};
         {| TestCase_id := "TC-010-2F-F";
           TestCase_description := "Incomplete bias examination";
           TestCase_input_data := [("is_high_risk", VBool true); ("uses_training_data", VBool true); ("bias_examination_report", VDict [("covers_health_safety", VBool true); ("covers_fundamental_rights", VBool false)])];
           TestCase_expected_result := "fail" |} ];
     Rule_citations :=
       [ _cite 2 (Some "f") "examination in view of possible biases" ] |};
  {| Rule_id := "RULE-EU-AI-ACT-010-05-001";
     Rule_requirement_id := "REQ-EU-AI-ACT-010-05-001";
     Rule_rule_type := SEMI_AUTOMATED;
     Rule_title := "Special category data processing must have appropriate safeguards";
     Rule_description :=
       "Verify that processing of special categories of personal data is strictly necessary and has appropriate safeguards.";
     Rule_inputs_needed := ["is_high_risk"; "extra.processes_special_category_data"; "extra.special_data_safeguards_in_place"];
     Rule_evaluation_logic :=
       ("if not special_category: result='not_applicable'" ++ nl ++ "elif safeguards: result='pass'" ++ nl ++ "else: result='fail'")%string;
     Rule_severity := HIGH;
     Rule_remediation :=
       "Implement appropriate safeguards for any processing of special categories of personal data.";
     Rule_test_cases :=
       [ {| TestCase_id := "TC-010-05-P";
           TestCase_description := "Safeguards in place";
           TestCase_input_data := [("is_high_risk", VBool true); ("extra", VDict [("processes_special_category_data", VBool true); ("special_data_safeguards_in_place", VBool true)])];
           TestCase_expected_result := "pass" |};
         {| TestCase_id := "TC-010-05-NA";
           TestCase_description := "No special data";
           TestCase_input_data := [("is_high_risk", VBool true); ("extra", VDict [("processes_special_category_data", VBool false)])];
           TestCase_expected_result := "not_applicable" |} ];
     Rule_citations :=
       [ _cite 5 None "appropriate safeguards for the fundamental rights and freedoms" ] |};
  {| Rule_id := "RULE-EU-AI-ACT-010-01-001";
     Rule_requirement_id := "REQ-EU-AI-ACT-010-01-001";
     Rule_rule_type := AUTOMATED;
     Rule_title := "Datasets meeting quality criteria must be used";
     Rule_description :=
       "Verify that training, validation and testing datasets are identified and meet quality criteria.";
     Rule_inputs_needed := ["is_high_risk"; "uses_training_data"; "dataset_names"];
     Rule_evaluation_logic :=
       ("if not is_high_risk or not uses_training_data: result='not_applicable'" ++ nl ++ "elif len(dataset_names)>0: result='pass'" ++ nl ++ "else: result='fail'")%string;
     Rule_severity := HIGH;
     Rule_remediation :=
       "Identify and document all training, validation and testing datasets with their quality criteria.";
     Rule_test_cases :=
       [ {| TestCase_id := "TC-010-01-P";
           TestCase_description := "Datasets identified";
           TestCase_input_data := [("is_high_risk", VBool true); ("uses_training_data", VBool true); ("dataset_names", VList [VStr "train_v1"])];
           TestCase_expected_result := "pass" |};
         {| TestCase_id := "TC-010-01-F";
           TestCase_description := "No datasets";
           TestCase_input_data := [("is_high_risk", VBool true); ("uses_training_data", VBool true); ("dataset_names", VList [])];
           TestCase_expected_result := "fail" |} ];
     Rule_citations :=
       [ _cite 1 None "training, validation and testing data sets that meet the quality criteria" ] |}
].

Definition EVALUATION_FUNCTIONS : list (string * predicate) :=
  [
    ("RULE-EU-AI-ACT-010-02-001", _eval_data_governance);
    ("RULE-EU-AI-ACT-010-02A-001", _eval_data_collection_documented);
    ("RULE-EU-AI-ACT-010-02B-001", _eval_data_preprocessing);
    ("RULE-EU-AI-ACT-010-03-001", _eval_data_relevance);
    ("RULE-EU-AI-ACT-010-04-001", _eval_data_representativeness);
    ("RULE-EU-AI-ACT-010-02F-001", _eval_bias_examination);
    ("RULE-EU-AI-ACT-010-05-001", _eval_special_data_safeguards);
    ("RULE-EU-AI-ACT-010-01-001", _eval_dataset_quality)
  ].

End art10.

(* ------------------------------------------------------------------ *)
(** ** rules/eu_ai_act_v1/art11.py                                      *)

Module art11.

Definition _REG_ID : string := "eu-ai-act-v1".
Definition _DOC_VERSION : string := "2024-1689-oj".
Definition _ART : Z := 11.

(** [f'{_REG_ID}/art{_ART:02d}/para{para}'], with [/sub-{sub}] when [sub] is
    neither [None] nor empty. *)
Definition _cid (para : Z) (sub : option string) : string :=
  let base :=
    (_REG_ID ++ "/art" ++ format_02d _ART ++ "/para" ++ Json.str_of_int para)%string in
  match sub with
  | Some (String c s) => (base ++ "/sub-" ++ String c s)%string
  | _ => base
  end.

Definition _cite (para : Z) (sub : option string) (quote : string) : Citation :=
  {| Citation_clause_id := _cid para sub;
     Citation_article_ref := ("Article " ++ Json.str_of_int _ART)%string;
     Citation_paragraph_ref := Some (Json.str_of_int para);
     Citation_subsection_ref := sub;
     Citation_page_number := None;
     Citation_exact_quote := quote |}.

Definition _eval_techdoc_exists : predicate := fun profile =>
  c1 <- truth_of (PyValue.get_default profile "is_high_risk" (VBool false)) ;;
  if negb c1 then Ok "not_applicable" else
  c2 <- truth_of (PyValue.get_default profile "technical_documentation_exists" (VBool false)) ;;
  Ok (if c2 then "pass" else "fail").

Definition _eval_techdoc_up_to_date : predicate := fun profile =>
  c1 <- truth_of (PyValue.get_default profile "is_high_risk" (VBool false)) ;;
  if negb c1 then Ok "not_applicable" else
  c2 <- truth_of (PyValue.get_default profile "technical_documentation_exists" (VBool false)) ;;
  if negb c2 then Ok "fail" else
  extra <- PyValue.get_default profile "extra" (VDict []) ;;
  c3 <- truth_of (PyValue.get_default extra "technical_documentation_up_to_date" (VBool true)) ;;
  Ok (if c3 then "pass" else "fail").

Definition _eval_techdoc_compliance_demo : predicate := fun profile =>
  c1 <- truth_of (PyValue.get_default profile "is_high_risk" (VBool false)) ;;
  if negb c1 then Ok "not_applicable" else
  c2 <- truth_of (PyValue.get_default profile "technical_documentation_exists" (VBool false)) ;;
  if negb c2 then Ok "fail" else
  extra <- PyValue.get_default profile "extra" (VDict []) ;;
  c3 <- truth_of (PyValue.get_default extra "techdoc_demonstrates_compliance" (VBool true)) ;;
  Ok (if c3 then "pass" else "fail").

Definition _eval_techdoc_authorities : predicate := fun profile =>
  c1 <- truth_of (PyValue.get_default profile "is_high_risk" (VBool false)) ;;
  if negb c1 then Ok "not_applicable" else
  c2 <- truth_of (PyValue.get_default profile "technical_documentation_exists" (VBool false)) ;;
  if negb c2 then Ok "fail" else
  extra <- PyValue.get_default profile "extra" (VDict []) ;;
  c3 <- truth_of (PyValue.get_default extra "techdoc_available_to_authorities" (VBool true)) ;;
  Ok (if c3 then "pass" else "fail").

Definition _eval_techdoc_annex_iv : predicate := fun profile =>
  c1 <- truth_of (PyValue.get_default profile "is_high_risk" (VBool false)) ;;
  if negb c1 then Ok "not_applicable" else
  extra <- PyValue.get_default profile "extra" (VDict []) ;;
  c2 <- truth_of (PyValue.get_default extra "techdoc_contains_annex_iv_elements" (VBool false)) ;;
  Ok (if c2 then "pass" else "fail").

Definition _eval_techdoc_clarity : predicate := fun profile =>
  c1 <- truth_of (PyValue.get_default profile "is_high_risk" (VBool false)) ;;
  if negb c1 then Ok "not_applicable" else
  c2 <- truth_of (PyValue.get_default profile "technical_documentation_exists" (VBool false)) ;;
  if negb c2 then Ok "fail" else
  extra <- PyValue.get_default profile "extra" (VDict []) ;;
  c3 <- truth_of (PyValue.get_default extra "techdoc_clear_and_comprehensive" (VBool true)) ;;
  Ok (if c3 then "pass" else "fail").

Definition _eval_techdoc_accessible : predicate := fun profile =>
  c1 <- truth_of (PyValue.get_default profile "is_high_risk" (VBool false)) ;;
  if negb c1 then Ok "not_applicable" else
  url <- PyValue.get_default profile "technical_documentation_url" (VStr "") ;;
  c3 <- (b2 <- truth_of (PyValue.get_default profile "technical_documentation_exists" (VBool false)) ;;
     if b2 then Ok (truthy url) else Ok false) ;;
  Ok (if c3 then "pass" else "fail").

Definition RULES : list Rule :=
[
  {| Rule_id := "RULE-EU-AI-ACT-011-01-001";
     Rule_requirement_id := "REQ-EU-AI-ACT-011-01-001";
     Rule_rule_type := AUTOMATED;
     Rule_title := "Technical documentation must exist before market placement";
     Rule_description :=
       "Verify that technical documentation has been drawn up before the AI system is placed on the market.";
     Rule_inputs_needed := ["is_high_risk"; "technical_documentation_exists"];
     Rule_evaluation_logic :=
       ("if not is_high_risk: result='not_applicable'" ++ nl ++ "elif technical_documentation_exists: result='pass'" ++ nl ++ "else: result='fail'")%string;
     Rule_severity := CRITICAL;
     Rule_remediation :=
       "Create comprehensive technical documentation in accordance with Annex IV before placing the system on the market.";
     Rule_test_cases :=
       [ {| TestCase_id := "TC-011-01-P";
           TestCase_description := "Doc exists";
           TestCase_input_data := [("is_high_risk", VBool true); ("technical_documentation_exists", VBool true)];
           TestCase_expected_result := "pass" |};
         {| TestCase_id := "TC-011-01-F";
           TestCase_description := "Doc missing";
           TestCase_input_data := [("is_high_risk", VBool true); ("technical_documentation_exists", VBool false)];
           TestCase_expected_result := "fail" |} ];
     Rule_citations :=
       [ _cite 1 None "technical documentation shall be drawn up before that system is placed on the market" ] |};
  {| Rule_id := "RULE-EU-AI-ACT-011-01-002";
     Rule_requirement_id := "REQ-EU-AI-ACT-011-01-002";
     Rule_rule_type := SEMI_AUTOMATED;
     Rule_title := "Technical documentation must be kept up to date";
     Rule_description :=
       "Verify that technical documentation is kept up to date throughout the system lifecycle.";
     Rule_inputs_needed := ["is_high_risk"; "technical_documentation_exists"; "extra.technical_documentation_up_to_date"];
     Rule_evaluation_logic :=
       ("if not is_high_risk: result='not_applicable'" ++ nl ++ "elif up_to_date: result='pass'" ++ nl ++ "else: result='fail'")%string;
     Rule_severity := HIGH;
     Rule_remediation :=
       "Establish a process for regularly updating technical documentation when changes occur.";
     Rule_test_cases :=
       [ {| TestCase_id := "TC-011-02-P";
           TestCase_description := "Doc up to date";
           TestCase_input_data := [("is_high_risk", VBool true); ("technical_documentation_exists", VBool true); ("extra", VDict [("technical_documentation_up_to_date", VBool true)])];
           TestCase_expected_result := "pass" |};
         {| TestCase_id := "TC-011-02-F";
           TestCase_description := "Doc outdated";
           TestCase_input_data := [("is_high_risk", VBool true); ("technical_documentation_exists", VBool true); ("extra", VDict [("technical_documentation_up_to_date", VBool false)])];
           TestCase_expected_result := "fail" |} ];
     Rule_citations :=
       [ _cite 1 None "shall be kept up to date" ] |};
  {| Rule_id := "RULE-EU-AI-ACT-011-01A-001";
     Rule_requirement_id := "REQ-EU-AI-ACT-011-01A-001";
     Rule_rule_type := SEMI_AUTOMATED;
     Rule_title := "Documentation must demonstrate compliance";
     Rule_description :=
       "Verify that technical documentation demonstrates compliance with Chapter III Section 2 requirements.";
     Rule_inputs_needed := ["is_high_risk"; "technical_documentation_exists"; "extra.techdoc_demonstrates_compliance"];
     Rule_evaluation_logic :=
       ("if not is_high_risk: result='not_applicable'" ++ nl ++ "elif demonstrates_compliance: result='pass'" ++ nl ++ "else: result='fail'")%string;
     Rule_severity := HIGH;
     Rule_remediation :=
       "Ensure documentation explicitly addresses and demonstrates compliance with each requirement.";
     Rule_test_cases :=
       [ {| TestCase_id := "TC-011-1A-P";
           TestCase_description := "Compliance demonstrated";
           TestCase_input_data := [("is_high_risk", VBool true); ("technical_documentation_exists", VBool true); ("extra", VDict [("techdoc_demonstrates_compliance", VBool true)])];
           TestCase_expected_result := "pass" |} ];
     Rule_citations :=
       [ _cite 1 (Some "a") "demonstrate that the high-risk AI system complies" ] |};
  {| Rule_id := "RULE-EU-AI-ACT-011-01B-001";
     Rule_requirement_id := "REQ-EU-AI-ACT-011-01B-001";
     Rule_rule_type := SEMI_AUTOMATED;
     Rule_title := "Documentation must be available to authorities";
     Rule_description :=
       "Verify that documentation provides authorities with all necessary compliance information.";
     Rule_inputs_needed := ["is_high_risk"; "technical_documentation_exists"; "extra.techdoc_available_to_authorities"];
     Rule_evaluation_logic :=
       ("if not is_high_risk: result='not_applicable'" ++ nl ++ "elif available: result='pass'" ++ nl ++ "else: result='fail'")%string;
     Rule_severity := MEDIUM;
     Rule_remediation :=
       "Ensure documentation is accessible and provides sufficient information for authority review.";
     Rule_test_cases :=
       [ {| TestCase_id := "TC-011-1B-P";
           TestCase_description := "Available to authorities";
           TestCase_input_data := [("is_high_risk", VBool true); ("technical_documentation_exists", VBool true); ("extra", VDict [("techdoc_available_to_authorities", VBool true)])];
           TestCase_expected_result := "pass" |} ];
     Rule_citations :=
       [ _cite 1 (Some "b") "provide national competent authorities" ] |};
  {| Rule_id := "RULE-EU-AI-ACT-011-01C-001";
     Rule_requirement_id := "REQ-EU-AI-ACT-011-01C-001";
     Rule_rule_type := SEMI_AUTOMATED;
     Rule_title := "Documentation must contain Annex IV minimum elements";
     Rule_description :=
       "Verify that technical documentation contains at minimum the elements set out in Annex IV.";
     Rule_inputs_needed := ["is_high_risk"; "extra.techdoc_contains_annex_iv_elements"];
     Rule_evaluation_logic :=
       ("if not is_high_risk: result='not_applicable'" ++ nl ++ "elif annex_iv: result='pass'" ++ nl ++ "else: result='fail'")%string;
     Rule_severity := HIGH;
     Rule_remediation :=
       "Review documentation against Annex IV checklist and add any missing elements.";
     Rule_test_cases :=
       [ {| TestCase_id := "TC-011-1C-P";
           TestCase_description := "Annex IV covered";
           TestCase_input_data := [("is_high_risk", VBool true); ("extra", VDict [("techdoc_contains_annex_iv_elements", VBool true)])];
           TestCase_expected_result := "pass" |};
         {| TestCase_id := "TC-011-1C-F";
           TestCase_description := "Annex IV missing";
           TestCase_input_data := [("is_high_risk", VBool true); ("extra", VDict [])];
           TestCase_expected_result := "fail" |} ];
     Rule_citations :=
       [ _cite 1 (Some "c") "contain, at a minimum, the elements set out in Annex IV" ] |};
  {| Rule_id := "RULE-EU-AI-ACT-011-01D-001";
     Rule_requirement_id := "REQ-EU-AI-ACT-011-01D-001";
     Rule_rule_type := SEMI_AUTOMATED;
     Rule_title := "Documentation must be clear and comprehensive";
     Rule_description :=
       "Verify that documentation is written in a clear, comprehensive, and intelligible form.";
     Rule_inputs_needed := ["is_high_risk"; "technical_documentation_exists"; "extra.techdoc_clear_and_comprehensive"];
     Rule_evaluation_logic :=
       ("if not is_high_risk: result='not_applicable'" ++ nl ++ "elif clear: result='pass'" ++ nl ++ "else: result='fail'")%string;
     Rule_severity := MEDIUM;
     Rule_remediation :=
       "Ensure documentation uses clear language, logical structure, and is understandable by technical experts.";
     Rule_test_cases :=
       [ {| TestCase_id := "TC-011-1D-P";
           TestCase_description := "Clear docs";
           TestCase_input_data := [("is_high_risk", VBool true); ("technical_documentation_exists", VBool true); ("extra", VDict [("techdoc_clear_and_comprehensive", VBool true)])];
           TestCase_expected_result := "pass" |} ];
     Rule_citations :=
       [ _cite 1 (Some "d") "clear, comprehensive, and intelligible form" ] |};
  {| Rule_id := "RULE-EU-AI-ACT-011-01-003";
     Rule_requirement_id := "REQ-EU-AI-ACT-011-01-003";
     Rule_rule_type := AUTOMATED;
     Rule_title := "Technical documentation must be accessible at a known location";
     Rule_description :=
       "Verify that technical documentation is accessible (e.g., URL or internal repository).";
     Rule_inputs_needed := ["is_high_risk"; "technical_documentation_exists"; "technical_documentation_url"];
     Rule_evaluation_logic :=
       ("if not is_high_risk: result='not_applicable'" ++ nl ++ "elif exists and url: result='pass'" ++ nl ++ "else: result='fail'")%string;
     Rule_severity := MEDIUM;
     Rule_remediation :=
       "Provide a URL or internal reference to the location where documentation can be accessed.";
     Rule_test_cases :=
       [ {| TestCase_id := "TC-011-03-P";
           TestCase_description := "URL provided";
           TestCase_input_data := [("is_high_risk", VBool true); ("technical_documentation_exists", VBool true); ("technical_documentation_url", VStr "https://docs.example.com")];
           TestCase_expected_result := "pass" |};
         {| TestCase_id := "TC-011-03-F";
           TestCase_description := "No URL";
           TestCase_input_data := [("is_high_risk", VBool true); ("technical_documentation_exists", VBool true); ("technical_documentation_url", VStr "")];
           TestCase_expected_result := "fail" |} ];
     Rule_citations :=
       [ _cite 1 None "technical documentation shall be drawn up" ] |}
].

Definition EVALUATION_FUNCTIONS : list (string * predicate) :=
  [
    ("RULE-EU-AI-ACT-011-01-001", _eval_techdoc_exists);
    ("RULE-EU-AI-ACT-011-01-002", _eval_techdoc_up_to_date);
    ("RULE-EU-AI-ACT-011-01A-001", _eval_techdoc_compliance_demo);
    ("RULE-EU-AI-ACT-011-01B-001", _eval_techdoc_authorities);
    ("RULE-EU-AI-ACT-011-01C-001", _eval_techdoc_annex_iv);
    ("RULE-EU-AI-ACT-011-01D-001", _eval_techdoc_clarity);
    ("RULE-EU-AI-ACT-011-01-003", _eval_techdoc_accessible)
  ].

End art11.

(* ------------------------------------------------------------------ *)
(** ** rules/eu_ai_act_v1/art12.py                                      *)

Module art12.

Definition _REG_ID : string := "eu-ai-act-v1".
Definition _DOC_VERSION : string := "2024-1689-oj".
Definition _ART : Z := 12.

(** [f'{_REG_ID}/art{_ART:02d}/para{para}'], with [/sub-{sub}] when [sub] is
    neither [None] nor empty. *)
Definition _cid (para : Z) (sub : option string) : string :=
  let base :=
    (_REG_ID ++ "/art" ++ format_02d _ART ++ "/para" ++ Json.str_of_int para)%string in
  match sub with
  | Some (String c s) => (base ++ "/sub-" ++ String c s)%string
  | _ => base
  end.

Definition _cite (para : Z) (sub : option string) (quote : string) : Citation :=
  {| Citation_clause_id := _cid para sub;
     Citation_article_ref := ("Article " ++ Json.str_of_int _ART)%string;
     Citation_paragraph_ref := Some (Json.str_of_int para);
     Citation_subsection_ref := sub;
     Citation_page_number := None;
     Citation_exact_quote := quote |}.

Definition _eval_logging_enabled : predicate := fun profile =>
  c1 <- truth_of (PyValue.get_default profile "is_high_risk" (VBool false)) ;;
  if negb c1 then Ok "not_applicable" else
  c2 <- truth_of (PyValue.get_default profile "automatic_logging_enabled" (VBool false)) ;;
  Ok (if c2 then "pass" else "fail").

Definition _eval_logging_risk_events : predicate := fun profile =>
  c1 <- truth_of (PyValue.get_default profile "is_high_risk" (VBool false)) ;;
  if negb c1 then Ok "not_applicable" else
  caps <- PyValue.get_default profile "logging_capabilities" (VList []) ;;
  has_risk_logging <- (items5 <- py_iter caps ;;
     py_any (fun c =>
         (b2 <- (low3 <- py_lower c ;; Ok (contains_sub "risk" low3)) ;;
           if b2 then Ok true else (low4 <- py_lower c ;; Ok (contains_sub "incident" low4)))) items5) ;;
  Ok (if has_risk_logging then "pass" else "fail").

Definition _eval_logging_standards : predicate := fun profile =>
  c1 <- truth_of (PyValue.get_default profile "is_high_risk" (VBool false)) ;;
  if negb c1 then Ok "not_applicable" else
  extra <- PyValue.get_default profile "extra" (VDict []) ;;
  c2 <- truth_of (PyValue.get_default extra "logging_conforms_to_standards" (VBool false)) ;;
  Ok (if c2 then "pass" else "fail").

Definition _eval_logging_traceability : predicate := fun profile =>
  c1 <- truth_of (PyValue.get_default profile "is_high_risk" (VBool false)) ;;
  if negb c1 then Ok "not_applicable" else
  caps <- PyValue.get_default profile "logging_capabilities" (VList []) ;;
  c3 <- (n2 <- py_len caps ;; Ok (n2 >=? 2)%Z) ;;
  Ok (if c3 then "pass" else "fail").

Definition _eval_logging_monitoring : predicate := fun profile =>
  c1 <- truth_of (PyValue.get_default profile "is_high_risk" (VBool false)) ;;
  if negb c1 then Ok "not_applicable" else
  caps <- PyValue.get_default profile "logging_capabilities" (VList []) ;;
  has_monitoring <- (items5 <- py_iter caps ;;
     py_any (fun c =>
         (b2 <- (low3 <- py_lower c ;; Ok (contains_sub "monitor" low3)) ;;
           if b2 then Ok true else (low4 <- py_lower c ;; Ok (contains_sub "operation" low4)))) items5) ;;
  Ok (if has_monitoring then "pass" else "fail").

Definition _eval_post_market : predicate := fun profile =>
  c1 <- truth_of (PyValue.get_default profile "is_high_risk" (VBool false)) ;;
  if negb c1 then Ok "not_applicable" else
  extra <- PyValue.get_default profile "extra" (VDict []) ;;
  c2 <- truth_of (PyValue.get_default extra "post_market_monitoring_supported" (VBool false)) ;;
  Ok (if c2 then "pass" else "fail").

Definition _eval_usage_records : predicate := fun profile =>
  c1 <- truth_of (PyValue.get_default profile "is_high_risk" (VBool false)) ;;
  if negb c1 then Ok "not_applicable" else
  caps <- PyValue.get_default profile "logging_capabilities" (VList []) ;;
  has_usage <- (items7 <- py_iter caps ;;
     py_any (fun c =>
         (b2 <- (low3 <- py_lower c ;; Ok (contains_sub "usage" low3)) ;;
           if b2 then Ok true else (b4 <- (low5 <- py_lower c ;; Ok (contains_sub "period" low5)) ;;
             if b4 then Ok true else (low6 <- py_lower c ;; Ok (contains_sub "session" low6))))) items7) ;;
  Ok (if has_usage then "pass" else "fail").

Definition RULES : list Rule :=
[
  {| Rule_id := "RULE-EU-AI-ACT-012-01-001";
     Rule_requirement_id := "REQ-EU-AI-ACT-012-01-001";
     Rule_rule_type := AUTOMATED;
     Rule_title := "Automatic event logging must be enabled";
     Rule_description :=
       "Verify that the system technically supports automatic recording of events (logs).";
     Rule_inputs_needed := ["is_high_risk"; "automatic_logging_enabled"];
     Rule_evaluation_logic :=
       ("if not is_high_risk: result='not_applicable'" ++ nl ++ "elif automatic_logging_enabled: result='pass'" ++ nl ++ "else: result='fail'")%string;
     Rule_severity := CRITICAL;
     Rule_remediation :=
       "Implement automatic event logging throughout the system lifecycle.";
     Rule_test_cases :=
       [ {| TestCase_id := "TC-012-01-P";
           TestCase_description := "Logging enabled";
           TestCase_input_data := [("is_high_risk", VBool true); ("automatic_logging_enabled", VBool true)];
           TestCase_expected_result := "pass" |};
         {| TestCase_id := "TC-012-01-F";
           TestCase_description := "Logging disabled";
           TestCase_input_data := [("is_high_risk", VBool true); ("automatic_logging_enabled", VBool false)];
           TestCase_expected_result := "fail" |} ];
     Rule_citations :=
       [ _cite 1 None "shall technically allow for the automatic recording of events" ] |};
  {| Rule_id := "RULE-EU-AI-ACT-012-02-001";
     Rule_requirement_id := "REQ-EU-AI-ACT-012-02-001";
     Rule_rule_type := SEMI_AUTOMATED;
     Rule_title := "Risk-relevant events must be logged";
     Rule_description :=
       "Verify that logging captures events relevant to risk identification.";
     Rule_inputs_needed := ["is_high_risk"; "logging_capabilities"];
     Rule_evaluation_logic :=
       ("if not is_high_risk: result='not_applicable'" ++ nl ++ "elif has risk logging: result='pass'" ++ nl ++ "else: result='fail'")%string;
     Rule_severity := HIGH;
     Rule_remediation :=
       "Add logging for risk-relevant events including anomalies, errors, and safety-critical decisions.";
     Rule_test_cases :=
       [ {| TestCase_id := "TC-012-02-P";
           TestCase_description := "Risk logging present";
           TestCase_input_data := [("is_high_risk", VBool true); ("logging_capabilities", VList [VStr "risk event tracking"])];
           TestCase_expected_result := "pass" |};
         {| TestCase_id := "TC-012-02-F";
           TestCase_description := "No risk logging";
           TestCase_input_data := [("is_high_risk", VBool true); ("logging_capabilities", VList [VStr "basic access logs"])];
           TestCase_expected_result := "fail" |} ];
     Rule_citations :=
       [ _cite 2 None "recording of events relevant to the identification of situations" ] |};
  {| Rule_id := "RULE-EU-AI-ACT-012-03-001";
     Rule_requirement_id := "REQ-EU-AI-ACT-012-03-001";
     Rule_rule_type := SEMI_AUTOMATED;
     Rule_title := "Logging must conform to recognised standards";
     Rule_description :=
       "Verify that logging capabilities conform to recognised standards or common specifications.";
     Rule_inputs_needed := ["is_high_risk"; "extra.logging_conforms_to_standards"];
     Rule_evaluation_logic :=
       ("if not is_high_risk: result='not_applicable'" ++ nl ++ "elif standards: result='pass'" ++ nl ++ "else: result='fail'")%string;
     Rule_severity := MEDIUM;
     Rule_remediation :=
       "Align logging capabilities with recognised standards such as ISO 27001 or equivalent.";
     Rule_test_cases :=
       [ {| TestCase_id := "TC-012-03-P";
           TestCase_description := "Standards compliant";
           TestCase_input_data := [("is_high_risk", VBool true); ("extra", VDict [("logging_conforms_to_standards", VBool true)])];
           TestCase_expected_result := "pass" |};
         {| TestCase_id := "TC-012-03-F";
           TestCase_description := "No standards";
           TestCase_input_data := [("is_high_risk", VBool true); ("extra", VDict [])];
           TestCase_expected_result := "fail" |} ];
     Rule_citations :=
       [ _cite 3 None "conform to recognised standards or common specifications" ] |};
  {| Rule_id := "RULE-EU-AI-ACT-012-04-001";
     Rule_requirement_id := "REQ-EU-AI-ACT-012-04-001";
     Rule_rule_type := AUTOMATED;
     Rule_title := "Logging must ensure lifecycle traceability";
     Rule_description :=
       "Verify that logging capabilities ensure traceability throughout the system lifecycle.";
     Rule_inputs_needed := ["is_high_risk"; "logging_capabilities"];
     Rule_evaluation_logic :=
       ("if not is_high_risk: result='not_applicable'" ++ nl ++ "elif len(caps)>=2: result='pass'" ++ nl ++ "else: result='fail'")%string;
     Rule_severity := HIGH;
     Rule_remediation :=
       "Implement comprehensive logging covering all lifecycle stages with sufficient detail for traceability.";
     Rule_test_cases :=
       [ {| TestCase_id := "TC-012-04-P";
           TestCase_description := "Sufficient logging";
           TestCase_input_data := [("is_high_risk", VBool true); ("logging_capabilities", VList [VStr "input/output logging"; VStr "decision audit trail"])];
           TestCase_expected_result := "pass" |};
         {| TestCase_id := "TC-012-04-F";
           TestCase_description := "Insufficient logging";
           TestCase_input_data := [("is_high_risk", VBool true); ("logging_capabilities", VList [VStr "basic"])];
           TestCase_expected_result := "fail" |} ];
     Rule_citations :=
       [ _cite 4 None "traceability of the AI system's functioning throughout its lifecycle" ] |};
  {| Rule_id := "RULE-EU-AI-ACT-012-04A-001";
     Rule_requirement_id := "REQ-EU-AI-ACT-012-04A-001";
     Rule_rule_type := SEMI_AUTOMATED;
     Rule_title := "Logging must enable operational monitoring";
     Rule_description :=
       "Verify that logging enables monitoring of the AI system operation.";
     Rule_inputs_needed := ["is_high_risk"; "logging_capabilities"];
     Rule_evaluation_logic :=
       ("if not is_high_risk: result='not_applicable'" ++ nl ++ "elif monitoring in caps: result='pass'" ++ nl ++ "else: result='fail'")%string;
     Rule_severity := MEDIUM;
     Rule_remediation :=
       "Add operational monitoring capabilities to the logging system.";
     Rule_test_cases :=
       [ {| TestCase_id := "TC-012-4A-P";
           TestCase_description := "Monitoring enabled";
           TestCase_input_data := [("is_high_risk", VBool true); ("logging_capabilities", VList [VStr "operational monitoring"])];
           TestCase_expected_result := "pass" |};
         {| TestCase_id := "TC-012-4A-F";
           TestCase_description := "No monitoring";
           TestCase_input_data := [("is_high_risk", VBool true); ("logging_capabilities", VList [VStr "basic"])];
           TestCase_expected_result := "fail" |} ];
     Rule_citations :=
       [ _cite 4 (Some "a") "enable the monitoring of the operation" ] |};
  {| Rule_id := "RULE-EU-AI-ACT-012-04B-001";
     Rule_requirement_id := "REQ-EU-AI-ACT-012-04B-001";
     Rule_rule_type := SEMI_AUTOMATED;
     Rule_title := "Logging must facilitate post-market monitoring";
     Rule_description :=
       "Verify that logging facilitates post-market monitoring as per Article 72.";
     Rule_inputs_needed := ["is_high_risk"; "extra.post_market_monitoring_supported"];
     Rule_evaluation_logic :=
       ("if not is_high_risk: result='not_applicable'" ++ nl ++ "elif supported: result='pass'" ++ nl ++ "else: result='fail'")%string;
     Rule_severity := MEDIUM;
     Rule_remediation :=
       "Implement logging features that support post-market monitoring requirements.";
     Rule_test_cases :=
       [ {| TestCase_id := "TC-012-4B-P";
           TestCase_description := "Post-market supported";
           TestCase_input_data := [("is_high_risk", VBool true); ("extra", VDict [("post_market_monitoring_supported", VBool true)])];
           TestCase_expected_result := "pass" |};
         {| TestCase_id := "TC-012-4B-F";
           TestCase_description := "Post-market not supported";
           TestCase_input_data := [("is_high_risk", VBool true); ("extra", VDict [])];
           TestCase_expected_result := "fail" |} ];
     Rule_citations :=
       [ _cite 4 (Some "b") "facilitate the post-market monitoring" ] |};
  {| Rule_id := "RULE-EU-AI-ACT-012-04C-001";
     Rule_requirement_id := "REQ-EU-AI-ACT-012-04C-001";
     Rule_rule_type := SEMI_AUTOMATED;
     Rule_title := "Usage periods and verification personnel must be recorded";
     Rule_description :=
       "Verify that logging records usage periods, reference databases, and verification personnel.";
     Rule_inputs_needed := ["is_high_risk"; "logging_capabilities"];
     Rule_evaluation_logic :=
       ("if not is_high_risk: result='not_applicable'" ++ nl ++ "elif usage in caps: result='pass'" ++ nl ++ "else: result='fail'")%string;
     Rule_severity := MEDIUM;
     Rule_remediation :=
       "Add logging of usage sessions, reference database checks, and human verification records.";
     Rule_test_cases :=
       [ {| TestCase_id := "TC-012-4C-P";
           TestCase_description := "Usage recorded";
           TestCase_input_data := [("is_high_risk", VBool true); ("logging_capabilities", VList [VStr "session usage tracking"])];
           TestCase_expected_result := "pass" |};
         {| TestCase_id := "TC-012-4C-F";
           TestCase_description := "No usage recording";
           TestCase_input_data := [("is_high_risk", VBool true); ("logging_capabilities", VList [VStr "error logs"])];
           TestCase_expected_result := "fail" |} ];
     Rule_citations :=
       [ _cite 4 (Some "c") "recording of the period of each use of the system" ] |}
].

Definition EVALUATION_FUNCTIONS : list (string * predicate) :=
  [
    ("RULE-EU-AI-ACT-012-01-001", _eval_logging_enabled);
    ("RULE-EU-AI-ACT-012-02-001", _eval_logging_risk_events);
    ("RULE-EU-AI-ACT-012-03-001", _eval_logging_standards);
    ("RULE-EU-AI-ACT-012-04-001", _eval_logging_traceability);
    ("RULE-EU-AI-ACT-012-04A-001", _eval_logging_monitoring);
    ("RULE-EU-AI-ACT-012-04B-001", _eval_post_market);
    ("RULE-EU-AI-ACT-012-04C-001", _eval_usage_records)
  ].

End art12.

(* ------------------------------------------------------------------ *)
(** ** rules/eu_ai_act_v1/art13.py                                      *)

Module art13.

Definition _REG_ID : string := "eu-ai-act-v1".
Definition _DOC_VERSION : string := "2024-1689-oj".
Definition _ART : Z := 13.

(** [f'{_REG_ID}/art{_ART:02d}/para{para}'], with [/sub-{sub}] when [sub] is
    neither [None] nor empty. *)
Definition _cid (para : Z) (sub : option string) : string :=
  let base :=
    (_REG_ID ++ "/art" ++ format_02d _ART ++ "/para" ++ Json.str_of_int para)%string in
  match sub with
  | Some (String c s) => (base ++ "/sub-" ++ String c s)%string
  | _ => base
  end.

Definition _cite (para : Z) (sub : option string) (quote : string) : Citation :=
  {| Citation_clause_id := _cid para sub;
     Citation_article_ref := ("Article " ++ Json.str_of_int _ART)%string;
     Citation_paragraph_ref := Some (Json.str_of_int para);
     Citation_subsection_ref := sub;
     Citation_page_number := None;
     Citation_exact_quote := quote |}.

Definition _eval_transparency : predicate := fun profile =>
  c1 <- truth_of (PyValue.get_default profile "is_high_risk" (VBool false)) ;;
  if negb c1 then Ok "not_applicable" else
  extra <- PyValue.get_default profile "extra" (VDict []) ;;
  c2 <- truth_of (PyValue.get_default extra "system_operation_transparent" (VBool false)) ;;
  Ok (if c2 then "pass" else "fail").

Definition _eval_instructions_provided : predicate := fun profile =>
  c1 <- truth_of (PyValue.get_default profile "is_high_risk" (VBool false)) ;;
  if negb c1 then Ok "not_applicable" else
  c2 <- truth_of (PyValue.get_default profile "instructions_for_use_provided" (VBool false)) ;;
  Ok (if c2 then "pass" else "fail").

Definition _eval_provider_identity : predicate := fun profile =>
  c1 <- truth_of (PyValue.get_default profile "is_high_risk" (VBool false)) ;;
  if negb c1 then Ok "not_applicable" else
  provider <- PyValue.get_default profile "provider_name" (VStr "") ;;
  Ok (if (truthy provider) then "pass" else "fail").

Definition _eval_capabilities_documented : predicate := fun profile =>
  c1 <- truth_of (PyValue.get_default profile "is_high_risk" (VBool false)) ;;
  if negb c1 then Ok "not_applicable" else
  c2 <- truth_of (PyValue.get_default profile "limitations_documented" (VBool false)) ;;
  Ok (if c2 then "pass" else "fail").

Definition _eval_intended_purpose : predicate := fun profile =>
  c1 <- truth_of (PyValue.get_default profile "is_high_risk" (VBool false)) ;;
  if negb c1 then Ok "not_applicable" else
  c2 <- truth_of (PyValue.get_default profile "intended_purpose_documented" (VBool false)) ;;
  Ok (if c2 then "pass" else "fail").

Definition _eval_human_oversight_docs : predicate := fun profile =>
  c1 <- truth_of (PyValue.get_default profile "is_high_risk" (VBool false)) ;;
  if negb c1 then Ok "not_applicable" else
  measures <- PyValue.get_default profile "human_oversight_measures" (VList []) ;;
  extra <- PyValue.get_default profile "extra" (VDict []) ;;
  c4 <- (b2 <- (n3 <- py_len measures ;; Ok (n3 >? 0)%Z) ;;
     if b2 then truth_of (PyValue.get_default extra "oversight_documented_in_instructions" (VBool true)) else Ok false) ;;
  Ok (if c4 then "pass" else "fail").

Definition _eval_misuse_documented : predicate := fun profile =>
  c1 <- truth_of (PyValue.get_default profile "is_high_risk" (VBool false)) ;;
  if negb c1 then Ok "not_applicable" else
  extra <- PyValue.get_default profile "extra" (VDict []) ;;
  c2 <- truth_of (PyValue.get_default extra "foreseeable_misuse_documented" (VBool false)) ;;
  Ok (if c2 then "pass" else "fail").

Definition _eval_accuracy_declared : predicate := fun profile =>
  c1 <- truth_of (PyValue.get_default profile "is_high_risk" (VBool false)) ;;
  if negb c1 then Ok "not_applicable" else
  levels <- PyValue.get_default profile "accuracy_levels_declared" (VStr "") ;;
  Ok (if (truthy levels) then "pass" else "fail").

Definition RULES : list Rule :=
[
  {| Rule_id := "RULE-EU-AI-ACT-013-01-001";
     Rule_requirement_id := "REQ-EU-AI-ACT-013-01-001";
     Rule_rule_type := SEMI_AUTOMATED;
     Rule_title := "System operation must be sufficiently transparent";
     Rule_description :=
       "Verify that the system is designed to ensure operation is transparent enough for deployers to interpret output.";
     Rule_inputs_needed := ["is_high_risk"; "extra.system_operation_transparent"];
     Rule_evaluation_logic :=
       ("if not is_high_risk: result='not_applicable'" ++ nl ++ "elif transparent: result='pass'" ++ nl ++ "else: result='fail'")%string;
     Rule_severity := HIGH;
     Rule_remediation :=
       "Design the system with output explanations, confidence scores, or feature attribution to ensure transparency.";
     Rule_test_cases :=
       [ {| TestCase_id := "TC-013-01-P";
           TestCase_description := "Transparent";
           TestCase_input_data := [("is_high_risk", VBool true); ("extra", VDict [("system_operation_transparent", VBool true)])];
           TestCase_expected_result := "pass" |};
         {| TestCase_id := "TC-013-01-F";
           TestCase_description := "Not transparent";
           TestCase_input_data := [("is_high_risk", VBool true); ("extra", VDict [])];
           TestCase_expected_result := "fail" |} ];
     Rule_citations :=
       [ _cite 1 None "operation is sufficiently transparent" ] |};
  {| Rule_id := "RULE-EU-AI-ACT-013-02-001";
     Rule_requirement_id := "REQ-EU-AI-ACT-013-02-001";
     Rule_rule_type := AUTOMATED;
     Rule_title := "Instructions for use must be provided";
     Rule_description :=
       "Verify that instructions for use are provided in an appropriate digital format.";
     Rule_inputs_needed := ["is_high_risk"; "instructions_for_use_provided"];
     Rule_evaluation_logic :=
       ("if not is_high_risk: result='not_applicable'" ++ nl ++ "elif instructions_for_use_provided: result='pass'" ++ nl ++ "else: result='fail'")%string;
     Rule_severity := CRITICAL;
     Rule_remediation :=
       "Create comprehensive instructions for use in digital format for deployers.";
     Rule_test_cases :=
       [ {| TestCase_id := "TC-013-02-P";
           TestCase_description := "Instructions provided";
           TestCase_input_data := [("is_high_risk", VBool true); ("instructions_for_use_provided", VBool true)];
           TestCase_expected_result := "pass" |};
         {| TestCase_id := "TC-013-02-F";
           TestCase_description := "No instructions";
           TestCase_input_data := [("is_high_risk", VBool true); ("instructions_for_use_provided", VBool false)];
           TestCase_expected_result := "fail" |} ];
     Rule_citations :=
       [ _cite 2 None "accompanied by instructions for use in an appropriate digital format" ] |};
  {| Rule_id := "RULE-EU-AI-ACT-013-03A-001";
     Rule_requirement_id := "REQ-EU-AI-ACT-013-03A-001";
     Rule_rule_type := AUTOMATED;
     Rule_title := "Provider identity must be included in instructions";
     Rule_description :=
       "Verify that provider identity and contact details are included in instructions.";
     Rule_inputs_needed := ["is_high_risk"; "provider_name"];
     Rule_evaluation_logic :=
       ("if not is_high_risk: result='not_applicable'" ++ nl ++ "elif provider_name: result='pass'" ++ nl ++ "else: result='fail'")%string;
     Rule_severity := MEDIUM;
     Rule_remediation :=
       "Include complete provider identity and contact details in the instructions for use.";
     Rule_test_cases :=
       [ {| TestCase_id := "TC-013-3A-P";
           TestCase_description := "Provider identified";
           TestCase_input_data := [("is_high_risk", VBool true); ("provider_name", VStr "Acme Corp")];
           TestCase_expected_result := "pass" |} ];
     Rule_citations :=
       [ _cite 3 (Some "a") "identity and the contact details of the provider" ] |};
  {| Rule_id := "RULE-EU-AI-ACT-013-03B-001";
     Rule_requirement_id := "REQ-EU-AI-ACT-013-03B-001";
     Rule_rule_type := AUTOMATED;
     Rule_title := "System capabilities and limitations must be documented";
     Rule_description :=
       "Verify that system characteristics, capabilities and limitations of performance are documented.";
     Rule_inputs_needed := ["is_high_risk"; "limitations_documented"];
     Rule_evaluation_logic :=
       ("if not is_high_risk: result='not_applicable'" ++ nl ++ "elif limitations_documented: result='pass'" ++ nl ++ "else: result='fail'")%string;
     Rule_severity := HIGH;
     Rule_remediation :=
       "Document all system capabilities, limitations, and known performance boundaries.";
     Rule_test_cases :=
       [ {| TestCase_id := "TC-013-3B-P";
           TestCase_description := "Limitations documented";
           TestCase_input_data := [("is_high_risk", VBool true); ("limitations_documented", VBool true)];
           TestCase_expected_result := "pass" |};
         {| TestCase_id := "TC-013-3B-F";
           TestCase_description := "No limitation docs";
           TestCase_input_data := [("is_high_risk", VBool true); ("limitations_documented", VBool false)];
           TestCase_expected_result := "fail" |} ];
     Rule_citations :=
       [ _cite 3 (Some "b") "characteristics, capabilities and limitations of performance" ] |};
  {| Rule_id := "RULE-EU-AI-ACT-013-03D-001";
     Rule_requirement_id := "REQ-EU-AI-ACT-013-03D-001";
     Rule_rule_type := SEMI_AUTOMATED;
     Rule_title := "Human oversight measures must be documented in instructions";
     Rule_description :=
       "Verify that human oversight measures are described in the instructions for use.";
     Rule_inputs_needed := ["is_high_risk"; "human_oversight_measures"; "extra.oversight_documented_in_instructions"];
     Rule_evaluation_logic :=
       ("if not is_high_risk: result='not_applicable'" ++ nl ++ "elif measures and documented: result='pass'" ++ nl ++ "else: result='fail'")%string;
     Rule_severity := HIGH;
     Rule_remediation :=
       "Document human oversight measures in the instructions for use, including interpretation guidance.";
     Rule_test_cases :=
       [ {| TestCase_id := "TC-013-3D-P";
           TestCase_description := "Oversight documented";
           TestCase_input_data := [("is_high_risk", VBool true); ("human_oversight_measures", VList [VStr "review"]); ("extra", VDict [("oversight_documented_in_instructions", VBool true)])];
           TestCase_expected_result := "pass" |};
         {| TestCase_id := "TC-013-3D-F";
           TestCase_description := "No oversight measures";
           TestCase_input_data := [("is_high_risk", VBool true); ("human_oversight_measures", VList [])];
           TestCase_expected_result := "fail" |} ];
     Rule_citations :=
       [ _cite 3 (Some "d") "human oversight measures referred to in Article 14" ] |};
  {| Rule_id := "RULE-EU-AI-ACT-013-03E-001";
     Rule_requirement_id := "REQ-EU-AI-ACT-013-03E-001";
     Rule_rule_type := AUTOMATED;
     Rule_title := "Intended purpose must be documented";
     Rule_description :=
       "Verify that intended purpose is clearly documented in instructions.";
     Rule_inputs_needed := ["is_high_risk"; "intended_purpose_documented"];
     Rule_evaluation_logic :=
       ("if not is_high_risk: result='not_applicable'" ++ nl ++ "elif intended_purpose_documented: result='pass'" ++ nl ++ "else: result='fail'")%string;
     Rule_severity := HIGH;
     Rule_remediation :=
       "Clearly document the intended purpose and foreseeable misuse circumstances.";
     Rule_test_cases :=
       [ {| TestCase_id := "TC-013-3E-P";
           TestCase_description := "Purpose documented";
           TestCase_input_data := [("is_high_risk", VBool true); ("intended_purpose_documented", VBool true)];
           TestCase_expected_result := "pass" |};
         {| TestCase_id := "TC-013-3E-F";
           TestCase_description := "Purpose not documented";
           TestCase_input_data := [("is_high_risk", VBool true); ("intended_purpose_documented", VBool false)];
           TestCase_expected_result := "fail" |} ];
     Rule_citations :=
       [ _cite 3 (Some "e") "intended purpose of the AI system" ] |};
  {| Rule_id := "RULE-EU-AI-ACT-013-03B-002";
     Rule_requirement_id := "REQ-EU-AI-ACT-013-03B-002";
     Rule_rule_type := AUTOMATED;
     Rule_title := "Accuracy levels must be declared in instructions";
     Rule_description :=
       "Verify that accuracy levels are declared in the instructions for use.";
     Rule_inputs_needed := ["is_high_risk"; "accuracy_levels_declared"];
     Rule_evaluation_logic :=
       ("if not is_high_risk: result='not_applicable'" ++ nl ++ "elif accuracy_levels_declared: result='pass'" ++ nl ++ "else: result='fail'")%string;
     Rule_severity := HIGH;
     Rule_remediation :=
       "Declare specific accuracy levels and metrics in the instructions for use.";
     Rule_test_cases :=
       [ {| TestCase_id := "TC-013-3B2-P";
           TestCase_description := "Accuracy declared";
           TestCase_input_data := [("is_high_risk", VBool true); ("accuracy_levels_declared", VStr "F1=0.92")];
           TestCase_expected_result := "pass" |};
         {| TestCase_id := "TC-013-3B2-F";
           TestCase_description := "No accuracy declared";
           TestCase_input_data := [("is_high_risk", VBool true); ("accuracy_levels_declared", VStr "")];
           TestCase_expected_result := "fail" |} ];
     Rule_citations :=
       [ _cite 3 (Some "b") "the level of accuracy" ] |}
].

Definition EVALUATION_FUNCTIONS : list (string * predicate) :=
  [
    ("RULE-EU-AI-ACT-013-01-001", _eval_transparency);
    ("RULE-EU-AI-ACT-013-02-001", _eval_instructions_provided);
    ("RULE-EU-AI-ACT-013-03A-001", _eval_provider_identity);
    ("RULE-EU-AI-ACT-013-03B-001", _eval_capabilities_documented);
    ("RULE-EU-AI-ACT-013-03D-001", _eval_human_oversight_docs);
    ("RULE-EU-AI-ACT-013-03E-001", _eval_intended_purpose);
    ("RULE-EU-AI-ACT-013-03B-002", _eval_accuracy_declared)
  ].

End art13.

(* ------------------------------------------------------------------ *)
(** ** rules/eu_ai_act_v1/art14.py                                      *)

Module art14.

Definition _REG_ID : string := "eu-ai-act-v1".
Definition _DOC_VERSION : string := "2024-1689-oj".
Definition _ART : Z := 14.

(** [f'{_REG_ID}/art{_ART:02d}/para{para}'], with [/sub-{sub}] when [sub] is
    neither [None] nor empty. *)
Definition _cid (para : Z) (sub : option string) : string :=
  let base :=
    (_REG_ID ++ "/art" ++ format_02d _ART ++ "/para" ++ Json.str_of_int para)%string in
  match sub with
  | Some (String c s) => (base ++ "/sub-" ++ String c s)%string
  | _ => base
  end.

Definition _cite (para : Z) (sub : option string) (quote : string) : Citation :=
  {| Citation_clause_id := _cid para sub;
     Citation_article_ref := ("Article " ++ Json.str_of_int _ART)%string;
     Citation_paragraph_ref := Some (Json.str_of_int para);
     Citation_subsection_ref := sub;
     Citation_page_number := None;
     Citation_exact_quote := quote |}.

Definition _eval_oversight_measures : predicate := fun profile =>
  c1 <- truth_of (PyValue.get_default profile "is_high_risk" (VBool false)) ;;
  if negb c1 then Ok "not_applicable" else
  measures <- PyValue.get_default profile "human_oversight_measures" (VList []) ;;
  c3 <- (n2 <- py_len measures ;; Ok (n2 >=? 1)%Z) ;;
  Ok (if c3 then "pass" else "fail").

Definition _eval_oversight_risk_min : predicate := fun profile =>
  c1 <- truth_of (PyValue.get_default profile "is_high_risk" (VBool false)) ;;
  if negb c1 then Ok "not_applicable" else
  measures <- PyValue.get_default profile "human_oversight_measures" (VList []) ;;
  c3 <- (n2 <- py_len measures ;; Ok (n2 >=? 2)%Z) ;;
  Ok (if c3 then "pass" else "fail").

Definition _eval_understand_capabilities : predicate := fun profile =>
  c1 <- truth_of (PyValue.get_default profile "is_high_risk" (VBool false)) ;;
  if negb c1 then Ok "not_applicable" else
  has_limits <- PyValue.get_default profile "limitations_documented" (VBool false) ;;
  has_instructions <- PyValue.get_default profile "instructions_for_use_provided" (VBool false) ;;
  c3 <- (b2 <- Ok (truthy has_limits) ;;
     if b2 then Ok (truthy has_instructions) else Ok false) ;;
  Ok (if c3 then "pass" else "fail").

Definition _eval_automation_bias : predicate := fun profile =>
  c1 <- truth_of (PyValue.get_default profile "is_high_risk" (VBool false)) ;;
  if negb c1 then Ok "not_applicable" else
  safeguards <- PyValue.get_default profile "automation_bias_safeguards" (VList []) ;;
  c3 <- (n2 <- py_len safeguards ;; Ok (n2 >=? 1)%Z) ;;
  Ok (if c3 then "pass" else "fail").

Definition _eval_output_interpretation : predicate := fun profile =>
  c1 <- truth_of (PyValue.get_default profile "is_high_risk" (VBool false)) ;;
  if negb c1 then Ok "not_applicable" else
  extra <- PyValue.get_default profile "extra" (VDict []) ;;
  c2 <- truth_of (PyValue.get_default extra "output_interpretation_tools" (VBool false)) ;;
  Ok (if c2 then "pass" else "fail").

Definition _eval_human_override : predicate := fun profile =>
  c1 <- truth_of (PyValue.get_default profile "is_high_risk" (VBool false)) ;;
  if negb c1 then Ok "not_applicable" else
  c2 <- truth_of (PyValue.get_default profile "human_can_override" (VBool false)) ;;
  Ok (if c2 then "pass" else "fail").

Definition _eval_human_interrupt : predicate := fun profile =>
  c1 <- truth_of (PyValue.get_default profile "is_high_risk" (VBool false)) ;;
  if negb c1 then Ok "not_applicable" else
  c2 <- truth_of (PyValue.get_default profile "human_can_interrupt" (VBool false)) ;;
  Ok (if c2 then "pass" else "fail").

Definition _eval_monitoring_enabled : predicate := fun profile =>
  c1 <- truth_of (PyValue.get_default profile "is_high_risk" (VBool false)) ;;
  if negb c1 then Ok "not_applicable" else
  measures <- PyValue.get_default profile "human_oversight_measures" (VList []) ;;
  has_monitoring <- (items3 <- py_iter measures ;;
     py_any (fun m =>
         (low2 <- py_lower m ;; Ok (contains_sub "monitor" low2))) items3) ;;
  Ok (if has_monitoring then "pass" else "fail").

Definition RULES : list Rule :=
[
  {| Rule_id := "RULE-EU-AI-ACT-014-01-001";
     Rule_requirement_id := "REQ-EU-AI-ACT-014-01-001";
     Rule_rule_type := AUTOMATED;
     Rule_title := "Human oversight measures must be implemented";
     Rule_description :=
       "Verify that the system is designed with human oversight measures for natural persons.";
     Rule_inputs_needed := ["is_high_risk"; "human_oversight_measures"];
     Rule_evaluation_logic :=
       ("if not is_high_risk: result='not_applicable'" ++ nl ++ "elif len(measures)>=1: result='pass'" ++ nl ++ "else: result='fail'")%string;
     Rule_severity := CRITICAL;
     Rule_remediation :=
       "Implement human oversight measures including human-machine interface tools.";
     Rule_test_cases :=
       [ {| TestCase_id := "TC-014-01-P";
           TestCase_description := "Oversight exists";
           TestCase_input_data := [("is_high_risk", VBool true); ("human_oversight_measures", VList [VStr "manual review"])];
           TestCase_expected_result := "pass" |};
         {| TestCase_id := "TC-014-01-F";
           TestCase_description := "No oversight";
           TestCase_input_data := [("is_high_risk", VBool true); ("human_oversight_measures", VList [])];
           TestCase_expected_result := "fail" |} ];
     Rule_citations :=
       [ _cite 1 None "effectively overseen by natural persons" ] |};
  {| Rule_id := "RULE-EU-AI-ACT-014-02-001";
     Rule_requirement_id := "REQ-EU-AI-ACT-014-02-001";
     Rule_rule_type := SEMI_AUTOMATED;
     Rule_title := "Oversight must minimise risks effectively";
     Rule_description :=
       "Verify that human oversight measures are sufficient to minimise risks to health, safety and fundamental rights.";
     Rule_inputs_needed := ["is_high_risk"; "human_oversight_measures"];
     Rule_evaluation_logic :=
       ("if not is_high_risk: result='not_applicable'" ++ nl ++ "elif len(measures)>=2: result='pass'" ++ nl ++ "else: result='fail'")%string;
     Rule_severity := HIGH;
     Rule_remediation :=
       "Implement multiple oversight measures that specifically target identified risks.";
     Rule_test_cases :=
       [ {| TestCase_id := "TC-014-02-P";
           TestCase_description := "Multiple measures";
           TestCase_input_data := [("is_high_risk", VBool true); ("human_oversight_measures", VList [VStr "review"; VStr "approval"])];
           TestCase_expected_result := "pass" |};
         {| TestCase_id := "TC-014-02-F";
           TestCase_description := "Insufficient measures";
           TestCase_input_data := [("is_high_risk", VBool true); ("human_oversight_measures", VList [VStr "review"])];
           TestCase_expected_result := "fail" |} ];
     Rule_citations :=
       [ _cite 2 None "minimising the risks to health, safety or fundamental rights" ] |};
  {| Rule_id := "RULE-EU-AI-ACT-014-04A-001";
     Rule_requirement_id := "REQ-EU-AI-ACT-014-04A-001";
     Rule_rule_type := SEMI_AUTOMATED;
     Rule_title := "Oversight personnel must understand system capabilities and limitations";
     Rule_description :=
       "Verify that oversight measures enable understanding of system capacities and limitations.";
     Rule_inputs_needed := ["is_high_risk"; "limitations_documented"; "instructions_for_use_provided"];
     Rule_evaluation_logic :=
       ("if not is_high_risk: result='not_applicable'" ++ nl ++ "elif both: result='pass'" ++ nl ++ "else: result='fail'")%string;
     Rule_severity := HIGH;
     Rule_remediation :=
       "Ensure limitations are documented and instructions for use are provided to oversight personnel.";
     Rule_test_cases :=
       [ {| TestCase_id := "TC-014-4A-P";
           TestCase_description := "Understanding enabled";
           TestCase_input_data := [("is_high_risk", VBool true); ("limitations_documented", VBool true); ("instructions_for_use_provided", VBool true)];
           TestCase_expected_result := "pass" |};
         {| TestCase_id := "TC-014-4A-F";
           TestCase_description := "No limitation docs";
           TestCase_input_data := [("is_high_risk", VBool true); ("limitations_documented", VBool false); ("instructions_for_use_provided", VBool true)];
           TestCase_expected_result := "fail" |} ];
     Rule_citations :=
       [ _cite 4 (Some "a") "fully understand the capacities and limitations" ] |};
  {| Rule_id := "RULE-EU-AI-ACT-014-04B-001";
     Rule_requirement_id := "REQ-EU-AI-ACT-014-04B-001";
     Rule_rule_type := AUTOMATED;
     Rule_title := "Automation bias safeguards must be implemented";
     Rule_description :=
       "Verify that safeguards against automation bias are implemented, especially for decision-support systems.";
     Rule_inputs_needed := ["is_high_risk"; "automation_bias_safeguards"];
     Rule_evaluation_logic :=
       ("if not is_high_risk: result='not_applicable'" ++ nl ++ "elif len(safeguards)>=1: result='pass'" ++ nl ++ "else: result='fail'")%string;
     Rule_severity := CRITICAL;
     Rule_remediation :=
       "Implement automation bias safeguards such as mandatory confirmation steps, uncertainty indicators, or periodic human-only reviews.";
     Rule_test_cases :=
       [ {| TestCase_id := "TC-014-4B-P";
           TestCase_description := "Safeguards exist";
           TestCase_input_data := [("is_high_risk", VBool true); ("automation_bias_safeguards", VList [VStr "confirmation step"])];
           TestCase_expected_result := "pass" |};
         {| TestCase_id := "TC-014-4B-F";
           TestCase_description := "No safeguards";
           TestCase_input_data := [("is_high_risk", VBool true); ("automation_bias_safeguards", VList [])];
           TestCase_expected_result := "fail" |} ];
     Rule_citations :=
       [ _cite 4 (Some "b") "automation bias" ] |};
  {| Rule_id := "RULE-EU-AI-ACT-014-04C-001";
     Rule_requirement_id := "REQ-EU-AI-ACT-014-04C-001";
     Rule_rule_type := SEMI_AUTOMATED;
     Rule_title := "Output interpretation tools must be available";
     Rule_description :=
       "Verify that tools and methods for correct interpretation of system output are available.";
     Rule_inputs_needed := ["is_high_risk"; "extra.output_interpretation_tools"];
     Rule_evaluation_logic :=
       ("if not is_high_risk: result='not_applicable'" ++ nl ++ "elif tools: result='pass'" ++ nl ++ "else: result='fail'")%string;
     Rule_severity := MEDIUM;
     Rule_remediation :=
       "Provide interpretation tools such as confidence scores, feature importance, or SHAP values.";
     Rule_test_cases :=
       [ {| TestCase_id := "TC-014-4C-P";
           TestCase_description := "Tools available";
           TestCase_input_data := [("is_high_risk", VBool true); ("extra", VDict [("output_interpretation_tools", VBool true)])];
           TestCase_expected_result := "pass" |};
         {| TestCase_id := "TC-014-4C-F";
           TestCase_description := "No tools";
           TestCase_input_data := [("is_high_risk", VBool true); ("extra", VDict [])];
           TestCase_expected_result := "fail" |} ];
     Rule_citations :=
       [ _cite 4 (Some "c") "correctly interpret the high-risk AI system's output" ] |};
  {| Rule_id := "RULE-EU-AI-ACT-014-04D-001";
     Rule_requirement_id := "REQ-EU-AI-ACT-014-04D-001";
     Rule_rule_type := AUTOMATED;
     Rule_title := "Human override capability must be available";
     Rule_description :=
       "Verify that humans can override, reverse or disregard the AI system's output.";
     Rule_inputs_needed := ["is_high_risk"; "human_can_override"];
     Rule_evaluation_logic :=
       ("if not is_high_risk: result='not_applicable'" ++ nl ++ "elif human_can_override: result='pass'" ++ nl ++ "else: result='fail'")%string;
     Rule_severity := CRITICAL;
     Rule_remediation :=
       "Implement mechanisms allowing human operators to override or reverse AI decisions.";
     Rule_test_cases :=
       [ {| TestCase_id := "TC-014-4D-P";
           TestCase_description := "Override available";
           TestCase_input_data := [("is_high_risk", VBool true); ("human_can_override", VBool true)];
           TestCase_expected_result := "pass" |};
         {| TestCase_id := "TC-014-4D-F";
           TestCase_description := "No override";
           TestCase_input_data := [("is_high_risk", VBool true); ("human_can_override", VBool false)];
           TestCase_expected_result := "fail" |} ];
     Rule_citations :=
       [ _cite 4 (Some "d") "override or reverse the output" ] |};
  {| Rule_id := "RULE-EU-AI-ACT-014-04E-001";
     Rule_requirement_id := "REQ-EU-AI-ACT-014-04E-001";
     Rule_rule_type := AUTOMATED;
     Rule_title := "System interruption capability must be available";
     Rule_description :=
       "Verify that humans can interrupt or stop the AI system safely.";
     Rule_inputs_needed := ["is_high_risk"; "human_can_interrupt"];
     Rule_evaluation_logic :=
       ("if not is_high_risk: result='not_applicable'" ++ nl ++ "elif human_can_interrupt: result='pass'" ++ nl ++ "else: result='fail'")%string;
     Rule_severity := CRITICAL;
     Rule_remediation :=
       "Implement a 'stop' button or similar procedure that allows the system to halt safely.";
     Rule_test_cases :=
       [ {| TestCase_id := "TC-014-4E-P";
           TestCase_description := "Interrupt available";
           TestCase_input_data := [("is_high_risk", VBool true); ("human_can_interrupt", VBool true)];
           TestCase_expected_result := "pass" |};
         {| TestCase_id := "TC-014-4E-F";
           TestCase_description := "No interrupt";
           TestCase_input_data := [("is_high_risk", VBool true); ("human_can_interrupt", VBool false)];
           TestCase_expected_result := "fail" |} ];
     Rule_citations :=
       [ _cite 4 (Some "e") "interrupt the system through a 'stop' button" ] |};
  {| Rule_id := "RULE-EU-AI-ACT-014-05-001";
     Rule_requirement_id := "REQ-EU-AI-ACT-014-05-001";
     Rule_rule_type := SEMI_AUTOMATED;
     Rule_title := "Oversight personnel must be able to monitor system in use";
     Rule_description :=
       "Verify that the system is provided to deployers in a way that enables proper monitoring.";
     Rule_inputs_needed := ["is_high_risk"; "human_oversight_measures"];
     Rule_evaluation_logic :=
       ("if not is_high_risk: result='not_applicable'" ++ nl ++ "elif monitoring in measures: result='pass'" ++ nl ++ "else: result='fail'")%string;
     Rule_severity := HIGH;
     Rule_remediation :=
       "Provide monitoring dashboards or tools that enable oversight personnel to monitor system operation in real-time.";
     Rule_test_cases :=
       [ {| TestCase_id := "TC-014-05-P";
           TestCase_description := "Monitoring enabled";
           TestCase_input_data := [("is_high_risk", VBool true); ("human_oversight_measures", VList [VStr "real-time monitoring dashboard"])];
           TestCase_expected_result := "pass" |};
         {| TestCase_id := "TC-014-05-F";
           TestCase_description := "No monitoring";
           TestCase_input_data := [("is_high_risk", VBool true); ("human_oversight_measures", VList [VStr "approval gate"])];
           TestCase_expected_result := "fail" |} ];
     Rule_citations :=
       [ _cite 5 None "enabled to properly monitor the system in use" ] |}
].

Definition EVALUATION_FUNCTIONS : list (string * predicate) :=
  [
    ("RULE-EU-AI-ACT-014-01-001", _eval_oversight_measures);
    ("RULE-EU-AI-ACT-014-02-001", _eval_oversight_risk_min);
    ("RULE-EU-AI-ACT-014-04A-001", _eval_understand_capabilities);
    ("RULE-EU-AI-ACT-014-04B-001", _eval_automation_bias);
    ("RULE-EU-AI-ACT-014-04C-001", _eval_output_interpretation);
    ("RULE-EU-AI-ACT-014-04D-001", _eval_human_override);
    ("RULE-EU-AI-ACT-014-04E-001", _eval_human_interrupt);
    ("RULE-EU-AI-ACT-014-05-001", _eval_monitoring_enabled)
  ].

End art14.

(* ------------------------------------------------------------------ *)
(** ** rules/eu_ai_act_v1/art15.py                                      *)

Module art15.

Definition _REG_ID : string := "eu-ai-act-v1".
Definition _DOC_VERSION : string := "2024-1689-oj".
Definition _ART : Z := 15.

(** [f'{_REG_ID}/art{_ART:02d}/para{para}'], with [/sub-{sub}] when [sub] is
    neither [None] nor empty. *)
Definition _cid (para : Z) (sub : option string) : string :=
  let base :=
    (_REG_ID ++ "/art" ++ format_02d _ART ++ "/para" ++ Json.str_of_int para)%string in
  match sub with
  | Some (String c s) => (base ++ "/sub-" ++ String c s)%string
  | _ => base
  end.

Definition _cite (para : Z) (sub : option string) (quote : string) : Citation :=
  {| Citation_clause_id := _cid para sub;
     Citation_article_ref := ("Article " ++ Json.str_of_int _ART)%string;
     Citation_paragraph_ref := Some (Json.str_of_int para);
     Citation_subsection_ref := sub;
     Citation_page_number := None;
     Citation_exact_quote := quote |}.

Definition _eval_accuracy_documented : predicate := fun profile =>
  c1 <- truth_of (PyValue.get_default profile "is_high_risk" (VBool false)) ;;
  if negb c1 then Ok "not_applicable" else
  c2 <- truth_of (PyValue.get_default profile "accuracy_metrics_documented" (VBool false)) ;;
  Ok (if c2 then "pass" else "fail").

Definition _eval_accuracy_declared : predicate := fun profile =>
  c1 <- truth_of (PyValue.get_default profile "is_high_risk" (VBool false)) ;;
  if negb c1 then Ok "not_applicable" else
  levels <- PyValue.get_default profile "accuracy_levels_declared" (VStr "") ;;
  Ok (if (truthy levels) then "pass" else "fail").

Definition _eval_disaggregated_metrics : predicate := fun profile =>
  c1 <- truth_of (PyValue.get_default profile "is_high_risk" (VBool false)) ;;
  if negb c1 then Ok "not_applicable" else
  c2 <- truth_of (PyValue.get_default profile "disaggregated_performance_metrics" (VBool false)) ;;
  Ok (if c2 then "pass" else "fail").

Definition _eval_robustness_measures : predicate := fun profile =>
  c1 <- truth_of (PyValue.get_default profile "is_high_risk" (VBool false)) ;;
  if negb c1 then Ok "not_applicable" else
  measures <- PyValue.get_default profile "robustness_measures" (VList []) ;;
  c3 <- (n2 <- py_len measures ;; Ok (n2 >=? 1)%Z) ;;
  Ok (if c3 then "pass" else "fail").

Definition _eval_robustness_technical : predicate := fun profile =>
  c1 <- truth_of (PyValue.get_default profile "is_high_risk" (VBool false)) ;;
  if negb c1 then Ok "not_applicable" else
  measures <- PyValue.get_default profile "robustness_measures" (VList []) ;;
  c3 <- (n2 <- py_len measures ;; Ok (n2 >=? 2)%Z) ;;
  Ok (if c3 then "pass" else "fail").

Definition _eval_adversarial_resilience : predicate := fun profile =>
  c1 <- truth_of (PyValue.get_default profile "is_high_risk" (VBool false)) ;;
  if negb c1 then Ok "not_applicable" else
  c2 <- truth_of (PyValue.get_default profile "adversarial_testing_performed" (VBool false)) ;;
  Ok (if c2 then "pass" else "fail").

Definition _eval_cybersecurity : predicate := fun profile =>
  c1 <- truth_of (PyValue.get_default profile "is_high_risk" (VBool false)) ;;
  if negb c1 then Ok "not_applicable" else
  measures <- PyValue.get_default profile "cybersecurity_measures" (VList []) ;;
  c3 <- (n2 <- py_len measures ;; Ok (n2 >=? 2)%Z) ;;
  Ok (if c3 then "pass" else "fail").

Definition _eval_feedback_loops : predicate := fun profile =>
  c1 <- truth_of (PyValue.get_default profile "is_high_risk" (VBool false)) ;;
  if negb c1 then Ok "not_applicable" else
  extra <- PyValue.get_default profile "extra" (VDict []) ;;
  c2 <- truth_of (PyValue.get_default extra "continuous_learning" (VBool false)) ;;
  if negb c2 then Ok "not_applicable" else
  c3 <- truth_of (PyValue.get_default extra "feedback_loop_mitigation" (VBool false)) ;;
  Ok (if c3 then "pass" else "fail").

Definition RULES : list Rule :=
[
  {| Rule_id := "RULE-EU-AI-ACT-015-01-001";
     Rule_requirement_id := "REQ-EU-AI-ACT-015-01-001";
     Rule_rule_type := AUTOMATED;
     Rule_title := "Accuracy metrics must be documented";
     Rule_description :=
       "Verify that accuracy metrics have been documented demonstrating appropriate accuracy levels.";
     Rule_inputs_needed := ["is_high_risk"; "accuracy_metrics_documented"];
     Rule_evaluation_logic :=
       ("if not is_high_risk: result='not_applicable'" ++ nl ++ "elif accuracy_metrics_documented: result='pass'" ++ nl ++ "else: result='fail'")%string;
     Rule_severity := HIGH;
     Rule_remediation :=
       "Document accuracy metrics with benchmarks demonstrating appropriate performance levels.";
     Rule_test_cases :=
       [ {| TestCase_id := "TC-015-01-P";
           TestCase_description := "Metrics documented";
           TestCase_input_data := [("is_high_risk", VBool true); ("accuracy_metrics_documented", VBool true)];
           TestCase_expected_result := "pass" |};
         {| TestCase_id := "TC-015-01-F";
           TestCase_description := "No metrics";
           TestCase_input_data := [("is_high_risk", VBool true); ("accuracy_metrics_documented", VBool false)];
           TestCase_expected_result := "fail" |} ];
     Rule_citations :=
       [ _cite 1 None "achieve an appropriate level of accuracy" ] |};
  {| Rule_id := "RULE-EU-AI-ACT-015-02-001";
     Rule_requirement_id := "REQ-EU-AI-ACT-015-02-001";
     Rule_rule_type := AUTOMATED;
     Rule_title := "Accuracy levels must be declared in instructions";
     Rule_description :=
       "Verify that accuracy levels and relevant metrics are declared in the instructions of use.";
     Rule_inputs_needed := ["is_high_risk"; "accuracy_levels_declared"];
     Rule_evaluation_logic :=
       ("if not is_high_risk: result='not_applicable'" ++ nl ++ "elif accuracy_levels_declared: result='pass'" ++ nl ++ "else: result='fail'")%string;
     Rule_severity := HIGH;
     Rule_remediation :=
       "Declare specific accuracy levels and metrics in the instructions for use.";
     Rule_test_cases :=
       [ {| TestCase_id := "TC-015-02-P";
           TestCase_description := "Levels declared";
           TestCase_input_data := [("is_high_risk", VBool true); ("accuracy_levels_declared", VStr "Precision: 0.91, Recall: 0.88")];
           TestCase_expected_result := "pass" |};
         {| TestCase_id := "TC-015-02-F";
           TestCase_description := "Not declared";
           TestCase_input_data := [("is_high_risk", VBool true); ("accuracy_levels_declared", VStr "")];
           TestCase_expected_result := "fail" |} ];
     Rule_citations :=
       [ _cite 2 None "levels of accuracy and the relevant accuracy metrics shall be declared" ] |};
  {| Rule_id := "RULE-EU-AI-ACT-015-02A-001";
     Rule_requirement_id := "REQ-EU-AI-ACT-015-02A-001";
     Rule_rule_type := AUTOMATED;
     Rule_title := "Disaggregated performance metrics must be provided";
     Rule_description :=
       "Verify that accuracy is measured using disaggregated metrics across relevant demographic groups.";
     Rule_inputs_needed := ["is_high_risk"; "disaggregated_performance_metrics"];
     Rule_evaluation_logic :=
       ("if not is_high_risk: result='not_applicable'" ++ nl ++ "elif disaggregated_performance_metrics: result='pass'" ++ nl ++ "else: result='fail'")%string;
     Rule_severity := CRITICAL;
     Rule_remediation :=
       "Measure and declare accuracy using disaggregated metrics across relevant demographic groups.";
     Rule_test_cases :=
       [ {| TestCase_id := "TC-015-2A-P";
           TestCase_description := "Disaggregated metrics";
           TestCase_input_data := [("is_high_risk", VBool true); ("disaggregated_performance_metrics", VBool true)];
           TestCase_expected_result := "pass" |};
         {| TestCase_id := "TC-015-2A-F";
           TestCase_description := "No disaggregated metrics";
           TestCase_input_data := [("is_high_risk", VBool true); ("disaggregated_performance_metrics", VBool false)];
           TestCase_expected_result := "fail" |} ];
     Rule_citations :=
       [ _cite 2 (Some "a") "accuracy shall be measured and declared using disaggregated metrics" ] |};
  {| Rule_id := "RULE-EU-AI-ACT-015-03-001";
     Rule_requirement_id := "REQ-EU-AI-ACT-015-03-001";
     Rule_rule_type := AUTOMATED;
     Rule_title := "Robustness measures must be implemented";
     Rule_description :=
       "Verify that the system has robustness measures against errors, faults and inconsistencies.";
     Rule_inputs_needed := ["is_high_risk"; "robustness_measures"];
     Rule_evaluation_logic :=
       ("if not is_high_risk: result='not_applicable'" ++ nl ++ "elif len(measures)>=1: result='pass'" ++ nl ++ "else: result='fail'")%string;
     Rule_severity := HIGH;
     Rule_remediation :=
       "Implement robustness measures such as input validation, error handling, and redundancy.";
     Rule_test_cases :=
       [ {| TestCase_id := "TC-015-03-P";
           TestCase_description := "Robustness present";
           TestCase_input_data := [("is_high_risk", VBool true); ("robustness_measures", VList [VStr "input validation"])];
           TestCase_expected_result := "pass" |};
         {| TestCase_id := "TC-015-03-F";
           TestCase_description := "No robustness";
           TestCase_input_data := [("is_high_risk", VBool true); ("robustness_measures", VList [])];
           TestCase_expected_result := "fail" |} ];
     Rule_citations :=
       [ _cite 3 None "resilient as possible regarding errors, faults or inconsistencies" ] |};
  {| Rule_id := "RULE-EU-AI-ACT-015-03A-001";
     Rule_requirement_id := "REQ-EU-AI-ACT-015-03A-001";
     Rule_rule_type := SEMI_AUTOMATED;
     Rule_title := "Technical and organisational robustness measures must be taken";
     Rule_description :=
       "Verify that technical and organisational measures ensure robustness including redundancy.";
     Rule_inputs_needed := ["is_high_risk"; "robustness_measures"];
     Rule_evaluation_logic :=
       ("if not is_high_risk: result='not_applicable'" ++ nl ++ "elif len(measures)>=2: result='pass'" ++ nl ++ "else: result='fail'")%string;
     Rule_severity := MEDIUM;
     Rule_remediation :=
       "Implement both technical and organisational robustness measures including redundancy solutions.";
     Rule_test_cases :=
       [ {| TestCase_id := "TC-015-3A-P";
           TestCase_description := "Multiple measures";
           TestCase_input_data := [("is_high_risk", VBool true); ("robustness_measures", VList [VStr "input validation"; VStr "failover"])];
           TestCase_expected_result := "pass" |};
         {| TestCase_id := "TC-015-3A-F";
           TestCase_description := "Insufficient measures";
           TestCase_input_data := [("is_high_risk", VBool true); ("robustness_measures", VList [VStr "input validation"])];
           TestCase_expected_result := "fail" |} ];
     Rule_citations :=
       [ _cite 3 (Some "a") "Technical and organisational measures shall be taken" ] |};
  {| Rule_id := "RULE-EU-AI-ACT-015-04-001";
     Rule_requirement_id := "REQ-EU-AI-ACT-015-04-001";
     Rule_rule_type := AUTOMATED;
     Rule_title := "Adversarial testing must be performed";
     Rule_description :=
       "Verify that the system has been tested for resilience against unauthorized manipulation.";
     Rule_inputs_needed := ["is_high_risk"; "adversarial_testing_performed"];
     Rule_evaluation_logic :=
       ("if not is_high_risk: result='not_applicable'" ++ nl ++ "elif adversarial_testing_performed: result='pass'" ++ nl ++ "else: result='fail'")%string;
     Rule_severity := HIGH;
     Rule_remediation :=
       "Perform adversarial testing to validate resilience against unauthorized third party manipulation.";
     Rule_test_cases :=
       [ {| TestCase_id := "TC-015-04-P";
           TestCase_description := "Testing done";
           TestCase_input_data := [("is_high_risk", VBool true); ("adversarial_testing_performed", VBool true)];
           TestCase_expected_result := "pass" |};
         {| TestCase_id := "TC-015-04-F";
           TestCase_description := "No testing";
           TestCase_input_data := [("is_high_risk", VBool true); ("adversarial_testing_performed", VBool false)];
           TestCase_expected_result := "fail" |} ];
     Rule_citations :=
       [ _cite 4 None "resilient against attempts by unauthorised third parties" ] |};
  {| Rule_id := "RULE-EU-AI-ACT-015-04A-001";
     Rule_requirement_id := "REQ-EU-AI-ACT-015-04A-001";
     Rule_rule_type := AUTOMATED;
     Rule_title := "Cybersecurity measures must be appropriate";
     Rule_description :=
       "Verify that cybersecurity measures are implemented including defences against data/model poisoning and adversarial attacks.";
     Rule_inputs_needed := ["is_high_risk"; "cybersecurity_measures"];
     Rule_evaluation_logic :=
       ("if not is_high_risk: result='not_applicable'" ++ nl ++ "elif len(measures)>=2: result='pass'" ++ nl ++ "else: result='fail'")%string;
     Rule_severity := CRITICAL;
     Rule_remediation :=
       "Implement comprehensive cybersecurity measures covering data poisoning, model poisoning, adversarial examples, and confidentiality attacks.";
     Rule_test_cases :=
       [ {| TestCase_id := "TC-015-4A-P";
           TestCase_description := "Security present";
           TestCase_input_data := [("is_high_risk", VBool true); ("cybersecurity_measures", VList [VStr "input sanitization"; VStr "access control"])];
           TestCase_expected_result := "pass" |};
         {| TestCase_id := "TC-015-4A-F";
           TestCase_description := "Insufficient security";
           TestCase_input_data := [("is_high_risk", VBool true); ("cybersecurity_measures", VList [VStr "access control"])];
           TestCase_expected_result := "fail" |} ];
     Rule_citations :=
       [ _cite 4 (Some "a") "technical solutions aimed at ensuring the cybersecurity" ] |};
  {| Rule_id := "RULE-EU-AI-ACT-015-05-001";
     Rule_requirement_id := "REQ-EU-AI-ACT-015-05-001";
     Rule_rule_type := SEMI_AUTOMATED;
     Rule_title := "Feedback loop risks must be mitigated for continuous learning systems";
     Rule_description :=
       "Verify that continuous learning systems address feedback loop risks with mitigation measures.";
     Rule_inputs_needed := ["is_high_risk"; "extra.continuous_learning"; "extra.feedback_loop_mitigation"];
     Rule_evaluation_logic :=
       ("if not continuous_learning: result='not_applicable'" ++ nl ++ "elif mitigation: result='pass'" ++ nl ++ "else: result='fail'")%string;
     Rule_severity := HIGH;
     Rule_remediation :=
       "Implement feedback loop mitigation such as data drift monitoring, output monitoring, and retraining safeguards.";
     Rule_test_cases :=
       [ {| TestCase_id := "TC-015-05-P";
           TestCase_description := "Mitigation present";
           TestCase_input_data := [("is_high_risk", VBool true); ("extra", VDict [("continuous_learning", VBool true); ("feedback_loop_mitigation", VBool true)])];
           TestCase_expected_result := "pass" |};
         {| TestCase_id := "TC-015-05-NA";
           TestCase_description := "Not continuous";
           TestCase_input_data := [("is_high_risk", VBool true); ("extra", VDict [("continuous_learning", VBool false)])];
           TestCase_expected_result := "not_applicable" |} ];
     Rule_citations :=
       [ _cite 5 None "feedback loops are duly addressed with appropriate mitigation measures" ] |}
].

Definition EVALUATION_FUNCTIONS : list (string * predicate) :=
  [
    ("RULE-EU-AI-ACT-015-01-001", _eval_accuracy_documented);
    ("RULE-EU-AI-ACT-015-02-001", _eval_accuracy_declared);
    ("RULE-EU-AI-ACT-015-02A-001", _eval_disaggregated_metrics);
    ("RULE-EU-AI-ACT-015-03-001", _eval_robustness_measures);
    ("RULE-EU-AI-ACT-015-03A-001", _eval_robustness_technical);
    ("RULE-EU-AI-ACT-015-04-001", _eval_adversarial_resilience);
    ("RULE-EU-AI-ACT-015-04A-001", _eval_cybersecurity);
    ("RULE-EU-AI-ACT-015-05-001", _eval_feedback_loops)
  ].

End art15.
(* ------------------------------------------------------------------ *)
(** ** rules/eu_ai_act_v1/__init__.py                                   *)

(** What the package reads of an article module. *)
Record article_module : Type := {
  module_RULES : list Rule;
  module_EVALUATION_FUNCTIONS : list (string * predicate)
}.

Definition _ARTICLE_MODULES : list article_module :=
  [ {| module_RULES := art09.RULES;
       module_EVALUATION_FUNCTIONS := art09.EVALUATION_FUNCTIONS |};
    {| module_RULES := art10.RULES;
       module_EVALUATION_FUNCTIONS := art10.EVALUATION_FUNCTIONS |};
    {| module_RULES := art11.RULES;
       module_EVALUATION_FUNCTIONS := art11.EVALUATION_FUNCTIONS |};
    {| module_RULES := art12.RULES;
       module_EVALUATION_FUNCTIONS := art12.EVALUATION_FUNCTIONS |};
    {| module_RULES := art13.RULES;
       module_EVALUATION_FUNCTIONS := art13.EVALUATION_FUNCTIONS |};
    {| module_RULES := art14.RULES;
       module_EVALUATION_FUNCTIONS := art14.EVALUATION_FUNCTIONS |};
    {| module_RULES := art15.RULES;
       module_EVALUATION_FUNCTIONS := art15.EVALUATION_FUNCTIONS |} ].

(** [get_rules()]: [rules.extend(mod.RULES)] for each module. *)
Definition get_rules : list Rule :=
  fold_left (fun rules module => rules ++ module_RULES module) _ARTICLE_MODULES [].

(** [table.get(key)] on a dict literal. *)
Fixpoint table_get {A : Type} (table : list (string * A)) (key : string) : option A :=
  match table with
  | [] => None
  | (k, v) :: rest => if String.eqb k key then Some v else table_get rest key
  end.

(** The loop of [get_evaluation_function] over the modules. *)
Fixpoint first_registered (mods : list article_module) (rule_id : string)
  : option predicate :=
  match mods with
  | [] => None
  | module :: rest =>
      match table_get (module_EVALUATION_FUNCTIONS module) rule_id with
      | Some fn => Some fn
      | None => first_registered rest rule_id
      end
  end.

Definition get_evaluation_function (rule_id : string) : option predicate :=
  first_registered _ARTICLE_MODULES rule_id.

(* ------------------------------------------------------------------ *)
(** ** rules/eu_ai_act_v1/mapping.py                                    *)

Module mapping.

Definition ARTICLE_RULE_MAPPING : list (Z * list string) :=
  [ (9, map Rule_id art09.RULES);
    (10, map Rule_id art10.RULES);
    (11, map Rule_id art11.RULES);
    (12, map Rule_id art12.RULES);
    (13, map Rule_id art13.RULES);
    (14, map Rule_id art14.RULES);
    (15, map Rule_id art15.RULES) ]%Z.

(** [ARTICLE_RULE_MAPPING.get(article_number, [])] *)
Definition get_rules_for_article (article_number : Z) : list string :=
  match find (fun kv => Z.eqb (fst kv) article_number) ARTICLE_RULE_MAPPING with
  | Some kv => snd kv
  | None => []
  end.

End mapping.

End eu_ai_act_v1.

(* ================================================================== *)
(** * core/engine.py: construction                                      *)
(* ================================================================== *)

(** [_load_regulation]: the shipped catalogue for ["eu-ai-act-v1"], no
    rule for any other name. *)
Definition _load_regulation (regulation : string) : list Rule :=
  if String.eqb regulation "eu-ai-act-v1" then eu_ai_act_v1.get_rules else [].

(** [ComplianceEngine(regulation=...)], as far as [evaluate] reads the
    object. *)
Definition ComplianceEngine_init (name : string) : ComplianceEngine :=
  {| regulation := name; _rules := _load_regulation name |}.

(* ================================================================== *)
(** * models/profile.py                                                 *)
(* ================================================================== *)

Module Profile.

(** The dumped profile in the form [evaluate] takes it: the two identity
    fields and the items of the rest. *)
Definition dumped : Type := SystemProfile.

(** [datetime.date] *)
Record date : Type := {
  date_year : Z;
  date_month : Z;
  date_day : Z
}.

Definition date_isoformat (d : date) : string :=
  (Datetime.zpad 4 (date_year d) ++ "-" ++ Datetime.zpad 2 (date_month d)
   ++ "-" ++ Datetime.zpad 2 (date_day d))%string.

Record BiasExaminationReport : Type := {
  covers_health_safety : bool;
  covers_fundamental_rights : bool;
  covers_prohibited_discrimination : bool;
  datasets_examined : list string;
  examination_date : option date;
  methodology : string;
  findings_summary : string
}.

Record SystemProfile : Type := {
  system_name : string;
  provider_name : string;
  provider_jurisdiction : string;
  system_version : string;
  intended_purpose : string;
  is_high_risk : bool;
  high_risk_category : string;
  annex_iii_section : string;
  uses_training_data : bool;
  dataset_names : list string;
  bias_examination_report : option BiasExaminationReport;
  data_governance_practices_documented : bool;
  training_data_relevance_documented : bool;
  data_collection_process_documented : bool;
  technical_documentation_exists : bool;
  technical_documentation_url : string;
  automatic_logging_enabled : bool;
  logging_capabilities : list string;
  instructions_for_use_provided : bool;
  intended_purpose_documented : bool;
  limitations_documented : bool;
  human_oversight_measures : list string;
  human_can_override : bool;
  human_can_interrupt : bool;
  automation_bias_safeguards : list string;
  accuracy_metrics_documented : bool;
  accuracy_levels_declared : string;
  disaggregated_performance_metrics : bool;
  robustness_measures : list string;
  cybersecurity_measures : list string;
  adversarial_testing_performed : bool;
  risk_management_system_established : bool;
  risk_management_continuous : bool;
  residual_risks_documented : bool;
  risk_mitigation_measures : list string;
  testing_procedures_documented : bool;
  extra : pydict
}.

Definition strs (l : list string) : value := VList (map VStr l).

(** The dump of the nested report.  The date object, which has no JSON
    shape and which no predicate reads, is kept as its ISO text. *)
Definition dump_bias (r : BiasExaminationReport) : value :=
  VDict
    [ ("covers_health_safety", VBool (covers_health_safety r));
      ("covers_fundamental_rights", VBool (covers_fundamental_rights r));
      ("covers_prohibited_discrimination", VBool (covers_prohibited_discrimination r));
      ("datasets_examined", strs (datasets_examined r));
      ("examination_date",
       match examination_date r with
       | Some d => VStr (date_isoformat d)
       | None => VNone
       end);
      ("methodology", VStr (methodology r));
      ("findings_summary", VStr (findings_summary r)) ].

(** The items of [profile.model_dump()] after the two identity fields. *)
Definition dump_fields (p : SystemProfile) : pydict :=
  [ ("provider_jurisdiction", VStr (provider_jurisdiction p));
    ("system_version", VStr (system_version p));
    ("intended_purpose", VStr (intended_purpose p));
    ("is_high_risk", VBool (is_high_risk p));
    ("high_risk_category", VStr (high_risk_category p));
    ("annex_iii_section", VStr (annex_iii_section p));
    ("uses_training_data", VBool (uses_training_data p));
    ("dataset_names", strs (dataset_names p));
    ("bias_examination_report",
     match bias_examination_report p with
     | Some r => dump_bias r
     | None => VNone
     end);
    ("data_governance_practices_documented",
     VBool (data_governance_practices_documented p));
    ("training_data_relevance_documented",
     VBool (training_data_relevance_documented p));
    ("data_collection_process_documented",
     VBool (data_collection_process_documented p));
    ("technical_documentation_exists", VBool (technical_documentation_exists p));
    ("technical_documentation_url", VStr (technical_documentation_url p));
    ("automatic_logging_enabled", VBool (automatic_logging_enabled p));
    ("logging_capabilities", strs (logging_capabilities p));
    ("instructions_for_use_provided", VBool (instructions_for_use_provided p));
    ("intended_purpose_documented", VBool (intended_purpose_documented p));
    ("limitations_documented", VBool (limitations_documented p));
    ("human_oversight_measures", strs (human_oversight_measures p));
    ("human_can_override", VBool (human_can_override p));
    ("human_can_interrupt", VBool (human_can_interrupt p));
    ("automation_bias_safeguards", strs (automation_bias_safeguards p));
    ("accuracy_metrics_documented", VBool (accuracy_metrics_documented p));
    ("accuracy_levels_declared", VStr (accuracy_levels_declared p));
    ("disaggregated_performance_metrics",
     VBool (disaggregated_performance_metrics p));
    ("robustness_measures", strs (robustness_measures p));
    ("cybersecurity_measures", strs (cybersecurity_measures p));
    ("adversarial_testing_performed", VBool (adversarial_testing_performed p));
    ("risk_management_system_established",
     VBool (risk_management_system_established p));
    ("risk_management_continuous", VBool (risk_management_continuous p));
    ("residual_risks_documented", VBool (residual_risks_documented p));
    ("risk_mitigation_measures", strs (risk_mitigation_measures p));
    ("testing_procedures_documented", VBool (testing_procedures_documented p));
    ("extra", VDict (extra p)) ].

(** The profile as [evaluate] takes it. *)
Definition to_engine (p : SystemProfile) : dumped :=
  {| SystemProfile_system_name := system_name p;
     SystemProfile_provider_name := provider_name p;
     SystemProfile_fields := dump_fields p |}.

(** [profile.model_dump()] *)
Definition dump (p : SystemProfile) : value := model_dump (to_engine p).

End Profile.

(* ================================================================== *)
(** * api/routers/audit.py: the verification endpoint                   *)
(* ================================================================== *)

Module AuditRouter.

Record AuditVerificationResult : Type := {
  is_valid : bool;
  total_entries : nat;
  errors : list string;
  first_entry_time : option string;
  last_entry_time : option string
}.

(** [GET /api/audit/verify]: a constructor that raises is answered with
    an invalid result, an empty log with a valid one. *)
Definition verify_audit_chain (log_dir : string) (fs : filesystem)
           (utcnow : Datetime.datetime) : AuditVerificationResult :=
  match Logger.__init__ log_dir fs with
  | Raise e =>
      {| is_valid := false;
         total_entries := 0;
         errors := [("Failed to load audit log: " ++ exn_text e)%string];
         first_entry_time := None;
         last_entry_time := None |}
  | Ok audit_logger =>
      let entries := Logger.load_from_file audit_logger None fs utcnow in
      match entries with
      | [] =>
          {| is_valid := true;
             total_entries := 0;
             errors := [];
             first_entry_time := None;
             last_entry_time := None |}
      | first :: _ =>
          let '(valid, errs) := Logger.verify_chain entries in
          {| is_valid := valid;
             total_entries := List.length entries;
             errors := errs;
             first_entry_time :=
               Some (Datetime.isoformat (AuditEntry_timestamp first));
             last_entry_time :=
               Some (Datetime.isoformat (AuditEntry_timestamp (last entries first))) |}
      end
  end.

End AuditRouter.

(* ================================================================== *)
(** * api/routers/evaluate.py: the report store                         *)
(* ================================================================== *)

Module EvaluateRouter.

(** [store["reports"]], a dict from report id to report, in insertion
    order. *)
Definition reports : Type := list (string * ComplianceReport).

(** [d[key] = report]: overwrite in place or append. *)
Fixpoint reports_set (d : reports) (key : string) (report : ComplianceReport) : reports :=
  match d with
  | [] => [(key, report)]
  | (k, r) :: rest =>
      if String.eqb k key then (k, report) :: rest
      else (k, r) :: reports_set rest key report
  end.

(** What an endpoint answers: its value, or [HTTPException]. *)
Inductive response (A : Type) : Type :=
| Respond (a : A)
| HTTPException (status_code : Z) (detail : string).
Arguments Respond {A} a.
Arguments HTTPException {A} status_code detail.

(** [POST /api/evaluate/]; [exec] is the interpreter of the fallback path
    and [now] the clock reading of the evaluation. *)
Definition evaluate_profile (exec : string -> pydict -> pyresult (option string))
           (profile : Profile.SystemProfile) (now : Datetime.datetime) (store : reports)
  : ComplianceReport * reports :=
  let engine := ComplianceEngine_init "eu-ai-act-v1" in
  let report :=
    evaluate eu_ai_act_v1.get_evaluation_function exec engine
             (Profile.to_engine profile) now in
  (report, reports_set store (ComplianceReport_id report) report).

(** [GET /api/evaluate/reports] *)
Definition list_reports (store : reports) : list ComplianceReport :=
  map snd store.

(** [GET /api/evaluate/reports/{report_id}] *)
Definition get_report (report_id : string) (store : reports)
  : response ComplianceReport :=
  match eu_ai_act_v1.table_get store report_id with
  | Some report => Respond report
  | None => HTTPException 404 ("Report '" ++ report_id ++ "' not found")%string
  end.

End EvaluateRouter.


(* ================================================================== *)
(** * Vocabulary of the properties                                      *)
(* ================================================================== *)

(** The result the engine computes for one rule of the catalogue. *)
Definition result_of (registry : string -> option predicate)
           (exec : string -> pydict -> pyresult (option string))
           (profile_dict : value) (rule : Rule) : RuleResult :=
  _evaluate_rule registry exec rule profile_dict.

Definition fails (registry : string -> option predicate)
           (exec : string -> pydict -> pyresult (option string))
           (profile_dict : value) (rule : Rule) : bool :=
  RuleVerdict_eqb (RuleResult_verdict (result_of registry exec profile_dict rule)) FAIL.

Definition gap_of (registry : string -> option predicate)
           (exec : string -> pydict -> pyresult (option string))
           (profile_dict : value) (rule : Rule) : ComplianceGap :=
  make_gap rule (result_of registry exec profile_dict rule).

(** The rule's native predicate raises an exception that the registry
    guard, [except (ImportError, AttributeError)], lets through. *)
Definition native_raises (registry : string -> option predicate)
           (profile_dict : value) (rule : Rule) : Prop :=
  exists fn e,
    registry (Rule_id rule) = Some fn
    /\ fn profile_dict = Raise e
    /\ lookup_guard_catches e = false.

(** The rule is decided by the fallback interpretation (no predicate is
    registered, or the registered one raised what the guard swallows), and
    the interpreter raises. *)
Definition fallback_raises (registry : string -> option predicate)
           (exec : string -> pydict -> pyresult (option string))
           (profile_dict : value) (rule : Rule) : Prop :=
  (registry (Rule_id rule) = None
   \/ exists fn e, registry (Rule_id rule) = Some fn
                   /\ fn profile_dict = Raise e
                   /\ lookup_guard_catches e = true)
  /\ exists inputs e,
       resolve_inputs profile_dict (Rule_inputs_needed rule) [] = Ok inputs
       /\ exec (Rule_evaluation_logic rule)
               (dict_set inputs "result" (VStr "manual_review")) = Raise e.

(** The three tiers of the report. *)
Inductive bucket : Type := Critical | High | Medium.

Definition bucket_of (s : Severity) : bucket :=
  match s with
  | CRITICAL => Critical
  | HIGH => High
  | MEDIUM | LOW | INFO => Medium
  end.

Definition bucket_eqb (a b : bucket) : bool :=
  match a, b with
  | Critical, Critical | High, High | Medium, Medium => true
  | _, _ => false
  end.

(** The gaps of the failing rules whose severity falls in tier [b], in
    catalogue order. *)
Definition gaps_in (registry : string -> option predicate)
           (exec : string -> pydict -> pyresult (option string))
           (profile_dict : value) (b : bucket) (rules : list Rule) : list ComplianceGap :=
  map (gap_of registry exec profile_dict)
      (filter (fun r => fails registry exec profile_dict r
                        && bucket_eqb (bucket_of (Rule_severity r)) b) rules).

(** The score as the specification words it: the pass rate of the
    applicable rules in percent, rounded to one decimal, and 0 when no
    rule is applicable. *)
Definition spec_score (passed failed : nat) : Float.float :=
  match (passed + failed)%nat with
  | O => Float.zero
  | S _ =>
      Float.round1
        (Float.mul_int (Float.truediv (Z.of_nat passed) (Z.of_nat (passed + failed))) 100)
  end.

(* ------------------------------------------------------------------ *)
(** ** The audit log                                                    *)

(** [N] successive [log] calls on one logger. *)
Fixpoint log_all (self : Logger.AuditLogger) (calls : list Logger.log_call)
         (fs : filesystem)
  : pyresult (list AuditEntry * Logger.AuditLogger * filesystem) :=
  match calls with
  | [] => Ok ([], self, fs)
  | call :: rest =>
      r <- Logger.log self call fs ;;
      let '(entry, self', fs') := r in
      r' <- log_all self' rest fs' ;;
      let '(entries, self'', fs'') := r' in
      Ok (entry :: entries, self'', fs'')
  end.

(** The line [_append] writes for an entry. *)
Definition line_of (entry : AuditEntry) : line :=
  JsonLine (Pydantic.model_dump_json entry).

(** The [details] a [log] call passes on: [details or {}]. *)
Definition details_of_call (call : Logger.log_call) : pydetails :=
  match Logger.call_details call with
  | Some d => d
  | None => []
  end.

(** The lines of a log that holds the entries [es], as they are read
    back: one written line per entry, in order, blank lines anywhere; the
    entries have timestamps that exist and JSON-shaped details. *)
Inductive holds : list line -> list AuditEntry -> Prop :=
| holds_nil : holds [] []
| holds_blank : forall ls es, holds ls es -> holds (BlankLine :: ls) es
| holds_entry : forall e ls es,
    Datetime.valid (AuditEntry_timestamp e) = true ->
    json_shaped (ODict (AuditEntry_details e)) = true ->
    holds ls es -> holds (line_of e :: ls) (e :: es).

(** A log file that is missing, or whose lines hold the entries [es] and
    end with a newline. *)
Definition stores (fs : filesystem) (path : string) (es : list AuditEntry) : Prop :=
  (fs path = None /\ es = [])
  \/ (exists ls, fs path = Some ls /\ unterminated fs path = None /\ holds ls es).

(** A file system that holds the given files, every line ending with a
    newline, in directories that exist or can be created. *)
Definition files_only (content : string -> option (list line)) : filesystem :=
  {| files := content;
     unterminated := fun _ => None;
     makedirs_error := fun _ => None |}.

(** The hash the next entry has to reference: the genesis sentinel, or the
    hash of the entry before it. *)
Definition hash_of_prior (prior : option AuditEntry) : string :=
  match prior with
  | Some p => AuditEntry_entry_hash p
  | None => Logger._GENESIS_HASH
  end.

(** The last entry of [es], or [prior] when there is none. *)
Definition last_entry (prior : option AuditEntry) (es : list AuditEntry)
  : option AuditEntry :=
  fold_left (fun _ e => Some e) es prior.

(** The entries form a chain after [prior]: every stored hash is the hash
    of the entry's own fields, and every [previous_hash] is the hash of
    the entry before. *)
Fixpoint linked (prior : option AuditEntry) (es : list AuditEntry) : Prop :=
  match es with
  | [] => True
  | e :: rest =>
      AuditEntry_entry_hash e = Logger.expected_hash_of e
      /\ AuditEntry_previous_hash e = hash_of_prior prior
      /\ linked (Some e) rest
  end.

(** The lines of a file, none when it is missing. *)
Definition lines_at (fs : filesystem) (path : string) : list line :=
  match fs path with
  | Some ls => ls
  | None => []
  end.

(** The errors one iteration of [verify_chain]'s loop appends. *)
Definition errors_of (prior : option AuditEntry) (entry : AuditEntry) : list string :=
  (if negb (String.eqb (AuditEntry_entry_hash entry) (Logger.expected_hash_of entry))
   then [Logger.hash_mismatch_error entry (Logger.expected_hash_of entry)]
   else [])
  ++ match prior with
     | Some p =>
         if negb (String.eqb (AuditEntry_previous_hash entry) (AuditEntry_entry_hash p))
         then [Logger.chain_broken_error entry p]
         else []
     | None => []
     end.

Fixpoint all_errors (prior : option AuditEntry) (es : list AuditEntry) : list string :=
  match es with
  | [] => []
  | e :: rest => errors_of prior e ++ all_errors (Some e) rest
  end.

(** The list with its element at position [i] replaced by its image. *)
Fixpoint overwrite_nth {A : Type} (i : nat) (f : A -> A) (l : list A) : list A :=
  match l, i with
  | [], _ => []
  | x :: rest, O => f x :: rest
  | x :: rest, S j => x :: overwrite_nth j f rest
  end.

(** An entry with its [details] overwritten and nothing else touched. *)
Definition with_details (e : AuditEntry) (details : pydetails) : AuditEntry :=
  {| AuditEntry_id := AuditEntry_id e;
     AuditEntry_timestamp := AuditEntry_timestamp e;
     AuditEntry_action := AuditEntry_action e;
     AuditEntry_stage := AuditEntry_stage e;
     AuditEntry_actor := AuditEntry_actor e;
     AuditEntry_target_ids := AuditEntry_target_ids e;
     AuditEntry_input_hash := AuditEntry_input_hash e;
     AuditEntry_output_hash := AuditEntry_output_hash e;
     AuditEntry_previous_hash := AuditEntry_previous_hash e;
     AuditEntry_entry_hash := AuditEntry_entry_hash e;
     AuditEntry_details := details;
     AuditEntry_model_used := AuditEntry_model_used e;
     AuditEntry_verdict := AuditEntry_verdict e |}.

(** [entry["details"] = new] on a parsed line. *)
Definition overwrite_details (new : value) (entry : value) : value :=
  match entry with
  | VDict d => VDict (dict_set d "details" new)
  | other => other
  end.

(** The id [AuditChainVerifier.verify] prints for the line at position
    [idx]: [entry.get("id", f"<index {idx}>")]. *)
Definition entry_id_of (idx : nat) (entry : value) : value :=
  match entry with
  | VDict d =>
      match dict_get d "id" with
      | Some w => w
      | None => VStr ("<index " ++ Json.str_of_int (Z.of_nat idx) ++ ">")
      end
  | _ => VNone
  end.

(** The hash [AuditChainVerifier.verify] recomputes for a parsed line. *)
Definition recomputed_hash (entry : value) : pyresult string :=
  stored_previous <- PyValue.get_default entry "previous_hash" (VStr "") ;;
  action_value <- PyValue.get_default entry "action" (VStr "") ;;
  timestamp_str <- PyValue.get_default entry "timestamp" (VStr "") ;;
  target_ids <- PyValue.get_default entry "target_ids" (VList []) ;;
  details <- PyValue.get_default entry "details" (VDict []) ;;
  Chain._compute_hash stored_previous timestamp_str action_value target_ids details.

(** A line that is no audit entry whatever its timestamp reads as: text
    that is no JSON, JSON that is no object, or an object that lacks one of
    the required fields [id], [action] and [stage]. *)
Definition malformed (l : line) : Prop :=
  match l with
  | BlankLine => False
  | GarbageLine _ => True
  | JsonLine (VDict d) =>
      dict_get d "id" = None \/ dict_get d "action" = None \/ dict_get d "stage" = None
  | JsonLine _ => True
  end.

(** The verdict string is one of the four the verdict map knows. *)
Definition recognized (verdict : string) : bool :=
  String.eqb verdict "pass" || String.eqb verdict "fail"
  || String.eqb verdict "not_applicable" || String.eqb verdict "manual_review".

(* ================================================================== *)
(** * Concrete scenarios                                                *)
(* ================================================================== *)

Module Scenario.

Local Open Scope Z_scope.

(** The mapping of [tests/unit/test_engine.py::test_field_resolution]. *)
Definition test_data : value :=
  VDict [ ("uses_training_data", VBool true);
          ("bias_examination_report",
           VDict [ ("covers_health_safety", VBool true);
                   ("covers_fundamental_rights", VBool false) ]) ].

Definition plain_rule (id : string) (kind : RuleType) (sev : Severity) (logic : string)
  : Rule :=
  {| Rule_id := id;
     Rule_requirement_id := "REQ-" ++ id;
     Rule_rule_type := kind;
     Rule_title := "Title of " ++ id;
     Rule_description := "Check " ++ id;
     Rule_inputs_needed := [id];
     Rule_evaluation_logic := logic;
     Rule_severity := sev;
     Rule_remediation := "Fix " ++ id;
     Rule_test_cases := [];
     Rule_citations := [] |}.

(** A native predicate in the style of the shipped ones: the flag named
    like the rule decides between pass and fail. *)
Definition flag_predicate (flag : string) : predicate :=
  fun profile =>
    v <- py_get profile flag ;;
    match v with
    | VBool true => Ok "pass"
    | _ => Ok "fail"
    end.

(** A predicate that dereferences a missing sub-object:
    [profile.get("report").get("done")]. *)
Definition careless_predicate : predicate :=
  fun profile =>
    report <- py_get profile "report" ;;
    v <- py_get report "done" ;;
    match v with
    | VBool true => Ok "pass"
    | _ => Ok "fail"
    end.

(** A predicate that fails with an arithmetic error. *)
Definition crashing_predicate : predicate :=
  fun _ => Raise (OtherError "ZeroDivisionError" "division by zero").

Definition registry (rule_id : string) : option predicate :=
  if String.eqb rule_id "CARELESS" then Some careless_predicate
  else if String.eqb rule_id "CRASH" then Some crashing_predicate
  else if startswith rule_id "R" then Some (flag_predicate rule_id)
  else None.

(** The interpreter on the three programs the scenarios use: an
    assignment to [result], a division by zero, and anything else taken
    as a program that leaves [result] alone. *)
Definition interpreter (logic : string) (local_vars : pydict) : pyresult (option string) :=
  if String.eqb logic "result = 'pass'" then Ok (Some "pass")
  else if String.eqb logic "1/0"
  then Raise (OtherError "ZeroDivisionError" "division by zero")
  else match dict_get local_vars "result" with
       | Some (VStr s) => Ok (Some s)
       | _ => Ok None
       end.

(** Ten automated rules: three fail (one critical, one high, one low),
    seven pass. *)
Definition ten_rules : list Rule :=
  [ plain_rule "R01" AUTOMATED CRITICAL "";
    plain_rule "R02" AUTOMATED LOW "";
    plain_rule "R03" AUTOMATED HIGH "";
    plain_rule "R04" AUTOMATED MEDIUM "";
    plain_rule "R05" AUTOMATED MEDIUM "";
    plain_rule "R06" SEMI_AUTOMATED HIGH "";
    plain_rule "R07" AUTOMATED INFO "";
    plain_rule "R08" AUTOMATED CRITICAL "";
    plain_rule "R09" AUTOMATED LOW "";
    plain_rule "R10" AUTOMATED HIGH "" ].

Definition engine70 : ComplianceEngine :=
  {| regulation := "eu-ai-act-v1"; _rules := ten_rules |}.

Definition profile70 : SystemProfile :=
  {| SystemProfile_system_name := "TalentScreen AI";
     SystemProfile_provider_name := "TalentTech GmbH";
     SystemProfile_fields :=
       [ ("R01", VBool false); ("R02", VBool false); ("R03", VBool false);
         ("R04", VBool true); ("R05", VBool true); ("R06", VBool true);
         ("R07", VBool true); ("R08", VBool true); ("R09", VBool true);
         ("R10", VBool true) ] |}.

(** Twenty rules that pass and one critical rule that fails: score 95.2
    with a critical gap. *)
Definition engine95 : ComplianceEngine :=
  {| regulation := "eu-ai-act-v1";
     _rules := plain_rule "R01" AUTOMATED CRITICAL ""
               :: map (fun id => plain_rule id AUTOMATED MEDIUM "")
                      [ "R11"; "R12"; "R13"; "R14"; "R15"; "R16"; "R17"; "R18";
                        "R19"; "R20"; "R21"; "R22"; "R23"; "R24"; "R25"; "R26";
                        "R27"; "R28"; "R29"; "R30" ] |}.

Definition profile95 : SystemProfile :=
  {| SystemProfile_system_name := "TalentScreen AI";
     SystemProfile_provider_name := "TalentTech GmbH";
     SystemProfile_fields :=
       ("R01", VBool false)
       :: map (fun id => (id, VBool true))
              [ "R11"; "R12"; "R13"; "R14"; "R15"; "R16"; "R17"; "R18";
                "R19"; "R20"; "R21"; "R22"; "R23"; "R24"; "R25"; "R26";
                "R27"; "R28"; "R29"; "R30" ] |}.

(** The ten rules on a system that meets them all: score 100 and no
    gap. *)
Definition profile100 : SystemProfile :=
  {| SystemProfile_system_name := "TalentScreen AI";
     SystemProfile_provider_name := "TalentTech GmbH";
     SystemProfile_fields :=
       map (fun id => (id, VBool true))
           [ "R01"; "R02"; "R03"; "R04"; "R05"; "R06"; "R07"; "R08"; "R09"; "R10" ] |}.

(** The ten rules with one failure of low severity: score 90.0 and no
    critical gap. *)
Definition profile90 : SystemProfile :=
  {| SystemProfile_system_name := "TalentScreen AI";
     SystemProfile_provider_name := "TalentTech GmbH";
     SystemProfile_fields :=
       ("R02", VBool false)
       :: map (fun id => (id, VBool true))
              [ "R01"; "R03"; "R04"; "R05"; "R06"; "R07"; "R08"; "R09"; "R10" ] |}.

(** The ten rules with four failures: score 60.0. *)
Definition profile60 : SystemProfile :=
  {| SystemProfile_system_name := "TalentScreen AI";
     SystemProfile_provider_name := "TalentTech GmbH";
     SystemProfile_fields :=
       [ ("R01", VBool false); ("R02", VBool false); ("R03", VBool false);
         ("R04", VBool false); ("R05", VBool true); ("R06", VBool true);
         ("R07", VBool true); ("R08", VBool true); ("R09", VBool true);
         ("R10", VBool true) ] |}.

(** Three rules of which one passes: the score is a third of 100. *)
Definition engine33 : ComplianceEngine :=
  {| regulation := "eu-ai-act-v1";
     _rules := [ plain_rule "R01" AUTOMATED HIGH "";
                 plain_rule "R02" AUTOMATED MEDIUM "";
                 plain_rule "R03" AUTOMATED LOW "" ] |}.

Definition profile33 : SystemProfile :=
  {| SystemProfile_system_name := "TalentScreen AI";
     SystemProfile_provider_name := "TalentTech GmbH";
     SystemProfile_fields :=
       [ ("R01", VBool true); ("R02", VBool false); ("R03", VBool false) ] |}.

(** A catalogue with one rule of each failure mode between two plain
    rules. *)
Definition careless_rule : Rule :=
  plain_rule "CARELESS" AUTOMATED HIGH "result = 'pass'".
Definition crashing_rule : Rule := plain_rule "CRASH" AUTOMATED HIGH "result = 'pass'".
Definition uninterpretable_rule : Rule := plain_rule "LOGIC" SEMI_AUTOMATED HIGH "1/0".

Definition engine_faulty : ComplianceEngine :=
  {| regulation := "eu-ai-act-v1";
     _rules := [ plain_rule "R04" AUTOMATED MEDIUM "";
                 crashing_rule;
                 uninterpretable_rule;
                 plain_rule "R05" AUTOMATED MEDIUM "" ] |}.

(** A rule with the id under which the package registers
    [_eval_data_preprocessing], and a profile dictionary whose [extra] is
    [None]: [{"is_high_risk": True, "uses_training_data": True,
    "extra": None}]. *)
Definition preprocessing_rule : Rule :=
  plain_rule "RULE-EU-AI-ACT-010-02B-001" AUTOMATED MEDIUM "result = 'pass'".

Definition profile_without_extra : value :=
  VDict [ ("is_high_risk", VBool true);
          ("uses_training_data", VBool true);
          ("extra", VNone) ].

(** A manual rule whose registered predicate would crash if it were
    called. *)
Definition manual_rule : Rule := plain_rule "CRASH" MANUAL HIGH "1/0".

(** A predicate that answers outside the four verdict strings. *)
Definition vague_predicate : predicate := fun _ => Ok "probably".

Definition noon : Datetime.datetime :=
  Datetime.mk_datetime 2026 3 14 12 0 0 0 (Some 0).

(** The three appends of [tests/unit/test_audit.py::test_verify_chain],
    at three instants of one second. *)
Definition call (action : AuditAction) (stage target : string) (micro : Z) (uuid : string)
  : Logger.log_call :=
  {| Logger.call_action := action;
     Logger.call_stage := stage;
     Logger.call_target_ids := Some [target];
     Logger.call_details := None;
     Logger.call_actor := "system";
     Logger.call_input_hash := "";
     Logger.call_output_hash := "";
     Logger.call_model_used := "";
     Logger.call_verdict := "";
     Logger.call_now := Datetime.mk_datetime 2026 3 14 12 0 0 micro (Some 0);
     Logger.call_uuid4 := uuid |}.

Definition first_call : Logger.log_call :=
  call INGEST "s1" "a" 0 "11111111-1111-4111-8111-111111111111".
Definition second_call : Logger.log_call :=
  call PARSE "s2" "b" 250000 "22222222-2222-4222-8222-222222222222".
Definition third_call : Logger.log_call :=
  call EXTRACT "s3" "c" 500000 "33333333-3333-4333-8333-333333333333".

(** An append whose details carry a datetime:
    [details={"when": datetime(2026, 3, 14, 12, 0, tzinfo=timezone.utc)}]. *)
Definition dated_call : Logger.log_call :=
  {| Logger.call_action := EVALUATE;
     Logger.call_stage := "evaluation";
     Logger.call_target_ids := Some ["report"];
     Logger.call_details := Some [("when", ODatetime noon)];
     Logger.call_actor := "system";
     Logger.call_input_hash := "";
     Logger.call_output_hash := "";
     Logger.call_model_used := "";
     Logger.call_verdict := "";
     Logger.call_now := Datetime.mk_datetime 2026 3 14 12 0 0 750000 (Some 0);
     Logger.call_uuid4 := "44444444-4444-4444-8444-444444444444" |}.

Definition no_files : filesystem := files_only (fun _ => None).

Definition fresh_logger : Logger.AuditLogger :=
  {| Logger.log_dir := "audit_logs";
     Logger._log_file := "audit_logs/audit.jsonl";
     Logger._previous_hash := VStr Logger._GENESIS_HASH |}.

(** The first entry of a list that has one (a blank entry otherwise). *)
Definition hd_entry (es : list AuditEntry) : AuditEntry :=
  hd {| AuditEntry_id := "";
        AuditEntry_timestamp := noon;
        AuditEntry_action := INGEST;
        AuditEntry_stage := "";
        AuditEntry_actor := "";
        AuditEntry_target_ids := [];
        AuditEntry_input_hash := "";
        AuditEntry_output_hash := "";
        AuditEntry_previous_hash := "";
        AuditEntry_entry_hash := "";
        AuditEntry_details := [];
        AuditEntry_model_used := "";
        AuditEntry_verdict := "" |} es.

(** The entries the three appends create. *)
Definition three_entries : list AuditEntry :=
  Eval vm_compute in
    match log_all fresh_logger [first_call; second_call; third_call] no_files with
    | Ok (entries, _, _) => entries
    | Raise _ => []
    end.

(** A log directory whose file holds the first two of them. *)
Definition two_entry_log : filesystem :=
  files_only (fun path =>
    if String.eqb path "audit_logs/audit.jsonl"
    then Some (map line_of (firstn 2 three_entries))
    else None).

(** The file with all three, as parsed lines. *)
Definition three_raw : list value := map Pydantic.model_dump_json three_entries.

Definition three_entry_log : filesystem :=
  files_only (fun path =>
    if String.eqb path "audit_logs/audit.jsonl"
    then Some (map JsonLine three_raw)
    else None).

(** The three lines with a truncated line after the first. *)
Definition corrupted_log : filesystem :=
  files_only (fun path =>
    if String.eqb path "audit_logs/audit.jsonl"
    then Some (map line_of (firstn 1 three_entries)
               ++ GarbageLine "Expecting ',' delimiter: line 1 column 58 (char 57)"
                  :: map line_of (skipn 1 three_entries))
    else None).

(** What a tamperer writes over [details]. *)
Definition forged_details : pydict := [("count", VInt 99)].

(** The second line of the file before and after the forgery, with the
    hash the verifier recomputes for each. *)
Definition second_raw : value := nth 1 three_raw VNone.

Definition stored_digest : string :=
  Eval vm_compute in
    match recomputed_hash second_raw with
    | Ok h => h
    | Raise _ => ""
    end.

Definition forged_digest : string :=
  Eval vm_compute in
    match recomputed_hash (overwrite_details (VDict forged_details) second_raw) with
    | Ok h => h
    | Raise _ => ""
    end.

Definition forged_log : filesystem :=
  files_only (fun path =>
    if String.eqb path "audit_logs/audit.jsonl"
    then Some (map JsonLine
                   (overwrite_nth 1 (overwrite_details (VDict forged_details)) three_raw))
    else None).

End Scenario.
(* ================================================================== *)
(** * Vocabulary of the catalogue properties                            *)
(* ================================================================== *)

(** The truth value of [profile.get("is_high_risk", False)]. *)
Definition high_risk_flag (d : pydict) : bool :=
  truthy match dict_get d "is_high_risk" with
         | Some w => w
         | None => VBool false
         end.

(** The rows of the seven registry tables, in lookup order. *)
Definition registered : list (string * predicate) :=
  flat_map eu_ai_act_v1.module_EVALUATION_FUNCTIONS eu_ai_act_v1._ARTICLE_MODULES.

(** One of the three verdicts a native predicate is written to return. *)
Definition native_verdict (s : string) : bool :=
  String.eqb s "pass" || String.eqb s "fail" || String.eqb s "not_applicable".

(** A call that returned one of the three verdicts (and did not raise). *)
Definition answers_verdict (r : pyresult string) : bool :=
  match r with
  | Ok s => native_verdict s
  | Raise _ => false
  end.

(** The strings of a list are pairwise different. *)
Fixpoint distinct (l : list string) : bool :=
  match l with
  | [] => true
  | x :: rest => negb (existsb (String.eqb x) rest) && distinct rest
  end.

(** The predicate registered for the rule answers the test case as the
    test case expects. *)
Definition test_case_passes (rule : Rule) (tc : TestCase) : bool :=
  match eu_ai_act_v1.get_evaluation_function (Rule_id rule) with
  | Some fn =>
      match fn (VDict (TestCase_input_data tc)) with
      | Ok verdict => String.eqb verdict (TestCase_expected_result tc)
      | Raise _ => false
      end
  | None => false
  end.

(** The engine the API and the tests construct. *)
Definition shipped_engine : ComplianceEngine := ComplianceEngine_init "eu-ai-act-v1".

(** The report of the shipped engine for a validated profile. *)
Definition shipped_report (exec : string -> pydict -> pyresult (option string))
           (p : Profile.SystemProfile) (now : Datetime.datetime) : ComplianceReport :=
  evaluate eu_ai_act_v1.get_evaluation_function exec shipped_engine
           (Profile.to_engine p) now.

(* ================================================================== *)
(** * Concrete profiles                                                 *)
(* ================================================================== *)

Module Profiles.

(** A profile with every optional field at its default. *)
Definition defaults (name provider purpose : string) (high_risk : bool)
  : Profile.SystemProfile :=
  {| Profile.system_name := name;
     Profile.provider_name := provider;
     Profile.provider_jurisdiction := "";
     Profile.system_version := "1.0.0";
     Profile.intended_purpose := purpose;
     Profile.is_high_risk := high_risk;
     Profile.high_risk_category := "";
     Profile.annex_iii_section := "";
     Profile.uses_training_data := false;
     Profile.dataset_names := [];
     Profile.bias_examination_report := None;
     Profile.data_governance_practices_documented := false;
     Profile.training_data_relevance_documented := false;
     Profile.data_collection_process_documented := false;
     Profile.technical_documentation_exists := false;
     Profile.technical_documentation_url := "";
     Profile.automatic_logging_enabled := false;
     Profile.logging_capabilities := [];
     Profile.instructions_for_use_provided := false;
     Profile.intended_purpose_documented := false;
     Profile.limitations_documented := false;
     Profile.human_oversight_measures := [];
     Profile.human_can_override := false;
     Profile.human_can_interrupt := false;
     Profile.automation_bias_safeguards := [];
     Profile.accuracy_metrics_documented := false;
     Profile.accuracy_levels_declared := "";
     Profile.disaggregated_performance_metrics := false;
     Profile.robustness_measures := [];
     Profile.cybersecurity_measures := [];
     Profile.adversarial_testing_performed := false;
     Profile.risk_management_system_established := false;
     Profile.risk_management_continuous := false;
     Profile.residual_risks_documented := false;
     Profile.risk_mitigation_measures := [];
     Profile.testing_procedures_documented := false;
     Profile.extra := [] |}.

(** The profile of [tests/unit/test_engine.py::test_evaluate_minimal_profile]. *)
Definition minimal : Profile.SystemProfile :=
  defaults "Minimal System" "Test Corp" "Testing" true.

(** The same system declared as not high-risk. *)
Definition low_risk : Profile.SystemProfile :=
  defaults "Minimal System" "Test Corp" "Testing" false.

(** [_EXAMPLE_PROFILE] of [api/routers/evaluate.py]. *)
Definition talentscreen : Profile.SystemProfile :=
  {| Profile.system_name := "TalentScreen AI";
     Profile.provider_name := "TalentTech GmbH";
     Profile.provider_jurisdiction := "Germany";
     Profile.system_version := "2.1.0";
     Profile.intended_purpose := "Automated screening and ranking of job applicants";
     Profile.is_high_risk := true;
     Profile.high_risk_category :=
       "Employment, workers management and access to self-employment";
     Profile.annex_iii_section := "4(a)";
     Profile.uses_training_data := true;
     Profile.dataset_names :=
       ["applicant_training_v3"; "applicant_validation_v3"; "applicant_test_v3"];
     Profile.bias_examination_report :=
       Some {| Profile.covers_health_safety := true;
               Profile.covers_fundamental_rights := true;
               Profile.covers_prohibited_discrimination := true;
               Profile.datasets_examined :=
                 ["applicant_training_v3"; "applicant_validation_v3";
                  "applicant_test_v3"];
               Profile.examination_date := None;
               Profile.methodology := "";
               Profile.findings_summary := "" |};
     Profile.data_governance_practices_documented := true;
     Profile.training_data_relevance_documented := true;
     Profile.data_collection_process_documented := true;
     Profile.technical_documentation_exists := true;
     Profile.technical_documentation_url := "";
     Profile.automatic_logging_enabled := true;
     Profile.logging_capabilities := ["input_logging"; "output_logging"; "event_logging"];
     Profile.instructions_for_use_provided := true;
     Profile.intended_purpose_documented := true;
     Profile.limitations_documented := true;
     Profile.human_oversight_measures := ["human_review_of_decisions"; "appeal_mechanism"];
     Profile.human_can_override := true;
     Profile.human_can_interrupt := true;
     Profile.automation_bias_safeguards := [];
     Profile.accuracy_metrics_documented := true;
     Profile.accuracy_levels_declared := "Precision: 0.82, Recall: 0.78, F1: 0.80";
     Profile.disaggregated_performance_metrics := false;
     Profile.robustness_measures := ["input_validation"; "adversarial_testing"];
     Profile.cybersecurity_measures :=
       ["encryption_at_rest"; "encryption_in_transit"; "access_control"];
     Profile.adversarial_testing_performed := true;
     Profile.risk_management_system_established := true;
     Profile.risk_management_continuous := true;
     Profile.residual_risks_documented := true;
     Profile.risk_mitigation_measures := ["bias_mitigation"; "human_oversight"; "monitoring"];
     Profile.testing_procedures_documented := true;
     Profile.extra := [] |}.

(** A second clock reading within the second of [Scenario.noon]. *)
Definition later_that_second : Datetime.datetime :=
  Datetime.mk_datetime 2026%Z 3%Z 14%Z 12%Z 0%Z 0%Z 999999%Z (Some 0%Z).

End Profiles.

(* ================================================================== *)
(** * Vocabulary of the further audit properties                        *)
(* ================================================================== *)

(** Two entries agree on the fields the hash chain covers: the two
    hashes and the four hashed fields. *)
Definition same_chained_fields (e e' : AuditEntry) : Prop :=
  AuditEntry_previous_hash e = AuditEntry_previous_hash e'
  /\ AuditEntry_entry_hash e = AuditEntry_entry_hash e'
  /\ AuditEntry_timestamp e = AuditEntry_timestamp e'
  /\ AuditEntry_action e = AuditEntry_action e'
  /\ AuditEntry_target_ids e = AuditEntry_target_ids e'
  /\ AuditEntry_details e = AuditEntry_details e'.

(** An entry with the fields outside the chain rewritten. *)
Definition relabelled (id stage actor input_hash output_hash model_used verdict : string)
           (e : AuditEntry) : AuditEntry :=
  {| AuditEntry_id := id;
     AuditEntry_timestamp := AuditEntry_timestamp e;
     AuditEntry_action := AuditEntry_action e;
     AuditEntry_stage := stage;
     AuditEntry_actor := actor;
     AuditEntry_target_ids := AuditEntry_target_ids e;
     AuditEntry_input_hash := input_hash;
     AuditEntry_output_hash := output_hash;
     AuditEntry_previous_hash := AuditEntry_previous_hash e;
     AuditEntry_entry_hash := AuditEntry_entry_hash e;
     AuditEntry_details := AuditEntry_details e;
     AuditEntry_model_used := model_used;
     AuditEntry_verdict := verdict |}.

(** The entries are stamped in UTC, as [log] stamps them. *)
Definition stamped_utc (es : list AuditEntry) : Prop :=
  Forall (fun e => Datetime.utcoffset (AuditEntry_timestamp e) = Some 0%Z) es.

(** The number of undecodable lines. *)
Definition garbage_count (ls : list line) : nat :=
  List.length (filter (fun l => match l with GarbageLine _ => true | _ => false end) ls).

(** The error [AuditChainVerifier.verify] reports for an undecodable
    line. *)
Definition invalid_json_error (line_no : nat) (why : string) : string :=
  ("Line " ++ Json.str_of_int (Z.of_nat line_no) ++ ": invalid JSON — " ++ why)%string.

(** The errors one iteration of [AuditChainVerifier.verify] reports for
    the written line of an entry. *)
Definition raw_errors_of (idx : nat) (expected : string) (e : AuditEntry) : list string :=
  (if negb (String.eqb (AuditEntry_previous_hash e) expected)
   then [Chain.previous_hash_error (VStr (AuditEntry_id e)) idx
                                   (VStr (take 16 expected))
                                   (VStr (take 16 (AuditEntry_previous_hash e)))]
   else [])
  ++ (if negb (String.eqb
                 (Logger._compute_hash (AuditEntry_previous_hash e)
                                       (Pydantic.datetime_to_json (AuditEntry_timestamp e))
                                       (AuditEntry_action e) (AuditEntry_target_ids e)
                                       (AuditEntry_details e))
                 (AuditEntry_entry_hash e))
      then [Chain.entry_hash_error
              (VStr (AuditEntry_id e)) idx
              (take 16 (Logger._compute_hash
                          (AuditEntry_previous_hash e)
                          (Pydantic.datetime_to_json (AuditEntry_timestamp e))
                          (AuditEntry_action e) (AuditEntry_target_ids e)
                          (AuditEntry_details e)))
              (VStr (take 16 (AuditEntry_entry_hash e)))]
      else []).

(** The errors of the whole loop, from position [idx] on. *)
Fixpoint raw_all_errors (idx : nat) (expected : string) (es : list AuditEntry)
  : list string :=
  match es with
  | [] => []
  | e :: rest =>
      raw_errors_of idx expected e ++ raw_all_errors (S idx) (AuditEntry_entry_hash e) rest
  end.

(* ================================================================== *)
(** * Concrete logs                                                     *)
(* ================================================================== *)

Module Logs.

(** The first two entries followed by a line cut off in the middle. *)
Definition damaged : filesystem :=
  files_only (fun path =>
    if String.eqb path "audit_logs/audit.jsonl"
    then Some (map line_of (firstn 2 Scenario.three_entries)
               ++ [GarbageLine "Unterminated string starting at: line 1 column 2 (char 1)"])
    else None).

(** The same log with the last line left without its newline: what is
    appended continues that line, and the merged line cannot be decoded
    either. *)
Definition cut_off : filesystem :=
  {| files := files damaged;
     unterminated := fun path =>
       if String.eqb path "audit_logs/audit.jsonl"
       then Some (fun _ =>
                    GarbageLine "Unterminated string starting at: line 1 column 2 (char 1)")
       else None;
     makedirs_error := fun _ => None |}.

(** No file, in a place where the log directory cannot be created. *)
Definition read_only : filesystem :=
  {| files := fun _ => None;
     unterminated := fun _ => None;
     makedirs_error := fun path =>
       Some (OtherError "PermissionError"
                        ("[Errno 13] Permission denied: '" ++ path ++ "'")) |}.

(** The three entries behind a first line that holds a JSON number. *)
Definition numbered : filesystem :=
  files_only (fun path =>
    if String.eqb path "audit_logs/audit.jsonl"
    then Some (JsonLine (VInt 7) :: map line_of Scenario.three_entries)
    else None).

(** The three entries followed by a line that holds a JSON number. *)
Definition trailing_number : filesystem :=
  files_only (fun path =>
    if String.eqb path "audit_logs/audit.jsonl"
    then Some (map line_of Scenario.three_entries ++ [JsonLine (VInt 7)])
    else None).

End Logs.


(* ================================================================== *)
(** * Field resolution                                                  *)
(* ================================================================== *)

Lemma resolve_parts_of_None :
  forall parts, resolve_parts VNone parts = Ok VNone.
Proof. destruct parts; reflexivity. Qed.

Lemma resolve_parts_total :
  forall parts current, exists v, resolve_parts current parts = Ok v.
Proof.
  induction parts as [|part rest IH]; intros current; simpl.
  - now exists current.
  - destruct current; simpl; try (now exists VNone).
    destruct (dict_get d part) as [w|]; simpl.
    + destruct (is_None w); [now exists VNone | apply IH].
    + now exists VNone.
Qed.

(** Walking a path is walking its first half and then its second half. *)
Lemma resolve_parts_app :
  forall before after data,
    resolve_parts data (before ++ after)
    = (v <- resolve_parts data before ;; resolve_parts v after).
Proof.
  induction before as [|part rest IH]; intros after data; simpl.
  - reflexivity.
  - destruct data; simpl; try (now rewrite resolve_parts_of_None).
    destruct (dict_get d part) as [w|]; simpl.
    + destruct (is_None w); simpl; [now rewrite resolve_parts_of_None | apply IH].
    + now rewrite resolve_parts_of_None.
Qed.

(** A step that meets a non-mapping, a missing key or a null ends at null. *)
Lemma resolve_parts_stuck :
  forall current part after,
    isinstance_dict current = false
    \/ (exists d, current = VDict d /\ dict_get d part = None)
    \/ (exists d, current = VDict d /\ dict_get d part = Some VNone) ->
    resolve_parts current (part :: after) = Ok VNone.
Proof.
  intros current part after [Hnd | [[d [-> Hk]] | [d [-> Hk]]]]; simpl.
  - now rewrite Hnd.
  - now rewrite Hk.
  - now rewrite Hk.
Qed.

Lemma resolve_field_prefixed :
  forall data p,
    _resolve_field data ("system_profile." ++ p) = resolve_parts data (split "." p).
Proof. intros data p. reflexivity. Qed.

(** C7.  [_resolve_field] returns a value for every mapping and every
    path (it never raises), and it returns null as soon as one segment
    meets a value that is no mapping, a key that is absent, or a stored
    null. *)
Theorem resolve_field_never_raises :
  forall (data : value) (field_path : string),
    (exists v, _resolve_field data field_path = Ok v)
    /\ (forall before part after current,
          split "." (strip_system_profile field_path) = before ++ part :: after ->
          resolve_parts data before = Ok current ->
          isinstance_dict current = false
          \/ (exists d, current = VDict d /\ dict_get d part = None)
          \/ (exists d, current = VDict d /\ dict_get d part = Some VNone) ->
          _resolve_field data field_path = Ok VNone).
Proof.
  intros data field_path. split.
  - apply resolve_parts_total.
  - intros before part after current Hsplit Hwalk Hstuck.
    unfold _resolve_field. rewrite Hsplit, resolve_parts_app, Hwalk. simpl bind.
    now apply resolve_parts_stuck.
Qed.

Lemma resolve_field_never_raises_witness :
  _resolve_field Scenario.test_data "bias_examination_report.nonexistent" = Ok VNone.
Proof.
  apply (proj2 (resolve_field_never_raises
                  Scenario.test_data "bias_examination_report.nonexistent")
               ["bias_examination_report"] "nonexistent" []
               (VDict [ ("covers_health_safety", VBool true);
                        ("covers_fundamental_rights", VBool false) ])).
  - reflexivity.
  - reflexivity.
  - right; left. eexists. split; reflexivity.
Defined.

(** C6, as amended.  For a path that does not itself start with
    ["system_profile."], resolving it with the prefix prepended gives the
    same result as resolving it bare.  (The function reads nothing but its
    two arguments, so two calls on unchanged data agree.) *)
Theorem resolve_field_prefix_invariant :
  forall (data : value) (p : string),
    startswith p "system_profile." = false ->
    _resolve_field data ("system_profile." ++ p) = _resolve_field data p.
Proof.
  intros data p Hp. rewrite resolve_field_prefixed.
  unfold _resolve_field, strip_system_profile. now rewrite Hp.
Qed.

Lemma resolve_field_prefix_invariant_witness :
  _resolve_field Scenario.test_data
                 ("system_profile." ++ "bias_examination_report.covers_health_safety")
  = _resolve_field Scenario.test_data "bias_examination_report.covers_health_safety".
Proof.
  apply (resolve_field_prefix_invariant
           Scenario.test_data "bias_examination_report.covers_health_safety").
  reflexivity.
Defined.

(** C6 as stated fails: only one prefix is stripped, so a path that
    already carries it resolves differently once it is prepended again. *)
Lemma resolve_field_prefix_counterexample :
  _resolve_field (VDict [("x", VBool true)]) "system_profile.x" = Ok (VBool true)
  /\ _resolve_field (VDict [("x", VBool true)]) ("system_profile." ++ "system_profile.x")
     = Ok VNone.
Proof. split; reflexivity. Qed.

(* ================================================================== *)
(** * Aggregation: results, gaps, score, verdict                        *)
(* ================================================================== *)

Section EvaluationFacts.

Variable registry : string -> option predicate.
Variable exec : string -> pydict -> pyresult (option string).

Lemma severity_is_critical :
  forall s, String.eqb (Severity_value s) "critical" = bucket_eqb (bucket_of s) Critical.
Proof. destruct s; reflexivity. Qed.

Lemma severity_is_high :
  forall s, String.eqb (Severity_value s) "high" = bucket_eqb (bucket_of s) High.
Proof. destruct s; reflexivity. Qed.

(** The loop of [evaluate], started from any accumulators: results are
    appended rule by rule, and each failing rule's gap goes to the tier
    of its severity. *)
Lemma evaluate_loop :
  forall pd rules acc,
    fold_left (evaluate_step registry exec pd) rules acc
    = {| rule_results := rule_results acc ++ map (result_of registry exec pd) rules;
         critical_gaps := critical_gaps acc ++ gaps_in registry exec pd Critical rules;
         high_gaps := high_gaps acc ++ gaps_in registry exec pd High rules;
         medium_gaps := medium_gaps acc ++ gaps_in registry exec pd Medium rules |}.
Proof.
  intros pd rules. induction rules as [|rule rest IH]; intros [rs cg hg mg].
  - simpl. unfold gaps_in. simpl. now rewrite !app_nil_r.
  - simpl fold_left. rewrite IH. unfold evaluate_step. simpl rule_results.
    unfold gaps_in. simpl filter. simpl map.
    fold (result_of registry exec pd rule). fold (fails registry exec pd rule).
    fold (gap_of registry exec pd rule).
    rewrite severity_is_critical, severity_is_high.
    destruct (fails registry exec pd rule) eqn:Hf;
      destruct (Rule_severity rule); simpl;
      rewrite <- ?app_assoc; reflexivity.
Qed.

Lemma evaluate_rule_results :
  forall self profile now,
    ComplianceReport_rule_results (evaluate registry exec self profile now)
    = map (result_of registry exec (model_dump profile)) (_rules self).
Proof. intros. unfold evaluate. rewrite evaluate_loop. reflexivity. Qed.

Lemma evaluate_gaps :
  forall self profile now,
    let report := evaluate registry exec self profile now in
    let pd := model_dump profile in
    ComplianceReport_critical_gaps report = gaps_in registry exec pd Critical (_rules self)
    /\ ComplianceReport_high_gaps report = gaps_in registry exec pd High (_rules self)
    /\ ComplianceReport_medium_gaps report = gaps_in registry exec pd Medium (_rules self).
Proof. intros. unfold report, evaluate. rewrite evaluate_loop. now repeat split. Qed.




End EvaluationFacts.



(* ================================================================== *)
(** * Score and overall verdict                                         *)
(* ================================================================== *)

Lemma ge_90_ge_60 :
  forall x, Float.ge_int x 90 = true -> Float.ge_int x 60 = true.
Proof.
  intros x. unfold Float.ge_int, SFleb.
  change (Float.of_int 90) with (S754_finite false 6333186975989760 (-46)).
  change (Float.of_int 60) with (S754_finite false 8444249301319680 (-47)).
  destruct x as [s|s| |s m e]; cbn -[Z.compare];
    try (destruct s; cbn -[Z.compare]); try congruence.
  destruct (Z.compare_spec (-46) e) as [<-|Hlt|Hgt]; try congruence.
  - intros _. reflexivity.
  - intros _. destruct (Z.compare_spec (-47) e) as [Heq|Hlt'|Hgt']; [lia | reflexivity | lia].
Qed.

Lemma lt_90_not_ge_90 :
  forall x, Float.lt_int x 90 = true -> Float.ge_int x 90 = false.
Proof.
  intros x. unfold Float.lt_int, Float.ge_int, SFltb, SFleb.
  change (Float.of_int 90) with (S754_finite false 6333186975989760 (-46)).
  destruct x as [s|s| |s m e]; cbn -[Z.compare Pos.compare_cont];
    try (destruct s; cbn -[Z.compare Pos.compare_cont]); try congruence.
  rewrite (Z.compare_antisym e (-46)).
  destruct (Z.compare e (-46)); cbn -[Pos.compare_cont]; try congruence.
  replace (Pos.compare_cont Eq 6333186975989760 m)
    with (CompOpp (Pos.compare_cont Eq m 6333186975989760))
    by apply (Pos.compare_cont_antisym m 6333186975989760 Eq).
  destruct (Pos.compare_cont Eq m 6333186975989760); simpl; congruence.
Qed.

Lemma derive_overall_cases :
  forall score critical,
    derive_overall score critical = "compliant"
    \/ derive_overall score critical = "partial_compliance"
    \/ derive_overall score critical = "non_compliant".
Proof.
  intros. unfold derive_overall.
  destruct (Float.ge_int score 90 && is_empty critical); [now left|].
  destruct (Float.ge_int score 60); [right; now left | right; now right].
Qed.

(** C1.  The report's overall verdict is ["compliant"] when the score is
    at least 90 and there is no critical gap, otherwise
    ["partial_compliance"] when the score is at least 60, otherwise
    ["non_compliant"].  Hence a score of 90 or more without a critical gap
    gives ["compliant"]; a score of 90 or more with a critical gap gives
    ["partial_compliance"]; a score in [60, 90) gives
    ["partial_compliance"] whatever the gaps; a score below 60 gives
    ["non_compliant"]; ["compliant"] needs both conditions and
    ["non_compliant"] a score below 60. *)
Theorem overall_verdict_priority :
  forall registry exec (self : ComplianceEngine) (profile : SystemProfile) now,
    let report := evaluate registry exec self profile now in
    let score := EvaluationResult_compliance_score (ComplianceReport_summary report) in
    let critical := ComplianceReport_critical_gaps report in
    let overall := ComplianceReport_overall_verdict report in
    (Float.ge_int score 90 = true -> critical = [] -> overall = "compliant")
    /\ (Float.ge_int score 90 = true -> (0 < List.length critical)%nat ->
        overall = "partial_compliance")
    /\ (Float.ge_int score 60 = true -> Float.lt_int score 90 = true ->
        overall = "partial_compliance")
    /\ (Float.ge_int score 60 = true -> Float.ge_int score 90 = false ->
        overall = "partial_compliance")
    /\ (Float.ge_int score 60 = false -> overall = "non_compliant")
    /\ (overall = "compliant" ->
        Float.ge_int score 90 = true /\ critical = [])
    /\ (overall = "non_compliant" -> Float.ge_int score 60 = false)
    /\ overall = (if Float.ge_int score 90 && (List.length critical =? 0)%nat
                  then "compliant"
                  else if Float.ge_int score 60 then "partial_compliance"
                  else "non_compliant").
Proof.
  intros registry exec self profile now report score critical overall.
  assert (Hdef : overall = derive_overall score critical) by reflexivity.
  unfold derive_overall in Hdef.
  split; [|split; [|split; [|split; [|split; [|split; [|split]]]]]].
  - intros H90 Hc. rewrite Hdef, H90, Hc. reflexivity.
  - intros H90 Hc. rewrite Hdef, H90, (ge_90_ge_60 _ H90).
    destruct critical; [simpl in Hc; lia | reflexivity].
  - intros H60 H90. rewrite Hdef, (lt_90_not_ge_90 _ H90), H60. reflexivity.
  - intros H60 H90. rewrite Hdef, H90, H60. reflexivity.
  - intros H60. rewrite Hdef, H60.
    destruct (Float.ge_int score 90) eqn:H90; [|reflexivity].
    rewrite (ge_90_ge_60 _ H90) in H60. discriminate.
  - intros H. rewrite Hdef in H. destruct (Float.ge_int score 90); simpl in H.
    + destruct critical; simpl in H; [now split|].
      destruct (Float.ge_int score 60); discriminate.
    + destruct (Float.ge_int score 60); discriminate.
  - intros H. rewrite Hdef in H.
    destruct (Float.ge_int score 90 && is_empty critical); [discriminate|].
    destruct (Float.ge_int score 60); [discriminate | reflexivity].
  - rewrite Hdef. destruct critical; reflexivity.
Qed.

Lemma overall_verdict_priority_witness :
  ComplianceReport_overall_verdict
    (evaluate Scenario.registry Scenario.interpreter Scenario.engine70
              Scenario.profile100 Scenario.noon) = "compliant"
  /\ ComplianceReport_overall_verdict
       (evaluate Scenario.registry Scenario.interpreter Scenario.engine70
                 Scenario.profile90 Scenario.noon) = "compliant"
  /\ ComplianceReport_overall_verdict
       (evaluate Scenario.registry Scenario.interpreter Scenario.engine95
                 Scenario.profile95 Scenario.noon) = "partial_compliance"
  /\ ComplianceReport_overall_verdict
       (evaluate Scenario.registry Scenario.interpreter Scenario.engine70
                 Scenario.profile70 Scenario.noon) = "partial_compliance"
  /\ ComplianceReport_overall_verdict
       (evaluate Scenario.registry Scenario.interpreter Scenario.engine70
                 Scenario.profile60 Scenario.noon) = "partial_compliance"
  /\ ComplianceReport_overall_verdict
       (evaluate Scenario.registry Scenario.interpreter Scenario.engine33
                 Scenario.profile33 Scenario.noon) = "non_compliant".
Proof.
  split; [|split; [|split; [|split; [|split]]]].
  - apply (proj1 (overall_verdict_priority
             Scenario.registry Scenario.interpreter Scenario.engine70
             Scenario.profile100 Scenario.noon)); vm_compute; reflexivity.
  - apply (proj1 (overall_verdict_priority
             Scenario.registry Scenario.interpreter Scenario.engine70
             Scenario.profile90 Scenario.noon)); vm_compute; reflexivity.
  - apply (proj1 (proj2 (overall_verdict_priority
             Scenario.registry Scenario.interpreter Scenario.engine95
             Scenario.profile95 Scenario.noon))); [vm_compute; reflexivity|].
    vm_compute. lia.
  - apply (proj1 (proj2 (proj2 (overall_verdict_priority
             Scenario.registry Scenario.interpreter Scenario.engine70
             Scenario.profile70 Scenario.noon)))); vm_compute; reflexivity.
  - apply (proj1 (proj2 (proj2 (proj2 (overall_verdict_priority
             Scenario.registry Scenario.interpreter Scenario.engine70
             Scenario.profile60 Scenario.noon))))); vm_compute; reflexivity.
  - apply (proj1 (proj2 (proj2 (proj2 (proj2 (overall_verdict_priority
             Scenario.registry Scenario.interpreter Scenario.engine33
             Scenario.profile33 Scenario.noon)))))); vm_compute; reflexivity.
Defined.

(** C2.  In every report [passed] and [failed] count the pass and fail
    verdicts of the rule results, and the score is
    [round(passed / (passed + failed) * 100, 1)] when [passed + failed > 0]
    and 0 otherwise; rules judged not applicable or left to manual review
    enter neither the numerator nor the denominator.  The rounding is to
    one decimal, half to even on the binary value, and the result is the
    double nearest to that decimal: 1 of 3 gives 33.3
    ([0x1.0a66666666666p+5]), 2 of 3 gives 66.7 ([0x1.0accccccccccdp+6]),
    1 of 16 (6.25) gives 6.2 ([0x1.8cccccccccccdp+2]), 3 of 16 (18.75)
    gives 18.8 ([0x1.2cccccccccccdp+4]), 20 of 21 gives 95.2
    ([0x1.7cccccccccccdp+6]), 9 of 10 gives 90.0 and 10 of 10 gives
    100.0. *)
Theorem score_formula :
  forall registry exec (self : ComplianceEngine) (profile : SystemProfile) now,
    let report := evaluate registry exec self profile now in
    let summary := ComplianceReport_summary report in
    let passed := EvaluationResult_passed summary in
    let failed := EvaluationResult_failed summary in
    let score := EvaluationResult_compliance_score summary in
    passed = count_verdict PASS (ComplianceReport_rule_results report)
    /\ failed = count_verdict FAIL (ComplianceReport_rule_results report)
    /\ score = spec_score passed failed
    /\ ((0 < passed + failed)%nat ->
        score = Float.round1
                  (Float.mul_int
                     (Float.truediv (Z.of_nat passed) (Z.of_nat (passed + failed))) 100))
    /\ ((passed + failed)%nat = 0%nat -> score = Float.zero)
    /\ (passed = 1%nat -> failed = 2%nat ->
        score = S754_finite false 4686558362232422 (-47))
    /\ (passed = 2%nat -> failed = 1%nat ->
        score = S754_finite false 4693595236650189 (-46))
    /\ (passed = 1%nat -> failed = 15%nat ->
        score = S754_finite false 6980579422424269 (-50))
    /\ (passed = 3%nat -> failed = 13%nat ->
        score = S754_finite false 5291729562160333 (-48))
    /\ (passed = 20%nat -> failed = 1%nat ->
        score = S754_finite false 6699104445713613 (-46))
    /\ (passed = 9%nat -> failed = 1%nat -> score = Float.of_int 90)
    /\ (passed = 10%nat -> failed = 0%nat -> score = Float.of_int 100).
Proof.
  intros registry exec self profile now report summary passed failed score.
  assert (Hs : score = compute_score passed (passed + failed)) by reflexivity.
  split; [reflexivity|]. split; [reflexivity|].
  split; [|split; [|split]].
  - rewrite Hs. unfold compute_score, spec_score.
    destruct (passed + failed)%nat; reflexivity.
  - intros Hlt. rewrite Hs. unfold compute_score.
    destruct (passed + failed)%nat; [lia | reflexivity].
  - intros Hz. rewrite Hs, Hz. reflexivity.
  - repeat split; intros Hp Hf; rewrite Hs, Hp, Hf; vm_compute; reflexivity.
Qed.

Lemma score_formula_witness :
  EvaluationResult_compliance_score
    (ComplianceReport_summary
       (evaluate Scenario.registry Scenario.interpreter Scenario.engine33
                 Scenario.profile33 Scenario.noon))
  = S754_finite false 4686558362232422 (-47)
  /\ EvaluationResult_compliance_score
       (ComplianceReport_summary
          (evaluate Scenario.registry Scenario.interpreter Scenario.engine95
                    Scenario.profile95 Scenario.noon))
     = S754_finite false 6699104445713613 (-46).
Proof.
  split.
  - apply (proj1 (proj2 (proj2 (proj2 (proj2 (proj2 (score_formula
             Scenario.registry Scenario.interpreter Scenario.engine33
             Scenario.profile33 Scenario.noon)))))));
      vm_compute; reflexivity.
  - apply (proj1 (proj2 (proj2 (proj2 (proj2 (proj2 (proj2 (proj2 (proj2 (proj2
             (score_formula
                Scenario.registry Scenario.interpreter Scenario.engine95
                Scenario.profile95 Scenario.noon)))))))))));
      vm_compute; reflexivity.
Defined.

(* ================================================================== *)
(** * Per-rule error isolation                                          *)
(* ================================================================== *)

Section Isolation.

Variable registry : string -> option predicate.
Variable exec : string -> pydict -> pyresult (option string).

Lemma resolve_field_total :
  forall data field_path, exists v, _resolve_field data field_path = Ok v.
Proof. intros. apply resolve_parts_total. Qed.

Lemma resolve_inputs_total :
  forall pd paths inputs, exists out, resolve_inputs pd paths inputs = Ok out.
Proof.
  intros pd paths. induction paths as [|p rest IH]; intros inputs; simpl.
  - now exists inputs.
  - destruct (resolve_field_total pd p) as [v Hv]. rewrite Hv. simpl. apply IH.
Qed.

(** Whatever [_execute_evaluation] raises is turned into manual review. *)
Lemma raised_is_manual_review :
  forall rule pd e,
    _execute_evaluation registry exec rule pd = Raise e ->
    RuleResult_verdict (_evaluate_rule registry exec rule pd) = MANUAL_REVIEW.
Proof.
  intros rule pd e He. unfold _evaluate_rule. rewrite He.
  destruct (String.eqb (RuleType_value (Rule_rule_type rule)) "manual"); reflexivity.
Qed.

Lemma native_raise_propagates :
  forall rule pd,
    native_raises registry pd rule ->
    exists e, _execute_evaluation registry exec rule pd = Raise e.
Proof.
  intros rule pd [fn [e [Hreg [Hfn Hguard]]]].
  exists e. unfold _execute_evaluation.
  destruct (resolve_inputs_total pd (Rule_inputs_needed rule) []) as [inputs Hin].
  rewrite Hin. simpl. now rewrite Hreg, Hfn, Hguard.
Qed.

Lemma fallback_raise_is_caught :
  forall rule pd,
    fallback_raises registry exec pd rule ->
    _execute_evaluation registry exec rule pd = Ok "manual_review".
Proof.
  intros rule pd [Hpath [inputs [e [Hin Hexec]]]].
  unfold _execute_evaluation. rewrite Hin. simpl.
  assert (Hfb : fallback_interpretation exec rule inputs = "manual_review").
  { unfold fallback_interpretation. now rewrite Hexec. }
  destruct Hpath as [Hnone | [fn [e' [Hreg [Hfn Hguard]]]]].
  - now rewrite Hnone, Hfb.
  - now rewrite Hreg, Hfn, Hguard, Hfb.
Qed.

Lemma failing_rule_is_manual_review :
  forall rule pd,
    native_raises registry pd rule \/ fallback_raises registry exec pd rule ->
    RuleResult_verdict (result_of registry exec pd rule) = MANUAL_REVIEW.
Proof.
  intros rule pd [Hn | Hf]; unfold result_of.
  - destruct (native_raise_propagates rule pd Hn) as [e He].
    now apply raised_is_manual_review with e.
  - unfold _evaluate_rule. rewrite (fallback_raise_is_caught rule pd Hf).
    destruct (String.eqb (RuleType_value (Rule_rule_type rule)) "manual"); reflexivity.
Qed.

End Isolation.

(** X28.  Exceptions the registry guard lets through are isolated.  When
    a rule's native predicate raises an exception that is neither an
    [ImportError] nor an [AttributeError] (nor of a class derived from
    them), or when the rule is decided by the fallback interpretation and
    that raises, the rule's result is manual review; and in the report of
    an evaluation over predicates that return strings, the results of the
    rules before and after it are those of evaluating each of them
    alone. *)
Theorem rule_errors_are_isolated :
  forall registry exec (self : ComplianceEngine) (profile : SystemProfile) now
         before rule after,
    let pd := model_dump profile in
    let report := evaluate registry exec self profile now in
    _rules self = before ++ rule :: after ->
    native_raises registry pd rule \/ fallback_raises registry exec pd rule ->
    RuleResult_verdict (_evaluate_rule registry exec rule pd) = MANUAL_REVIEW
    /\ ComplianceReport_rule_results report
       = map (fun r => _evaluate_rule registry exec r pd) before
         ++ _evaluate_rule registry exec rule pd
         :: map (fun r => _evaluate_rule registry exec r pd) after.
Proof.
  intros registry exec self profile now before rule after pd report Hrules Hraise.
  split.
  - now apply failing_rule_is_manual_review.
  - unfold report. rewrite evaluate_rule_results, Hrules, map_app. reflexivity.
Qed.

Lemma rule_errors_are_isolated_witness :
  RuleResult_verdict
    (_evaluate_rule Scenario.registry Scenario.interpreter Scenario.crashing_rule
                    (model_dump Scenario.profile70)) = MANUAL_REVIEW
  /\ RuleResult_verdict
       (_evaluate_rule Scenario.registry Scenario.interpreter
                       Scenario.uninterpretable_rule
                       (model_dump Scenario.profile70)) = MANUAL_REVIEW.
Proof.
  split.
  - refine (proj1 (rule_errors_are_isolated
              Scenario.registry Scenario.interpreter Scenario.engine_faulty
              Scenario.profile70 Scenario.noon
              [Scenario.plain_rule "R04" AUTOMATED MEDIUM ""]
              Scenario.crashing_rule
              [Scenario.uninterpretable_rule; Scenario.plain_rule "R05" AUTOMATED MEDIUM ""]
              eq_refl _)).
    left. exists Scenario.crashing_predicate.
    exists (OtherError "ZeroDivisionError" "division by zero").
    repeat split.
  - refine (proj1 (rule_errors_are_isolated
              Scenario.registry Scenario.interpreter Scenario.engine_faulty
              Scenario.profile70 Scenario.noon
              [Scenario.plain_rule "R04" AUTOMATED MEDIUM ""; Scenario.crashing_rule]
              Scenario.uninterpretable_rule
              [Scenario.plain_rule "R05" AUTOMATED MEDIUM ""]
              eq_refl _)).
    right. split; [now left|].
    exists [("LOGIC", VNone)].
    exists (OtherError "ZeroDivisionError" "division by zero").
    split; reflexivity.
Defined.

(** C8, at the failing input.  The predicate the package registers for
    rule [RULE-EU-AI-ACT-010-02B-001], [_eval_data_preprocessing], raises
    [AttributeError] on a profile dictionary whose [extra] is [None].  The
    call [return eval_fn(profile_dict)] stands inside the [try] whose
    handler is [except (ImportError, AttributeError): pass], so the
    exception never reaches the handler of [_evaluate_rule] that
    downgrades to manual review: the fallback interpretation of the
    rule's [evaluation_logic] decides, and for the logic
    [result = 'pass'] the rule passes.  The same holds of any registered
    predicate that raises [AttributeError] ([careless_predicate]), while a
    predicate that raises [ZeroDivisionError] is downgraded. *)
Theorem attribute_error_is_not_isolated :
  eu_ai_act_v1.get_evaluation_function (Rule_id Scenario.preprocessing_rule)
  = Some eu_ai_act_v1.art10._eval_data_preprocessing
  /\ eu_ai_act_v1.art10._eval_data_preprocessing Scenario.profile_without_extra
     = Raise (AttributeError "'NoneType' object has no attribute 'get'")
  /\ _execute_evaluation eu_ai_act_v1.get_evaluation_function Scenario.interpreter
                         Scenario.preprocessing_rule Scenario.profile_without_extra
     = Ok "pass"
  /\ RuleResult_verdict
       (_evaluate_rule eu_ai_act_v1.get_evaluation_function Scenario.interpreter
                       Scenario.preprocessing_rule Scenario.profile_without_extra)
     = PASS
  /\ Scenario.registry (Rule_id Scenario.careless_rule) = Some Scenario.careless_predicate
  /\ Scenario.careless_predicate (model_dump Scenario.profile70)
     = Raise (AttributeError "'NoneType' object has no attribute 'get'")
  /\ RuleResult_verdict
       (_evaluate_rule Scenario.registry Scenario.interpreter Scenario.careless_rule
                       (model_dump Scenario.profile70)) = PASS
  /\ RuleResult_verdict
       (_evaluate_rule Scenario.registry Scenario.interpreter Scenario.crashing_rule
                       (model_dump Scenario.profile70)) = MANUAL_REVIEW.
Proof. repeat split; vm_compute; reflexivity. Qed.

(* ================================================================== *)
(** * Strings and timestamps                                            *)
(* ================================================================== *)

Lemma string_app_assoc :
  forall a b c : string, ((a ++ b) ++ c = a ++ (b ++ c))%string.
Proof. induction a as [|ch a IH]; intros; simpl; [reflexivity | now rewrite IH]. Qed.

Lemma string_length_app :
  forall a b : string,
    String.length (a ++ b) = (String.length a + String.length b)%nat.
Proof. induction a as [|ch a IH]; intros; simpl; [reflexivity | now rewrite IH]. Qed.

Lemma drop_app :
  forall a b : string, drop (String.length a) (a ++ b) = b.
Proof. induction a as [|ch a IH]; intros; simpl; [reflexivity | apply IH]. Qed.

Lemma take_app :
  forall a b : string, take (String.length a) (a ++ b) = a.
Proof.
  induction a as [|ch a IH]; intros b; simpl.
  - destruct b; reflexivity.
  - now rewrite IH.
Qed.

Lemma endswith_app :
  forall a b : string, endswith (a ++ b) b = true.
Proof.
  intros a b. unfold endswith. rewrite string_length_app.
  replace (String.length a + String.length b - String.length b)%nat
    with (String.length a) by lia.
  rewrite drop_app, String.eqb_refl.
  replace (String.length b <=? String.length a + String.length b)%nat with true;
    [reflexivity | symmetry; apply Nat.leb_le; lia].
Qed.

Section Timestamps.

Import Datetime.
Local Open Scope Z_scope.

Lemma digit_value_digit :
  forall n, Pydantic.digit_value (digit n) = Some (n mod 10).
Proof.
  intros n. unfold Pydantic.digit_value, digit.
  assert (Hr : 0 <= n mod 10 < 10) by (apply Z.mod_pos_bound; lia).
  rewrite nat_ascii_embedding by lia.
  replace (Nat.leb 48 (48 + Z.to_nat (n mod 10))) with true
    by (symmetry; apply Nat.leb_le; lia).
  replace (Nat.leb (48 + Z.to_nat (n mod 10)) 57) with true
    by (symmetry; apply Nat.leb_le; lia).
  simpl. f_equal. lia.
Qed.

(** Reading back [width] digits written by [zpad]. *)
Lemma parse_digits_zpad :
  forall width n rest,
    0 <= n < 10 ^ Z.of_nat width ->
    Pydantic.parse_digits width (zpad width n ++ rest) = Some (n, rest).
Proof.
  induction width as [|w IH]; intros n rest Hn.
  - simpl in *. f_equal. f_equal. lia.
  - cbn [zpad Pydantic.parse_digits]. rewrite string_app_assoc. simpl append at 2.
    rewrite IH.
    + rewrite digit_value_digit. f_equal. f_equal.
      pose proof (Z.div_mod n 10). lia.
    + rewrite Nat2Z.inj_succ, Z.pow_succ_r in Hn by lia.
      split; [apply Z.div_pos; lia | apply Z.div_lt_upper_bound; lia].
Qed.

End Timestamps.

Section TimestampRoundTrip.

Import Datetime.
Local Open Scope Z_scope.

(** The suffix pydantic writes for the offset. *)
Let suffix (off : option Z) : string :=
  match off with
  | Some 0 => "Z"
  | Some o => offset_suffix o
  | None => ""
  end.

Lemma string_app_nil_r : forall s : string, (s ++ "")%string = s.
Proof. induction s as [|ch s IH]; simpl; [reflexivity | now rewrite IH]. Qed.

Lemma parse_hhmm_zpad :
  forall sign a,
    0 <= a < 1440 ->
    Pydantic.parse_hhmm sign (zpad 2 (a / 60) ++ ":" ++ zpad 2 (a mod 60))
    = Some (Some (sign * a)).
Proof.
  intros sign a Ha. unfold Pydantic.parse_hhmm.
  rewrite parse_digits_zpad.
  - cbn [append Pydantic.expect]. change (Ascii.eqb ":" ":") with true. cbv iota.
    rewrite <- (string_app_nil_r (zpad 2 (a mod 60))).
    rewrite parse_digits_zpad.
    + pose proof (Z.mod_pos_bound a 60 ltac:(lia)) as Hm.
      replace (a mod 60 <? 60) with true by (symmetry; apply Z.ltb_lt; lia).
      do 3 f_equal. pose proof (Z.div_mod a 60). lia.
    + change (10 ^ Z.of_nat 2) with 100.
      pose proof (Z.mod_pos_bound a 60). lia.
  - change (10 ^ Z.of_nat 2) with 100.
    split; [apply Z.div_pos; lia | apply Z.div_lt_upper_bound; lia].
Qed.

Lemma parse_offset_suffix :
  forall off,
    match off with
    | Some o => -1440 < o < 1440
    | None => True
    end ->
    Pydantic.parse_offset (suffix off) = Some off.
Proof.
  intros [[|p|p]|] Hoff; try reflexivity.
  - unfold suffix, offset_suffix. change (Z.pos p <? 0) with false.
    cbn [append Pydantic.parse_offset].
    change (Ascii.eqb "+" "Z") with false. change (Ascii.eqb "+" "z") with false.
    change (Ascii.eqb "+" "+") with true.
    cbv iota. cbn [orb]. rewrite parse_hhmm_zpad by (rewrite Z.abs_eq; lia).
    rewrite Z.abs_eq by lia. f_equal; f_equal; lia.
  - unfold suffix, offset_suffix. change (Z.neg p <? 0) with true.
    cbn [append Pydantic.parse_offset].
    change (Ascii.eqb "-" "Z") with false. change (Ascii.eqb "-" "z") with false.
    change (Ascii.eqb "-" "+") with false.
    change (Ascii.eqb "-" "-") with true.
    cbv iota. cbn [orb]. rewrite parse_hhmm_zpad by (rewrite Z.abs_neq; lia).
    rewrite Z.abs_neq by lia. f_equal; f_equal; lia.
Qed.

(** Reading a fraction runs through the digits [zpad] wrote. *)
Lemma read_fraction_zpad :
  forall width count acc n rest,
    (count + width <= 6)%nat ->
    Pydantic.read_fraction count acc (zpad width n ++ rest)
    = Pydantic.read_fraction (count + width)%nat
        (acc * 10 ^ Z.of_nat width + n mod 10 ^ Z.of_nat width) rest.
Proof.
  induction width as [|w IH]; intros count acc n rest Hle.
  - cbn [zpad append]. rewrite Nat.add_0_r. change (10 ^ Z.of_nat 0) with 1.
    rewrite Z.mod_1_r. f_equal. lia.
  - cbn [zpad]. rewrite string_app_assoc. cbn [append].
    rewrite IH by lia. cbn [Pydantic.read_fraction].
    rewrite digit_value_digit.
    replace (Nat.ltb (count + w) 6) with true by (symmetry; apply Nat.ltb_lt; lia).
    replace (S (count + w)) with (count + S w)%nat by lia.
    f_equal.
    rewrite Nat2Z.inj_succ, Z.pow_succ_r by lia.
    assert (Hp : 0 < 10 ^ Z.of_nat w) by (apply Z.pow_pos_nonneg; lia).
    rewrite (Z.rem_mul_r n 10 (10 ^ Z.of_nat w)) by lia.
    lia.
Qed.

(** The offset's suffix holds no leading digit. *)
Lemma read_fraction_suffix :
  forall count acc off,
    Pydantic.read_fraction count acc (suffix off) = (count, acc, suffix off).
Proof.
  intros count acc [[|p|p]|]; try reflexivity.
Qed.

Lemma parse_seconds_written :
  forall sec us off,
    0 <= sec < 60 -> 0 <= us < 1000000 ->
    Pydantic.parse_seconds
      (":" ++ zpad 2 sec
       ++ (if us =? 0 then "" else "." ++ zpad 6 us) ++ suffix off)
    = Some (sec, us, suffix off).
Proof.
  intros sec us off Hs Hus. cbn [append Pydantic.parse_seconds].
  change (Ascii.eqb ":" ":") with true. cbv iota.
  rewrite parse_digits_zpad by (change (10 ^ Z.of_nat 2) with 100; lia).
  destruct (Z.eqb_spec us 0) as [Hz|Hnz].
  - subst us. cbn [append]. destruct off as [[|p|p]|]; reflexivity.
  - cbn [append]. change (Ascii.eqb "." ".") with true. cbn [orb].
    rewrite (read_fraction_zpad 6 0 0 us (suffix off)) by lia.
    rewrite read_fraction_suffix. cbn [Nat.add Nat.sub].
    change (10 ^ Z.of_nat 6) with 1000000. change (10 ^ Z.of_nat 0) with 1.
    rewrite Z.mod_small by lia. do 3 f_equal. lia.
Qed.

Lemma days_in_month_le :
  forall y m, days_in_month y m <= 31.
Proof.
  intros y m. unfold days_in_month.
  destruct (m =? 2); [destruct (is_leap y); lia|].
  destruct ((m =? 4) || (m =? 6) || (m =? 9) || (m =? 11)); lia.
Qed.

Lemma valid_bounds :
  forall dt,
    valid dt = true ->
    (1 <= year dt <= 9999) /\ (1 <= month dt <= 12) /\ (1 <= day dt <= 31)
    /\ (0 <= hour dt < 24) /\ (0 <= minute dt < 60) /\ (0 <= second dt < 60)
    /\ (0 <= microsecond dt < 1000000)
    /\ match utcoffset dt with
       | Some o => -1440 < o < 1440
       | None => True
       end.
Proof.
  intros dt H. unfold valid in H.
  repeat (apply andb_true_iff in H; destruct H as [H ?]).
  repeat match goal with
         | H : (_ <=? _) = true |- _ => apply Z.leb_le in H
         | H : (_ <? _) = true |- _ => apply Z.ltb_lt in H
         end.
  pose proof (days_in_month_le (year dt) (month dt)).
  repeat split; try lia.
  destruct (utcoffset dt); [|exact I].
  match goal with
  | H : (_ && _)%bool = true |- _ =>
      apply andb_true_iff in H; destruct H as [Hlo Hhi];
      apply Z.ltb_lt in Hlo; apply Z.ltb_lt in Hhi; lia
  end.
Qed.

(** A datetime survives being written to the log and read back. *)
Lemma datetime_roundtrip :
  forall dt,
    valid dt = true ->
    Pydantic.datetime_of_json (Pydantic.datetime_to_json dt) = Some dt.
Proof.
  intros dt Hvalid.
  destruct (valid_bounds dt Hvalid) as [Hy [Hmo [Hd [Hh [Hmi [Hs [Hus Hoff]]]]]]].
  unfold Pydantic.datetime_of_json, Pydantic.parse_rfc3339, Pydantic.parse_date,
    Pydantic.datetime_to_json.
  fold (suffix (utcoffset dt)).
  rewrite parse_digits_zpad by (change (10 ^ Z.of_nat 4) with 10000; lia).
  cbn [append Pydantic.expect]. change (Ascii.eqb "-" "-") with true. cbv iota.
  rewrite parse_digits_zpad by (change (10 ^ Z.of_nat 2) with 100; lia).
  cbn [append Pydantic.expect]. change (Ascii.eqb "-" "-") with true. cbv iota.
  rewrite parse_digits_zpad by (change (10 ^ Z.of_nat 2) with 100; lia).
  cbn [append]. change (Pydantic.is_datetime_sep "T") with true. cbv iota.
  rewrite parse_digits_zpad by (change (10 ^ Z.of_nat 2) with 100; lia).
  cbn [append Pydantic.expect]. change (Ascii.eqb ":" ":") with true. cbv iota.
  rewrite parse_digits_zpad by (change (10 ^ Z.of_nat 2) with 100; lia).
  pose proof (parse_seconds_written (second dt) (microsecond dt) (utcoffset dt) Hs Hus)
    as Hsec.
  cbn [append] in Hsec. cbn [append]. rewrite Hsec.
  rewrite (parse_offset_suffix _ Hoff).
  destruct dt as [y mo d h mi s us off]. cbn [year month day hour minute second
    microsecond utcoffset] in *. now rewrite Hvalid.
Qed.

End TimestampRoundTrip.

(* ================================================================== *)
(** * The audit log: writing and reading back                           *)
(* ================================================================== *)

(** Induction on objects that reaches into lists and dicts. *)
Lemma pyobject_nested_ind :
  forall P : pyobject -> Prop,
    P ONone ->
    (forall b, P (OBool b)) ->
    (forall n, P (OInt n)) ->
    (forall s, P (OStr s)) ->
    (forall l, Forall P l -> P (OList l)) ->
    (forall d, Forall (fun kv => P (snd kv)) d -> P (ODict d)) ->
    (forall dt, P (ODatetime dt)) ->
    forall o, P o.
Proof.
  intros P HNone HBool HInt HStr HList HDict HDatetime.
  fix IH 1. intros [ |b|n|s|l|d|dt].
  - exact HNone.
  - apply HBool.
  - apply HInt.
  - apply HStr.
  - apply HList. induction l as [|x rest IHl]; constructor; [apply IH | exact IHl].
  - apply HDict. induction d as [|kv rest IHd]; constructor; [apply IH | exact IHd].
  - apply HDatetime.
Qed.

(** A JSON-shaped object is what [json.loads] gives back for its line. *)
Lemma of_value_to_json :
  forall o, json_shaped o = true -> of_value (Pydantic.to_json o) = o.
Proof.
  induction o as [ | | | |l IH|d IH| ] using pyobject_nested_ind;
    intros Hj; try reflexivity; try discriminate.
  - cbn [Pydantic.to_json of_value]. f_equal. cbn [json_shaped] in Hj.
    induction IH as [|x rest Hx _ IHrest]; [reflexivity|].
    cbn [forallb] in Hj. apply andb_true_iff in Hj. destruct Hj as [Hjx Hjr].
    cbn [map]. now rewrite (Hx Hjx), (IHrest Hjr).
  - cbn [Pydantic.to_json of_value]. f_equal. cbn [json_shaped] in Hj.
    induction IH as [|[k x] rest Hx _ IHrest]; [reflexivity|].
    cbn [forallb snd] in Hj. apply andb_true_iff in Hj. destruct Hj as [Hjx Hjr].
    cbn [map fst snd] in *. now rewrite (Hx Hjx), (IHrest Hjr).
Qed.

(** On a JSON-shaped object the encoder never calls [default]: the text
    is the one [json.dumps] writes for the reloaded value. *)
Lemma dumps_default_str_json :
  forall o,
    json_shaped o = true -> Json.dumps_default_str o = Json.dumps (Pydantic.to_json o).
Proof.
  induction o as [ |b| | |l IH|d IH| ] using pyobject_nested_ind;
    intros Hj; try reflexivity; try discriminate.
  - cbn [Pydantic.to_json Json.dumps Json.dumps_default_str]. do 3 f_equal.
    cbn [json_shaped] in Hj.
    induction IH as [|x rest Hx _ IHrest]; [reflexivity|].
    cbn [forallb] in Hj. apply andb_true_iff in Hj. destruct Hj as [Hjx Hjr].
    cbn [map]. now rewrite (Hx Hjx), (IHrest Hjr).
  - cbn [Pydantic.to_json Json.dumps Json.dumps_default_str]. do 5 f_equal.
    cbn [json_shaped] in Hj.
    induction IH as [|[k x] rest Hx _ IHrest]; [reflexivity|].
    cbn [forallb snd] in Hj. apply andb_true_iff in Hj. destruct Hj as [Hjx Hjr].
    cbn [map fst snd] in *. now rewrite (Hx Hjx), (IHrest Hjr).
Qed.

Lemma details_of_to_json :
  forall details : pydetails,
    json_shaped (ODict details) = true ->
    Pydantic.details_of_json (Pydantic.details_to_json details) = details.
Proof.
  intros details Hj. pose proof (of_value_to_json (ODict details) Hj) as H.
  cbn [Pydantic.to_json of_value] in H. now injection H.
Qed.

(** The values [json.loads] yields are JSON-shaped. *)
Lemma json_shaped_of_value :
  forall v, json_shaped (of_value v) = true.
Proof.
  fix IH 1. intros [ | | | |l|d]; try reflexivity.
  - cbn [of_value json_shaped]. induction l as [|x rest IHl]; [reflexivity|].
    cbn [map forallb]. now rewrite (IH x), IHl.
  - cbn [of_value json_shaped]. induction d as [|[k x] rest IHd]; [reflexivity|].
    cbn [map forallb fst snd]. now rewrite (IH x), IHd.
Qed.

Lemma str_list_map_VStr :
  forall l, Pydantic.str_list (map VStr l) = Some l.
Proof. induction l as [|s l IH]; simpl; [reflexivity | now rewrite IH]. Qed.

Lemma AuditAction_roundtrip :
  forall a, AuditAction_of_value (AuditAction_value a) = Some a.
Proof. destruct a; reflexivity. Qed.

(** An entry survives [model_dump_json] followed by
    [model_validate_json]. *)
Lemma validate_dump :
  forall utcnow e,
    Datetime.valid (AuditEntry_timestamp e) = true ->
    json_shaped (ODict (AuditEntry_details e)) = true ->
    Pydantic.model_validate_json utcnow (Pydantic.model_dump_json e) = Some e.
Proof.
  intros utcnow e Hvalid Hjson.
  unfold Pydantic.model_validate_json, Pydantic.model_dump_json.
  unfold Pydantic.str_field. cbn [dict_get String.eqb Ascii.eqb Bool.eqb].
  rewrite (datetime_roundtrip _ Hvalid), AuditAction_roundtrip, str_list_map_VStr.
  rewrite (details_of_to_json _ Hjson).
  destruct e; reflexivity.
Qed.

Lemma load_lines_holds :
  forall utcnow ls es, holds ls es -> Logger.load_lines utcnow ls = es.
Proof.
  intros utcnow ls es H. induction H as [|ls es _ IH|e ls es Hv Hj _ IH].
  - reflexivity.
  - exact IH.
  - unfold line_of. cbn [Logger.load_lines].
    now rewrite (validate_dump utcnow e Hv Hj), IH.
Qed.

Lemma holds_json_shaped :
  forall ls es,
    holds ls es ->
    Forall (fun e => json_shaped (ODict (AuditEntry_details e)) = true) es.
Proof.
  intros ls es H. induction H; auto.
Qed.

Lemma holds_app :
  forall ls es ls' es', holds ls es -> holds ls' es' -> holds (ls ++ ls') (es ++ es').
Proof.
  intros ls es ls' es' H H'. induction H; simpl; try constructor; assumption.
Qed.

(** Scanning for the last entry does not depend on where the scan starts
    once there is an entry. *)
Lemma last_entry_from :
  forall es prior,
    last_entry prior es
    = match last_entry None es with
      | Some e => Some e
      | None => prior
      end.
Proof.
  induction es as [|a rest IH]; intros prior.
  - reflexivity.
  - unfold last_entry in *. simpl. rewrite (IH (Some a)).
    destruct (fold_left (fun _ e => Some e) rest None); reflexivity.
Qed.

(** The last non-blank line of a log that holds [es] is the line of the
    last entry. *)
Lemma last_nonblank_holds :
  forall ls es acc,
    holds ls es ->
    fold_left (fun last l => match l with
                             | BlankLine => last
                             | _ => Some l
                             end) ls acc
    = match last_entry None es with
      | Some e => Some (line_of e)
      | None => acc
      end.
Proof.
  intros ls es acc H. revert acc.
  induction H as [|ls es _ IH|e ls es Hv Hj _ IH]; intros acc.
  - reflexivity.
  - simpl. apply IH.
  - cbn [fold_left line_of]. fold (line_of e). rewrite IH.
    change (last_entry None (e :: es)) with (last_entry (Some e) es).
    rewrite (last_entry_from es (Some e)).
    destruct (last_entry None es); reflexivity.
Qed.

(* ================================================================== *)
(** * [verify_chain] and linked chains                                  *)
(* ================================================================== *)

Section ChainFacts.

Import Logger.

Lemma verify_entries_all :
  forall es prior errors,
    verify_entries prior es errors = errors ++ all_errors prior es.
Proof.
  induction es as [|e rest IH]; intros prior errors.
  - simpl. now rewrite app_nil_r.
  - cbn [verify_entries all_errors]. rewrite IH. unfold errors_of.
    destruct (negb (String.eqb (AuditEntry_entry_hash e) (expected_hash_of e)));
      destruct prior as [p|];
      try destruct (negb (String.eqb (AuditEntry_previous_hash e) (AuditEntry_entry_hash p)));
      simpl; rewrite <- ?app_assoc; simpl; rewrite ?app_nil_r; reflexivity.
Qed.

Lemma errors_of_nil :
  forall prior e,
    errors_of prior e = [] <->
    AuditEntry_entry_hash e = expected_hash_of e
    /\ match prior with
       | Some p => AuditEntry_previous_hash e = AuditEntry_entry_hash p
       | None => True
       end.
Proof.
  intros prior e. unfold errors_of.
  destruct (String.eqb_spec (AuditEntry_entry_hash e) (expected_hash_of e)) as [Hh|Hh];
    simpl.
  - destruct prior as [p|]; [|tauto].
    destruct (String.eqb_spec (AuditEntry_previous_hash e) (AuditEntry_entry_hash p));
      simpl; split; intros H; try tauto; try discriminate.
  - split; [discriminate | intros [H _]; contradiction].
Qed.

Lemma all_errors_after :
  forall es p, all_errors (Some p) es = [] <-> linked (Some p) es.
Proof.
  induction es as [|e rest IH]; intros p; simpl.
  - tauto.
  - split.
    + intros H. apply app_eq_nil in H. destruct H as [He Hr].
      apply errors_of_nil in He. destruct He as [Hh Hp].
      repeat split; try assumption. now apply IH.
    + intros [Hh [Hp Hr]].
      assert (He : errors_of (Some p) e = []) by (apply errors_of_nil; now split).
      rewrite He. simpl. now apply IH.
Qed.

(** [verify_chain] accepts exactly the chains that start at the genesis
    hash and are linked throughout. *)
Lemma verify_chain_linked :
  forall es, verify_chain es = (true, []) <-> linked None es.
Proof.
  intros [|first rest]; [simpl; tauto|].
  unfold verify_chain. rewrite verify_entries_all. cbn [all_errors linked hash_of_prior].
  split.
  - intros H. injection H as _ H.
    apply app_eq_nil in H. destruct H as [Hg H].
    apply app_eq_nil in H. destruct H as [He Hr].
    apply errors_of_nil in He. destruct He as [Hh _].
    repeat split; try assumption.
    + destruct (String.eqb_spec (AuditEntry_previous_hash first) _GENESIS_HASH);
        [assumption | discriminate].
    + now apply all_errors_after.
  - intros [Hh [Hp Hr]].
    rewrite Hp, String.eqb_refl. cbn [negb app].
    assert (He : errors_of None first = []) by (apply errors_of_nil; now split).
    rewrite He. apply all_errors_after in Hr. rewrite Hr. reflexivity.
Qed.

Lemma linked_app :
  forall es prior es',
    linked prior es -> linked (last_entry prior es) es' -> linked prior (es ++ es').
Proof.
  induction es as [|e rest IH]; intros prior es' H H'.
  - exact H'.
  - destruct H as [Hh [Hp Hr]]. simpl. repeat split; try assumption.
    apply IH; assumption.
Qed.

End ChainFacts.

(* ================================================================== *)
(** * The logger: construction and appends                              *)
(* ================================================================== *)

Section LoggerFacts.

Import Logger.

(** For a UTC timestamp the string hashed by [log] is the string pydantic
    writes to the file. *)
Lemma normalize_utc :
  forall dt,
    Datetime.utcoffset dt = Some 0%Z ->
    _normalize_timestamp dt = Pydantic.datetime_to_json dt.
Proof.
  intros dt Hoff.
  unfold _normalize_timestamp, Datetime.isoformat, Pydantic.datetime_to_json.
  rewrite Hoff. change (Datetime.offset_suffix 0) with "+00:00".
  repeat rewrite <- string_app_assoc.
  match goal with
  | |- context [endswith (?b ++ "+00:00") _] => set (base := b)
  end.
  rewrite endswith_app, string_length_app.
  replace (String.length base + String.length "+00:00" - 6)%nat
    with (String.length base) by (simpl; lia).
  now rewrite take_app.
Qed.

Lemma utc_now_valid :
  forall dt, Datetime.is_utc_now dt = true ->
             Datetime.valid dt = true /\ Datetime.utcoffset dt = Some 0%Z.
Proof.
  intros dt H. unfold Datetime.is_utc_now in H.
  apply andb_true_iff in H. destruct H as [Hv Ho]. split; [exact Hv|].
  destruct (Datetime.utcoffset dt) as [[|p|p]|]; try discriminate. reflexivity.
Qed.

Lemma stores_lines :
  forall fs path es, stores fs path es -> holds (lines_at fs path) es.
Proof.
  intros fs path es [[Hnone ->] | [ls [Hsome [_ Hh]]]]; unfold lines_at.
  - rewrite Hnone. constructor.
  - now rewrite Hsome.
Qed.

(** A stored log ends with a newline, if it is there at all. *)
Lemma stores_terminated :
  forall fs path es,
    stores fs path es -> fs path = None \/ unterminated fs path = None.
Proof.
  intros fs path es [[Hnone _] | [ls [_ [Hterm _]]]]; [now left | now right].
Qed.

(** What the constructor finds in a stored log: the hash of its last
    entry, or the genesis sentinel when the file is missing or holds no
    entry. *)
Lemma read_last_hash_stores :
  forall fs path es,
    stores fs path es ->
    _read_last_hash path fs = Ok (VStr (hash_of_prior (last_entry None es))).
Proof.
  intros fs path es [[Hnone ->] | [ls [Hsome [_ Hh]]]]; unfold _read_last_hash.
  - now rewrite Hnone.
  - rewrite Hsome. unfold last_nonblank. rewrite (last_nonblank_holds ls es None Hh).
    destruct (last_entry None es) as [e|]; reflexivity.
Qed.

(** One [log] call on a logger whose pointer is a string. *)
Lemma log_step :
  forall self call fs h,
    _previous_hash self = VStr h ->
    exists entry,
      log self call fs
      = Ok (entry,
            {| log_dir := log_dir self;
               _log_file := _log_file self;
               _previous_hash := VStr (AuditEntry_entry_hash entry) |},
            append_line fs (_log_file self) (line_of entry))
      /\ AuditEntry_previous_hash entry = h
      /\ AuditEntry_entry_hash entry = expected_hash_of entry
      /\ AuditEntry_timestamp entry = call_now call
      /\ AuditEntry_id entry = call_uuid4 call
      /\ AuditEntry_action entry = call_action call
      /\ AuditEntry_details entry = details_of_call call.
Proof.
  intros self call fs h Hprev. unfold log. rewrite Hprev. cbv zeta.
  match goal with
  | |- exists entry, Ok (?e, _, _) = _ /\ _ => exists e
  end.
  repeat split.
Qed.

(** Appending behind a newline, or to a file that is not there yet, adds
    one line; the file then ends with a newline. *)
Lemma lines_at_append :
  forall (fs : filesystem) path l,
    fs path = None \/ unterminated fs path = None ->
    lines_at (append_line fs path l) path = lines_at fs path ++ [l].
Proof.
  intros fs path l Hterm. unfold lines_at, append_line. cbn [files].
  rewrite String.eqb_refl.
  destruct (files fs path) as [ls|] eqn:Hfile; [|reflexivity].
  destruct Hterm as [Hnone | Hterm]; [discriminate|].
  now rewrite Hterm.
Qed.

Lemma append_line_terminated :
  forall (fs : filesystem) path l, unterminated (append_line fs path l) path = None.
Proof.
  intros fs path l. unfold append_line. cbn [unterminated].
  now rewrite String.eqb_refl.
Qed.

(** [N] appends: they succeed, write one line each behind the lines that
    were there, and extend the chain from the logger's pointer. *)
Lemma log_all_spec :
  forall calls self (fs : filesystem) prior,
    _previous_hash self = VStr (hash_of_prior prior) ->
    fs (_log_file self) = None \/ unterminated fs (_log_file self) = None ->
    Forall (fun c => Datetime.is_utc_now (call_now c) = true) calls ->
    Forall (fun c => json_shaped (ODict (details_of_call c)) = true) calls ->
    exists new self' fs',
      log_all self calls fs = Ok (new, self', fs')
      /\ List.length new = List.length calls
      /\ linked prior new
      /\ holds (map line_of new) new
      /\ _previous_hash self' = VStr (hash_of_prior (last_entry prior new))
      /\ _log_file self' = _log_file self
      /\ lines_at fs' (_log_file self) = lines_at fs (_log_file self) ++ map line_of new
      /\ Forall (fun e => Datetime.is_utc_now (AuditEntry_timestamp e) = true) new
      /\ (fs' (_log_file self) = None \/ unterminated fs' (_log_file self) = None)
      /\ makedirs_error fs' = makedirs_error fs.
Proof.
  induction calls as [|call rest IH]; intros self fs prior Hprev Hterm Hutc Hjson.
  - exists [], self, fs. simpl. rewrite app_nil_r. repeat split; try assumption;
      constructor.
  - inversion Hutc as [|c cs Hc Hcs]; subst.
    inversion Hjson as [|c cs Hj Hjs]; subst.
    destruct (log_step self call fs _ Hprev)
      as [entry [Hlog [Hp [Hh [Ht [_ [_ Hd]]]]]]].
    set (self1 := {| log_dir := log_dir self;
                     _log_file := _log_file self;
                     _previous_hash := VStr (AuditEntry_entry_hash entry) |}) in *.
    destruct (IH self1 (append_line fs (_log_file self) (line_of entry)) (Some entry)
                 eq_refl (or_intror (append_line_terminated fs _ _)) Hcs Hjs)
      as [new [self' [fs' [Hall [Hlen [Hlink [Hholds [Hptr [Hfile [Hlines
           [Hts [Hterm' Hmk]]]]]]]]]]]].
    exists (entry :: new), self', fs'.
    cbn [log_all]. rewrite Hlog. cbn [bind]. rewrite Hall. cbn [bind].
    destruct (utc_now_valid _ Hc) as [Hvalid _].
    repeat split.
    + simpl. now rewrite Hlen.
    + exact Hh.
    + exact Hp.
    + exact Hlink.
    + simpl. constructor; [now rewrite Ht | now rewrite Hd | exact Hholds].
    + exact Hptr.
    + exact Hfile.
    + change (_log_file self1) with (_log_file self) in Hlines.
      rewrite Hlines, (lines_at_append fs _ _ Hterm), <- app_assoc. reflexivity.
    + constructor; [now rewrite Ht | exact Hts].
    + exact Hterm'.
    + exact Hmk.
Qed.

Lemma load_from_file_lines :
  forall self fs utcnow,
    load_from_file self None fs utcnow = load_lines utcnow (lines_at fs (_log_file self)).
Proof.
  intros. unfold load_from_file, lines_at, path_or.
  destruct (fs (_log_file self)); reflexivity.
Qed.

End LoggerFacts.

(* ================================================================== *)
(** * Round trip, restart and missing logs                              *)
(* ================================================================== *)

Lemma last_entry_snoc :
  forall es prior e, last_entry prior (es ++ [e]) = Some e.
Proof. intros. unfold last_entry. now rewrite fold_left_app. Qed.

Lemma linked_hashes :
  forall es prior,
    linked prior es ->
    Forall (fun e => Logger.expected_hash_of e = AuditEntry_entry_hash e) es.
Proof.
  induction es as [|e rest IH]; intros prior H; constructor.
  - destruct H as [Hh _]. now symmetry.
  - destruct H as [_ [_ Hr]]. now apply IH with (Some e).
Qed.

(** The restart lemma: a logger constructed over a stored, valid log
    appends entries that extend it. *)
Lemma restart_extends :
  forall log_dir (fs : filesystem) old calls utcnow,
    os_makedirs log_dir fs = Ok tt ->
    stores fs (os_path_join log_dir "audit.jsonl") old ->
    Logger.verify_chain old = (true, []) ->
    Forall (fun c => Datetime.is_utc_now (Logger.call_now c) = true) calls ->
    Forall (fun c => json_shaped (ODict (details_of_call c)) = true) calls ->
    exists logger new logger' fs',
      Logger.__init__ log_dir fs = Ok logger
      /\ Logger._previous_hash logger = VStr (hash_of_prior (last_entry None old))
      /\ log_all logger calls fs = Ok (new, logger', fs')
      /\ List.length new = List.length calls
      /\ Logger.load_from_file logger' None fs' utcnow = old ++ new
      /\ linked None (old ++ new)
      /\ Forall (fun e => Datetime.is_utc_now (AuditEntry_timestamp e) = true) new.
Proof.
  intros log_dir fs old calls utcnow Hdir Hstores Hvalid Hutc Hjson.
  set (path := os_path_join log_dir "audit.jsonl") in *.
  set (logger := {| Logger.log_dir := log_dir;
                    Logger._log_file := path;
                    Logger._previous_hash :=
                      VStr (hash_of_prior (last_entry None old)) |}).
  destruct (log_all_spec calls logger fs (last_entry None old) eq_refl
              (stores_terminated fs path old Hstores) Hutc Hjson)
    as [new [logger' [fs' [Hall [Hlen [Hlink [Hholds [_ [Hfile [Hlines [Hts _]]]]]]]]]]].
  exists logger, new, logger', fs'.
  split.
  { unfold Logger.__init__. fold path. rewrite Hdir. cbn [bind].
    now rewrite (read_last_hash_stores fs path old Hstores). }
  split; [reflexivity|]. split; [exact Hall|]. split; [exact Hlen|].
  split; [|split; [|exact Hts]].
  - rewrite load_from_file_lines, Hfile. change (Logger._log_file logger) with path.
    change (Logger._log_file logger) with path in Hlines. rewrite Hlines.
    apply load_lines_holds. apply holds_app; [now apply stores_lines | exact Hholds].
  - apply linked_app; [now apply verify_chain_linked | exact Hlink].
Qed.

(** X26.  The round trip of the audit chain for JSON-shaped details.  In
    a log directory that exists or can be created, with no log file yet,
    any number [N >= 1] of successive [log] calls whose [details] hold
    only what JSON has (None, booleans, integers, strings, lists and
    dicts of these) succeed; [load_from_file] then returns exactly the [N]
    entries created and [verify_chain] accepts them with an empty error
    list: for every entry the hash recomputed from the loaded fields is
    the stored one, the timestamp string that was hashed is the string on
    the wire, and each [previous_hash] is the hash of the entry before
    (the genesis sentinel for the first). *)
Theorem audit_chain_round_trip :
  forall log_dir (fs : filesystem) calls utcnow,
    (1 <= List.length calls)%nat ->
    os_makedirs log_dir fs = Ok tt ->
    fs (os_path_join log_dir "audit.jsonl") = None ->
    Forall (fun c => Datetime.is_utc_now (Logger.call_now c) = true) calls ->
    Forall (fun c => json_shaped (ODict (details_of_call c)) = true) calls ->
    exists logger entries logger' fs',
      Logger.__init__ log_dir fs = Ok logger
      /\ log_all logger calls fs = Ok (entries, logger', fs')
      /\ List.length entries = List.length calls
      /\ Logger.load_from_file logger' None fs' utcnow = entries
      /\ Logger.verify_chain (Logger.load_from_file logger' None fs' utcnow) = (true, [])
      /\ Forall (fun e =>
                   Logger.expected_hash_of e = AuditEntry_entry_hash e
                   /\ Logger._normalize_timestamp (AuditEntry_timestamp e)
                      = Pydantic.datetime_to_json (AuditEntry_timestamp e))
                (Logger.load_from_file logger' None fs' utcnow)
      /\ linked None (Logger.load_from_file logger' None fs' utcnow).
Proof.
  intros log_dir fs calls utcnow _ Hdir Hfresh Hutc Hjson.
  destruct (restart_extends log_dir fs [] calls utcnow Hdir
              (or_introl (conj Hfresh eq_refl)) eq_refl Hutc Hjson)
    as [logger [new [logger' [fs' [Hinit [_ [Hall [Hlen [Hload [Hlink Hts]]]]]]]]]].
  simpl in Hload, Hlink.
  exists logger, new, logger', fs'. rewrite Hload.
  repeat split; try assumption.
  - now apply verify_chain_linked.
  - pose proof (linked_hashes new None Hlink) as Hh.
    rewrite Forall_forall in *. intros e He. split; [now apply Hh|].
    apply normalize_utc. now apply utc_now_valid, Hts.
Qed.

Lemma audit_chain_round_trip_witness :
  exists logger entries logger' fs',
    Logger.__init__ "audit_logs" Scenario.no_files = Ok logger
    /\ log_all logger [Scenario.first_call; Scenario.second_call; Scenario.third_call]
               Scenario.no_files = Ok (entries, logger', fs')
    /\ List.length entries = 3%nat
    /\ Logger.load_from_file logger' None fs' Scenario.noon = entries
    /\ Logger.verify_chain (Logger.load_from_file logger' None fs' Scenario.noon)
       = (true, [])
    /\ Forall (fun e =>
                 Logger.expected_hash_of e = AuditEntry_entry_hash e
                 /\ Logger._normalize_timestamp (AuditEntry_timestamp e)
                    = Pydantic.datetime_to_json (AuditEntry_timestamp e))
              (Logger.load_from_file logger' None fs' Scenario.noon)
    /\ linked None (Logger.load_from_file logger' None fs' Scenario.noon).
Proof.
  apply (audit_chain_round_trip
           "audit_logs" Scenario.no_files
           [Scenario.first_call; Scenario.second_call; Scenario.third_call]
           Scenario.noon).
  - simpl. lia.
  - reflexivity.
  - reflexivity.
  - repeat constructor.
  - repeat constructor.
Defined.

(** C3, at the failing input.  One [log] call on a fresh log with
    [details={"when": datetime(2026, 3, 14, 12, 0, tzinfo=timezone.utc)}]
    succeeds.  The hash it stores is taken over
    [json.dumps(details, sort_keys=True, default=str)], which writes the
    datetime as [str] does, ["2026-03-14 12:00:00+00:00"]; the line on
    disk holds it as pydantic writes it, ["2026-03-14T12:00:00Z"].
    [load_from_file] returns the entry with that string in its details,
    and [verify_chain] rejects the one-entry log with a hash mismatch. *)
Theorem datetime_details_fail_round_trip :
  exists logger entry logger' fs',
    Logger.__init__ "audit_logs" Scenario.no_files = Ok logger
    /\ Logger.log logger Scenario.dated_call Scenario.no_files = Ok (entry, logger', fs')
    /\ AuditEntry_details entry = [("when", ODatetime Scenario.noon)]
    /\ AuditEntry_entry_hash entry
       = "6111c4a3746d9fc4b9230b76e8145800b41151ee6c0c3624d522242d71f0dc62"
    /\ Logger.load_from_file logger' None fs' Scenario.noon
       = [with_details entry [("when", OStr "2026-03-14T12:00:00Z")]]
    /\ Logger.verify_chain (Logger.load_from_file logger' None fs' Scenario.noon)
       = (false,
          ["Entry 44444444-4444-4444-8444-444444444444 hash mismatch: expected c5ac707b03069b364ad63fe32f42e4c58f26b977c1c156850a3e7e0f6ffa4c8a, got 6111c4a3746d9fc4b9230b76e8145800b41151ee6c0c3624d522242d71f0dc62"]).
Proof.
  do 4 eexists.
  split; [vm_compute; reflexivity|].
  split; [vm_compute; reflexivity|].
  repeat split; vm_compute; reflexivity.
Qed.

(** X27.  Chain continuity across restarts for JSON-shaped details.  In
    a log directory that exists or can be created, a logger constructed
    over a stored log whose chain verifies starts with its previous-hash
    pointer at the [entry_hash] of the last stored entry, and at the
    genesis sentinel (64 zero characters) when the file is missing or
    holds no entry.  The entries it then appends with JSON-shaped details
    extend the stored chain: the file reads back as the old entries
    followed by the new ones, and the whole passes [verify_chain]. *)
Theorem restart_continues_chain :
  forall log_dir (fs : filesystem) old calls utcnow,
    os_makedirs log_dir fs = Ok tt ->
    stores fs (os_path_join log_dir "audit.jsonl") old ->
    Logger.verify_chain old = (true, []) ->
    Forall (fun c => Datetime.is_utc_now (Logger.call_now c) = true) calls ->
    Forall (fun c => json_shaped (ODict (details_of_call c)) = true) calls ->
    exists logger new logger' fs',
      Logger.__init__ log_dir fs = Ok logger
      /\ Logger._previous_hash logger = VStr (hash_of_prior (last_entry None old))
      /\ (old = [] ->
          Logger._previous_hash logger
          = VStr "0000000000000000000000000000000000000000000000000000000000000000")
      /\ (forall before last, old = before ++ [last] ->
          Logger._previous_hash logger = VStr (AuditEntry_entry_hash last))
      /\ log_all logger calls fs = Ok (new, logger', fs')
      /\ List.length new = List.length calls
      /\ Logger.load_from_file logger' None fs' utcnow = old ++ new
      /\ Logger.verify_chain (Logger.load_from_file logger' None fs' utcnow) = (true, []).
Proof.
  intros log_dir fs old calls utcnow Hdir Hstores Hvalid Hutc Hjson.
  destruct (restart_extends log_dir fs old calls utcnow Hdir Hstores Hvalid Hutc Hjson)
    as [logger [new [logger' [fs' [Hinit [Hptr [Hall [Hlen [Hload [Hlink _]]]]]]]]]].
  exists logger, new, logger', fs'.
  split; [exact Hinit|]. split; [exact Hptr|]. split; [|split].
  - intros ->. exact Hptr.
  - intros before last ->. rewrite Hptr, last_entry_snoc. reflexivity.
  - split; [exact Hall|]. split; [exact Hlen|]. split; [exact Hload|].
    rewrite Hload. now apply verify_chain_linked.
Qed.

Lemma restart_continues_chain_witness :
  exists logger new logger' fs',
    Logger.__init__ "audit_logs" Scenario.two_entry_log = Ok logger
    /\ Logger._previous_hash logger
       = VStr (hash_of_prior (last_entry None (firstn 2 Scenario.three_entries)))
    /\ (firstn 2 Scenario.three_entries = [] ->
        Logger._previous_hash logger
        = VStr "0000000000000000000000000000000000000000000000000000000000000000")
    /\ (forall before last, firstn 2 Scenario.three_entries = before ++ [last] ->
        Logger._previous_hash logger = VStr (AuditEntry_entry_hash last))
    /\ log_all logger [Scenario.third_call] Scenario.two_entry_log = Ok (new, logger', fs')
    /\ List.length new = 1%nat
    /\ Logger.load_from_file logger' None fs' Scenario.noon
       = firstn 2 Scenario.three_entries ++ new
    /\ Logger.verify_chain (Logger.load_from_file logger' None fs' Scenario.noon)
       = (true, []).
Proof.
  apply (restart_continues_chain
           "audit_logs" Scenario.two_entry_log (firstn 2 Scenario.three_entries)
           [Scenario.third_call] Scenario.noon).
  - reflexivity.
  - right. eexists. split; [reflexivity|]. split; [reflexivity|].
    repeat (constructor; [reflexivity | reflexivity |]). constructor.
  - vm_compute. reflexivity.
  - repeat constructor.
  - repeat constructor.
Defined.

(** C10, at the failing input.  The stored two-entry log verifies, and
    the logger constructed over it starts at the [entry_hash] of its last
    entry.  The entry it appends with
    [details={"when": datetime(2026, 3, 14, 12, 0, tzinfo=timezone.utc)}]
    links to that hash, yet its own stored hash is taken over
    [str(datetime)] while the line holds the datetime as pydantic writes
    it: the file reads back as the two old entries followed by the new one
    with the string in its details, and [verify_chain] rejects the whole
    log with a hash mismatch on the appended entry. *)
Theorem datetime_details_fail_restart :
  exists logger entry logger' fs',
    Logger.verify_chain
      (Logger.load_lines Scenario.noon
         (lines_at Scenario.two_entry_log "audit_logs/audit.jsonl")) = (true, [])
    /\ Logger.__init__ "audit_logs" Scenario.two_entry_log = Ok logger
    /\ Logger._previous_hash logger
       = VStr (hash_of_prior (last_entry None (firstn 2 Scenario.three_entries)))
    /\ Logger.log logger Scenario.dated_call Scenario.two_entry_log
       = Ok (entry, logger', fs')
    /\ AuditEntry_previous_hash entry
       = hash_of_prior (last_entry None (firstn 2 Scenario.three_entries))
    /\ Logger.load_from_file logger' None fs' Scenario.noon
       = firstn 2 Scenario.three_entries
         ++ [with_details entry [("when", OStr "2026-03-14T12:00:00Z")]]
    /\ Logger.verify_chain (Logger.load_from_file logger' None fs' Scenario.noon)
       = (false,
          [Logger.hash_mismatch_error
             (with_details entry [("when", OStr "2026-03-14T12:00:00Z")])
             (Logger.expected_hash_of
                (with_details entry [("when", OStr "2026-03-14T12:00:00Z")]))]).
Proof.
  do 4 eexists.
  split; [vm_compute; reflexivity|].
  split; [vm_compute; reflexivity|].
  split; [vm_compute; reflexivity|].
  split; [vm_compute; reflexivity|].
  repeat split; vm_compute; reflexivity.
Qed.

(** C5, as amended.  [load_from_file] on a missing log file returns the
    empty list, and [verify_chain] accepts it (as it accepts every empty
    list) with no error.  The storage-backed [AuditChainVerifier.verify]
    treats the two cases apart: a log file that exists and has no entry is
    valid with no error, a log file that does not exist is reported as
    invalid with the one error "Audit log file not found". *)
Theorem missing_log_is_empty_history :
  (forall (logger : Logger.AuditLogger) (path : option string) (fs : filesystem) utcnow,
      fs (path_or path (Logger._log_file logger)) = None ->
      Logger.load_from_file logger path fs utcnow = []
      /\ Logger.verify_chain (Logger.load_from_file logger path fs utcnow) = (true, []))
  /\ Logger.verify_chain [] = (true, [])
  /\ (forall log_dir (fs : filesystem) ls,
        fs (os_path_join log_dir "audit.jsonl") = Some ls ->
        Forall (fun l => l = BlankLine) ls ->
        Chain.verify log_dir fs = Ok (true, []))
  /\ (forall log_dir (fs : filesystem),
        fs (os_path_join log_dir "audit.jsonl") = None ->
        Chain.verify log_dir fs
        = Ok (false,
              [("Audit log file not found: " ++ os_path_join log_dir "audit.jsonl")%string])).
Proof.
  split; [|split; [reflexivity|split]].
  - intros logger path fs utcnow Hnone. unfold Logger.load_from_file.
    rewrite Hnone. split; reflexivity.
  - intros log_dir fs ls Hsome Hblank. unfold Chain.verify. rewrite Hsome.
    assert (Hread : forall n, Chain.read_lines n ls = ([], [])).
    { clear Hsome. induction Hblank as [|l ls' Hl _ IH]; intros n; [reflexivity|].
      rewrite Hl. simpl. apply IH. }
    now rewrite Hread.
  - intros log_dir fs Hnone. unfold Chain.verify. now rewrite Hnone.
Qed.

Lemma missing_log_is_empty_history_witness :
  Logger.load_from_file Scenario.fresh_logger None Scenario.no_files Scenario.noon = []
  /\ Logger.verify_chain
       (Logger.load_from_file Scenario.fresh_logger None Scenario.no_files Scenario.noon)
     = (true, []).
Proof.
  apply (proj1 missing_log_is_empty_history
               Scenario.fresh_logger None Scenario.no_files Scenario.noon).
  reflexivity.
Defined.

(** C5 as stated fails for the storage-backed verifier: on a log
    directory whose file does not exist yet it answers invalid, with an
    error. *)
Lemma missing_log_counterexample :
  Scenario.no_files (os_path_join "audit_logs" "audit.jsonl") = None
  /\ Chain.verify "audit_logs" Scenario.no_files
     = Ok (false, ["Audit log file not found: audit_logs/audit.jsonl"]).
Proof. split; reflexivity. Qed.

(* ================================================================== *)
(** * Tampering with [details]                                          *)
(* ================================================================== *)

Section TamperFacts.

Import Logger.

Lemma overwrite_nth_split :
  forall (A : Type) (f : A -> A) (a : list A) (x : A) (b : list A),
    overwrite_nth (List.length a) f (a ++ x :: b) = a ++ f x :: b.
Proof. induction a as [|y a IH]; intros; simpl; [reflexivity | now rewrite IH]. Qed.

(** The errors after an entry depend on it through its stored hash only. *)
Lemma all_errors_prior_hash :
  forall es p p',
    AuditEntry_entry_hash p = AuditEntry_entry_hash p' ->
    all_errors (Some p) es = all_errors (Some p') es.
Proof.
  intros [|e rest] p p' Hh; [reflexivity|].
  cbn [all_errors]. unfold errors_of, chain_broken_error. now rewrite Hh.
Qed.

Lemma errors_of_tampered :
  forall prior e details,
    errors_of prior e = [] ->
    String.eqb (expected_hash_of (with_details e details)) (AuditEntry_entry_hash e) = false ->
    errors_of prior (with_details e details)
    = [hash_mismatch_error (with_details e details)
                           (expected_hash_of (with_details e details))].
Proof.
  intros prior e details Hok Hdiff.
  apply errors_of_nil in Hok. destruct Hok as [_ Hp].
  unfold errors_of. cbn [with_details AuditEntry_entry_hash AuditEntry_previous_hash].
  rewrite String.eqb_sym, Hdiff. cbn [negb].
  destruct prior as [p|]; [|reflexivity].
  now rewrite Hp, String.eqb_refl.
Qed.

Lemma all_errors_tampered :
  forall before prior e after details,
    all_errors prior (before ++ e :: after) = [] ->
    String.eqb (expected_hash_of (with_details e details)) (AuditEntry_entry_hash e) = false ->
    all_errors prior (before ++ with_details e details :: after)
    = [hash_mismatch_error (with_details e details)
                           (expected_hash_of (with_details e details))].
Proof.
  induction before as [|x before IH]; intros prior e after details Hok Hdiff.
  - cbn [app all_errors] in *. apply app_eq_nil in Hok. destruct Hok as [He Hafter].
    rewrite (errors_of_tampered prior e details He Hdiff).
    rewrite (all_errors_prior_hash after (with_details e details) e eq_refl), Hafter.
    reflexivity.
  - cbn [app all_errors] in *. apply app_eq_nil in Hok. destruct Hok as [Hx Hrest].
    rewrite Hx. cbn [app]. now apply IH.
Qed.

(** Overwriting the [details] of one entry of a valid chain makes
    [verify_chain] report that entry's hash mismatch and nothing else. *)
Lemma verify_chain_tampered :
  forall es i e details,
    verify_chain es = (true, []) ->
    nth_error es i = Some e ->
    String.eqb (expected_hash_of (with_details e details)) (AuditEntry_entry_hash e) = false ->
    verify_chain (overwrite_nth i (fun x => with_details x details) es)
    = (false, [hash_mismatch_error (with_details e details)
                                   (expected_hash_of (with_details e details))]).
Proof.
  intros es i e details Hvalid Hnth Hdiff.
  destruct (nth_error_split es i Hnth) as [before [after [-> <-]]].
  rewrite overwrite_nth_split.
  assert (Herr : all_errors None (before ++ e :: after) = []).
  { apply verify_chain_linked in Hvalid.
    destruct before as [|x before]; cbn [app linked all_errors] in Hvalid |- *.
    - destruct Hvalid as [Hh [Hp Hr]]. apply all_errors_after in Hr. rewrite Hr.
      assert (He : errors_of None e = []) by (apply errors_of_nil; now split).
      now rewrite He.
    - destruct Hvalid as [Hh [Hp Hr]]. apply all_errors_after in Hr. rewrite Hr.
      assert (He : errors_of None x = []) by (apply errors_of_nil; now split).
      now rewrite He. }
  assert (Hgen : match before ++ with_details e details :: after with
                 | first :: _ => AuditEntry_previous_hash first = _GENESIS_HASH
                 | [] => True
                 end).
  { apply verify_chain_linked in Hvalid.
    destruct before as [|x before];
      cbn [app linked hash_of_prior with_details AuditEntry_previous_hash] in Hvalid |- *;
      tauto. }
  pose proof (all_errors_tampered before None e after details Herr Hdiff) as Ht.
  unfold verify_chain.
  destruct (before ++ with_details e details :: after) as [|first rest] eqn:Hlist.
  - destruct before; discriminate.
  - rewrite Hgen, String.eqb_refl. cbn [negb]. rewrite verify_entries_all, Ht. reflexivity.
Qed.

End TamperFacts.

Section RawTamperFacts.

Lemma dict_get_set_other :
  forall d key v k,
    String.eqb k key = false ->
    dict_get (dict_set d key v) k = dict_get d k.
Proof.
  induction d as [|[k' w] rest IH]; intros key v k Hk; simpl.
  - rewrite String.eqb_sym. now rewrite Hk.
  - destruct (String.eqb_spec k' key) as [->|Hne]; simpl.
    + rewrite String.eqb_sym. now rewrite Hk.
    + destruct (String.eqb k' k); [reflexivity | now apply IH].
Qed.

Lemma dict_get_set_same :
  forall d key v, dict_get (dict_set d key v) key = Some v.
Proof.
  induction d as [|[k' w] rest IH]; intros key v; simpl.
  - now rewrite String.eqb_refl.
  - destruct (String.eqb_spec k' key) as [->|Hne]; simpl.
    + now rewrite String.eqb_refl.
    + destruct (String.eqb_spec k' key); [contradiction | apply IH].
Qed.

Lemma get_default_dict :
  forall d key default,
    PyValue.get_default (VDict d) key default
    = Ok match dict_get d key with
         | Some w => w
         | None => default
         end.
Proof. intros. unfold PyValue.get_default. destruct (dict_get d key); reflexivity. Qed.

Lemma eqb_VStr :
  forall c v, PyValue.eqb (VStr c) v = true -> v = VStr c.
Proof.
  intros c v H. destruct v; simpl in H; try discriminate.
  apply String.eqb_eq in H. now subst.
Qed.

(** The errors found so far are carried along unchanged. *)
Lemma check_entries_acc :
  forall es idx expected errors,
    Chain.check_entries idx expected es errors
    = (more <- Chain.check_entries idx expected es [] ;; Ok (errors ++ more)).
Proof.
  induction es as [|entry rest IH]; intros idx expected errors.
  - simpl. now rewrite app_nil_r.
  - cbn [Chain.check_entries].
    destruct (Chain.check_entry idx expected entry) as [[errs h]|exc];
      cbn [bind fst snd]; [|reflexivity].
    rewrite IH. rewrite (IH (S idx) h ([] ++ errs)).
    destruct (Chain.check_entries (S idx) h rest []) as [more|exc];
      cbn [bind app]; [|reflexivity].
    now rewrite app_assoc.
Qed.

Lemma read_json_lines :
  forall raws n, Chain.read_lines n (map JsonLine raws) = (raws, []).
Proof.
  induction raws as [|raw rest IH]; intros n; simpl; [reflexivity|].
  now rewrite IH.
Qed.

(** A line that passed the check, once its [details] are overwritten with
    content that hashes differently, fails with exactly the hash-mismatch
    error, and hands the same stored hash on to the next line. *)
Lemma check_entry_tampered :
  forall idx expected raw new stored h h',
    Chain.check_entry idx expected raw = Ok ([], stored) ->
    recomputed_hash raw = Ok h ->
    recomputed_hash (overwrite_details new raw) = Ok h' ->
    String.eqb h' h = false ->
    Chain.check_entry idx expected (overwrite_details new raw)
    = Ok ([Chain.entry_hash_error (entry_id_of idx raw) idx (take 16 h') (VStr (take 16 h))],
          stored).
Proof.
  intros idx expected raw new stored h h' Hok Hh Hh' Hdiff.
  destruct raw as [| | | | |d]; try discriminate Hok.
  unfold overwrite_details in *. unfold entry_id_of. unfold recomputed_hash in Hh, Hh'.
  repeat (rewrite get_default_dict in Hh; cbn [bind] in Hh).
  repeat (rewrite get_default_dict in Hh'; cbn [bind] in Hh').
  repeat rewrite dict_get_set_other in Hh' by reflexivity.
  rewrite dict_get_set_same in Hh'.
  unfold Chain.check_entry in *.
  repeat (rewrite get_default_dict in Hok; cbn [bind] in Hok).
  repeat (rewrite get_default_dict; cbn [bind]).
  repeat rewrite dict_get_set_other by reflexivity.
  match type of Hok with
  | bind ?L _ = _ => destruct L as [linkage|exc]
  end; cbn [bind] in *; [|discriminate Hok].
  injection Hok as Herrs Hstored.
  apply app_eq_nil in Herrs. destruct Herrs as [-> Hrec].
  unfold Chain.recompute in *.
  repeat (rewrite get_default_dict in Hrec; cbn [bind] in Hrec).
  rewrite Hh in Hrec. cbn [bind] in Hrec.
  repeat (rewrite get_default_dict; cbn [bind]).
  repeat rewrite dict_get_set_other by reflexivity.
  rewrite dict_get_set_same, Hh'. cbn [bind].
  rewrite Hstored in *.
  destruct (PyValue.eqb (VStr h) stored) eqn:Heq.
  - apply eqb_VStr in Heq. subst stored.
    cbn [PyValue.eqb PyValue.slice16]. rewrite Hdiff. reflexivity.
  - cbn [negb] in Hrec.
    destruct (PyValue.slice16 stored); cbn [bind] in Hrec; discriminate Hrec.
Qed.

Lemma check_entries_tampered :
  forall before idx expected raw after new h h',
    Chain.check_entries idx expected (before ++ raw :: after) [] = Ok [] ->
    recomputed_hash raw = Ok h ->
    recomputed_hash (overwrite_details new raw) = Ok h' ->
    String.eqb h' h = false ->
    Chain.check_entries idx expected (before ++ overwrite_details new raw :: after) []
    = Ok [Chain.entry_hash_error (entry_id_of (idx + List.length before) raw)
                                 (idx + List.length before) (take 16 h')
                                 (VStr (take 16 h))].
Proof.
  induction before as [|x before IH]; intros idx expected raw after new h h' Hok Hh Hh' Hd.
  - cbn [app Chain.check_entries List.length] in *. rewrite Nat.add_0_r.
    destruct (Chain.check_entry idx expected raw) as [[errs stored]|exc] eqn:Hc;
      cbn [bind fst snd] in Hok; [|discriminate Hok].
    rewrite check_entries_acc in Hok.
    destruct (Chain.check_entries (S idx) stored after []) as [more|exc] eqn:Hrest;
      cbn [bind] in Hok; [|discriminate Hok].
    cbn [app] in Hok. injection Hok as Hnil.
    apply app_eq_nil in Hnil. destruct Hnil as [-> ->].
    rewrite (check_entry_tampered idx expected raw new stored h h' Hc Hh Hh' Hd).
    cbn [bind fst snd]. rewrite check_entries_acc, Hrest. cbn [bind app].
    reflexivity.
  - cbn [app Chain.check_entries List.length] in *.
    destruct (Chain.check_entry idx expected x) as [[errs stored]|exc] eqn:Hc;
      cbn [bind fst snd] in *; [|discriminate Hok].
    rewrite check_entries_acc in Hok. rewrite check_entries_acc.
    destruct (Chain.check_entries (S idx) stored (before ++ raw :: after) [])
      as [more|exc] eqn:Hrest; cbn [bind] in Hok; [|discriminate Hok].
    cbn [app] in Hok. injection Hok as Hnil.
    apply app_eq_nil in Hnil. destruct Hnil as [-> ->].
    rewrite (IH (S idx) stored raw after new h h' Hrest Hh Hh' Hd).
    cbn [bind app]. now rewrite Nat.add_succ_r.
Qed.

(** The storage-backed verifier on a file of parsed lines, one of them
    tampered with. *)
Lemma chain_verify_tampered :
  forall log_dir (fs fs' : filesystem) raws i raw new h h',
    fs (os_path_join log_dir "audit.jsonl") = Some (map JsonLine raws) ->
    Chain.verify log_dir fs = Ok (true, []) ->
    nth_error raws i = Some raw ->
    fs' (os_path_join log_dir "audit.jsonl")
    = Some (map JsonLine (overwrite_nth i (overwrite_details new) raws)) ->
    recomputed_hash raw = Ok h ->
    recomputed_hash (overwrite_details new raw) = Ok h' ->
    String.eqb h' h = false ->
    Chain.verify log_dir fs'
    = Ok (false, [Chain.entry_hash_error (entry_id_of i raw) i (take 16 h')
                                         (VStr (take 16 h))]).
Proof.
  intros log_dir fs fs' raws i raw new h h' Hfs Hvalid Hnth Hfs' Hh Hh' Hd.
  destruct (nth_error_split raws i Hnth) as [before [after [-> <-]]].
  rewrite overwrite_nth_split in Hfs'.
  unfold Chain.verify in *. rewrite Hfs in Hvalid. rewrite Hfs'.
  rewrite read_json_lines in *.
  assert (Hok : Chain.check_entries 0 (VStr Chain._GENESIS_HASH)
                                    (before ++ raw :: after) [] = Ok []).
  { destruct (before ++ raw :: after) as [|x rest] eqn:Hlist;
      [destruct before; discriminate Hlist|].
    destruct (Chain.check_entries 0 (VStr Chain._GENESIS_HASH) (x :: rest) [])
      as [errs|exc]; cbn [bind] in Hvalid; [|discriminate Hvalid].
    injection Hvalid as _ ->. reflexivity. }
  pose proof (check_entries_tampered before 0 (VStr Chain._GENESIS_HASH) raw after new
                h h' Hok Hh Hh' Hd) as Ht.
  cbn [Nat.add] in Ht.
  destruct (before ++ overwrite_details new raw :: after) as [|x rest] eqn:Hlist;
    [destruct before; discriminate Hlist|].
  rewrite Ht. reflexivity.
Qed.

End RawTamperFacts.

(** C4.  In a chain that verifies (of three entries or of any other
    length), overwriting the [details] of one entry without recomputing
    its hash, with content that hashes differently, makes chain
    verification answer invalid with exactly one error: the hash mismatch
    of that entry.  No other entry is flagged and the entries after it are
    not affected, because the stored hashes they link to are untouched.
    This holds for [AuditLogger.verify_chain] on the loaded entries and for
    the storage-backed [AuditChainVerifier.verify] on the file. *)
Theorem tamper_detection_is_precise :
  (forall es i e details,
      Logger.verify_chain es = (true, []) ->
      nth_error es i = Some e ->
      String.eqb (Logger.expected_hash_of (with_details e details))
                 (AuditEntry_entry_hash e) = false ->
      Logger.verify_chain (overwrite_nth i (fun x => with_details x details) es)
      = (false,
         [Logger.hash_mismatch_error (with_details e details)
                                     (Logger.expected_hash_of (with_details e details))]))
  /\ (forall log_dir (fs fs' : filesystem) raws i raw new h h',
        fs (os_path_join log_dir "audit.jsonl") = Some (map JsonLine raws) ->
        Chain.verify log_dir fs = Ok (true, []) ->
        nth_error raws i = Some raw ->
        fs' (os_path_join log_dir "audit.jsonl")
        = Some (map JsonLine (overwrite_nth i (overwrite_details new) raws)) ->
        recomputed_hash raw = Ok h ->
        recomputed_hash (overwrite_details new raw) = Ok h' ->
        String.eqb h' h = false ->
        Chain.verify log_dir fs'
        = Ok (false,
              [Chain.entry_hash_error (entry_id_of i raw) i (take 16 h')
                                      (VStr (take 16 h))])).
Proof.
  split.
  - intros es i e details Hvalid Hnth Hdiff. now apply verify_chain_tampered.
  - intros log_dir fs fs' raws i raw new h h' Hfs Hvalid Hnth Hfs' Hh Hh' Hd.
    now apply (chain_verify_tampered log_dir fs fs' raws i raw new h h').
Qed.

Lemma tamper_detection_is_precise_witness :
  Logger.verify_chain
    (overwrite_nth 1 (fun x => with_details x (Pydantic.details_of_json Scenario.forged_details))
                   Scenario.three_entries)
  = (false,
     [Logger.hash_mismatch_error
        (with_details (nth 1 Scenario.three_entries (Scenario.hd_entry Scenario.three_entries))
                      (Pydantic.details_of_json Scenario.forged_details))
        (Logger.expected_hash_of
           (with_details (nth 1 Scenario.three_entries (Scenario.hd_entry Scenario.three_entries))
                         (Pydantic.details_of_json Scenario.forged_details)))])
  /\ Chain.verify "audit_logs" Scenario.forged_log
     = Ok (false,
           [Chain.entry_hash_error (entry_id_of 1 Scenario.second_raw) 1
                                   (take 16 Scenario.forged_digest)
                                   (VStr (take 16 Scenario.stored_digest))]).
Proof.
  split.
  - apply (proj1 tamper_detection_is_precise Scenario.three_entries 1
                 (nth 1 Scenario.three_entries (Scenario.hd_entry Scenario.three_entries))
                 (Pydantic.details_of_json Scenario.forged_details)).
    + vm_compute. reflexivity.
    + reflexivity.
    + vm_compute. reflexivity.
  - apply (proj2 tamper_detection_is_precise "audit_logs" Scenario.three_entry_log
                 Scenario.forged_log Scenario.three_raw 1 Scenario.second_raw
                 (VDict Scenario.forged_details)
                 Scenario.stored_digest Scenario.forged_digest).
    + reflexivity.
    + vm_compute. reflexivity.
    + reflexivity.
    + reflexivity.
    + vm_compute. reflexivity.
    + vm_compute. reflexivity.
    + vm_compute. reflexivity.
Defined.

(* ================================================================== *)
(** * The storage-backed verifier on a log the logger wrote             *)
(* ================================================================== *)

Section WrittenLogFacts.

(** Both classes hash the same string when the verifier is given the
    values the logger serialized. *)
Lemma compute_hash_agrees :
  forall previous_hash timestamp_iso action target_ids (details : pydetails),
    json_shaped (ODict details) = true ->
    Chain._compute_hash (VStr previous_hash) (VStr timestamp_iso)
                        (VStr (AuditAction_value action))
                        (VList (map VStr target_ids))
                        (VDict (Pydantic.details_to_json details))
    = Ok (Logger._compute_hash previous_hash timestamp_iso action target_ids details).
Proof.
  intros previous_hash timestamp_iso action target_ids details Hjson.
  unfold Logger._compute_hash. rewrite (dumps_default_str_json _ Hjson).
  reflexivity.
Qed.

Lemma read_written_lines :
  forall es n,
    Chain.read_lines n (map line_of es) = (map Pydantic.model_dump_json es, []).
Proof.
  induction es as [|e rest IH]; intros n; [reflexivity|].
  cbn [map line_of Chain.read_lines]. now rewrite IH.
Qed.

(** The line of an entry of the chain, stamped in UTC, passes both checks
    and hands its stored hash on. *)
Lemma check_entry_written :
  forall idx prior e,
    AuditEntry_entry_hash e = Logger.expected_hash_of e ->
    AuditEntry_previous_hash e = hash_of_prior prior ->
    Datetime.utcoffset (AuditEntry_timestamp e) = Some 0%Z ->
    json_shaped (ODict (AuditEntry_details e)) = true ->
    Chain.check_entry idx (VStr (hash_of_prior prior)) (Pydantic.model_dump_json e)
    = Ok ([], VStr (AuditEntry_entry_hash e)).
Proof.
  intros idx prior e Hhash Hprev Hutc Hjson.
  unfold Chain.check_entry, Chain.recompute, Pydantic.model_dump_json.
  repeat (rewrite get_default_dict; cbn [bind]).
  cbn [dict_get String.eqb Ascii.eqb Bool.eqb].
  rewrite (compute_hash_agrees _ _ _ _ _ Hjson). cbn [bind PyValue.eqb].
  rewrite <- (normalize_utc _ Hutc).
  fold (Logger.expected_hash_of e). rewrite <- Hhash, Hprev.
  now rewrite !String.eqb_refl.
Qed.

Lemma check_entries_written :
  forall es idx prior,
    linked prior es ->
    Forall (fun e => Datetime.utcoffset (AuditEntry_timestamp e) = Some 0%Z) es ->
    Forall (fun e => json_shaped (ODict (AuditEntry_details e)) = true) es ->
    Chain.check_entries idx (VStr (hash_of_prior prior))
                        (map Pydantic.model_dump_json es) []
    = Ok [].
Proof.
  induction es as [|e rest IH]; intros idx prior Hlink Hutc Hjson; [reflexivity|].
  destruct Hlink as [Hhash [Hprev Hrest]].
  inversion Hutc as [|x xs Hx Hxs]; subst.
  inversion Hjson as [|y ys Hy Hys]; subst.
  cbn [map Chain.check_entries].
  rewrite (check_entry_written idx prior e Hhash Hprev Hx Hy).
  cbn [bind fst snd app].
  exact (IH (S idx) (Some e) Hrest Hxs Hys).
Qed.

Lemma chain_verify_written :
  forall log_dir (fs : filesystem) es,
    fs (os_path_join log_dir "audit.jsonl") = Some (map line_of es) ->
    linked None es ->
    Forall (fun e => Datetime.utcoffset (AuditEntry_timestamp e) = Some 0%Z) es ->
    Forall (fun e => json_shaped (ODict (AuditEntry_details e)) = true) es ->
    Chain.verify log_dir fs = Ok (true, []).
Proof.
  intros log_dir fs es Hfs Hlink Hutc Hjson.
  unfold Chain.verify. rewrite Hfs, read_written_lines.
  destruct es as [|e rest]; [reflexivity|].
  change (VStr Chain._GENESIS_HASH) with (VStr (hash_of_prior None)).
  now rewrite (check_entries_written (e :: rest) 0 None Hlink Hutc Hjson).
Qed.

End WrittenLogFacts.

(** X1.  The repository's own test of the two classes together
    ([test_verify_chain]), for every number of appends: in a log directory
    that exists or can be created, after [N >= 1] successive [log] calls
    with JSON-shaped details on a fresh log, [AuditChainVerifier.verify]
    on the log directory answers valid with no error. *)
Theorem storage_verifier_round_trip :
  forall log_dir (fs : filesystem) calls,
    (1 <= List.length calls)%nat ->
    os_makedirs log_dir fs = Ok tt ->
    fs (os_path_join log_dir "audit.jsonl") = None ->
    Forall (fun c => Datetime.is_utc_now (Logger.call_now c) = true) calls ->
    Forall (fun c => json_shaped (ODict (details_of_call c)) = true) calls ->
    exists logger entries logger' fs',
      Logger.__init__ log_dir fs = Ok logger
      /\ log_all logger calls fs = Ok (entries, logger', fs')
      /\ Chain.verify log_dir fs' = Ok (true, []).
Proof.
  intros log_dir fs calls Hn Hdir Hfresh Hutc Hjson.
  set (path := os_path_join log_dir "audit.jsonl") in *.
  set (logger := {| Logger.log_dir := log_dir;
                    Logger._log_file := path;
                    Logger._previous_hash := VStr (hash_of_prior None) |}).
  destruct (log_all_spec calls logger fs None eq_refl (or_introl Hfresh) Hutc Hjson)
    as [new [logger' [fs' [Hall [Hlen [Hlink [Hholds [_ [_ [Hlines [Hts _]]]]]]]]]]].
  exists logger, new, logger', fs'.
  split.
  { unfold Logger.__init__, Logger._read_last_hash. fold path.
    rewrite Hdir. cbn [bind]. now rewrite Hfresh. }
  split; [exact Hall|].
  change (Logger._log_file logger) with path in Hlines.
  unfold lines_at in Hlines. rewrite Hfresh in Hlines. cbn [app] in Hlines.
  destruct (fs' path) as [ls|] eqn:Hfs'.
  - subst ls. apply (chain_verify_written log_dir fs' new Hfs' Hlink).
    + rewrite Forall_forall in *. intros e He. now apply utc_now_valid, Hts.
    + exact (holds_json_shaped _ _ Hholds).
  - destruct new as [|e rest]; [|discriminate Hlines].
    rewrite <- Hlen in Hn. simpl in Hn. lia.
Qed.

Lemma storage_verifier_round_trip_witness :
  exists logger entries logger' fs',
    Logger.__init__ "audit_logs" Scenario.no_files = Ok logger
    /\ log_all logger [Scenario.first_call; Scenario.second_call; Scenario.third_call]
               Scenario.no_files = Ok (entries, logger', fs')
    /\ Chain.verify "audit_logs" fs' = Ok (true, []).
Proof.
  apply (storage_verifier_round_trip
           "audit_logs" Scenario.no_files
           [Scenario.first_call; Scenario.second_call; Scenario.third_call]).
  - simpl. lia.
  - reflexivity.
  - reflexivity.
  - repeat constructor.
  - repeat constructor.
Defined.

(* ================================================================== *)
(** * Further properties of the evaluator and of the log                *)
(* ================================================================== *)

(** X2.  A manual rule is never executed: whatever the profile holds,
    whatever predicate is registered for it and whatever its evaluation
    logic says, its result is manual review with the fixed detail text. *)
Theorem manual_rules_never_execute :
  forall registry exec rule profile_dict,
    Rule_rule_type rule = MANUAL ->
    RuleResult_verdict (_evaluate_rule registry exec rule profile_dict) = MANUAL_REVIEW
    /\ RuleResult_details (_evaluate_rule registry exec rule profile_dict)
       = "Requires manual assessment".
Proof.
  intros registry exec rule profile_dict Hm. unfold _evaluate_rule. rewrite Hm.
  split; reflexivity.
Qed.

Lemma manual_rules_never_execute_witness :
  RuleResult_verdict
    (_evaluate_rule Scenario.registry Scenario.interpreter Scenario.manual_rule
                    (model_dump Scenario.profile70)) = MANUAL_REVIEW
  /\ RuleResult_details
       (_evaluate_rule Scenario.registry Scenario.interpreter Scenario.manual_rule
                       (model_dump Scenario.profile70))
     = "Requires manual assessment".
Proof.
  apply (manual_rules_never_execute
           Scenario.registry Scenario.interpreter Scenario.manual_rule
           (model_dump Scenario.profile70)).
  reflexivity.
Defined.

(** X3.  A verdict string outside the four known ones, returned by the
    native predicate of an automated rule, is mapped to manual review. *)
Theorem unrecognized_verdict_is_manual_review :
  forall registry exec rule profile_dict fn verdict,
    String.eqb (RuleType_value (Rule_rule_type rule)) "manual" = false ->
    registry (Rule_id rule) = Some fn ->
    fn profile_dict = Ok verdict ->
    recognized verdict = false ->
    RuleResult_verdict (_evaluate_rule registry exec rule profile_dict) = MANUAL_REVIEW.
Proof.
  intros registry exec rule profile_dict fn verdict Hauto Hreg Hfn Hrec.
  unfold _evaluate_rule. rewrite Hauto.
  unfold _execute_evaluation.
  destruct (resolve_inputs_total profile_dict (Rule_inputs_needed rule) []) as [inputs Hin].
  rewrite Hin. cbn [bind]. rewrite Hreg, Hfn. cbn [RuleResult_verdict].
  unfold recognized in Hrec. unfold verdict_map_get.
  destruct (String.eqb verdict "pass"); [discriminate Hrec|].
  destruct (String.eqb verdict "fail"); [discriminate Hrec|].
  destruct (String.eqb verdict "not_applicable"); [discriminate Hrec|].
  destruct (String.eqb verdict "manual_review"); reflexivity.
Qed.

Lemma unrecognized_verdict_is_manual_review_witness :
  RuleResult_verdict
    (_evaluate_rule (fun _ => Some Scenario.vague_predicate) Scenario.interpreter
                    (Scenario.plain_rule "R04" AUTOMATED MEDIUM "")
                    (model_dump Scenario.profile70)) = MANUAL_REVIEW.
Proof.
  apply (unrecognized_verdict_is_manual_review
           (fun _ => Some Scenario.vague_predicate) Scenario.interpreter
           (Scenario.plain_rule "R04" AUTOMATED MEDIUM "")
           (model_dump Scenario.profile70) Scenario.vague_predicate "probably").
  - reflexivity.
  - reflexivity.
  - reflexivity.
  - reflexivity.
Defined.

Lemma counts_partition :
  forall results,
    (count_verdict PASS results + count_verdict FAIL results
     + count_verdict NOT_APPLICABLE results + count_verdict MANUAL_REVIEW results)%nat
    = List.length results.
Proof.
  unfold count_verdict. induction results as [|r rest IH]; [reflexivity|].
  cbn [filter]. destruct (RuleResult_verdict r); cbn [RuleVerdict_eqb List.length]; lia.
Qed.

(** X4.  The report accounts for every rule of the catalogue once:
    [total_rules] is the number of rules, there is one result per rule,
    and the four verdict counts add up to [total_rules]. *)
Theorem report_counts_every_rule :
  forall registry exec self profile now,
    let report := evaluate registry exec self profile now in
    let summary := ComplianceReport_summary report in
    EvaluationResult_total_rules summary = List.length (_rules self)
    /\ List.length (ComplianceReport_rule_results report) = List.length (_rules self)
    /\ (EvaluationResult_passed summary + EvaluationResult_failed summary
        + EvaluationResult_not_applicable summary
        + EvaluationResult_manual_review summary)%nat
       = EvaluationResult_total_rules summary.
Proof.
  intros registry exec self profile now report summary.
  unfold summary, report, evaluate. rewrite evaluate_loop.
  cbn [ComplianceReport_summary ComplianceReport_rule_results rule_results app
       EvaluationResult_total_rules EvaluationResult_passed EvaluationResult_failed
       EvaluationResult_not_applicable EvaluationResult_manual_review].
  split; [apply length_map|]. split; [apply length_map|].
  apply counts_partition.
Qed.

(** X5.  An engine whose catalogue is empty (as for an unknown regulation
    name) evaluates without raising: the report has no rule, score 0 and
    the verdict ["non_compliant"]. *)
Theorem empty_catalogue_is_non_compliant :
  forall registry exec name profile now,
    let report :=
      evaluate registry exec {| regulation := name; _rules := [] |} profile now in
    EvaluationResult_total_rules (ComplianceReport_summary report) = 0%nat
    /\ EvaluationResult_compliance_score (ComplianceReport_summary report) = Float.zero
    /\ ComplianceReport_rule_results report = []
    /\ ComplianceReport_critical_gaps report = []
    /\ ComplianceReport_overall_verdict report = "non_compliant".
Proof. intros. repeat split. Qed.

(** X6.  Genesis check: in a log directory that exists or can be
    created, on a fresh log the first entry appended references the
    genesis sentinel of 64 zero characters, and the second references the
    first entry's hash. *)
Theorem genesis_then_link :
  forall log_dir (fs : filesystem) first second,
    os_makedirs log_dir fs = Ok tt ->
    fs (os_path_join log_dir "audit.jsonl") = None ->
    exists logger e1 logger1 fs1 e2 logger2 fs2,
      Logger.__init__ log_dir fs = Ok logger
      /\ Logger.log logger first fs = Ok (e1, logger1, fs1)
      /\ Logger.log logger1 second fs1 = Ok (e2, logger2, fs2)
      /\ AuditEntry_previous_hash e1
         = "0000000000000000000000000000000000000000000000000000000000000000"
      /\ AuditEntry_previous_hash e2 = AuditEntry_entry_hash e1.
Proof.
  intros log_dir fs first second Hdir Hfresh.
  set (path := os_path_join log_dir "audit.jsonl") in *.
  set (logger := {| Logger.log_dir := log_dir;
                    Logger._log_file := path;
                    Logger._previous_hash := VStr Logger._GENESIS_HASH |}).
  destruct (log_step logger first fs Logger._GENESIS_HASH eq_refl)
    as [e1 [Hlog1 [Hprev1 _]]].
  match type of Hlog1 with
  | _ = Ok (_, ?l, ?f) => set (logger1 := l) in *; set (fs1 := f) in *
  end.
  destruct (log_step logger1 second fs1 (AuditEntry_entry_hash e1) eq_refl)
    as [e2 [Hlog2 [Hprev2 _]]].
  match type of Hlog2 with
  | _ = Ok (_, ?l, ?f) => exists logger, e1, logger1, fs1, e2, l, f
  end.
  split.
  { unfold Logger.__init__, Logger._read_last_hash. fold path.
    rewrite Hdir. cbn [bind]. now rewrite Hfresh. }
  repeat split; assumption.
Qed.

Lemma genesis_then_link_witness :
  exists logger e1 logger1 fs1 e2 logger2 fs2,
    Logger.__init__ "audit_logs" Scenario.no_files = Ok logger
    /\ Logger.log logger Scenario.first_call Scenario.no_files = Ok (e1, logger1, fs1)
    /\ Logger.log logger1 Scenario.second_call fs1 = Ok (e2, logger2, fs2)
    /\ AuditEntry_previous_hash e1
       = "0000000000000000000000000000000000000000000000000000000000000000"
    /\ AuditEntry_previous_hash e2 = AuditEntry_entry_hash e1.
Proof.
  apply (genesis_then_link "audit_logs" Scenario.no_files
                           Scenario.first_call Scenario.second_call).
  - reflexivity.
  - reflexivity.
Defined.

Lemma load_lines_app :
  forall utcnow a b,
    Logger.load_lines utcnow (a ++ b)
    = Logger.load_lines utcnow a ++ Logger.load_lines utcnow b.
Proof.
  intros utcnow a b. induction a as [|l rest IH]; [reflexivity|].
  cbn [app Logger.load_lines].
  destruct l as [|v|why]; try exact IH.
  destruct (Pydantic.model_validate_json utcnow v); [|exact IH].
  cbn [app]. now rewrite IH.
Qed.

(** A malformed line fails validation, whatever the clock reads. *)
Lemma malformed_is_rejected :
  forall utcnow v,
    malformed (JsonLine v) -> Pydantic.model_validate_json utcnow v = None.
Proof.
  intros utcnow v H. destruct v as [ | | | | |d]; try reflexivity.
  cbn [malformed] in H. unfold Pydantic.model_validate_json, Pydantic.str_field.
  destruct H as [H | [H | H]]; rewrite H.
  - reflexivity.
  - repeat match goal with
           | |- match ?x with _ => _ end = None => destruct x; try reflexivity
           end.
  - repeat match goal with
           | |- match ?x with _ => _ end = None => destruct x; try reflexivity
           end.
Qed.

(** X7.  Corrupted-line tolerance: a malformed line in a log (text that
    is no JSON, JSON that is no object, or an object without one of the
    required fields [id], [action] and [stage]) is skipped, and
    [load_from_file] returns the entries of the lines before and after
    it. *)
Theorem corrupted_line_is_skipped :
  forall (logger : Logger.AuditLogger) path (fs : filesystem) utcnow
         before bad after es1 es2,
    fs (path_or path (Logger._log_file logger)) = Some (before ++ bad :: after) ->
    malformed bad ->
    holds before es1 ->
    holds after es2 ->
    Logger.load_from_file logger path fs utcnow = es1 ++ es2.
Proof.
  intros logger path fs utcnow before bad after es1 es2 Hfs Hbad H1 H2.
  unfold Logger.load_from_file. rewrite Hfs, load_lines_app.
  rewrite (load_lines_holds utcnow before es1 H1).
  cbn [Logger.load_lines].
  destruct bad as [|v|why].
  - contradiction.
  - rewrite (malformed_is_rejected utcnow v Hbad).
    now rewrite (load_lines_holds utcnow after es2 H2).
  - now rewrite (load_lines_holds utcnow after es2 H2).
Qed.

Lemma corrupted_line_is_skipped_witness :
  Logger.load_from_file Scenario.fresh_logger None Scenario.corrupted_log Scenario.noon
  = firstn 1 Scenario.three_entries ++ skipn 1 Scenario.three_entries.
Proof.
  apply (corrupted_line_is_skipped
           Scenario.fresh_logger None Scenario.corrupted_log Scenario.noon
           (map line_of (firstn 1 Scenario.three_entries))
           (GarbageLine "Expecting ',' delimiter: line 1 column 58 (char 57)")
           (map line_of (skipn 1 Scenario.three_entries))
           (firstn 1 Scenario.three_entries) (skipn 1 Scenario.three_entries)).
  - reflexivity.
  - exact I.
  - repeat (apply holds_entry; [reflexivity | reflexivity |]). apply holds_nil.
  - repeat (apply holds_entry; [reflexivity | reflexivity |]). apply holds_nil.
Defined.

(** X8.  A first entry that does not reference the genesis sentinel is
    reported, as the first error, and the scan goes on: the errors of all
    entries follow it. *)
Theorem genesis_mismatch_is_reported :
  forall first rest,
    String.eqb (AuditEntry_previous_hash first) Logger._GENESIS_HASH = false ->
    Logger.verify_chain (first :: rest)
    = (false, Logger.genesis_error first :: all_errors None (first :: rest)).
Proof.
  intros first rest Hg. unfold Logger.verify_chain.
  rewrite Hg, verify_entries_all. reflexivity.
Qed.

Lemma genesis_mismatch_is_reported_witness :
  Logger.verify_chain (skipn 1 Scenario.three_entries)
  = (false,
     Logger.genesis_error (nth 1 Scenario.three_entries
                               (Scenario.hd_entry Scenario.three_entries))
     :: all_errors None (skipn 1 Scenario.three_entries)).
Proof.
  apply (genesis_mismatch_is_reported
           (nth 1 Scenario.three_entries (Scenario.hd_entry Scenario.three_entries))
           (skipn 2 Scenario.three_entries)).
  vm_compute. reflexivity.
Defined.

(* ================================================================== *)
(** * The shipped catalogue: registry and native predicates             *)
(* ================================================================== *)

Section RegistryFacts.

Import eu_ai_act_v1.

Lemma table_get_In :
  forall (A : Type) (table : list (string * A)) key v,
    table_get table key = Some v -> In (key, v) table.
Proof.
  intros A table key v. induction table as [|[k w] rest IH]; simpl; [discriminate|].
  destruct (String.eqb_spec k key) as [->|_].
  - intros H. injection H as ->. now left.
  - intros H. right. now apply IH.
Qed.

Lemma first_registered_In :
  forall mods rule_id fn,
    first_registered mods rule_id = Some fn ->
    In (rule_id, fn) (flat_map module_EVALUATION_FUNCTIONS mods).
Proof.
  induction mods as [|m rest IH]; intros rule_id fn; simpl; [discriminate|].
  destruct (table_get (module_EVALUATION_FUNCTIONS m) rule_id) as [g|] eqn:Hg.
  - intros H. injection H as ->. apply in_or_app. left. now apply table_get_In.
  - intros H. apply in_or_app. right. now apply IH.
Qed.

Lemma registered_In :
  forall rule_id fn,
    get_evaluation_function rule_id = Some fn -> In (rule_id, fn) registered.
Proof. intros rule_id fn H. now apply first_registered_In. Qed.

Lemma guard_step :
  forall d,
    truth_of (PyValue.get_default (VDict d) "is_high_risk" (VBool false))
    = Ok (high_risk_flag d).
Proof.
  intros d. unfold truth_of, PyValue.get_default, high_risk_flag.
  destruct (dict_get d "is_high_risk"); reflexivity.
Qed.

Ltac guarded :=
  let d := fresh "d" in
  let H := fresh "H" in
  intros d H; cbn [snd];
  match goal with
  | |- ?f _ = _ => unfold f
  end;
  rewrite guard_step, H; reflexivity.

Lemma registered_guarded :
  Forall (fun row => forall d, high_risk_flag d = false ->
                               snd row (VDict d) = Ok "not_applicable")
         registered.
Proof.
  unfold registered.
  cbn [flat_map _ARTICLE_MODULES module_EVALUATION_FUNCTIONS app
       art09.EVALUATION_FUNCTIONS art10.EVALUATION_FUNCTIONS art11.EVALUATION_FUNCTIONS
       art12.EVALUATION_FUNCTIONS art13.EVALUATION_FUNCTIONS art14.EVALUATION_FUNCTIONS
       art15.EVALUATION_FUNCTIONS].
  repeat (apply Forall_cons; [guarded|]). apply Forall_nil.
Qed.

End RegistryFacts.

Section ValidatedFacts.

Import eu_ai_act_v1.

(** A keyword test over a list of strings never raises. *)
Lemma py_any_strs :
  forall (test : value -> pyresult bool) (l : list string),
    (forall s, exists b, test (VStr s) = Ok b) ->
    exists b, py_any test (map VStr l) = Ok b.
Proof.
  intros test l Htest. induction l as [|s rest [b IH]]; [now exists false|].
  cbn [map py_any]. destruct (Htest s) as [[|] ->]; cbn [bind].
  - now exists true.
  - now exists b.
Qed.

Ltac keyword_test :=
  let s := fresh "s" in
  intros s; cbn [py_lower bind];
  repeat match goal with
         | |- context [if ?b then _ else _] => destruct b
         end; eexists; reflexivity.

Ltac settle :=
  repeat first
    [ progress cbn [bind truth_of truthy PyValue.get_default py_get dict_get
                    String.eqb Ascii.eqb Bool.eqb py_len py_iter Profile.strs negb
                    isinstance_dict is_empty Profile.dump_bias]
    | match goal with
      | |- context [py_any ?t (map VStr ?l)] =>
          let b := fresh "b" in
          let Hb := fresh "Hb" in
          destruct (py_any_strs t l ltac:(keyword_test)) as [b Hb]; rewrite Hb
      | |- context [if ?b then _ else _] =>
          lazymatch b with
          | context [match _ with _ => _ end] => fail
          | _ => destruct b
          end
      | |- context [match ?x with _ => _ end] =>
          lazymatch x with
          | context [match _ with _ => _ end] => fail
          | _ => destruct x
          end
      end ];
  unfold answers_verdict; cbn [native_verdict String.eqb Ascii.eqb Bool.eqb orb]; try reflexivity.

Ltac validated :=
  let p := fresh "p" in
  intros p; cbn [snd];
  match goal with
  | |- answers_verdict (?f _) = true => unfold f
  end;
  unfold Profile.dump, model_dump, Profile.to_engine, Profile.dump_fields;
  cbn [SystemProfile_system_name SystemProfile_provider_name SystemProfile_fields];
  settle.


Lemma registered_validated :
  Forall (fun row => forall p, answers_verdict (snd row (Profile.dump p)) = true)
         registered.
Proof.
  unfold registered.
  cbn [flat_map _ARTICLE_MODULES module_EVALUATION_FUNCTIONS app
       art09.EVALUATION_FUNCTIONS art10.EVALUATION_FUNCTIONS art11.EVALUATION_FUNCTIONS
       art12.EVALUATION_FUNCTIONS art13.EVALUATION_FUNCTIONS art14.EVALUATION_FUNCTIONS
       art15.EVALUATION_FUNCTIONS].
  repeat (apply Forall_cons; [validated|]). apply Forall_nil.
Qed.

End ValidatedFacts.

Section ShippedFacts.

Import eu_ai_act_v1.

Variable exec : string -> pydict -> pyresult (option string).

Lemma distinct_NoDup : forall l, distinct l = true -> NoDup l.
Proof.
  induction l as [|x rest IH]; intros H; constructor.
  - cbn [distinct] in H. apply andb_true_iff in H. destruct H as [Hx _].
    intros Hin. apply negb_true_iff in Hx.
    assert (existsb (String.eqb x) rest = true); [|congruence].
    apply existsb_exists. exists x. split; [exact Hin | apply String.eqb_refl].
  - cbn [distinct] in H. apply andb_true_iff in H. now apply IH.
Qed.

Lemma catalogue_registered :
  forall rule, In rule get_rules ->
               exists fn, get_evaluation_function (Rule_id rule) = Some fn.
Proof.
  assert (H : forallb (fun r => match get_evaluation_function (Rule_id r) with
                                | Some _ => true
                                | None => false
                                end) get_rules = true) by (vm_compute; reflexivity).
  intros rule Hin. rewrite forallb_forall in H. specialize (H rule Hin).
  destruct (get_evaluation_function (Rule_id rule)) as [fn|]; [now exists fn | discriminate].
Qed.

Lemma catalogue_not_manual :
  forall rule, In rule get_rules ->
               String.eqb (RuleType_value (Rule_rule_type rule)) "manual" = false.
Proof.
  assert (H : forallb (fun r => negb (String.eqb (RuleType_value (Rule_rule_type r))
                                                 "manual")) get_rules = true)
    by (vm_compute; reflexivity).
  intros rule Hin. rewrite forallb_forall in H. apply negb_true_iff. now apply H.
Qed.

(** A rule decided by its native predicate. *)
Lemma execute_native :
  forall registry rule pd fn verdict,
    registry (Rule_id rule) = Some fn ->
    fn pd = Ok verdict ->
    _execute_evaluation registry exec rule pd = Ok verdict.
Proof.
  intros registry rule pd fn verdict Hreg Hfn. unfold _execute_evaluation.
  destruct (resolve_inputs_total pd (Rule_inputs_needed rule) []) as [inputs Hin].
  rewrite Hin. cbn [bind]. now rewrite Hreg, Hfn.
Qed.

Lemma native_rule_verdict :
  forall registry rule pd fn verdict,
    String.eqb (RuleType_value (Rule_rule_type rule)) "manual" = false ->
    registry (Rule_id rule) = Some fn ->
    fn pd = Ok verdict ->
    RuleResult_verdict (_evaluate_rule registry exec rule pd) = verdict_map_get verdict.
Proof.
  intros registry rule pd fn verdict Hauto Hreg Hfn. unfold _evaluate_rule.
  rewrite Hauto, (execute_native registry rule pd fn verdict Hreg Hfn). reflexivity.
Qed.

End ShippedFacts.

(** X9.  The test cases shipped with the rules hold of the code: for
    every rule of the catalogue and every test case listed in it, the
    predicate registered for the rule, called on the test case's input
    data, returns the expected result. *)
Theorem shipped_test_cases_hold :
  forall rule tc,
    In rule eu_ai_act_v1.get_rules ->
    In tc (Rule_test_cases rule) ->
    exists fn,
      eu_ai_act_v1.get_evaluation_function (Rule_id rule) = Some fn
      /\ fn (VDict (TestCase_input_data tc)) = Ok (TestCase_expected_result tc).
Proof.
  assert (H : forallb (fun r => forallb (test_case_passes r) (Rule_test_cases r))
                      eu_ai_act_v1.get_rules = true) by (vm_compute; reflexivity).
  intros rule tc Hrule Htc. rewrite forallb_forall in H.
  specialize (H rule Hrule). rewrite forallb_forall in H. specialize (H tc Htc).
  unfold test_case_passes in H.
  destruct (eu_ai_act_v1.get_evaluation_function (Rule_id rule)) as [fn|];
    [|discriminate H].
  exists fn. split; [reflexivity|].
  destruct (fn (VDict (TestCase_input_data tc))) as [verdict|e]; [|discriminate H].
  apply String.eqb_eq in H. now subst.
Qed.

Lemma shipped_test_cases_hold_witness :
  exists fn,
    eu_ai_act_v1.get_evaluation_function "RULE-EU-AI-ACT-009-01-001" = Some fn
    /\ fn (VDict [("is_high_risk", VBool true);
                  ("risk_management_system_established", VBool false)])
       = Ok "fail".
Proof.
  apply (shipped_test_cases_hold
           (nth 0 eu_ai_act_v1.get_rules (Scenario.plain_rule "" MANUAL INFO ""))
           (nth 1 (Rule_test_cases
                     (nth 0 eu_ai_act_v1.get_rules (Scenario.plain_rule "" MANUAL INFO "")))
                {| TestCase_id := ""; TestCase_description := "";
                   TestCase_input_data := []; TestCase_expected_result := "" |})).
  - vm_compute. left. reflexivity.
  - vm_compute. right. left. reflexivity.
Defined.

(** X10.  The registry and the catalogue cover each other: every rule
    of the catalogue has a registered native predicate (so the shipped
    rules never reach the fallback interpretation for want of one), the
    registered ids are exactly the ids of the catalogue's rules, in
    catalogue order, no two rules share an id, and no rule is manual. *)
Theorem registry_covers_catalogue :
  (forall rule, In rule eu_ai_act_v1.get_rules ->
                exists fn, eu_ai_act_v1.get_evaluation_function (Rule_id rule) = Some fn)
  /\ (forall rule_id fn,
        eu_ai_act_v1.get_evaluation_function rule_id = Some fn ->
        In rule_id (map Rule_id eu_ai_act_v1.get_rules))
  /\ map fst registered = map Rule_id eu_ai_act_v1.get_rules
  /\ NoDup (map Rule_id eu_ai_act_v1.get_rules)
  /\ List.length eu_ai_act_v1.get_rules = 53%nat
  /\ (forall rule, In rule eu_ai_act_v1.get_rules -> Rule_rule_type rule <> MANUAL).
Proof.
  assert (Hids : map fst registered = map Rule_id eu_ai_act_v1.get_rules)
    by (vm_compute; reflexivity).
  split; [exact catalogue_registered|]. split; [|split; [exact Hids|split; [|split]]].
  - intros rule_id fn Hfn. rewrite <- Hids.
    apply in_map_iff. exists (rule_id, fn). split; [reflexivity|].
    now apply registered_In.
  - apply distinct_NoDup. vm_compute. reflexivity.
  - vm_compute. reflexivity.
  - intros rule Hin Hm. pose proof (catalogue_not_manual rule Hin) as H.
    rewrite Hm in H. discriminate H.
Qed.

(** X11.  Every registered predicate starts with the high-risk guard:
    called on any profile mapping whose [is_high_risk] entry is missing
    or false in Python's sense (False, None, 0, an empty string, list or
    dict), it returns ["not_applicable"], whatever else the mapping
    holds. *)
Theorem not_high_risk_is_not_applicable :
  forall rule_id fn (d : pydict),
    eu_ai_act_v1.get_evaluation_function rule_id = Some fn ->
    high_risk_flag d = false ->
    fn (VDict d) = Ok "not_applicable".
Proof.
  intros rule_id fn d Hfn Hflag.
  pose proof registered_guarded as H. rewrite Forall_forall in H.
  exact (H (rule_id, fn) (registered_In rule_id fn Hfn) d Hflag).
Qed.

Lemma not_high_risk_is_not_applicable_witness :
  eu_ai_act_v1.art12._eval_logging_risk_events
    (VDict [("is_high_risk", VInt 0); ("logging_capabilities", VNone)])
  = Ok "not_applicable".
Proof.
  apply (not_high_risk_is_not_applicable
           "RULE-EU-AI-ACT-012-02-001" eu_ai_act_v1.art12._eval_logging_risk_events
           [("is_high_risk", VInt 0); ("logging_capabilities", VNone)]).
  - reflexivity.
  - reflexivity.
Defined.

(** X12.  On the dump of a validated [SystemProfile] no registered
    predicate raises: each returns ["pass"], ["fail"] or
    ["not_applicable"].  (The values under [extra] are arbitrary.) *)
Theorem shipped_predicates_never_raise :
  forall rule_id fn (p : Profile.SystemProfile),
    eu_ai_act_v1.get_evaluation_function rule_id = Some fn ->
    fn (Profile.dump p) = Ok "pass"
    \/ fn (Profile.dump p) = Ok "fail"
    \/ fn (Profile.dump p) = Ok "not_applicable".
Proof.
  intros rule_id fn p Hfn.
  pose proof registered_validated as H. rewrite Forall_forall in H.
  specialize (H (rule_id, fn) (registered_In rule_id fn Hfn) p). cbn [snd] in H.
  destruct (fn (Profile.dump p)) as [s|e]; [|discriminate H].
  cbn [answers_verdict] in H. unfold native_verdict in H.
  destruct (String.eqb s "pass") eqn:E1;
    [apply String.eqb_eq in E1; rewrite E1; now left|].
  destruct (String.eqb s "fail") eqn:E2;
    [apply String.eqb_eq in E2; rewrite E2; right; now left|].
  destruct (String.eqb s "not_applicable") eqn:E3;
    [apply String.eqb_eq in E3; rewrite E3; right; now right|].
  discriminate H.
Qed.

Lemma shipped_predicates_never_raise_witness :
  eu_ai_act_v1.art10._eval_bias_examination (Profile.dump Profiles.talentscreen) = Ok "pass"
  \/ eu_ai_act_v1.art10._eval_bias_examination (Profile.dump Profiles.talentscreen)
     = Ok "fail"
  \/ eu_ai_act_v1.art10._eval_bias_examination (Profile.dump Profiles.talentscreen)
     = Ok "not_applicable".
Proof.
  apply (shipped_predicates_never_raise
           "RULE-EU-AI-ACT-010-02F-001" eu_ai_act_v1.art10._eval_bias_examination
           Profiles.talentscreen).
  reflexivity.
Defined.

Section ShippedReports.

Variable exec : string -> pydict -> pyresult (option string).

(** The verdict of a shipped rule on a validated profile, read off its
    predicate. *)
Lemma shipped_rule_verdict :
  forall rule p,
    In rule eu_ai_act_v1.get_rules ->
    exists fn verdict,
      eu_ai_act_v1.get_evaluation_function (Rule_id rule) = Some fn
      /\ fn (Profile.dump p) = Ok verdict
      /\ native_verdict verdict = true
      /\ _execute_evaluation eu_ai_act_v1.get_evaluation_function exec rule
                             (Profile.dump p) = Ok verdict
      /\ RuleResult_verdict
           (_evaluate_rule eu_ai_act_v1.get_evaluation_function exec rule (Profile.dump p))
         = verdict_map_get verdict.
Proof.
  intros rule p Hin. destruct (catalogue_registered rule Hin) as [fn Hfn].
  pose proof registered_validated as H. rewrite Forall_forall in H.
  specialize (H (Rule_id rule, fn) (registered_In _ fn Hfn) p). cbn [snd] in H.
  destruct (fn (Profile.dump p)) as [verdict|e] eqn:Hv; [|discriminate H].
  exists fn, verdict. repeat split; try assumption.
  - now apply execute_native with fn.
  - apply native_rule_verdict with fn; try assumption.
    now apply catalogue_not_manual.
Qed.

Lemma shipped_results :
  forall p now,
    ComplianceReport_rule_results (shipped_report exec p now)
    = map (result_of eu_ai_act_v1.get_evaluation_function exec (Profile.dump p))
          eu_ai_act_v1.get_rules.
Proof. intros. unfold shipped_report. now rewrite evaluate_rule_results. Qed.

End ShippedReports.

Lemma evaluate_rule_ext :
  forall registry exec exec' rule pd,
    _execute_evaluation registry exec rule pd = _execute_evaluation registry exec' rule pd ->
    _evaluate_rule registry exec rule pd = _evaluate_rule registry exec' rule pd.
Proof. intros registry exec exec' rule pd H. unfold _evaluate_rule. now rewrite H. Qed.

Lemma evaluate_ext :
  forall registry exec exec' self profile now,
    (forall rule, In rule (_rules self) ->
                  _evaluate_rule registry exec rule (model_dump profile)
                  = _evaluate_rule registry exec' rule (model_dump profile)) ->
    evaluate registry exec self profile now = evaluate registry exec' self profile now.
Proof.
  intros registry exec exec' self profile now H. unfold evaluate.
  assert (Hfold : forall rules acc,
             (forall rule, In rule rules -> In rule (_rules self)) ->
             fold_left (evaluate_step registry exec (model_dump profile)) rules acc
             = fold_left (evaluate_step registry exec' (model_dump profile)) rules acc).
  { induction rules as [|rule rest IH]; intros acc Hsub; [reflexivity|].
    cbn [fold_left].
    assert (Hstep : evaluate_step registry exec (model_dump profile) acc rule
                    = evaluate_step registry exec' (model_dump profile) acc rule).
    { unfold evaluate_step. rewrite (H rule (Hsub rule (or_introl eq_refl))). reflexivity. }
    rewrite Hstep. apply IH. intros r Hr. apply Hsub. now right. }
  rewrite (Hfold (_rules self) _ (fun r Hr => Hr)). reflexivity.
Qed.

Lemma summary_counts :
  forall registry exec self profile now,
    let report := evaluate registry exec self profile now in
    let summary := ComplianceReport_summary report in
    EvaluationResult_total_rules summary = List.length (ComplianceReport_rule_results report)
    /\ EvaluationResult_passed summary
       = count_verdict PASS (ComplianceReport_rule_results report)
    /\ EvaluationResult_failed summary
       = count_verdict FAIL (ComplianceReport_rule_results report)
    /\ EvaluationResult_not_applicable summary
       = count_verdict NOT_APPLICABLE (ComplianceReport_rule_results report)
    /\ EvaluationResult_manual_review summary
       = count_verdict MANUAL_REVIEW (ComplianceReport_rule_results report).
Proof. intros. repeat split. Qed.

(** X13.  For a validated profile the shipped engine never falls back
    on interpreting [evaluation_logic] and never asks for manual review:
    the report is the same whatever the interpreter would do, it has one
    result for each of the 53 rules, each of them pass, fail or not
    applicable, and its manual-review count is 0. *)
Theorem shipped_report_ignores_fallback :
  forall exec exec' (p : Profile.SystemProfile) now,
    let report := shipped_report exec p now in
    report = shipped_report exec' p now
    /\ EvaluationResult_total_rules (ComplianceReport_summary report) = 53%nat
    /\ EvaluationResult_manual_review (ComplianceReport_summary report) = 0%nat
    /\ Forall (fun r => RuleVerdict_eqb (RuleResult_verdict r) MANUAL_REVIEW = false)
              (ComplianceReport_rule_results report).
Proof.
  intros exec exec' p now report.
  assert (Hres : Forall (fun r => RuleVerdict_eqb (RuleResult_verdict r) MANUAL_REVIEW
                                  = false)
                        (ComplianceReport_rule_results report)).
  { unfold report. rewrite shipped_results. apply Forall_forall. intros r Hr.
    apply in_map_iff in Hr. destruct Hr as [rule [<- Hin]].
    destruct (shipped_rule_verdict exec rule p Hin)
      as [fn [verdict [_ [_ [Hv [_ Hr]]]]]].
    unfold result_of. rewrite Hr. unfold native_verdict in Hv. unfold verdict_map_get.
    destruct (String.eqb verdict "pass"); [reflexivity|].
    destruct (String.eqb verdict "fail"); [reflexivity|].
    destruct (String.eqb verdict "not_applicable"); [reflexivity | discriminate Hv]. }
  split; [|split; [|split; [|exact Hres]]].
  - unfold report, shipped_report. apply evaluate_ext. intros rule Hin.
    apply evaluate_rule_ext.
    destruct (shipped_rule_verdict exec rule p Hin) as [fn [v [Hfn [Hv [_ [He _]]]]]].
    destruct (shipped_rule_verdict exec' rule p Hin)
      as [fn' [v' [Hfn' [Hv' [_ [He' _]]]]]].
    rewrite Hfn in Hfn'. injection Hfn' as <-. rewrite Hv in Hv'. injection Hv' as <-.
    unfold Profile.dump in He, He'. now rewrite He, He'.
  - destruct (summary_counts eu_ai_act_v1.get_evaluation_function exec shipped_engine
                             (Profile.to_engine p) now) as [Ht _].
    unfold report, shipped_report. rewrite Ht.
    fold (shipped_report exec p now). rewrite shipped_results, length_map.
    vm_compute. reflexivity.
  - destruct (summary_counts eu_ai_act_v1.get_evaluation_function exec shipped_engine
                             (Profile.to_engine p) now) as [_ [_ [_ [_ Hm]]]].
    unfold report, shipped_report. rewrite Hm.
    fold (shipped_report exec p now). fold report.
    unfold count_verdict. induction Hres as [|r rest Hr _ IH]; [reflexivity|].
    cbn [filter]. now rewrite Hr.
Qed.

Lemma report_score_and_verdict :
  forall registry exec self profile now,
    let report := evaluate registry exec self profile now in
    let summary := ComplianceReport_summary report in
    EvaluationResult_compliance_score summary
    = compute_score (EvaluationResult_passed summary)
                    (EvaluationResult_passed summary + EvaluationResult_failed summary)
    /\ ComplianceReport_overall_verdict report
       = derive_overall (EvaluationResult_compliance_score summary)
                        (ComplianceReport_critical_gaps report).
Proof. intros. split; reflexivity. Qed.

Lemma count_uniform :
  forall v results,
    Forall (fun r => RuleResult_verdict r = v) results ->
    forall w,
      count_verdict w results = if RuleVerdict_eqb v w then List.length results else 0%nat.
Proof.
  intros v results H w. unfold count_verdict.
  destruct (RuleVerdict_eqb v w) eqn:E;
    induction H as [|r rest Hr _ IH]; try reflexivity;
    cbn [filter]; rewrite Hr, E; cbn [List.length]; now rewrite IH.
Qed.

Lemma no_failure_no_gap :
  forall registry exec pd b rules,
    Forall (fun rule => fails registry exec pd rule = false) rules ->
    gaps_in registry exec pd b rules = [].
Proof.
  intros registry exec pd b rules H. unfold gaps_in.
  induction H as [|rule rest Hr _ IH]; [reflexivity|].
  cbn [filter]. rewrite Hr. exact IH.
Qed.

(** A catalogue whose rules are all answered not applicable. *)
Lemma uniform_report :
  forall registry exec self profile now,
    (forall rule, In rule (_rules self) ->
                  RuleResult_verdict (result_of registry exec (model_dump profile) rule)
                  = NOT_APPLICABLE) ->
    let report := evaluate registry exec self profile now in
    let summary := ComplianceReport_summary report in
    Forall (fun r => RuleResult_verdict r = NOT_APPLICABLE)
           (ComplianceReport_rule_results report)
    /\ EvaluationResult_total_rules summary = List.length (_rules self)
    /\ EvaluationResult_not_applicable summary = List.length (_rules self)
    /\ EvaluationResult_passed summary = 0%nat
    /\ EvaluationResult_failed summary = 0%nat
    /\ EvaluationResult_manual_review summary = 0%nat
    /\ EvaluationResult_compliance_score summary = Float.zero
    /\ ComplianceReport_critical_gaps report = []
    /\ ComplianceReport_high_gaps report = []
    /\ ComplianceReport_medium_gaps report = []
    /\ ComplianceReport_overall_verdict report = "non_compliant".
Proof.
  intros registry exec self profile now Hrule report summary.
  assert (Hres : Forall (fun r => RuleResult_verdict r = NOT_APPLICABLE)
                        (ComplianceReport_rule_results report)).
  { unfold report. rewrite evaluate_rule_results. apply Forall_forall. intros r Hr.
    apply in_map_iff in Hr. destruct Hr as [rule [<- Hin]]. now apply Hrule. }
  assert (Hlen : List.length (ComplianceReport_rule_results report)
                 = List.length (_rules self)).
  { unfold report. now rewrite evaluate_rule_results, length_map. }
  destruct (summary_counts registry exec self profile now) as [Ht [Hp [Hf [Hn Hm]]]].
  destruct (report_score_and_verdict registry exec self profile now) as [Hs Hv].
  destruct (evaluate_gaps registry exec self profile now) as [Hc [Hh Hmed]].
  fold report in Ht, Hp, Hf, Hn, Hm, Hs, Hv, Hc, Hh, Hmed.
  fold summary in Ht, Hp, Hf, Hn, Hm, Hs, Hv.
  pose proof (count_uniform NOT_APPLICABLE _ Hres) as Hcount.
  rewrite (Hcount PASS) in Hp. rewrite (Hcount FAIL) in Hf.
  rewrite (Hcount NOT_APPLICABLE) in Hn. rewrite (Hcount MANUAL_REVIEW) in Hm.
  cbn [RuleVerdict_eqb] in Hp, Hf, Hn, Hm.
  assert (Hgaps : forall b, gaps_in registry exec (model_dump profile) b (_rules self) = []).
  { intros b. apply no_failure_no_gap. apply Forall_forall. intros rule Hin.
    unfold fails. now rewrite (Hrule rule Hin). }
  rewrite Hgaps in Hc, Hh, Hmed.
  rewrite Hp, Hf in Hs. rewrite Hs, Hc in Hv.
  split; [exact Hres|]. split; [now rewrite Ht|]. split; [now rewrite Hn|].
  split; [exact Hp|]. split; [exact Hf|]. split; [exact Hm|].
  split; [rewrite Hs; reflexivity|].
  split; [exact Hc|]. split; [exact Hh|]. split; [exact Hmed|].
  rewrite Hv. reflexivity.
Qed.

(** X14.  A validated profile that is not declared high-risk gets all
    53 rules answered not applicable: nothing passes and nothing fails, so
    the score is 0.0, no gap is reported, and the overall verdict is
    ["non_compliant"]. *)
Theorem not_high_risk_report :
  forall exec (p : Profile.SystemProfile) now,
    Profile.is_high_risk p = false ->
    let report := shipped_report exec p now in
    let summary := ComplianceReport_summary report in
    Forall (fun r => RuleResult_verdict r = NOT_APPLICABLE)
           (ComplianceReport_rule_results report)
    /\ EvaluationResult_total_rules summary = 53%nat
    /\ EvaluationResult_not_applicable summary = 53%nat
    /\ EvaluationResult_passed summary = 0%nat
    /\ EvaluationResult_failed summary = 0%nat
    /\ EvaluationResult_manual_review summary = 0%nat
    /\ EvaluationResult_compliance_score summary = Float.zero
    /\ ComplianceReport_critical_gaps report = []
    /\ ComplianceReport_high_gaps report = []
    /\ ComplianceReport_medium_gaps report = []
    /\ ComplianceReport_overall_verdict report = "non_compliant".
Proof.
  intros exec p now Hlow.
  assert (Hrule : forall rule,
             In rule (_rules shipped_engine) ->
             RuleResult_verdict
               (result_of eu_ai_act_v1.get_evaluation_function exec
                          (model_dump (Profile.to_engine p)) rule)
             = NOT_APPLICABLE).
  { intros rule Hin. destruct (catalogue_registered rule Hin) as [fn Hfn].
    unfold result_of.
    rewrite (native_rule_verdict exec eu_ai_act_v1.get_evaluation_function rule
               (model_dump (Profile.to_engine p)) fn "not_applicable"
               (catalogue_not_manual rule Hin) Hfn); [reflexivity|].
    pose proof registered_guarded as H. rewrite Forall_forall in H.
    apply (H (Rule_id rule, fn) (registered_In _ fn Hfn)).
    unfold high_risk_flag. cbn [Profile.to_engine SystemProfile_fields Profile.dump_fields
                                SystemProfile_system_name SystemProfile_provider_name
                                dict_get String.eqb Ascii.eqb Bool.eqb truthy].
    exact Hlow. }
  pose proof (uniform_report eu_ai_act_v1.get_evaluation_function exec shipped_engine
                             (Profile.to_engine p) now Hrule) as U.
  cbv zeta in U |- *. unfold shipped_report.
  replace (List.length (_rules shipped_engine)) with 53%nat in U
    by (vm_compute; reflexivity).
  exact U.
Qed.

Lemma not_high_risk_report_witness :
  ComplianceReport_overall_verdict
    (shipped_report Scenario.interpreter Profiles.low_risk Scenario.noon)
  = "non_compliant".
Proof.
  apply (not_high_risk_report Scenario.interpreter Profiles.low_risk Scenario.noon).
  reflexivity.
Defined.

(* ================================================================== *)
(** * What the chain detects and what it does not                       *)
(* ================================================================== *)

Section ChainLimits.

Import Logger.

Lemma all_errors_app :
  forall a prior b,
    all_errors prior (a ++ b) = all_errors prior a ++ all_errors (last_entry prior a) b.
Proof.
  induction a as [|e rest IH]; intros prior b; [reflexivity|].
  cbn [app all_errors]. rewrite IH, <- app_assoc. reflexivity.
Qed.

Lemma linked_prefix :
  forall a prior b, linked prior (a ++ b) -> linked prior a.
Proof.
  induction a as [|e rest IH]; intros prior b H; [exact I|].
  destruct H as [Hh [Hp Hr]]. repeat split; try assumption. now apply IH with b.
Qed.

Lemma linked_suffix :
  forall a prior b, linked prior (a ++ b) -> linked (last_entry prior a) b.
Proof.
  induction a as [|e rest IH]; intros prior b H; [exact H|].
  destruct H as [_ [_ Hr]]. exact (IH (Some e) b Hr).
Qed.

Lemma linked_no_errors :
  forall es prior, linked prior es -> all_errors prior es = [].
Proof.
  intros es [p|] H.
  - now apply all_errors_after.
  - destruct es as [|e rest]; [reflexivity|].
    destruct H as [Hh [_ Hr]]. cbn [all_errors].
    assert (He : errors_of None e = []) by (apply errors_of_nil; now split).
    rewrite He. now apply all_errors_after.
Qed.

Lemma expected_hash_same :
  forall e e', same_chained_fields e e' -> expected_hash_of e = expected_hash_of e'.
Proof.
  intros e e' [Hp [_ [Ht [Ha [Hi Hd]]]]]. unfold expected_hash_of.
  now rewrite Hp, Ht, Ha, Hi, Hd.
Qed.

Lemma linked_same :
  forall es es' prior prior',
    Forall2 same_chained_fields es es' ->
    hash_of_prior prior = hash_of_prior prior' ->
    linked prior es -> linked prior' es'.
Proof.
  intros es es' prior prior' H. revert prior prior'.
  induction H as [|e e' rest rest' He _ IH]; intros prior prior' Hprior Hl; [exact I|].
  destruct Hl as [Hh [Hp Hr]]. pose proof (expected_hash_same e e' He) as Hx.
  destruct He as [Hprev [Hhash _]]. repeat split.
  - now rewrite <- Hhash, <- Hx.
  - now rewrite <- Hprev, <- Hprior.
  - apply (IH (Some e) (Some e')); [exact Hhash | exact Hr].
Qed.

End ChainLimits.

(** X15.  The chain covers six fields only.  Rewriting [id], [stage],
    [actor], [input_hash], [output_hash], [model_used] or [verdict] of any
    entries of a valid chain (the two hashes and the hashed fields
    [timestamp], [action], [target_ids], [details] left as they are) is
    not detected: [verify_chain] still answers valid with no error. *)
Theorem unchained_fields_are_unprotected :
  forall es es',
    Forall2 same_chained_fields es es' ->
    Logger.verify_chain es = (true, []) ->
    Logger.verify_chain es' = (true, []).
Proof.
  intros es es' Hsame Hvalid. apply verify_chain_linked.
  apply (linked_same es es' None None Hsame eq_refl). now apply verify_chain_linked.
Qed.

Lemma unchained_fields_are_unprotected_witness :
  Logger.verify_chain
    (map (relabelled "forged-id" "other-stage" "mallory" "aa" "bb" "some-model" "pass")
         Scenario.three_entries)
  = (true, []).
Proof.
  apply (unchained_fields_are_unprotected
           Scenario.three_entries
           (map (relabelled "forged-id" "other-stage" "mallory" "aa" "bb" "some-model" "pass")
                Scenario.three_entries)).
  - repeat constructor.
  - vm_compute. reflexivity.
Defined.

(** X16.  Truncation is not detected: every prefix of a valid chain is
    itself a valid chain, so removing the last entries of a log leaves a
    log that verifies. *)
Theorem truncation_is_undetected :
  forall es n,
    Logger.verify_chain es = (true, []) ->
    Logger.verify_chain (firstn n es) = (true, []).
Proof.
  intros es n Hvalid. apply verify_chain_linked. apply verify_chain_linked in Hvalid.
  rewrite <- (firstn_skipn n es) in Hvalid. now apply linked_prefix with (skipn n es).
Qed.

Lemma truncation_is_undetected_witness :
  Logger.verify_chain (firstn 2 Scenario.three_entries) = (true, []).
Proof.
  apply (truncation_is_undetected Scenario.three_entries 2).
  vm_compute. reflexivity.
Defined.

(** X17.  Removing an entry that is not the last one is detected, with
    exactly one error: the entry after the gap still references the
    removed entry's hash, so it is reported as breaking the chain (or, if
    the removed entry was the first, as not referencing the genesis
    hash).  The condition is that the removed entry's own hash differs from
    the hash it references. *)
Theorem removal_is_detected :
  forall before removed next after,
    Logger.verify_chain (before ++ removed :: next :: after) = (true, []) ->
    String.eqb (AuditEntry_entry_hash removed) (AuditEntry_previous_hash removed) = false ->
    Logger.verify_chain (before ++ next :: after)
    = (false,
       [match last_entry None before with
        | Some p => Logger.chain_broken_error next p
        | None => Logger.genesis_error next
        end]).
Proof.
  intros before removed next after Hvalid Hdiff.
  apply verify_chain_linked in Hvalid.
  pose proof (linked_prefix before None _ Hvalid) as Hbefore.
  pose proof (linked_suffix before None _ Hvalid) as Hrest.
  cbn [linked] in Hrest. destruct Hrest as [_ [Hprev [Hnh [Hnp Hafter]]]].
  cbn [hash_of_prior] in Hnp.
  assert (Htail : all_errors (Some next) after = []) by now apply linked_no_errors.
  destruct before as [|first rest].
  - cbn [app last_entry fold_left] in *. unfold Logger.verify_chain.
    rewrite verify_entries_all. cbn [all_errors]. rewrite Htail.
    assert (He : errors_of None next = []) by (apply errors_of_nil; now split).
    rewrite He. cbn [hash_of_prior] in Hprev.
    rewrite Hnp. rewrite <- Hprev at 2.
    change Logger._GENESIS_HASH
      with "0000000000000000000000000000000000000000000000000000000000000000".
    change Logger._GENESIS_HASH
      with "0000000000000000000000000000000000000000000000000000000000000000" in Hprev.
    rewrite <- Hprev. rewrite Hdiff. reflexivity.
  - assert (Hlast : exists p, last_entry None (first :: rest) = Some p).
    { rewrite last_entry_from. cbn [last_entry fold_left].
      destruct (fold_left (fun _ e => Some e) rest (Some first)) as [q|] eqn:Hq;
        [now exists q|].
      exfalso. clear -Hq. revert first Hq.
      induction rest as [|x xs IH]; intros first Hq; [discriminate Hq|].
      exact (IH x Hq). }
    destruct Hlast as [p Hp]. rewrite Hp in *. cbn [hash_of_prior] in Hprev.
    assert (Hg : AuditEntry_previous_hash first = Logger._GENESIS_HASH)
      by (destruct Hbefore as [_ [Hg _]]; exact Hg).
    cbn [app]. unfold Logger.verify_chain. rewrite Hg.
    rewrite String.eqb_refl. cbn [negb].
    rewrite verify_entries_all. cbn [app].
    change (first :: rest ++ next :: after) with ((first :: rest) ++ next :: after).
    rewrite all_errors_app, Hp, (linked_no_errors _ None Hbefore).
    cbn [all_errors app]. rewrite Htail, app_nil_r.
    unfold errors_of. rewrite Hnh, String.eqb_refl. cbn [negb app].
    rewrite Hnp, <- Hprev, Hdiff. reflexivity.
Qed.

Lemma removal_is_detected_witness :
  Logger.verify_chain
    (firstn 1 Scenario.three_entries ++ skipn 2 Scenario.three_entries)
  = (false,
     [Logger.chain_broken_error
        (nth 2 Scenario.three_entries (Scenario.hd_entry Scenario.three_entries))
        (nth 0 Scenario.three_entries (Scenario.hd_entry Scenario.three_entries))]).
Proof.
  apply (removal_is_detected
           (firstn 1 Scenario.three_entries)
           (nth 1 Scenario.three_entries (Scenario.hd_entry Scenario.three_entries))
           (nth 2 Scenario.three_entries (Scenario.hd_entry Scenario.three_entries))
           []).
  - vm_compute. reflexivity.
  - vm_compute. reflexivity.
Defined.

(* ================================================================== *)
(** * The two verifiers on the same log                                 *)
(* ================================================================== *)

Section TwoVerifiers.

Lemma read_lines_holds :
  forall ls es, holds ls es ->
                forall n, Chain.read_lines n ls = (map Pydantic.model_dump_json es, []).
Proof.
  intros ls es H. induction H as [|ls es _ IH|e ls es _ _ _ IH]; intros n.
  - reflexivity.
  - cbn [Chain.read_lines]. apply IH.
  - unfold line_of. cbn [Chain.read_lines map]. now rewrite IH.
Qed.

(** What one iteration of the storage-backed loop finds on the written
    line of an entry. *)
Lemma check_entry_of_entry :
  forall idx expected e,
    json_shaped (ODict (AuditEntry_details e)) = true ->
    Chain.check_entry idx (VStr expected) (Pydantic.model_dump_json e)
    = Ok (raw_errors_of idx expected e, VStr (AuditEntry_entry_hash e)).
Proof.
  intros idx expected e Hjson.
  unfold Chain.check_entry, Chain.recompute, Pydantic.model_dump_json, raw_errors_of.
  repeat (rewrite get_default_dict; cbn [bind]).
  cbn [dict_get String.eqb Ascii.eqb Bool.eqb].
  rewrite (compute_hash_agrees _ _ _ _ _ Hjson). cbn [bind PyValue.eqb PyValue.slice16].
  destruct (String.eqb (AuditEntry_previous_hash e) expected);
    destruct (String.eqb
                (Logger._compute_hash (AuditEntry_previous_hash e)
                   (Pydantic.datetime_to_json (AuditEntry_timestamp e))
                   (AuditEntry_action e) (AuditEntry_target_ids e)
                   (AuditEntry_details e))
                (AuditEntry_entry_hash e));
    reflexivity.
Qed.

Lemma check_entries_of_entries :
  forall es idx expected,
    Forall (fun e => json_shaped (ODict (AuditEntry_details e)) = true) es ->
    Chain.check_entries idx (VStr expected) (map Pydantic.model_dump_json es) []
    = Ok (raw_all_errors idx expected es).
Proof.
  induction es as [|e rest IH]; intros idx expected Hjson; [reflexivity|].
  inversion Hjson as [|x xs Hx Hxs]; subst.
  cbn [map Chain.check_entries raw_all_errors].
  rewrite (check_entry_of_entry _ _ _ Hx). cbn [bind fst snd app].
  rewrite check_entries_acc, (IH _ _ Hxs). reflexivity.
Qed.

(** For entries stamped in UTC the storage-backed loop finds nothing
    exactly when the entries are linked. *)
Lemma raw_errors_linked :
  forall es idx prior,
    stamped_utc es ->
    (raw_all_errors idx (hash_of_prior prior) es = [] <-> linked prior es).
Proof.
  induction es as [|e rest IH]; intros idx prior Hutc; [cbn; tauto|].
  inversion Hutc as [|x xs Hx Hxs]; subst.
  cbn [raw_all_errors linked]. unfold raw_errors_of.
  rewrite <- (normalize_utc _ Hx). fold (Logger.expected_hash_of e).
  specialize (IH (S idx) (Some e) Hxs). cbn [hash_of_prior] in IH.
  split.
  - intros H. apply app_eq_nil in H. destruct H as [H Hrest].
    apply app_eq_nil in H. destruct H as [Hp Hh].
    destruct (String.eqb_spec (AuditEntry_previous_hash e) (hash_of_prior prior))
      as [Heq|_]; [|discriminate Hp].
    destruct (String.eqb_spec (Logger.expected_hash_of e) (AuditEntry_entry_hash e))
      as [Heq'|_]; [|discriminate Hh].
    repeat split; [now symmetry | exact Heq | now apply IH].
  - intros [Hh [Hp Hrest]].
    rewrite Hp, <- Hh, !String.eqb_refl. cbn [negb app]. now apply IH.
Qed.

End TwoVerifiers.

(** X18.  The two verifiers agree on a log that holds entries stamped in
    UTC with JSON-shaped details, on timestamps that exist in the calendar
    (what [log] writes for such details; blank lines allowed):
    [load_from_file] returns
    the entries, the storage-backed [AuditChainVerifier.verify] reports
    exactly the linkage and hash mismatches of those entries, and it
    answers valid exactly when [AuditLogger.verify_chain] does on the
    loaded entries. *)
Theorem verifiers_agree :
  forall log_dir (fs : filesystem) ls es (logger : Logger.AuditLogger) utcnow,
    fs (os_path_join log_dir "audit.jsonl") = Some ls ->
    holds ls es ->
    stamped_utc es ->
    Logger._log_file logger = os_path_join log_dir "audit.jsonl" ->
    Logger.load_from_file logger None fs utcnow = es
    /\ Chain.verify log_dir fs
       = Ok (Nat.eqb (List.length (raw_all_errors 0 Chain._GENESIS_HASH es)) 0,
             raw_all_errors 0 Chain._GENESIS_HASH es)
    /\ (Chain.verify log_dir fs = Ok (true, [])
        <-> Logger.verify_chain (Logger.load_from_file logger None fs utcnow) = (true, [])).
Proof.
  intros log_dir fs ls es logger utcnow Hfs Hholds Hutc Hfile.
  assert (Hload : Logger.load_from_file logger None fs utcnow = es).
  { rewrite load_from_file_lines, Hfile. unfold lines_at. rewrite Hfs.
    now apply load_lines_holds. }
  assert (Hverify : Chain.verify log_dir fs
                    = Ok (Nat.eqb (List.length (raw_all_errors 0 Chain._GENESIS_HASH es)) 0,
                          raw_all_errors 0 Chain._GENESIS_HASH es)).
  { unfold Chain.verify. rewrite Hfs, (read_lines_holds ls es Hholds 1).
    destruct es as [|e rest]; [reflexivity|].
    cbn [map]. change (Pydantic.model_dump_json e :: map Pydantic.model_dump_json rest)
      with (map Pydantic.model_dump_json (e :: rest)).
    rewrite (check_entries_of_entries _ _ _ (holds_json_shaped _ _ Hholds)).
    reflexivity. }
  split; [exact Hload|]. split; [exact Hverify|].
  rewrite Hload, Hverify, verify_chain_linked.
  rewrite <- (raw_errors_linked es 0 None Hutc).
  change (hash_of_prior None) with Chain._GENESIS_HASH.
  split.
  - intros H. now injection H.
  - intros H. now rewrite H.
Qed.

Lemma verifiers_agree_witness :
  Logger.load_from_file Scenario.fresh_logger None Scenario.two_entry_log Scenario.noon
  = firstn 2 Scenario.three_entries
  /\ Chain.verify "audit_logs" Scenario.two_entry_log
     = Ok (Nat.eqb (List.length (raw_all_errors 0 Chain._GENESIS_HASH
                                                (firstn 2 Scenario.three_entries))) 0,
           raw_all_errors 0 Chain._GENESIS_HASH (firstn 2 Scenario.three_entries))
  /\ (Chain.verify "audit_logs" Scenario.two_entry_log = Ok (true, [])
      <-> Logger.verify_chain
            (Logger.load_from_file Scenario.fresh_logger None Scenario.two_entry_log
                                   Scenario.noon) = (true, [])).
Proof.
  apply (verifiers_agree "audit_logs" Scenario.two_entry_log
                         (map line_of (firstn 2 Scenario.three_entries))
                         (firstn 2 Scenario.three_entries)
                         Scenario.fresh_logger Scenario.noon).
  - reflexivity.
  - repeat (apply holds_entry; [reflexivity | reflexivity |]). apply holds_nil.
  - repeat constructor.
  - reflexivity.
Defined.

(* ================================================================== *)
(** * A damaged last line                                               *)
(* ================================================================== *)

Lemma last_nonblank_snoc :
  forall ls l, l <> BlankLine -> last_nonblank (ls ++ [l]) = Some l.
Proof.
  intros ls l Hl. unfold last_nonblank. rewrite fold_left_app. cbn [fold_left].
  destruct l; [contradiction | reflexivity | reflexivity].
Qed.

(** X19.  An undecodable last line makes the next logger start a new
    chain.  Constructed over a log whose entries verify but whose last
    line cannot be decoded, the logger takes the genesis sentinel as its
    pointer, and the entry it appends references genesis instead of the
    last stored entry.  When the bad line ends with a newline, the new
    entry starts a line of its own and the log (read back without the bad
    line) no longer verifies: [verify_chain] reports the new entry as
    breaking the chain. *)
Theorem damaged_tail_restarts_chain :
  forall log_dir (fs : filesystem) ls old last why call utcnow,
    os_makedirs log_dir fs = Ok tt ->
    fs (os_path_join log_dir "audit.jsonl") = Some (ls ++ [GarbageLine why]) ->
    unterminated fs (os_path_join log_dir "audit.jsonl") = None ->
    holds ls old ->
    Logger.verify_chain old = (true, []) ->
    last_entry None old = Some last ->
    String.eqb Logger._GENESIS_HASH (AuditEntry_entry_hash last) = false ->
    Datetime.is_utc_now (Logger.call_now call) = true ->
    json_shaped (ODict (details_of_call call)) = true ->
    exists logger entry logger' fs',
      Logger.__init__ log_dir fs = Ok logger
      /\ Logger._previous_hash logger = VStr Logger._GENESIS_HASH
      /\ Logger.log logger call fs = Ok (entry, logger', fs')
      /\ AuditEntry_previous_hash entry = Logger._GENESIS_HASH
      /\ Logger.load_from_file logger' None fs' utcnow = old ++ [entry]
      /\ Logger.verify_chain (Logger.load_from_file logger' None fs' utcnow)
         = (false, [Logger.chain_broken_error entry last]).
Proof.
  intros log_dir fs ls old last why call utcnow Hdir Hfs Hterm Hholds Hvalid Hlast
         Hdiff Hutc Hjson.
  set (path := os_path_join log_dir "audit.jsonl") in *.
  set (logger := {| Logger.log_dir := log_dir;
                    Logger._log_file := path;
                    Logger._previous_hash := VStr Logger._GENESIS_HASH |}).
  destruct (log_step logger call fs Logger._GENESIS_HASH eq_refl)
    as [entry [Hlog [Hprev [Hhash [Hts [_ [_ Hdetails]]]]]]].
  match type of Hlog with
  | _ = Ok (_, ?l, ?f) => set (logger' := l) in *; set (fs' := f) in *
  end.
  exists logger, entry, logger', fs'.
  assert (Hinit : Logger.__init__ log_dir fs = Ok logger).
  { unfold Logger.__init__, Logger._read_last_hash. fold path.
    rewrite Hdir. cbn [bind]. rewrite Hfs.
    rewrite last_nonblank_snoc by discriminate. reflexivity. }
  assert (Hload : Logger.load_from_file logger' None fs' utcnow = old ++ [entry]).
  { rewrite load_from_file_lines. change (Logger._log_file logger') with path.
    unfold fs'. change (Logger._log_file logger) with path.
    rewrite (lines_at_append fs path _ (or_intror Hterm)). unfold lines_at. rewrite Hfs.
    rewrite !load_lines_app. rewrite (load_lines_holds utcnow ls old Hholds).
    cbn [Logger.load_lines app]. unfold line_of. cbn [Logger.load_lines].
    rewrite validate_dump; [now rewrite app_nil_r | |].
    - rewrite Hts. now apply utc_now_valid.
    - now rewrite Hdetails. }
  split; [exact Hinit|]. split; [reflexivity|]. split; [exact Hlog|].
  split; [exact Hprev|]. split; [exact Hload|].
  rewrite Hload.
  apply verify_chain_linked in Hvalid.
  destruct old as [|first rest]; [discriminate Hlast|].
  assert (Hg : AuditEntry_previous_hash first = Logger._GENESIS_HASH)
    by (destruct Hvalid as [_ [Hg _]]; exact Hg).
  cbn [app]. unfold Logger.verify_chain. rewrite Hg, String.eqb_refl. cbn [negb].
  rewrite verify_entries_all. cbn [app].
  change (first :: rest ++ [entry]) with ((first :: rest) ++ [entry]).
  rewrite all_errors_app, Hlast, (linked_no_errors _ None Hvalid).
  cbn [all_errors app]. rewrite app_nil_r.
  unfold errors_of. rewrite Hhash, String.eqb_refl. cbn [negb app].
  rewrite Hprev, Hdiff. reflexivity.
Qed.

Lemma damaged_tail_restarts_chain_witness :
  exists logger entry logger' fs',
    Logger.__init__ "audit_logs" Logs.damaged = Ok logger
    /\ Logger._previous_hash logger = VStr Logger._GENESIS_HASH
    /\ Logger.log logger Scenario.third_call Logs.damaged = Ok (entry, logger', fs')
    /\ AuditEntry_previous_hash entry = Logger._GENESIS_HASH
    /\ Logger.load_from_file logger' None fs' Scenario.noon
       = firstn 2 Scenario.three_entries ++ [entry]
    /\ Logger.verify_chain (Logger.load_from_file logger' None fs' Scenario.noon)
       = (false,
          [Logger.chain_broken_error
             entry (nth 1 Scenario.three_entries
                        (Scenario.hd_entry Scenario.three_entries))]).
Proof.
  apply (damaged_tail_restarts_chain
           "audit_logs" Logs.damaged
           (map line_of (firstn 2 Scenario.three_entries))
           (firstn 2 Scenario.three_entries)
           (nth 1 Scenario.three_entries (Scenario.hd_entry Scenario.three_entries))
           "Unterminated string starting at: line 1 column 2 (char 1)"
           Scenario.third_call Scenario.noon).
  - reflexivity.
  - reflexivity.
  - reflexivity.
  - repeat (apply holds_entry; [reflexivity | reflexivity |]). apply holds_nil.
  - vm_compute. reflexivity.
  - reflexivity.
  - vm_compute. reflexivity.
  - reflexivity.
  - reflexivity.
Defined.

(** X29.  A last line cut off before its newline swallows the next
    entry.  Constructed over a log whose entries verify but whose last
    line is an undecodable fragment without a newline, the logger takes
    the genesis sentinel as its pointer and [log] returns an entry that
    references genesis; the text of that entry is written behind the
    fragment, on the same line.  When the merged line cannot be decoded,
    [load_from_file] returns the old entries only: the entry [log]
    returned is not in the log, and [verify_chain] still accepts what is
    read back. *)
Theorem unterminated_tail_swallows_entry :
  forall log_dir (fs : filesystem) ls old why continued why' call utcnow,
    os_makedirs log_dir fs = Ok tt ->
    fs (os_path_join log_dir "audit.jsonl") = Some (ls ++ [GarbageLine why]) ->
    unterminated fs (os_path_join log_dir "audit.jsonl") = Some continued ->
    (forall l, continued l = GarbageLine why') ->
    holds ls old ->
    Logger.verify_chain old = (true, []) ->
    exists logger entry logger' fs',
      Logger.__init__ log_dir fs = Ok logger
      /\ Logger._previous_hash logger = VStr Logger._GENESIS_HASH
      /\ Logger.log logger call fs = Ok (entry, logger', fs')
      /\ AuditEntry_previous_hash entry = Logger._GENESIS_HASH
      /\ fs' (os_path_join log_dir "audit.jsonl") = Some (ls ++ [GarbageLine why'])
      /\ Logger.load_from_file logger' None fs' utcnow = old
      /\ Logger.verify_chain (Logger.load_from_file logger' None fs' utcnow) = (true, []).
Proof.
  intros log_dir fs ls old why continued why' call utcnow Hdir Hfs Hcut Hmerged
         Hholds Hvalid.
  set (path := os_path_join log_dir "audit.jsonl") in *.
  set (logger := {| Logger.log_dir := log_dir;
                    Logger._log_file := path;
                    Logger._previous_hash := VStr Logger._GENESIS_HASH |}).
  destruct (log_step logger call fs Logger._GENESIS_HASH eq_refl)
    as [entry [Hlog [Hprev _]]].
  match type of Hlog with
  | _ = Ok (_, ?l, ?f) => set (logger' := l) in *; set (fs' := f) in *
  end.
  exists logger, entry, logger', fs'.
  assert (Hinit : Logger.__init__ log_dir fs = Ok logger).
  { unfold Logger.__init__, Logger._read_last_hash. fold path.
    rewrite Hdir. cbn [bind]. rewrite Hfs.
    rewrite last_nonblank_snoc by discriminate. reflexivity. }
  assert (Hfs' : fs' path = Some (ls ++ [GarbageLine why'])).
  { unfold fs', append_line. change (Logger._log_file logger) with path.
    cbn [files]. rewrite String.eqb_refl.
    change (files fs path) with (fs path). rewrite Hfs, Hcut.
    destruct (ls ++ [GarbageLine why]) as [|x rest] eqn:Hlist;
      [destruct ls; discriminate Hlist|].
    rewrite <- Hlist, removelast_last, Hmerged. reflexivity. }
  assert (Hload : Logger.load_from_file logger' None fs' utcnow = old).
  { rewrite load_from_file_lines. change (Logger._log_file logger') with path.
    unfold lines_at. rewrite Hfs', load_lines_app.
    rewrite (load_lines_holds utcnow ls old Hholds).
    cbn [Logger.load_lines]. now rewrite app_nil_r. }
  split; [exact Hinit|]. split; [reflexivity|]. split; [exact Hlog|].
  split; [exact Hprev|]. split; [exact Hfs'|]. split; [exact Hload|].
  now rewrite Hload.
Qed.

Lemma unterminated_tail_swallows_entry_witness :
  exists logger entry logger' fs',
    Logger.__init__ "audit_logs" Logs.cut_off = Ok logger
    /\ Logger._previous_hash logger = VStr Logger._GENESIS_HASH
    /\ Logger.log logger Scenario.third_call Logs.cut_off = Ok (entry, logger', fs')
    /\ AuditEntry_previous_hash entry = Logger._GENESIS_HASH
    /\ fs' (os_path_join "audit_logs" "audit.jsonl")
       = Some (map line_of (firstn 2 Scenario.three_entries)
               ++ [GarbageLine "Unterminated string starting at: line 1 column 2 (char 1)"])
    /\ Logger.load_from_file logger' None fs' Scenario.noon
       = firstn 2 Scenario.three_entries
    /\ Logger.verify_chain (Logger.load_from_file logger' None fs' Scenario.noon)
       = (true, []).
Proof.
  apply (unterminated_tail_swallows_entry
           "audit_logs" Logs.cut_off
           (map line_of (firstn 2 Scenario.three_entries))
           (firstn 2 Scenario.three_entries)
           "Unterminated string starting at: line 1 column 2 (char 1)"
           (fun _ => GarbageLine "Unterminated string starting at: line 1 column 2 (char 1)")
           "Unterminated string starting at: line 1 column 2 (char 1)"
           Scenario.third_call Scenario.noon).
  - reflexivity.
  - reflexivity.
  - reflexivity.
  - intros l. reflexivity.
  - repeat (apply holds_entry; [reflexivity | reflexivity |]). apply holds_nil.
  - vm_compute. reflexivity.
Defined.

(* ================================================================== *)
(** * Lines the storage-backed verifier cannot use                      *)
(* ================================================================== *)

Section BadLines.

Lemma read_lines_app :
  forall a b n,
    Chain.read_lines n (a ++ b)
    = (fst (Chain.read_lines n a) ++ fst (Chain.read_lines (n + List.length a) b),
       snd (Chain.read_lines n a) ++ snd (Chain.read_lines (n + List.length a) b)).
Proof.
  induction a as [|l rest IH]; intros b n.
  - cbn [app List.length Chain.read_lines fst snd]. rewrite Nat.add_0_r.
    now destruct (Chain.read_lines n b).
  - cbn [app List.length]. rewrite Nat.add_succ_r, <- Nat.add_succ_l.
    destruct l as [|v|why]; cbn [Chain.read_lines]; rewrite IH; reflexivity.
Qed.

Lemma decode_errors_count :
  forall ls n, List.length (snd (Chain.read_lines n ls)) = garbage_count ls.
Proof.
  unfold garbage_count.
  induction ls as [|l rest IH]; intros n; [reflexivity|].
  destruct l as [|v|why]; cbn [Chain.read_lines filter snd List.length];
    now rewrite IH.
Qed.

End BadLines.

(** X20.  One undecodable line masks the chain: when some line of the
    log is not JSON, [AuditChainVerifier.verify] answers invalid with
    exactly the decode errors, one per undecodable line, each naming its
    1-based line number (blank lines counted), and checks no hash and no
    linkage of the lines it could decode. *)
Theorem undecodable_lines_are_reported :
  forall log_dir (fs : filesystem) ls,
    fs (os_path_join log_dir "audit.jsonl") = Some ls ->
    (0 < garbage_count ls)%nat ->
    exists errors,
      Chain.verify log_dir fs = Ok (false, errors)
      /\ List.length errors = garbage_count ls
      /\ (forall before why after,
            ls = before ++ GarbageLine why :: after ->
            nth_error errors (garbage_count before)
            = Some (invalid_json_error (S (List.length before)) why)).
Proof.
  intros log_dir fs ls Hfs Hbad.
  exists (snd (Chain.read_lines 1 ls)).
  pose proof (decode_errors_count ls 1) as Hcount.
  split; [|split; [exact Hcount|]].
  - unfold Chain.verify. rewrite Hfs.
    destruct (Chain.read_lines 1 ls) as [entries errors]. cbn [snd] in *.
    destruct errors as [|err rest]; [cbn in Hcount; lia|].
    now destruct entries.
  - intros before why after ->. rewrite read_lines_app. cbn [snd].
    rewrite nth_error_app2; rewrite decode_errors_count; [|lia].
    rewrite Nat.sub_diag. cbn [Chain.read_lines snd nth_error]. reflexivity.
Qed.

Lemma undecodable_lines_are_reported_witness :
  exists errors,
    Chain.verify "audit_logs" Logs.damaged = Ok (false, errors)
    /\ List.length errors = 1%nat
    /\ (forall before why after,
          map line_of (firstn 2 Scenario.three_entries)
          ++ [GarbageLine "Unterminated string starting at: line 1 column 2 (char 1)"]
          = before ++ GarbageLine why :: after ->
          nth_error errors (garbage_count before)
          = Some (invalid_json_error (S (List.length before)) why)).
Proof.
  apply (undecodable_lines_are_reported
           "audit_logs" Logs.damaged
           (map line_of (firstn 2 Scenario.three_entries)
            ++ [GarbageLine "Unterminated string starting at: line 1 column 2 (char 1)"])).
  - reflexivity.
  - vm_compute. lia.
Defined.

(** X21.  A line that is JSON but no object makes the storage-backed
    verifier raise instead of reporting: with every line decodable and the
    first entry a number, string, list, boolean or null,
    [AuditChainVerifier.verify] raises [AttributeError] from [entry.get],
    whereas [load_from_file] skips such a line. *)
Theorem non_object_line_raises :
  forall log_dir (fs : filesystem) ls v rest utcnow,
    fs (os_path_join log_dir "audit.jsonl") = Some ls ->
    Chain.read_lines 1 ls = (v :: rest, []) ->
    isinstance_dict v = false ->
    Chain.verify log_dir fs
    = Raise (AttributeError ("'" ++ type_name v ++ "' object has no attribute 'get'"))
    /\ Logger.load_lines utcnow [JsonLine v] = [].
Proof.
  intros log_dir fs ls v rest utcnow Hfs Hread Hv.
  split.
  - unfold Chain.verify. rewrite Hfs, Hread.
    cbn [Chain.check_entries]. unfold Chain.check_entry.
    destruct v; try discriminate Hv; reflexivity.
  - cbn [Logger.load_lines]. destruct v; try discriminate Hv; reflexivity.
Qed.

Lemma non_object_line_raises_witness :
  Chain.verify "audit_logs" Logs.numbered
  = Raise (AttributeError "'int' object has no attribute 'get'")
  /\ Logger.load_lines Scenario.noon [JsonLine (VInt 7)] = [].
Proof.
  apply (non_object_line_raises
           "audit_logs" Logs.numbered
           (JsonLine (VInt 7) :: map line_of Scenario.three_entries)
           (VInt 7) (map Pydantic.model_dump_json Scenario.three_entries)
           Scenario.noon).
  - reflexivity.
  - reflexivity.
  - reflexivity.
Defined.

(* ================================================================== *)
(** * The verification endpoint                                         *)
(* ================================================================== *)

Section Endpoint.

Import Logger.

Lemma log_timestamp :
  forall self call fs entry self' fs',
    log self call fs = Ok (entry, self', fs') ->
    AuditEntry_timestamp entry = call_now call.
Proof.
  intros self call fs entry self' fs' H. unfold log in H.
  destruct (_previous_hash self); try discriminate H.
  injection H as <- _ _. reflexivity.
Qed.

Lemma log_all_timestamps :
  forall calls self fs new self' fs',
    log_all self calls fs = Ok (new, self', fs') ->
    map AuditEntry_timestamp new = map call_now calls.
Proof.
  induction calls as [|call rest IH]; intros self fs new self' fs' H.
  - cbn [log_all] in H. injection H as <- _ _. reflexivity.
  - cbn [log_all] in H.
    destruct (log self call fs) as [[[entry s1] f1]|exc] eqn:Hlog;
      cbn [bind] in H; [|discriminate H].
    destruct (log_all s1 rest f1) as [[[entries s2] f2]|exc] eqn:Hrest;
      cbn [bind] in H; [|discriminate H].
    injection H as <- _ _. cbn [map].
    now rewrite (log_timestamp _ _ _ _ _ _ Hlog), (IH _ _ _ _ _ Hrest).
Qed.

Lemma last_map :
  forall (A B : Type) (f : A -> B) (l : list A) (d : A),
    last (map f l) (f d) = f (last l d).
Proof.
  intros A B f l d. induction l as [|x rest IH]; [reflexivity|].
  cbn [map last]. destruct rest as [|y rest']; [reflexivity|]. exact IH.
Qed.

End Endpoint.

(** X22.  The verification endpoint after logging: in a log directory
    that exists or can be created, once [N >= 1] entries with JSON-shaped
    details have been appended to a fresh log, [GET /api/audit/verify]
    answers valid, counts [N] entries, lists no error, and gives the clock
    readings of the first and of the last [log] call as the first and last
    entry times. *)
Theorem endpoint_after_logging :
  forall log_dir (fs : filesystem) call calls utcnow,
    os_makedirs log_dir fs = Ok tt ->
    fs (os_path_join log_dir "audit.jsonl") = None ->
    Forall (fun c => Datetime.is_utc_now (Logger.call_now c) = true) (call :: calls) ->
    Forall (fun c => json_shaped (ODict (details_of_call c)) = true) (call :: calls) ->
    exists logger entries logger' fs',
      Logger.__init__ log_dir fs = Ok logger
      /\ log_all logger (call :: calls) fs = Ok (entries, logger', fs')
      /\ AuditRouter.verify_audit_chain log_dir fs' utcnow
         = {| AuditRouter.is_valid := true;
              AuditRouter.total_entries := S (List.length calls);
              AuditRouter.errors := [];
              AuditRouter.first_entry_time :=
                Some (Datetime.isoformat (Logger.call_now call));
              AuditRouter.last_entry_time :=
                Some (Datetime.isoformat (Logger.call_now (last calls call))) |}.
Proof.
  intros log_dir fs call calls utcnow Hdir Hfresh Hutc Hjson.
  set (path := os_path_join log_dir "audit.jsonl") in *.
  set (logger := {| Logger.log_dir := log_dir;
                    Logger._log_file := path;
                    Logger._previous_hash := VStr (hash_of_prior None) |}).
  destruct (log_all_spec (call :: calls) logger fs None eq_refl (or_introl Hfresh)
              Hutc Hjson)
    as [new [logger' [fs' [Hall [Hlen [Hlink [Hholds [_ [_ [Hlines
         [_ [Hterm Hmk]]]]]]]]]]]].
  exists logger, new, logger', fs'.
  split.
  { unfold Logger.__init__, Logger._read_last_hash. fold path.
    rewrite Hdir. cbn [bind]. now rewrite Hfresh. }
  split; [exact Hall|].
  change (Logger._log_file logger) with path in Hlines, Hterm.
  unfold lines_at in Hlines. rewrite Hfresh in Hlines. cbn [app] in Hlines.
  pose proof (log_all_timestamps _ _ _ _ _ _ Hall) as Hts.
  destruct new as [|first rest]; [discriminate Hlen|].
  destruct (fs' path) as [ls|] eqn:Hfs'; [|discriminate Hlines]. subst ls.
  destruct Hterm as [Hnone | Hterm]; [discriminate Hnone|].
  assert (Hstores : stores fs' path (first :: rest)).
  { right. exists (map line_of (first :: rest)). now repeat split. }
  assert (Hdir' : os_makedirs log_dir fs' = Ok tt).
  { unfold os_makedirs in *. now rewrite Hmk. }
  unfold AuditRouter.verify_audit_chain, Logger.__init__. fold path.
  rewrite Hdir'. cbn [bind].
  rewrite (read_last_hash_stores fs' path (first :: rest) Hstores). cbn [bind].
  rewrite load_from_file_lines. cbn [Logger._log_file].
  unfold lines_at. rewrite Hfs'. rewrite (load_lines_holds utcnow _ _ Hholds).
  rewrite (proj2 (verify_chain_linked (first :: rest)) Hlink).
  cbn [map] in Hts. injection Hts as Hfirst Hrest.
  cbn [List.length] in Hlen. injection Hlen as Hlen.
  rewrite Hfirst. cbn [List.length]. rewrite Hlen.
  assert (Hlast : AuditEntry_timestamp (last (first :: rest) first)
                  = Logger.call_now (last calls call)).
  { rewrite <- (last_map _ _ AuditEntry_timestamp (first :: rest) first).
    cbn [map]. rewrite Hfirst, Hrest.
    change (Logger.call_now call :: map Logger.call_now calls)
      with (map Logger.call_now (call :: calls)).
    rewrite last_map. cbn [last]. destruct calls; reflexivity. }
  rewrite Hlast. reflexivity.
Qed.

Lemma endpoint_after_logging_witness :
  exists logger entries logger' fs',
    Logger.__init__ "audit_logs" Scenario.no_files = Ok logger
    /\ log_all logger [Scenario.first_call; Scenario.second_call; Scenario.third_call]
               Scenario.no_files = Ok (entries, logger', fs')
    /\ AuditRouter.verify_audit_chain "audit_logs" fs' Scenario.noon
       = {| AuditRouter.is_valid := true;
            AuditRouter.total_entries := 3;
            AuditRouter.errors := [];
            AuditRouter.first_entry_time :=
              Some (Datetime.isoformat (Logger.call_now Scenario.first_call));
            AuditRouter.last_entry_time :=
              Some (Datetime.isoformat (Logger.call_now Scenario.third_call)) |}.
Proof.
  apply (endpoint_after_logging
           "audit_logs" Scenario.no_files Scenario.first_call
           [Scenario.second_call; Scenario.third_call] Scenario.noon).
  - reflexivity.
  - reflexivity.
  - repeat constructor.
  - repeat constructor.
Defined.

(** X23.  A constructor that raises defeats the endpoint.  The logger's
    constructor first makes sure of the log directory and then reads the
    last hash.  When [os.makedirs] raises (for the empty path it raises
    [FileNotFoundError]), the constructor raises the same exception.  When
    the directory is there and the last line of the log is JSON but no
    object, the constructor raises [AttributeError] while reading the last
    hash, whatever the other lines hold.  In both cases
    [GET /api/audit/verify] answers invalid with 0 entries and the one
    error "Failed to load audit log: ..." carrying the exception's text. *)
Theorem endpoint_reports_constructor_failure :
  (forall log_dir (fs : filesystem) e utcnow,
      os_makedirs log_dir fs = Raise e ->
      Logger.__init__ log_dir fs = Raise e
      /\ AuditRouter.verify_audit_chain log_dir fs utcnow
         = {| AuditRouter.is_valid := false;
              AuditRouter.total_entries := 0;
              AuditRouter.errors := [("Failed to load audit log: " ++ exn_text e)%string];
              AuditRouter.first_entry_time := None;
              AuditRouter.last_entry_time := None |})
  /\ (forall (fs : filesystem) utcnow,
        Logger.__init__ "" fs
        = Raise (OtherError "FileNotFoundError" "[Errno 2] No such file or directory: ''")
        /\ AuditRouter.verify_audit_chain "" fs utcnow
           = {| AuditRouter.is_valid := false;
                AuditRouter.total_entries := 0;
                AuditRouter.errors :=
                  ["Failed to load audit log: [Errno 2] No such file or directory: ''"];
                AuditRouter.first_entry_time := None;
                AuditRouter.last_entry_time := None |})
  /\ (forall log_dir (fs : filesystem) ls v utcnow,
        os_makedirs log_dir fs = Ok tt ->
        fs (os_path_join log_dir "audit.jsonl") = Some (ls ++ [JsonLine v]) ->
        isinstance_dict v = false ->
        Logger.__init__ log_dir fs
        = Raise (AttributeError ("'" ++ type_name v ++ "' object has no attribute 'get'"))
        /\ AuditRouter.verify_audit_chain log_dir fs utcnow
           = {| AuditRouter.is_valid := false;
                AuditRouter.total_entries := 0;
                AuditRouter.errors :=
                  [("Failed to load audit log: '" ++ type_name v
                    ++ "' object has no attribute 'get'")%string];
                AuditRouter.first_entry_time := None;
                AuditRouter.last_entry_time := None |}).
Proof.
  assert (Hfirst : forall log_dir (fs : filesystem) e utcnow,
             os_makedirs log_dir fs = Raise e ->
             Logger.__init__ log_dir fs = Raise e
             /\ AuditRouter.verify_audit_chain log_dir fs utcnow
                = {| AuditRouter.is_valid := false;
                     AuditRouter.total_entries := 0;
                     AuditRouter.errors :=
                       [("Failed to load audit log: " ++ exn_text e)%string];
                     AuditRouter.first_entry_time := None;
                     AuditRouter.last_entry_time := None |}).
  { intros log_dir fs e utcnow Hdir.
    assert (Hinit : Logger.__init__ log_dir fs = Raise e).
    { unfold Logger.__init__. now rewrite Hdir. }
    split; [exact Hinit|].
    unfold AuditRouter.verify_audit_chain. now rewrite Hinit. }
  split; [exact Hfirst|]. split.
  - intros fs utcnow.
    exact (Hfirst "" fs
             (OtherError "FileNotFoundError" "[Errno 2] No such file or directory: ''")
             utcnow eq_refl).
  - intros log_dir fs ls v utcnow Hdir Hfs Hv.
    assert (Hinit : Logger.__init__ log_dir fs
                    = Raise (AttributeError
                               ("'" ++ type_name v ++ "' object has no attribute 'get'"))).
    { unfold Logger.__init__, Logger._read_last_hash. rewrite Hdir. cbn [bind].
      rewrite Hfs. rewrite last_nonblank_snoc by discriminate.
      destruct v; try discriminate Hv; reflexivity. }
    split; [exact Hinit|].
    unfold AuditRouter.verify_audit_chain. rewrite Hinit. reflexivity.
Qed.

Lemma endpoint_reports_constructor_failure_witness :
  (Logger.__init__ "audit_logs" Logs.trailing_number
   = Raise (AttributeError "'int' object has no attribute 'get'")
   /\ AuditRouter.verify_audit_chain "audit_logs" Logs.trailing_number Scenario.noon
      = {| AuditRouter.is_valid := false;
           AuditRouter.total_entries := 0;
           AuditRouter.errors :=
             ["Failed to load audit log: 'int' object has no attribute 'get'"];
           AuditRouter.first_entry_time := None;
           AuditRouter.last_entry_time := None |})
  /\ (Logger.__init__ "audit_logs" Logs.read_only
      = Raise (OtherError "PermissionError" "[Errno 13] Permission denied: 'audit_logs'")
      /\ AuditRouter.verify_audit_chain "audit_logs" Logs.read_only Scenario.noon
         = {| AuditRouter.is_valid := false;
              AuditRouter.total_entries := 0;
              AuditRouter.errors :=
                ["Failed to load audit log: [Errno 13] Permission denied: 'audit_logs'"];
              AuditRouter.first_entry_time := None;
              AuditRouter.last_entry_time := None |}).
Proof.
  split.
  - apply (proj2 (proj2 endpoint_reports_constructor_failure)
             "audit_logs" Logs.trailing_number (map line_of Scenario.three_entries)
             (VInt 7) Scenario.noon).
    + reflexivity.
    + reflexivity.
    + reflexivity.
  - apply (proj1 endpoint_reports_constructor_failure
             "audit_logs" Logs.read_only
             (OtherError "PermissionError" "[Errno 13] Permission denied: 'audit_logs'")
             Scenario.noon).
    reflexivity.
Defined.

(* ================================================================== *)
(** * Field resolution as nested lookup                                 *)
(* ================================================================== *)

Section NestedLookup.

Lemma split_no_sep :
  forall s, PyValue.contains "." s = false -> split "." s = [s].
Proof.
  induction s as [|c s IH]; intros H; [reflexivity|].
  cbn [PyValue.contains] in H. apply orb_false_iff in H. destruct H as [Hc Hs].
  cbn [split]. rewrite Ascii.eqb_sym, Hc, (IH Hs). reflexivity.
Qed.

Lemma split_app_sep :
  forall a b, split "." (a ++ String "." b) = split "." a ++ split "." b.
Proof.
  induction a as [|c a IH]; intros b.
  - reflexivity.
  - cbn [append split]. destruct (Ascii.eqb c "."); rewrite IH; [reflexivity|].
    destruct (split "." a) as [|h t] eqn:Ha; [|reflexivity].
    destruct a; cbn [split] in Ha; [discriminate Ha|].
    destruct (Ascii.eqb a "."); [discriminate Ha|].
    destruct (split "." a0); discriminate Ha.
Qed.

Lemma startswith_contains :
  forall pre s c,
    startswith s pre = true -> PyValue.contains c pre = true -> PyValue.contains c s = true.
Proof.
  induction pre as [|a pre IH]; intros s c Hs Hc; [discriminate Hc|].
  destruct s as [|b s]; [discriminate Hs|].
  cbn [startswith] in Hs. apply andb_true_iff in Hs. destruct Hs as [Hab Hs].
  apply Ascii.eqb_eq in Hab. subst b.
  cbn [PyValue.contains] in *. apply orb_true_iff in Hc. apply orb_true_iff.
  destruct Hc as [Hc|Hc]; [now left | right; exact (IH s c Hs Hc)].
Qed.

Lemma no_dot_no_prefix :
  forall s, PyValue.contains "." s = false -> startswith s "system_profile." = false.
Proof.
  intros s H. destruct (startswith s "system_profile.") eqn:Hs; [|reflexivity].
  rewrite (startswith_contains "system_profile." s "." Hs eq_refl) in H. discriminate H.
Qed.

Ltac compare_chars :=
  repeat match goal with
         | |- context [Ascii.eqb ?a ?b] =>
             destruct (Ascii.eqb_spec a b); [subst|]; cbn [andb]; try discriminate
         end;
  try reflexivity.

(** Appending a further segment does not make a path start with the
    prefix, unless the path is the bare prefix word. *)
Lemma startswith_further_segment :
  forall p q,
    String.eqb p "system_profile" = false ->
    startswith (p ++ "." ++ q) "system_profile." = startswith p "system_profile.".
Proof.
  intros p q H.
  let rec peel p n :=
    lazymatch n with
    | O => reflexivity
    | S ?m =>
        let t := fresh "t" in
        destruct p as [|? t];
        [cbn [append startswith]; compare_chars; cbn in H; discriminate H | peel t m]
    end in
  peel p 15%nat.
Qed.

Lemma drop_app_long :
  forall n a b, (n <= String.length a)%nat -> drop n (a ++ b) = (drop n a ++ b)%string.
Proof.
  induction n as [|n IH]; intros a b Hn; [reflexivity|].
  destruct a as [|c a]; [cbn in Hn; lia|].
  cbn [append drop]. apply IH. cbn in Hn. lia.
Qed.

Lemma startswith_length :
  forall pre s, startswith s pre = true -> (String.length pre <= String.length s)%nat.
Proof.
  induction pre as [|a pre IH]; intros s H; [cbn; lia|].
  destruct s as [|b s]; [discriminate H|].
  cbn [startswith] in H. apply andb_true_iff in H. destruct H as [_ H].
  cbn [String.length]. apply IH in H. lia.
Qed.

End NestedLookup.

(** X24.  Field resolution is nested [dict.get].  A name without a dot
    resolves to what the mapping stores under it (null when the name is
    missing), and resolving [p.q] is resolving [p] and then resolving [q]
    in the result, for every path [p] other than the bare word
    [system_profile] and every [q] that does not carry the prefix (a [p]
    that resolves to null or to a non-mapping gives null). *)
Theorem resolve_field_is_nested_lookup :
  (forall (d : pydict) name,
      PyValue.contains "." name = false ->
      _resolve_field (VDict d) name
      = Ok match dict_get d name with
           | Some v => v
           | None => VNone
           end)
  /\ (forall data p q,
        String.eqb p "system_profile" = false ->
        startswith q "system_profile." = false ->
        _resolve_field data (p ++ "." ++ q)
        = (v <- _resolve_field data p ;; _resolve_field v q)).
Proof.
  split.
  - intros d name Hname. unfold _resolve_field, strip_system_profile.
    rewrite (no_dot_no_prefix name Hname), (split_no_sep name Hname).
    cbn [resolve_parts isinstance_dict py_get bind].
    destruct (dict_get d name) as [v|]; cbn [bind is_None]; [|reflexivity].
    now destruct v.
  - intros data p q Hp Hq.
    assert (Hq' : forall v, _resolve_field v q = resolve_parts v (split "." q))
      by (intros v; unfold _resolve_field, strip_system_profile; now rewrite Hq).
    transitivity (v <- _resolve_field data p ;; resolve_parts v (split "." q)).
    + unfold _resolve_field, strip_system_profile.
      rewrite (startswith_further_segment p q Hp).
      change ("." ++ q)%string with (String "." q).
      destruct (startswith p "system_profile.") eqn:Hs.
      * rewrite drop_app_long by (apply startswith_length in Hs; exact Hs).
        rewrite split_app_sep. apply resolve_parts_app.
      * rewrite split_app_sep. apply resolve_parts_app.
    + destruct (_resolve_field data p) as [v|e]; cbn [bind];
        [symmetry; apply Hq' | reflexivity].
Qed.

Lemma resolve_field_is_nested_lookup_witness :
  _resolve_field Scenario.test_data ("bias_examination_report" ++ "." ++ "covers_health_safety")
  = (v <- _resolve_field Scenario.test_data "bias_examination_report" ;;
     _resolve_field v "covers_health_safety").
Proof.
  apply (proj2 resolve_field_is_nested_lookup
               Scenario.test_data "bias_examination_report" "covers_health_safety").
  - reflexivity.
  - reflexivity.
Defined.

(* ================================================================== *)
(** * The report store of the evaluation endpoint                       *)
(* ================================================================== *)

Section ReportStore.

Import EvaluateRouter.

Lemma reports_get_set_same :
  forall store key report,
    eu_ai_act_v1.table_get (reports_set store key report) key = Some report.
Proof.
  induction store as [|[k r] rest IH]; intros key report; cbn [reports_set].
  - cbn [eu_ai_act_v1.table_get]. now rewrite String.eqb_refl.
  - destruct (String.eqb k key) eqn:Hk; cbn [eu_ai_act_v1.table_get]; rewrite Hk;
      [reflexivity | apply IH].
Qed.

Lemma reports_get_set_other :
  forall store key key' report,
    String.eqb key key' = false ->
    eu_ai_act_v1.table_get (reports_set store key report) key'
    = eu_ai_act_v1.table_get store key'.
Proof.
  induction store as [|[k r] rest IH]; intros key key' report Hne; cbn [reports_set].
  - cbn [eu_ai_act_v1.table_get]. now rewrite Hne.
  - destruct (String.eqb_spec k key) as [->|Hk]; cbn [eu_ai_act_v1.table_get].
    + now rewrite Hne.
    + destruct (String.eqb k key'); [reflexivity | now apply IH].
Qed.

Lemma reports_set_length :
  forall store key report,
    List.length (reports_set store key report)
    = match eu_ai_act_v1.table_get store key with
      | Some _ => List.length store
      | None => S (List.length store)
      end.
Proof.
  induction store as [|[k r] rest IH]; intros key report; [reflexivity|].
  cbn [reports_set eu_ai_act_v1.table_get].
  destruct (String.eqb k key); [reflexivity|].
  cbn [List.length]. rewrite IH.
  now destruct (eu_ai_act_v1.table_get rest key).
Qed.

Lemma evaluate_profile_stores :
  forall exec p now store,
    let report := fst (evaluate_profile exec p now store) in
    ComplianceReport_id report
    = ("RPT-eu-ai-act-v1-" ++ Datetime.strftime_compact now)%string
    /\ snd (evaluate_profile exec p now store)
       = reports_set store (ComplianceReport_id report) report.
Proof. intros. split; reflexivity. Qed.

End ReportStore.

(** X25.  The evaluation endpoint files each report under an id made of
    the regulation name and the evaluation time to the second.  The
    report just stored is the one [GET /reports/{id}] returns and the other
    ids are answered as before; but two evaluations whose clock readings
    agree to the second share one id, and the later report replaces the
    earlier one: the store does not grow and the earlier report can no
    longer be retrieved. *)
Theorem reports_are_keyed_by_second :
  forall exec p p' now now' store,
    let report := fst (EvaluateRouter.evaluate_profile exec p now store) in
    let store1 := snd (EvaluateRouter.evaluate_profile exec p now store) in
    let report' := fst (EvaluateRouter.evaluate_profile exec p' now' store1) in
    let store2 := snd (EvaluateRouter.evaluate_profile exec p' now' store1) in
    ComplianceReport_id report
    = ("RPT-eu-ai-act-v1-" ++ Datetime.strftime_compact now)%string
    /\ EvaluateRouter.get_report (ComplianceReport_id report) store1
       = EvaluateRouter.Respond report
    /\ (forall other,
          String.eqb (ComplianceReport_id report) other = false ->
          EvaluateRouter.get_report other store1 = EvaluateRouter.get_report other store)
    /\ (Datetime.strftime_compact now = Datetime.strftime_compact now' ->
        ComplianceReport_id report' = ComplianceReport_id report
        /\ EvaluateRouter.get_report (ComplianceReport_id report) store2
           = EvaluateRouter.Respond report'
        /\ List.length (EvaluateRouter.list_reports store2)
           = List.length (EvaluateRouter.list_reports store1)).
Proof.
  intros exec p p' now now' store. cbv zeta.
  destruct (evaluate_profile_stores exec p now store) as [Hid Hst].
  destruct (evaluate_profile_stores
              exec p' now' (snd (EvaluateRouter.evaluate_profile exec p now store)))
    as [Hid' Hst'].
  cbv zeta in Hid, Hst, Hid', Hst'.
  set (report := fst (EvaluateRouter.evaluate_profile exec p now store)) in *.
  set (store1 := snd (EvaluateRouter.evaluate_profile exec p now store)) in *.
  set (report' := fst (EvaluateRouter.evaluate_profile exec p' now' store1)) in *.
  set (store2 := snd (EvaluateRouter.evaluate_profile exec p' now' store1)) in *.
  clearbody report store1 report' store2. subst store1 store2.
  split; [exact Hid|]. split; [|split].
  - unfold EvaluateRouter.get_report. now rewrite reports_get_set_same.
  - intros other Hother. unfold EvaluateRouter.get_report.
    now rewrite (reports_get_set_other _ _ _ _ Hother).
  - intros Hsame. assert (Heq : ComplianceReport_id report' = ComplianceReport_id report)
      by (now rewrite Hid, Hid', Hsame).
    split; [exact Heq|]. split.
    + unfold EvaluateRouter.get_report. rewrite Heq. now rewrite reports_get_set_same.
    + unfold EvaluateRouter.list_reports. rewrite !length_map.
      rewrite reports_set_length, Heq. now rewrite reports_get_set_same.
Qed.

Lemma reports_are_keyed_by_second_witness :
  ComplianceReport_id
    (fst (EvaluateRouter.evaluate_profile
            Scenario.interpreter Profiles.minimal Profiles.later_that_second
            (snd (EvaluateRouter.evaluate_profile
                    Scenario.interpreter Profiles.talentscreen Scenario.noon []))))
  = ComplianceReport_id
      (fst (EvaluateRouter.evaluate_profile
              Scenario.interpreter Profiles.talentscreen Scenario.noon []))
  /\ EvaluateRouter.get_report
       (ComplianceReport_id
          (fst (EvaluateRouter.evaluate_profile
                  Scenario.interpreter Profiles.talentscreen Scenario.noon [])))
       (snd (EvaluateRouter.evaluate_profile
               Scenario.interpreter Profiles.minimal Profiles.later_that_second
               (snd (EvaluateRouter.evaluate_profile
                       Scenario.interpreter Profiles.talentscreen Scenario.noon []))))
     = EvaluateRouter.Respond
         (fst (EvaluateRouter.evaluate_profile
                 Scenario.interpreter Profiles.minimal Profiles.later_that_second
                 (snd (EvaluateRouter.evaluate_profile
                         Scenario.interpreter Profiles.talentscreen Scenario.noon []))))
  /\ List.length
       (EvaluateRouter.list_reports
          (snd (EvaluateRouter.evaluate_profile
                  Scenario.interpreter Profiles.minimal Profiles.later_that_second
                  (snd (EvaluateRouter.evaluate_profile
                          Scenario.interpreter Profiles.talentscreen Scenario.noon [])))))
     = List.length
         (EvaluateRouter.list_reports
            (snd (EvaluateRouter.evaluate_profile
                    Scenario.interpreter Profiles.talentscreen Scenario.noon []))).
Proof.
  apply (proj2 (proj2 (proj2 (reports_are_keyed_by_second
                                Scenario.interpreter Profiles.talentscreen Profiles.minimal
                                Scenario.noon Profiles.later_that_second [])))).
  reflexivity.
Defined.
